(** * ai8x-training: the checkpoint converter (ai84ize.py) and the epoch loop
    of train.py, embedded in Rocq.

  The converter is an orchestration of dictionary updates around the tensor
  operations of the host numeric library.  The library is kept behind an
  interface ([TensorLib]); the converter is written against that interface
  exactly as the Python is written against torch, in a small monad that
  records what is printed or saved and which exception ends the run.
  A reference instance over exact rationals makes every definition runnable. *)

From Stdlib Require Import String Ascii List ZArith QArith Qround Qabs Bool Lia.
From Stdlib Require Import Permutation Sorted DecimalString.
Import ListNotations.

Local Open Scope string_scope.

(* ------------------------------------------------------------------------- *)
(** ** Python strings: the [str] methods the converter calls *)

Module PyStr.

Definition dot : ascii := "."%char.
Definition nl : string := String (ascii_of_nat 10) "".

(** [s.split(sep='.', maxsplit=1)] cut at the first dot, if there is one. *)
Fixpoint cut_first (s : string) : option (string * string) :=
  match s with
  | EmptyString => None
  | String c r =>
      if Ascii.eqb c dot then Some ("", r)
      else match cut_first r with
           | Some (a, b) => Some (String c a, b)
           | None => None
           end
  end.

(** [s.rsplit(sep='.', maxsplit=1)] cut at the last dot, if there is one. *)
Fixpoint cut_last (s : string) : option (string * string) :=
  match s with
  | EmptyString => None
  | String c r =>
      match cut_last r with
      | Some (a, b) => Some (String c a, b)
      | None => if Ascii.eqb c dot then Some ("", r) else None
      end
  end.

(** Both methods return a list: two pieces, or the string itself. *)
Definition split (s : string) : list string :=
  match cut_first s with Some (a, b) => [a; b] | None => [s] end.

Definition rsplit (s : string) : list string :=
  match cut_last s with Some (a, b) => [a; b] | None => [s] end.

(** [s.split('.')] with no limit: all dot-separated components. *)
Fixpoint components (s : string) : list string :=
  match s with
  | EmptyString => [""]
  | String c r =>
      if Ascii.eqb c dot then "" :: components r
      else match components r with
           | h :: t => String c h :: t
           | [] => [String c ""]
           end
  end.

Definition first_component (s : string) : string := hd "" (components s).
Definition last_component (s : string) : string := last (components s) "".

(** [s[0]] as a one-character string (used on 'weight' and 'bias'). *)
Definition first_char (s : string) : string := substring 0 1 s.

(** [s.replace(".", "_")] *)
Fixpoint replace_dots (s : string) : string :=
  match s with
  | EmptyString => EmptyString
  | String c r => String (if Ascii.eqb c dot then "_"%char else c) (replace_dots r)
  end.

(** [s.upper()] on ASCII text: a..z are moved to A..Z, anything else stays. *)
Definition upper_ascii (c : ascii) : ascii :=
  let n := nat_of_ascii c in
  if andb (Nat.leb 97 n) (Nat.leb n 122) then ascii_of_nat (n - 32) else c.

Fixpoint upper (s : string) : string :=
  match s with
  | EmptyString => EmptyString
  | String c r => String (upper_ascii c) (upper r)
  end.

(** [", ".join(l)] *)
Fixpoint join (sep : string) (l : list string) : string :=
  match l with
  | [] => ""
  | [x] => x
  | x :: r => x ++ sep ++ join sep r
  end.

(** [x in [a, b, ...]] for strings *)
Definition mem (x : string) (l : list string) : bool :=
  existsb (String.eqb x) l.

End PyStr.

(* ------------------------------------------------------------------------- *)
(** ** Python dictionaries with string keys, in insertion order *)

Module Dict.

Definition dict (V : Type) : Type := list (string * V).

Section Ops.
Context {V : Type}.

Fixpoint get (k : string) (d : dict V) : option V :=
  match d with
  | [] => None
  | (k', v) :: r => if String.eqb k k' then Some v else get k r
  end.

Definition mem (k : string) (d : dict V) : bool :=
  match get k d with Some _ => true | None => false end.

(** [d[k] = v]: an existing key keeps its place, a new key goes last. *)
Fixpoint set (k : string) (v : V) (d : dict V) : dict V :=
  match d with
  | [] => [(k, v)]
  | (k', v') :: r =>
      if String.eqb k k' then (k, v) :: r else (k', v') :: set k v r
  end.

Definition remove (k : string) (d : dict V) : dict V :=
  filter (fun kv => negb (String.eqb k (fst kv))) d.

(** [del d[k]]: [None] stands for the KeyError of a missing key. *)
Definition del (k : string) (d : dict V) : option (dict V) :=
  if mem k d then Some (remove k d) else None.

Definition keys (d : dict V) : list string := map fst d.

(** [d.copy()]: a new dictionary holding the same values. *)
Definition copy (d : dict V) : dict V := d.
End Ops.

End Dict.

(* ------------------------------------------------------------------------- *)
(** ** The host tensor library, as the converter sees it *)

(** Python numbers (ints and float literals) are exact rationals here:
    [2**n] is [pow2 n] for every integer [n], as in Python. *)
Definition pow2 (n : Z) : Q :=
  match n with
  | Zneg p => 1 # (2 ^ p)
  | _ => inject_Z (2 ^ n)
  end.

(** A rational is a whole number when its denominator divides its numerator. *)
Definition is_whole (q : Q) : bool := (Qnum q mod Zpos (Qden q) =? 0)%Z.

(** A value of the fixed-point format delimited by [lo] and [hi]. *)
Definition in_format (lo hi q : Q) : bool :=
  is_whole q && Qle_bool lo q && Qle_bool q hi.

(** The operations of torch that ai84ize.py calls.  [scalar] is what a
    reduction returns (a zero-dimensional tensor) or a Python float that has
    entered tensor arithmetic; [elements] observes the stored values of a
    tensor that holds numbers only, and [has_nan] whether it holds a NaN
    ([torch.isnan(t).any()]). *)
Class TensorLib : Type := {
  tensor : Type;
  scalar : Type;
  number : Q -> scalar;
  s_mul : scalar -> scalar -> scalar;
  s_add : scalar -> scalar -> scalar;
  s_sub : scalar -> scalar -> scalar;
  abs_ : scalar -> scalar;
  torch_max : scalar -> scalar -> scalar;
  torch_min : scalar -> scalar -> scalar;
  t_min : tensor -> scalar;
  t_max : tensor -> scalar;
  t_mean : tensor -> scalar;
  t_std : tensor -> scalar;
  view_rows : tensor -> tensor;
  min_last : tensor -> tensor;
  max_last : tensor -> tensor;
  scale_by : scalar -> tensor -> tensor;
  t_mul : tensor -> tensor -> tensor;
  clamp : Q -> Q -> tensor -> tensor;
  round : tensor -> tensor;
  nonzero_numel : tensor -> nat;
  s_repr : scalar -> string;
  int_repr : tensor -> string;
  elements : tensor -> list Q;
  has_nan : tensor -> bool
}.

(** What the converter relies on: clamping between two whole numbers and then
    rounding leaves whole numbers between them, or NaN where the tensor held
    NaN ([clamp] and [round] keep it).  The bounds are whole numbers up to
    2^24, which a tensor of float32 or wider holds exactly. *)
Class TensorLaws (L : TensorLib) : Prop := {
  round_clamp_in_format :
    forall (lo hi : Q) (t : tensor),
      is_whole lo = true -> is_whole hi = true -> Qle lo hi ->
      Qle (- inject_Z (2 ^ 24)) lo -> Qle hi (inject_Z (2 ^ 24)) ->
      has_nan (round (clamp lo hi t)) = false ->
      forallb (in_format lo hi) (elements (round (clamp lo hi t))) = true
}.

(* ------------------------------------------------------------------------- *)
(** ** Exceptions, output, and the monad the converter runs in *)

Inductive exn : Type :=
| RuntimeError (msg : string)
| ValueError (msg : string)
| KeyError (key : string)
| IndexError
| AttributeError.

Module Run.

Section Monad.
Context {E : Type}.

(** A computation yields the events it produced, then a value or the
    exception that ended it. *)
Definition M (A : Type) : Type := (list E * (exn + A))%type.

Definition ret {A} (a : A) : M A := ([], inr a).

Definition bind {A B} (m : M A) (f : A -> M B) : M B :=
  match m with
  | (tr, inl e) => (tr, inl e)
  | (tr, inr a) => let (tr', r) := f a in ((tr ++ tr')%list, r)
  end.

Definition raise {A} (e : exn) : M A := ([], inl e).

Definition emit (ev : E) : M unit := ([ev], inr tt).

Definition trace {A} (m : M A) : list E := fst m.
Definition outcome {A} (m : M A) : exn + A := snd m.

(** [for x in l: st = body st x] *)
Fixpoint for_each {S X} (body : S -> X -> M S) (l : list X) (st : S) : M S :=
  match l with
  | [] => ret st
  | x :: r => bind (body st x) (for_each body r)
  end.

End Monad.

End Run.

Declare Scope run_scope.
Delimit Scope run_scope with run.
Notation "x <- m ;; k" := (Run.bind m (fun x => k))
  (at level 61, m at next level, right associativity) : run_scope.
Notation "' p <- m ;; k" := (Run.bind m (fun x => match x with p => k end))
  (at level 61, p pattern, m at next level, right associativity) : run_scope.
Notation "m ;;; k" := (Run.bind m (fun _ => k))
  (at level 61, right associativity) : run_scope.

Local Open Scope run_scope.

(* ------------------------------------------------------------------------- *)
(** ** ai84ize.py *)

Module Ai84ize.

Definition CONV_SCALE_BITS : Z := 8.
Definition CONV_WEIGHT_BITS : Z := 5.
Definition FC_SCALE_BITS : Z := 8.
Definition FC_WEIGHT_BITS : Z := 8.
Definition FC_CLAMP_BITS : Z := 16.

(** The argparse namespace of the script. *)
Record arguments : Type := {
  embedded : bool;
  quantized : bool;
  verbose : bool;
  clip_mode : string
}.

Section Converter.
Context {L : TensorLib}.

(** A checkpoint is the dictionary torch.load returns.  Its 'state_dict' maps
    parameter names to tensors; every other entry (optimizer state, epoch,
    quantizer metadata, ...) is an object the converter never looks into. *)
Inductive entry : Type :=
| StateDict (d : Dict.dict tensor)
| Pickled (obj : string).

Definition checkpoint : Type := Dict.dict entry.

Inductive event : Type :=
| Print (line : string)
| TorchSave (obj : checkpoint) (path : string).

Definition M : Type -> Type := @Run.M event.

Definition print (line : string) : M unit := Run.emit (Print line).
Definition torch_save (obj : checkpoint) (path : string) : M unit :=
  Run.emit (TorchSave obj path).

(** [d[k]] and [del d[k]], raising KeyError on a missing key. *)
Definition getitem {V} (k : string) (d : Dict.dict V) : M V :=
  match Dict.get k d with
  | Some v => Run.ret v
  | None => Run.raise (KeyError k)
  end.

Definition delitem {V} (k : string) (d : Dict.dict V) : M (Dict.dict V) :=
  match Dict.del k d with
  | Some d' => Run.ret d'
  | None => Run.raise (KeyError k)
  end.

(** [a, b = l] *)
Definition unpack2 (l : list string) : M (string * string) :=
  match l with
  | [a; b] => Run.ret (a, b)
  | [] => Run.raise (ValueError "not enough values to unpack (expected 2, got 0)")
  | [_] => Run.raise (ValueError "not enough values to unpack (expected 2, got 1)")
  | _ => Run.raise (ValueError "too many values to unpack (expected 2)")
  end.

(** ai84.WEIGHT_BITS, range_linear_ai84.pow2_round and distiller's
    get_contents_table are imported from modules outside these sources. *)
Variable WEIGHT_BITS : Z.
Variable pow2_round : tensor -> Z -> tensor.
Variable get_contents_table : checkpoint -> string.

(** *** The saturation statistics (local functions of convert_checkpoint)

    The reductions of torch raise on a tensor without elements, and
    [t.shape[0]] on one without dimensions; the operations of the interface
    are total, so what is proved of a statistic is proved of the calls that
    return. *)

Definition avg_max (t : tensor) : scalar :=
  let tv := view_rows t in
  let avg_min := min_last tv in
  let avg_max := max_last tv in
  torch_max (abs_ (t_mean avg_min)) (abs_ (t_mean avg_max)).

Definition max_max (t : tensor) : scalar :=
  torch_max (abs_ (t_min t)) (abs_ (t_max t)).

Definition mean_n_stds_max_abs (t : tensor) (n_stds : Z) : M scalar :=
  if (n_stds <=? 0)%Z then
    Run.raise (ValueError ("n_stds must be > 0, got "
                           ++ NilZero.string_of_int (Z.to_int n_stds)))
  else
    let mean := t_mean t in
    let std := t_std t in
    let min_val := torch_max (t_min t) (s_sub mean (s_mul (number (inject_Z n_stds)) std)) in
    let max_val := torch_min (t_max t) (s_add mean (s_mul (number (inject_Z n_stds)) std)) in
    Run.ret (torch_max (abs_ min_val) (abs_ max_val)).

Definition magic : Q := 6372803137 # 10000000000.

Definition get_const (_ : tensor) : scalar := number magic.

(** The selection made by [arguments.clip_mode]. *)
Definition sat_fn (arguments : arguments) (t : tensor) : M scalar :=
  if String.eqb (clip_mode arguments) "STD" then mean_n_stds_max_abs t 2
  else if String.eqb (clip_mode arguments) "MAX" then Run.ret (max_max t)
  else if String.eqb (clip_mode arguments) "AVGMAX" then Run.ret (avg_max t)
  else Run.ret (get_const t).

Definition fc_sat_fn (t : tensor) : M scalar := Run.ret (get_const t).

(** *** The loop over the keys of the state dict *)

(** The two dictionaries the loop works on.  [checkpoint_state] is only
    changed by the in-place [weights *= ...] of the quantized branch, which
    writes through to the tensor stored under the current key. *)
Record loop_state : Type := {
  checkpoint_state : Dict.dict tensor;
  new_checkpoint_state : Dict.dict tensor
}.

Definition clamp_round (clamp_bits : Z) (weights : tensor) : tensor :=
  round (clamp (- pow2 (clamp_bits - 1)) (pow2 (clamp_bits - 1) - 1) weights).

Definition not_zero_msg (k : string) : string :=
  PyStr.nl ++ "Parameter " ++ k ++ " is not zero.".

(** Lines 91-111: a float checkpoint.  ([args], read at line 100, is the
    namespace of the script itself, the object passed in as [arguments].) *)
Definition convert_float (arguments : arguments) (st : loop_state) (k : string)
  : M loop_state :=
  '(module, _) <- unpack2 (PyStr.split k) ;;
  let clamp_bits :=
    if negb (String.eqb module "fc") then WEIGHT_BITS else FC_CLAMP_BITS in
  t <- getitem k (checkpoint_state st) ;;
  sat <- (if negb (String.eqb module "fc") then sat_fn arguments t
          else fc_sat_fn t) ;;
  let factor := s_mul (number (pow2 (clamp_bits - 1))) sat in
  (if verbose arguments then
     print (PyStr.join " " [k; "avg_max"; s_repr (avg_max t);
                            "max"; s_repr (max_max t);
                            "mean"; s_repr (t_mean t);
                            "factor"; s_repr factor])
   else Run.ret tt) ;;;
  let weights := scale_by factor t in
  let weights := clamp_round clamp_bits weights in
  Run.ret {| checkpoint_state := checkpoint_state st;
             new_checkpoint_state := Dict.set k weights (new_checkpoint_state st) |}.

(** Lines 113-133: a checkpoint written by the post-training quantizer. *)
Definition convert_quantized (st : loop_state) (k operation parameter : string)
  : M loop_state :=
  '(module, s) <- unpack2 (PyStr.rsplit operation) ;;
  if PyStr.mem s ["wrapped_module"] then
    let scale := module ++ "." ++ PyStr.first_char parameter ++ "_scale" in
    weights <- getitem k (checkpoint_state st) ;;
    let '(scale_bits, clamp_bits) :=
      if negb (String.eqb module "fc") then (CONV_SCALE_BITS, WEIGHT_BITS)
      else (FC_SCALE_BITS, FC_CLAMP_BITS) in
    fp_scale <- getitem scale (checkpoint_state st) ;;
    let '(checkpoint_state', weights) :=
      if negb (PyStr.mem module ["fc"]) then
        let w := t_mul weights (pow2_round fp_scale scale_bits) in
        (Dict.set k w (checkpoint_state st), w)
      else (checkpoint_state st, round (t_mul weights fp_scale)) in
    let weights := clamp_round clamp_bits weights in
    let new_state := Dict.set (module ++ "." ++ parameter) weights
                              (new_checkpoint_state st) in
    new_state <- delitem k new_state ;;
    new_state <- delitem scale new_state ;;
    Run.ret {| checkpoint_state := checkpoint_state';
               new_checkpoint_state := new_state |}
  else Run.ret st.

(** Lines 85-135: the body of the loop for the key [k]. *)
Definition convert_key (arguments : arguments) (st : loop_state) (k : string)
  : M loop_state :=
  '(operation, parameter) <- unpack2 (PyStr.rsplit k) ;;
  if PyStr.mem parameter ["w_zero_point"; "b_zero_point"] then
    t <- getitem k (checkpoint_state st) ;;
    if negb (Nat.eqb (nonzero_numel t) 0) then
      Run.raise (RuntimeError (not_zero_msg k))
    else
      new_state <- delitem k (new_checkpoint_state st) ;;
      Run.ret {| checkpoint_state := checkpoint_state st;
                 new_checkpoint_state := new_state |}
  else if PyStr.mem parameter ["weight"; "bias"] then
    if negb (quantized arguments) then convert_float arguments st k
    else convert_quantized st k operation parameter
  else if PyStr.mem parameter ["base_b_q"] then
    new_state <- delitem k (new_checkpoint_state st) ;;
    Run.ret {| checkpoint_state := checkpoint_state st;
               new_checkpoint_state := new_state |}
  else Run.ret st.

Definition no_metadata_msg : string :=
  PyStr.nl ++ "No quantizer_metadata in checkpoint file.".
Definition no_state_dict_msg : string :=
  PyStr.nl ++ "No state_dict in checkpoint file.".

(** Lines 30-135 of convert_checkpoint: everything up to the end of the loop.
    [loaded] is the object [torch.load(input_file)] returned.  The result is
    the checkpoint dictionary (after the removal of the quantizer metadata)
    and the final [new_checkpoint_state]. *)
Definition convert_state (input_file output_file : string)
    (arguments : arguments) (loaded : checkpoint)
  : M (checkpoint * Dict.dict tensor) :=
  print ("Converting checkpoint file " ++ input_file ++ " to " ++ output_file) ;;;
  let checkpoint := loaded in
  (if verbose arguments then print (get_contents_table checkpoint)
   else Run.ret tt) ;;;
  checkpoint <-
    (if quantized arguments then
       if negb (Dict.mem "quantizer_metadata" checkpoint) then
         Run.raise (RuntimeError no_metadata_msg)
       else delitem "quantizer_metadata" checkpoint
     else Run.ret checkpoint) ;;
  if negb (Dict.mem "state_dict" checkpoint) then
    Run.raise (RuntimeError no_state_dict_msg)
  else
    e <- getitem "state_dict" checkpoint ;;
    checkpoint_state <-
      (match e with
       | StateDict d => Run.ret d
       | Pickled _ => Run.raise AttributeError
       end) ;;
    (if verbose arguments then
       print (PyStr.nl ++ "Model keys (state_dict):" ++ PyStr.nl
              ++ PyStr.join ", " (Dict.keys checkpoint_state))
     else Run.ret tt) ;;;
    let copied := Dict.copy checkpoint_state in
    st <- Run.for_each (convert_key arguments) (Dict.keys checkpoint_state)
            {| checkpoint_state := checkpoint_state;
               new_checkpoint_state := copied |} ;;
    Run.ret (checkpoint, new_checkpoint_state st).

Definition define_line (k : string) : string :=
  "#define " ++ PyStr.upper (PyStr.replace_dots k) ++ " \".

(** Lines 142-144: the C parameters of one key. *)
Definition print_define (new_checkpoint_state : Dict.dict tensor)
    (_ : unit) (k : string) : M unit :=
  print (define_line k) ;;;
  t <- getitem k new_checkpoint_state ;;
  print (int_repr t).

(** convert_checkpoint: the conversion, then lines 137-144. *)
Definition convert_checkpoint (input_file output_file : string)
    (arguments : arguments) (loaded : checkpoint) : M unit :=
  '(checkpoint, new_checkpoint_state) <-
     convert_state input_file output_file arguments loaded ;;
  if negb (embedded arguments) then
    let checkpoint := Dict.set "state_dict" (StateDict new_checkpoint_state) checkpoint in
    torch_save checkpoint output_file
  else
    Run.for_each (print_define new_checkpoint_state)
                 (Dict.keys new_checkpoint_state) tt.

End Converter.

End Ai84ize.

(* ------------------------------------------------------------------------- *)
(** ** Vocabulary for the properties of the converter *)

Module Ai84izeSpec.
Import Ai84ize.

Section Spec.
Context {L : TensorLib}.
Variable WEIGHT_BITS : Z.

(** The [clamp_bits] of a module. *)
Definition bits_of (module : string) : Z :=
  if String.eqb module "fc" then FC_CLAMP_BITS else WEIGHT_BITS.

(** The name of the scale that belongs to a wrapped weight or bias. *)
Definition scale_name (module parameter : string) : string :=
  module ++ "." ++ PyStr.first_char parameter ++ "_scale".

(** The shapes a completed step can have. *)
Inductive step_ok (a : arguments) (st : loop_state) (k : string)
  : loop_state -> Prop :=
| ok_zero_point op par t :
    PyStr.cut_last k = Some (op, par) ->
    PyStr.mem par ["w_zero_point"; "b_zero_point"] = true ->
    Dict.get k (checkpoint_state st) = Some t ->
    nonzero_numel t = 0%nat ->
    Dict.mem k (new_checkpoint_state st) = true ->
    step_ok a st k
      {| checkpoint_state := checkpoint_state st;
         new_checkpoint_state := Dict.remove k (new_checkpoint_state st) |}
| ok_float op par module rest t sat :
    PyStr.cut_last k = Some (op, par) ->
    PyStr.mem par ["weight"; "bias"] = true ->
    quantized a = false ->
    PyStr.cut_first k = Some (module, rest) ->
    Dict.get k (checkpoint_state st) = Some t ->
    Run.outcome (if negb (String.eqb module "fc") then sat_fn a t
                 else fc_sat_fn t) = inr sat ->
    step_ok a st k
      {| checkpoint_state := checkpoint_state st;
         new_checkpoint_state :=
           Dict.set k
             (clamp_round (bits_of module)
                (scale_by (s_mul (number (pow2 (bits_of module - 1))) sat) t))
             (new_checkpoint_state st) |}
| ok_wrapped op par module w cs' :
    PyStr.cut_last k = Some (op, par) ->
    PyStr.mem par ["weight"; "bias"] = true ->
    quantized a = true ->
    PyStr.cut_last op = Some (module, "wrapped_module") ->
    (cs' = checkpoint_state st \/ exists w', cs' = Dict.set k w' (checkpoint_state st)) ->
    step_ok a st k
      {| checkpoint_state := cs';
         new_checkpoint_state :=
           Dict.remove (scale_name module par)
             (Dict.remove k
                (Dict.set (module ++ "." ++ par) (clamp_round (bits_of module) w)
                   (new_checkpoint_state st))) |}
| ok_unwrapped op par module s :
    PyStr.cut_last k = Some (op, par) ->
    PyStr.mem par ["weight"; "bias"] = true ->
    quantized a = true ->
    PyStr.cut_last op = Some (module, s) ->
    s <> "wrapped_module" ->
    step_ok a st k st
| ok_base_b_q op :
    PyStr.cut_last k = Some (op, "base_b_q") ->
    Dict.mem k (new_checkpoint_state st) = true ->
    step_ok a st k
      {| checkpoint_state := checkpoint_state st;
         new_checkpoint_state := Dict.remove k (new_checkpoint_state st) |}
| ok_other op par :
    PyStr.cut_last k = Some (op, par) ->
    ~ In par ["w_zero_point"; "b_zero_point"; "weight"; "bias"; "base_b_q"] ->
    step_ok a st k st.

(** Every element of [t] is a whole number of the [clamp_bits]-bit format. *)
Definition all_in_format (clamp_bits : Z) (t : tensor) : bool :=
  forallb (in_format (- pow2 (clamp_bits - 1)) (pow2 (clamp_bits - 1) - 1))
          (elements t).

(** The fixed-point value of a float tensor, in the words of the
    description: round(clamp(2^(clamp_bits-1) * sat * t, -(2^(clamp_bits-1)),
    2^(clamp_bits-1) - 1)). *)
Definition fixed_point (clamp_bits : Z) (sat : scalar) (t : tensor) : tensor :=
  round (clamp (- pow2 (clamp_bits - 1)) (pow2 (clamp_bits - 1) - 1)
           (scale_by (s_mul (number (pow2 (clamp_bits - 1))) sat) t)).

(** The saturation statistics, in the words of the description. *)
Definition std_statistic (t : tensor) : scalar :=
  torch_max
    (abs_ (torch_max (t_min t) (s_sub (t_mean t) (s_mul (number 2) (t_std t)))))
    (abs_ (torch_min (t_max t) (s_add (t_mean t) (s_mul (number 2) (t_std t))))).

Definition max_statistic (t : tensor) : scalar :=
  torch_max (abs_ (t_min t)) (abs_ (t_max t)).

Definition avgmax_statistic (t : tensor) : scalar :=
  torch_max (abs_ (t_mean (min_last (view_rows t))))
            (abs_ (t_mean (max_last (view_rows t)))).

Definition scale_constant : scalar := number (6372803137 # 10000000000).

Definition statistic_of_mode (mode : string) (t : tensor) : scalar :=
  if String.eqb mode "STD" then std_statistic t
  else if String.eqb mode "MAX" then max_statistic t
  else if String.eqb mode "AVGMAX" then avgmax_statistic t
  else scale_constant.

(** The statistic that enters the factor of the key [k]. *)
Definition statistic_for (a : arguments) (k : string) (t : tensor) : scalar :=
  if String.eqb (PyStr.first_component k) "fc" then scale_constant
  else statistic_of_mode (clip_mode a) t.

(** The name under which the quantizer stores a wrapped weight or bias. *)
Definition wrapped_name (module parameter : string) : string :=
  module ++ ".wrapped_module." ++ parameter.

(** The name in front of the last dot of a key. *)
Definition operation_of (k : string) : string :=
  match PyStr.cut_last k with Some (op, _) => op | None => k end.

(** The lines printed for the keys of a converted state dict. *)
Definition define_lines (out : Dict.dict tensor) : list event :=
  flat_map (fun k => match Dict.get k out with
                     | Some t => [Print (define_line k); Print (int_repr t)]
                     | None => []
                     end)
           (Dict.keys out).

Definition is_print (ev : event) : Prop :=
  match ev with Print _ => True | TorchSave _ _ => False end.

End Spec.

End Ai84izeSpec.

(* ------------------------------------------------------------------------- *)
(** ** A reference tensor library over exact rationals

    A tensor is its two-dimensional view [t.view(t.shape[0], -1)]: a list of
    rows.  Arithmetic is exact and there is no NaN; only the standard
    deviation is rounded, down to a multiple of 2^-24.  Reductions of an
    empty tensor give 0. *)

Module QTensor.

Local Open Scope Q_scope.

Definition qmax (a b : Q) : Q := if Qle_bool a b then b else a.
Definition qmin (a b : Q) : Q := if Qle_bool a b then a else b.

Definition flat (t : list (list Q)) : list Q := concat t.

Definition fold_min (l : list Q) : Q :=
  match l with [] => 0 | x :: r => fold_left qmin r x end.
Definition fold_max (l : list Q) : Q :=
  match l with [] => 0 | x :: r => fold_left qmax r x end.

Definition sum (l : list Q) : Q := fold_left (fun a x => Qred (a + x)) l 0.

Definition mean (l : list Q) : Q :=
  match l with
  | [] => 0
  | _ => Qred (sum l / inject_Z (Z.of_nat (length l)))
  end.

(** Square root, rounded down to a multiple of 2^-24. *)
Definition sqrt_down (q : Q) : Q :=
  Qred (Z.sqrt (Qfloor (q * inject_Z (2 ^ 48))) # 2 ^ 24).

(** torch's [std()] is the sample standard deviation (n - 1 in the divisor). *)
Definition std (l : list Q) : Q :=
  match l with
  | [] | [_] => 0
  | _ => let m := mean l in
         sqrt_down (sum (map (fun x => (x - m) * (x - m)) l)
                    / inject_Z (Z.of_nat (length l) - 1))
  end.

Definition clamp1 (lo hi x : Q) : Q := qmin (qmax x lo) hi.

(** Rounding to the nearest whole number, halves to the even neighbour. *)
Definition round1 (x : Q) : Q :=
  let f := Qfloor x in
  match (x - inject_Z f) ?= (1 # 2) with
  | Lt => inject_Z f
  | Gt => inject_Z (f + 1)
  | Eq => if Z.even f then inject_Z f else inject_Z (f + 1)
  end.

(** Elementwise product; a one-element right operand is broadcast. *)
Definition mul (a b : list (list Q)) : list (list Q) :=
  match b with
  | [[s]] => map (map (fun x => Qred (x * s))) a
  | _ => map (fun rs => map (fun xy => Qred (fst xy * snd xy)) (combine (fst rs) (snd rs)))
             (combine a b)
  end.

Definition show_Z (z : Z) : string := NilZero.string_of_int (Z.to_int z).
Definition show_Q (q : Q) : string :=
  (show_Z (Qnum q) ++ "/" ++ show_Z (Zpos (Qden q)))%string.

(** [astype(int)] truncates toward zero. *)
Definition trunc (q : Q) : Z := Z.quot (Qnum q) (Zpos (Qden q)).

Definition show_ints (t : list (list Q)) : string :=
  ("[" ++ PyStr.join " " (map (fun x => show_Z (trunc x)) (flat t)) ++ "]")%string.

#[export] Instance lib : TensorLib := {|
  tensor := list (list Q);
  scalar := Q;
  number := fun q => q;
  s_mul := fun a b => Qred (a * b);
  s_add := fun a b => Qred (a + b);
  s_sub := fun a b => Qred (a - b);
  abs_ := Qabs;
  torch_max := qmax;
  torch_min := qmin;
  t_min := fun t => fold_min (flat t);
  t_max := fun t => fold_max (flat t);
  t_mean := fun t => mean (flat t);
  t_std := fun t => std (flat t);
  view_rows := fun t => t;
  min_last := fun t => [map fold_min t];
  max_last := fun t => [map fold_max t];
  scale_by := fun f t => map (map (fun x => Qred (f * x))) t;
  t_mul := mul;
  clamp := fun lo hi t => map (map (clamp1 lo hi)) t;
  round := fun t => map (map round1) t;
  nonzero_numel := fun t => length (filter (fun x => negb (Qeq_bool x 0)) (flat t));
  s_repr := show_Q;
  int_repr := show_ints;
  elements := flat;
  has_nan := fun _ => false
|}.

(** range_linear_ai84.pow2_round is not among the sources.  The runs below
    take for it the rounding of a scale to a multiple of 2^-(bits-1); no
    theorem depends on this choice. *)
Definition pow2_round (t : list (list Q)) (bits : Z) : list (list Q) :=
  map (map (fun x => Qred (round1 (x * pow2 (bits - 1)) / pow2 (bits - 1)))) t.

(** ai84.WEIGHT_BITS, taken to be 8 in the runs below. *)
Definition WEIGHT_BITS : Z := 8.

Definition get_contents_table (c : @Ai84ize.checkpoint lib) : string :=
  PyStr.join ", " (Dict.keys c).

Definition convert_state :=
  @Ai84ize.convert_state lib WEIGHT_BITS pow2_round get_contents_table.
Definition convert_checkpoint :=
  @Ai84ize.convert_checkpoint lib WEIGHT_BITS pow2_round get_contents_table.

End QTensor.

(* ------------------------------------------------------------------------- *)
(** ** Sample checkpoints for the reference library *)

Module Runs.
Import Ai84ize.

Local Open Scope Q_scope.

Definition state_dict (d : Dict.dict (list (list Q))) : @entry QTensor.lib :=
  @StateDict QTensor.lib d.
Definition pickled (obj : string) : @entry QTensor.lib :=
  @Pickled QTensor.lib obj.

(** A float checkpoint, converted with --clip-mode MAX. *)
Definition float_args : arguments :=
  {| embedded := false; quantized := false; verbose := false; clip_mode := "MAX" |}.

Definition conv1_weight : list (list Q) := [[1 # 2; - (3 # 4)]; [2; 0]].

Definition float_state : Dict.dict (list (list Q)) :=
  [("conv1.weight", conv1_weight);
   ("fc.bias", [[1 # 10]]);
   ("conv1.w_zero_point", [[0]]);
   ("bn.running_mean", [[1 # 3]])].

Definition float_checkpoint : @checkpoint QTensor.lib :=
  [("epoch", pickled "12");
   ("state_dict", state_dict float_state);
   ("optimizer", pickled "sgd")].

Definition float_output : Dict.dict (list (list Q)) :=
  [("conv1.weight", [[127; -128]; [127; 0]]);
   ("fc.bias", [[2088]]);
   ("bn.running_mean", [[1 # 3]])].

(** A checkpoint of the post-training quantizer. *)
Definition quantized_args : arguments :=
  {| embedded := false; quantized := true; verbose := false; clip_mode := "SCALE" |}.

Definition quantized_state : Dict.dict (list (list Q)) :=
  [("conv1.wrapped_module.weight", [[1; -3]; [2; 0]]);
   ("conv1.w_scale", [[3 # 2]]);
   ("fc.wrapped_module.bias", [[5]]);
   ("fc.b_scale", [[7 # 2]]);
   ("bn.sub.weight", [[1 # 3]])].

Definition quantized_checkpoint : @checkpoint QTensor.lib :=
  [("quantizer_metadata", pickled "meta");
   ("state_dict", state_dict quantized_state);
   ("optimizer", pickled "sgd")].

Definition quantized_output : Dict.dict (list (list Q)) :=
  [("bn.sub.weight", [[1 # 3]]);
   ("conv1.weight", [[2; -4]; [3; 0]]);
   ("fc.bias", [[18]])].

(** The same conversions with --embedded. *)
Definition embedded_args : arguments :=
  {| embedded := true; quantized := false; verbose := false; clip_mode := "MAX" |}.

(** A state dict whose first key has no dot, followed by a zero point that
    is not zero. *)
Definition dotless_state : Dict.dict (list (list Q)) :=
  [("scale", [[1]]); ("conv1.w_zero_point", [[1]])].

Definition dotless_checkpoint : @checkpoint QTensor.lib :=
  [("state_dict", state_dict dotless_state)].

(** A zero point that is not zero, reached by the loop. *)
Definition nonzero_state : Dict.dict (list (list Q)) :=
  [("conv1.weight", conv1_weight); ("conv1.w_zero_point", [[1]])].

Definition nonzero_checkpoint : @checkpoint QTensor.lib :=
  [("state_dict", state_dict nonzero_state)].

Definition quantized_saved : @checkpoint QTensor.lib :=
  [("state_dict", state_dict quantized_output); ("optimizer", pickled "sgd")].

(** A checkpoint without a state dict. *)
Definition no_state_checkpoint : @checkpoint QTensor.lib :=
  [("epoch", pickled "12"); ("optimizer", pickled "sgd")].

End Runs.

(* ------------------------------------------------------------------------- *)
(** ** train.py: the score history and the epoch loop of main *)

Module Train.

(** distiller.MutableNamedTuple with the five fields of a score.
    [params_nnz_cnt] holds the negated count, as the code stores it. *)
Record score : Type := {
  params_nnz_cnt : Z;
  sparsity : Q;
  top1 : Q;
  top5 : Q;
  epoch : Z
}.

Definition lex (c d : comparison) : comparison :=
  match c with Eq => d | _ => c end.

(** Comparison of the tuples [attrgetter('params_nnz_cnt', 'top1', 'top5',
    'epoch')] returns. *)
Definition key_compare (a b : score) : comparison :=
  lex (params_nnz_cnt a ?= params_nnz_cnt b)%Z
    (lex (top1 a ?= top1 b)%Q
       (lex (top5 a ?= top5 b)%Q
          (epoch a ?= epoch b)%Z)).

Definition key_ltb (a b : score) : bool :=
  match key_compare a b with Lt => true | _ => false end.

(** [a] does not come after [b] in a list sorted from best to worst. *)
Definition key_ge (a b : score) : Prop := key_compare a b <> Lt.

(** [l.sort(key=..., reverse=True)]: a stable sort, largest key first. *)
Fixpoint insert_desc (x : score) (l : list score) : list score :=
  match l with
  | [] => [x]
  | y :: r => if key_ltb x y then y :: insert_desc x r else x :: l
  end.

Definition sort_desc (l : list score) : list score :=
  fold_right insert_desc [] l.

(** [range(a, b)] *)
Definition range (a b : Z) : list Z :=
  map (fun i => (a + Z.of_nat i)%Z) (seq 0 (Z.to_nat (b - a))).

Inductive event : Type :=
| OnEpochBegin (epoch : Z) (metrics : Q)
| TrainPass (epoch : Z)
| ValidatePass (epoch : Z)
| OnEpochEnd (epoch : Z)
| LogBest (s : score)
| SaveCheckpoint (epoch : Z) (current_top1 best_top1 : Q) (best_epoch : Z)
                 (is_best : bool)
| TestPass.

Definition M : Type -> Type := @Run.M event.

Definition is_log (ev : event) : Prop :=
  match ev with LogBest _ => True | _ => False end.

(** What makes a three-way comparison the comparison of an order. *)
Class OrderLike {T : Type} (cmp : T -> T -> comparison) : Prop := {
  cmp_sym : forall a b, cmp b a = CompOpp (cmp a b);
  cmp_lt_trans : forall a b c, cmp a b = Lt -> cmp b c = Lt -> cmp a c = Lt;
  cmp_eq_l : forall a b c, cmp a b = Eq -> cmp a c = cmp b c
}.

Section Loop.

(** The model and everything done to it belong to torch and distiller.
    [train] and [validate] give what the calls return; the exceptions they
    may raise are not modelled, so what is proved of the loop is proved of
    the runs in which they return. *)
Variable model : Type.
Variable train : model -> Z -> model.
Variable validate : model -> Z -> Q * Q * Q.
Variable model_params_stats : model -> Q * Z.
Variable on_epoch_begin : model -> Z -> Q -> model.
Variable on_epoch_end : model -> Z -> model.

(** Whether [compression_scheduler] is an object or None. *)
Variable compression_scheduler : bool.
Variable args_num_best_scores : nat.

Definition update_training_scores_history (perf_scores_history : list score)
    (m : model) (top1 top5 : Q) (epoch : Z) (num_best_scores : nat)
  : M (list score) :=
  let '(model_sparsity, nnz) := model_params_stats m in
  let appended :=
    (perf_scores_history ++
       [ {| params_nnz_cnt := - nnz; sparsity := model_sparsity;
            top1 := top1; top5 := top5; epoch := epoch |} ])%list in
  let sorted := sort_desc appended in
  Run.for_each (fun _ s => Run.emit (LogBest s)) (firstn num_best_scores sorted) tt ;;;
  Run.ret sorted.

(** The score appended for a model and its validation results. *)
Definition score_of (m : model) (top1 top5 : Q) (epoch : Z) : score :=
  {| params_nnz_cnt := - snd (model_params_stats m);
     sparsity := fst (model_params_stats m);
     top1 := top1; top5 := top5; epoch := epoch |}.

Record loop_state : Type := {
  the_model : model;
  vloss : Q;
  perf_scores_history : list score
}.

(** Lines 341-382: one epoch. *)
Definition epoch_body (st : loop_state) (e : Z) : M loop_state :=
  m <- (if compression_scheduler then
          Run.emit (OnEpochBegin e (vloss st)) ;;;
          Run.ret (on_epoch_begin (the_model st) e (vloss st))
        else Run.ret (the_model st)) ;;
  Run.emit (TrainPass e) ;;;
  let m := train m e in
  Run.emit (ValidatePass e) ;;;
  let '(t1, t5, vl) := validate m e in
  m <- (if compression_scheduler then
          Run.emit (OnEpochEnd e) ;;; Run.ret (on_epoch_end m e)
        else Run.ret m) ;;
  history <- update_training_scores_history (perf_scores_history st) m t1 t5 e
               args_num_best_scores ;;
  match history with
  | [] => Run.raise IndexError
  | best :: _ =>
      let is_best := (e =? epoch best)%Z in
      Run.emit (SaveCheckpoint e t1 (top1 best) (epoch best) is_best) ;;;
      Run.ret {| the_model := m; vloss := vl; perf_scores_history := history |}
  end.

(** Lines 334-385 of main. *)
Definition training_loop (start_epoch ending_epoch : Z) (m : model)
    (history : list score) : M loop_state :=
  if (start_epoch >=? ending_epoch)%Z then
    Run.raise (ValueError "Epochs parameter is too low. Nothing to do.")
  else
    st <- Run.for_each epoch_body (range start_epoch ending_epoch)
            {| the_model := m; vloss := inject_Z (10 ^ 6);
               perf_scores_history := history |} ;;
    Run.emit TestPass ;;;
    Run.ret st.

End Loop.

End Train.

(* ------------------------------------------------------------------------- *)
(** ** A sample training run *)

Module TrainRuns.

Local Open Scope Q_scope.

(** The model is the number of epochs it has been trained for: accuracy
    rises for two epochs and then falls; after the first epoch ten of the
    1000 parameters are pruned away. *)
Definition train (m : nat) (_ : Z) : nat := S m.

Definition validate (m : nat) (_ : Z) : Q * Q * Q :=
  match m with
  | 1%nat => (90, 99, 1 # 2)
  | 2%nat => (95, 99, 1 # 4)
  | _ => (93, 99, 1 # 3)
  end.

Definition model_params_stats (m : nat) : Q * Z :=
  (0, match m with 1%nat => 1000%Z | _ => 990%Z end).

Definition on_epoch_begin (m : nat) (_ : Z) (_ : Q) : nat := m.
Definition on_epoch_end (m : nat) (_ : Z) : nat := m.

Definition run (compression_scheduler : bool) : Train.M (Train.loop_state nat) :=
  Train.training_loop nat train validate model_params_stats
    on_epoch_begin on_epoch_end compression_scheduler 1 0 3 0%nat [].

End TrainRuns.

(* ------------------------------------------------------------------------- *)
(** ** More vocabulary for the converter *)

Module Ai84izeMore.
Import Ai84ize Ai84izeSpec.

(** The keys the loop deletes: zero points and 'base_b_q'. *)
Definition removable (k : string) : bool :=
  PyStr.mem (PyStr.last_component k) ["w_zero_point"; "b_zero_point"; "base_b_q"].

(** [y in l] *)
Definition among (l : list string) (y : string) : bool :=
  existsb (String.eqb y) l.

(** The same arguments with another --verbose. *)
Definition with_verbose (v : bool) (a : arguments) : arguments :=
  {| embedded := embedded a; quantized := quantized a; verbose := v;
     clip_mode := clip_mode a |}.

(** ASCII letters a..z. *)
Definition lowercase (c : ascii) : bool :=
  andb (Nat.leb 97 (nat_of_ascii c)) (Nat.leb (nat_of_ascii c) 122).

(** [s.isascii()]: on such a string [str.upper] changes the letters a..z
    only, as [PyStr.upper] does. *)
Definition isascii (s : string) : bool :=
  forallb (fun c => Nat.ltb (nat_of_ascii c) 128) (list_ascii_of_string s).

(** A clip mode whose saturation function is [get_const]: no statistic of
    the tensor is computed. *)
Definition constant_mode (a : arguments) : bool :=
  negb (among ["STD"; "MAX"; "AVGMAX"] (clip_mode a)).

Section Values.
Context {L : TensorLib}.
Variable WEIGHT_BITS : Z.
Variable pow2_round : tensor -> Z -> tensor.

(** The value lines 117-129 compute from a wrapped weight or bias [w] and
    its scale [fp_scale]. *)
Definition quantized_value (module : string) (w fp_scale : tensor) : tensor :=
  round (clamp (- pow2 (bits_of WEIGHT_BITS module - 1))
               (pow2 (bits_of WEIGHT_BITS module - 1) - 1)
               (if String.eqb module "fc" then round (t_mul w fp_scale)
                else t_mul w (pow2_round fp_scale CONV_SCALE_BITS))).

End Values.

End Ai84izeMore.

(* ------------------------------------------------------------------------- *)
(** ** More sample checkpoints *)

Module MoreRuns.
Import Ai84ize.

Local Open Scope Q_scope.

(** A float checkpoint of a quantization-aware run: it carries 'base_b_q'. *)
Definition aware_state : Dict.dict (list (list Q)) :=
  [("conv1.weight", Runs.conv1_weight);
   ("conv1.base_b_q", [[3]]);
   ("conv1.b_zero_point", [[0]]);
   ("fc.bias", [[1 # 10]])].

Definition aware_checkpoint : @checkpoint QTensor.lib :=
  [("epoch", Runs.pickled "3"); ("state_dict", Runs.state_dict aware_state)].

Definition aware_output : Dict.dict (list (list Q)) :=
  [("conv1.weight", [[127; -128]; [127; 0]]); ("fc.bias", [[2088]])].

(** A float checkpoint handed to --quantized: its weights are not wrapped. *)
Definition plain_state : Dict.dict (list (list Q)) :=
  [("conv1.weight", Runs.conv1_weight)].

Definition plain_checkpoint : @checkpoint QTensor.lib :=
  [("quantizer_metadata", Runs.pickled "meta");
   ("state_dict", Runs.state_dict plain_state)].

(** A quantized checkpoint that has lost a scale. *)
Definition scaleless_state : Dict.dict (list (list Q)) :=
  [("conv1.wrapped_module.weight", [[1; -3]])].

Definition scaleless_checkpoint : @checkpoint QTensor.lib :=
  [("quantizer_metadata", Runs.pickled "meta");
   ("state_dict", Runs.state_dict scaleless_state)].

(** The float conversion with the default clip mode. *)
Definition scale_args : arguments :=
  {| embedded := false; quantized := false; verbose := false; clip_mode := "SCALE" |}.

End MoreRuns.

(* ------------------------------------------------------------------------- *)
(** ** Vocabulary for the traces of the epoch loop *)

Module TrainMore.
Import Train.

(** The epochs of the events of one kind, in the order of the trace. *)
Definition epochs_of (kind : event -> option Z) (tr : list event) : list Z :=
  flat_map (fun ev => match kind ev with Some e => [e] | None => [] end) tr.

Definition begin_epoch (ev : event) : option Z :=
  match ev with OnEpochBegin e _ => Some e | _ => None end.
Definition train_epoch (ev : event) : option Z :=
  match ev with TrainPass e => Some e | _ => None end.
Definition validate_epoch (ev : event) : option Z :=
  match ev with ValidatePass e => Some e | _ => None end.
Definition end_epoch (ev : event) : option Z :=
  match ev with OnEpochEnd e => Some e | _ => None end.
Definition save_epoch (ev : event) : option Z :=
  match ev with SaveCheckpoint e _ _ _ _ => Some e | _ => None end.

(** The kinds of events that carry an epoch and are not log lines. *)
Definition epoch_kinds : list (event -> option Z) :=
  [begin_epoch; train_epoch; validate_epoch; end_epoch; save_epoch].

Section Measured.
Variable model : Type.
Variable train : model -> Z -> model.
Variable validate : model -> Z -> Q * Q * Q.
Variable model_params_stats : model -> Q * Z.
Variable on_epoch_begin : model -> Z -> Q -> model.
Variable on_epoch_end : model -> Z -> model.
Variable compression_scheduler : bool.

(** The model after the training pass of epoch [e], what the validation
    pass measures on it (top1, top5 and the loss), and the model when the
    epoch is over. *)
Definition trained (st : loop_state model) (e : Z) : model :=
  train (if compression_scheduler
         then on_epoch_begin (the_model model st) e (vloss model st)
         else the_model model st) e.

Definition measured (st : loop_state model) (e : Z) : Q * Q * Q :=
  validate (trained st e) e.

Definition finished (st : loop_state model) (e : Z) : model :=
  if compression_scheduler then on_epoch_end (trained st e) e else trained st e.

(** The score of epoch [e]: the parameters of the model when the epoch is
    over, with the accuracies the validation pass has measured. *)
Definition epoch_score (st : loop_state model) (e : Z) : score :=
  score_of model model_params_stats (finished st e)
    (fst (fst (measured st e))) (snd (fst (measured st e))) e.

(** The state of the loop after epoch [e]. *)
Definition after_epoch (st : loop_state model) (e : Z) : loop_state model :=
  {| the_model := finished st e;
     vloss := snd (measured st e);
     perf_scores_history :=
       sort_desc (perf_scores_history model st ++ [epoch_score st e]) |}.

(** The scores of the epochs [l], run one after the other. *)
Fixpoint scores_of (l : list Z) (st : loop_state model) : list score :=
  match l with
  | [] => []
  | e :: r => epoch_score st e :: scores_of r (after_epoch st e)
  end.

End Measured.

(** The sample run after its first epoch. *)
Definition after_first_epoch : loop_state nat :=
  {| the_model := 1%nat; vloss := 1 # 2;
     perf_scores_history :=
       [ {| params_nnz_cnt := -1000; sparsity := 0; top1 := 90; top5 := 99;
            epoch := 0 |} ] |}.

End TrainMore.

(* ------------------------------------------------------------------------- *)
(** ** The input transform [normalize] *)

Module Normalize.

Local Open Scope Q_scope.

(** [img.sub(c)], [img.mul(c)], [img.round()], [img.clamp(min, max)]: torch
    works on every element of the image, here a list of rows. *)
Definition sub (c : Q) (img : list (list Q)) : list (list Q) :=
  map (map (fun x => x - c)) img.
Definition mul (c : Q) (img : list (list Q)) : list (list Q) :=
  map (map (fun x => x * c)) img.
Definition round (img : list (list Q)) : list (list Q) :=
  map (map QTensor.round1) img.
Definition clamp (lo hi : Q) (img : list (list Q)) : list (list Q) :=
  map (map (QTensor.clamp1 lo hi)) img.

(** [normalize.__call__], with [args.act_mode_8bit] as a parameter. *)
Definition normalize (act_mode_8bit : bool) (img : list (list Q)) : list (list Q) :=
  if act_mode_8bit
  then clamp (-128) 127 (round (mul 256 (sub (1 # 2) img)))
  else sub (1 # 2) img.

(** What [ToTensor] makes of the bytes of an image: k / 255. *)
Definition of_bytes (bytes : list (list Z)) : list (list Q) :=
  map (map (fun k => k # 255)) bytes.

(** The 8-bit value of the byte k. *)
Definition level (k : Z) : Z :=
  if (k <=? 127)%Z then (k - 128)%Z else Z.min (k - 127) 127.

End Normalize.

(* ------------------------------------------------------------------------- *)
(** ** Validation, with and without early exits *)

(** The exceptions of this part: those of above, and ZeroDivisionError. *)
Inductive raised : Type :=
| Raised (e : exn)
| ZeroDivisionError.

Module Py.

Section Monad.
Context {E : Type}.

(** The events of a computation, then its value or its exception. *)
Definition M (A : Type) : Type := (list E * (raised + A))%type.

Definition ret {A} (a : A) : M A := ([], inr a).

Definition bind {A B} (m : M A) (f : A -> M B) : M B :=
  match m with
  | (tr, inl e) => (tr, inl e)
  | (tr, inr a) => let (tr', r) := f a in ((tr ++ tr')%list, r)
  end.

Definition raise {A} (e : raised) : M A := ([], inl e).

Definition emit (ev : E) : M unit := ([ev], inr tt).

Definition trace {A} (m : M A) : list E := fst m.
Definition outcome {A} (m : M A) : raised + A := snd m.

(** [for x in l: st = body st x] *)
Fixpoint for_each {S X} (body : S -> X -> M S) (l : list X) (st : S) : M S :=
  match l with
  | [] => ret st
  | x :: r => bind (body st x) (for_each body r)
  end.

(** The place [l[i]] names: Python counts a negative index from the end. *)
Definition index {A} (l : list A) (i : Z) : option nat :=
  let n := Z.of_nat (length l) in
  if ((0 <=? i) && (i <? n))%Z then Some (Z.to_nat i)
  else if ((- n <=? i) && (i <? 0))%Z then Some (Z.to_nat (n + i))
  else None.

(** [l[i]] *)
Definition getitem {A} (l : list A) (i : Z) : M A :=
  match index l i with
  | Some j => match nth_error l j with
              | Some x => ret x
              | None => raise (Raised IndexError)
              end
  | None => raise (Raised IndexError)
  end.

(** [l[i] = v] *)
Definition setitem {A} (l : list A) (i : Z) (v : A) : M (list A) :=
  match index l i with
  | Some j => ret (firstn j l ++ v :: skipn (S j) l)%list
  | None => raise (Raised IndexError)
  end.

(** [x / y] on floats or integers, with a float for result. *)
Definition divide (x y : Q) : M Q :=
  if Qeq_bool y 0 then raise ZeroDivisionError else ret (x / y)%Q.

(** [x % y] on integers. *)
Definition modulo (x y : Z) : M Z :=
  if (y =? 0)%Z then raise ZeroDivisionError else ret (x mod y)%Z.

End Monad.

(** [range(n)] and [enumerate(l)] *)
Definition range (n : Z) : list Z := Train.range 0 n.

Definition enumerate {A} (l : list A) : list (Z * A) :=
  combine (map Z.of_nat (seq 0 (length l))) l.

(** [x < y] *)
Definition lt (x y : Q) : bool := negb (Qle_bool y x).

End Py.

Declare Scope py_scope.
Delimit Scope py_scope with py.
Notation "x <- m ;; k" := (Py.bind m (fun x => k))
  (at level 61, m at next level, right associativity) : py_scope.
Notation "' p <- m ;; k" := (Py.bind m (fun x => match x with p => k end))
  (at level 61, p pattern, m at next level, right associativity) : py_scope.
Notation "m ;;; k" := (Py.bind m (fun _ => k))
  (at level 61, right associativity) : py_scope.

Module Validate.

Local Open Scope py_scope.

Section Validate.

(** Tensors and the network belong to torch: a minibatch of inputs, of
    targets, the outputs of one exit for a minibatch, and what the network
    returns for a minibatch. *)
Variable inputs : Type.
Variable tgt : Type.
Variable out : Type.
Variable output : Type.

(** [model(inputs)] *)
Variable model : inputs -> output.
(** [criterion(output, target).item()] *)
Variable criterion : output -> tgt -> Q.
(** [output.data] *)
Variable data : output -> out.
(** The list [output] is with early exits: [output[exitnum]] is its item. *)
Variable exits : output -> list out.
(** [target.size()[0]] *)
Variable size0 : tgt -> Z.
(** [nn.CrossEntropyLoss(reduce=False)(o, target)]: a loss for each sample. *)
Variable sample_losses : out -> tgt -> list Q.
(** [torch.mean] *)
Variable torch_mean : list Q -> Q.
(** [torch.tensor(np.array(o.data[batch_index].cpu(), ndmin=2))] and
    [torch.full([1], target[batch_index], dtype=torch.long)] *)
Variable sample_output : out -> Z -> out.
Variable sample_target : tgt -> Z -> tgt.

(** A torchnet meter is what was added to it. *)
Definition meter : Type := list (out * tgt).

(** [ClassErrorMeter.value(k)]; None when it divides by zero. *)
Variable meter_value : Z -> meter -> option Q.
(** [AverageValueMeter.mean] *)
Variable meter_mean : list Q -> Q.

(** The attributes of [args] this part and [train] read and write.  Those
    that main sets only for early exits ([num_exits], [loss_exits]) are
    taken to be set. *)
Record args : Type := {
  earlyexit_thresholds : list Q;
  earlyexit_lossweights : list Q;
  display_confusion : bool;
  print_freq : Z;
  kd_policy : bool;
  log_params_histograms : bool;
  num_exits : Z;
  loss_exits : list (list Q);
  losses_exits : list (list Q);
  exiterrors : list meter;
  exit_taken : list Z
}.

Definition set_loss_exits (v : list (list Q)) (a : args) : args :=
  {| earlyexit_thresholds := earlyexit_thresholds a;
     earlyexit_lossweights := earlyexit_lossweights a;
     display_confusion := display_confusion a; print_freq := print_freq a;
     kd_policy := kd_policy a;
     log_params_histograms := log_params_histograms a;
     num_exits := num_exits a; loss_exits := v; losses_exits := losses_exits a;
     exiterrors := exiterrors a; exit_taken := exit_taken a |}.

Definition set_losses_exits (v : list (list Q)) (a : args) : args :=
  {| earlyexit_thresholds := earlyexit_thresholds a;
     earlyexit_lossweights := earlyexit_lossweights a;
     display_confusion := display_confusion a; print_freq := print_freq a;
     kd_policy := kd_policy a;
     log_params_histograms := log_params_histograms a;
     num_exits := num_exits a; loss_exits := loss_exits a; losses_exits := v;
     exiterrors := exiterrors a; exit_taken := exit_taken a |}.

Definition set_exiterrors (v : list meter) (a : args) : args :=
  {| earlyexit_thresholds := earlyexit_thresholds a;
     earlyexit_lossweights := earlyexit_lossweights a;
     display_confusion := display_confusion a; print_freq := print_freq a;
     kd_policy := kd_policy a;
     log_params_histograms := log_params_histograms a;
     num_exits := num_exits a; loss_exits := loss_exits a;
     losses_exits := losses_exits a; exiterrors := v; exit_taken := exit_taken a |}.

Definition set_exit_taken (v : list Z) (a : args) : args :=
  {| earlyexit_thresholds := earlyexit_thresholds a;
     earlyexit_lossweights := earlyexit_lossweights a;
     display_confusion := display_confusion a; print_freq := print_freq a;
     kd_policy := kd_policy a;
     log_params_histograms := log_params_histograms a;
     num_exits := num_exits a; loss_exits := loss_exits a;
     losses_exits := losses_exits a; exiterrors := exiterrors a; exit_taken := v |}.

(** [distiller.log_training_progress] gets a name and an OrderedDict. *)
Definition stats : Type := (string * Dict.dict Q)%type.

Inductive event : Type :=
| InfoSamples (total_samples batch_size : Z)
| InfoExit (exitnum taken : Z)
| InfoPercent (exitnum : Z) (percent : Q)
| InfoAccuracy (exitnum : Z) (top1 top5 : Q)
| InfoTotals (top1 top5 : Q)
| InfoResult (top1 top5 loss : Q)
| InfoConfusion (added : meter)
| LogProgress (s : stats) (epoch steps_completed : Z) (total_steps : Q)
              (freq : Z).

Definition M : Type -> Type := @Py.M event.

(** Whether an integer counts as true. *)
Definition truthy (n : Z) : bool := negb (n =? 0)%Z.

(** [m.value(k)] of a ClassErrorMeter *)
Definition value (k : Z) (m : meter) : M Q :=
  match meter_value k m with
  | Some q => Py.ret q
  | None => Py.raise ZeroDivisionError
  end.

(** Lines 697-701: the losses of one exit. *)
Definition record_losses (o : output) (target : tgt) (a : args) (exitnum : Z)
  : M args :=
  x <- Py.getitem (exits o) exitnum ;;
  v <- Py.setitem (loss_exits a) exitnum (sample_losses x target) ;;
  let a := set_loss_exits v a in
  m <- Py.getitem (losses_exits a) exitnum ;;
  l <- Py.getitem (loss_exits a) exitnum ;;
  v <- Py.setitem (losses_exits a) exitnum (m ++ [torch_mean l])%list ;;
  Py.ret (set_losses_exits v a).

(** Lines 709-713 and 718-722: the sample is added to the meter of the exit
    and the exit is counted. *)
Definition count_exit (o : output) (target : tgt) (batch_index : Z) (a : args)
    (exitnum : Z) : M args :=
  m <- Py.getitem (exiterrors a) exitnum ;;
  x <- Py.getitem (exits o) exitnum ;;
  v <- Py.setitem (exiterrors a) exitnum
         (m ++ [(sample_output x batch_index, sample_target target batch_index)])%list ;;
  let a := set_exiterrors v a in
  n <- Py.getitem (exit_taken a) exitnum ;;
  v <- Py.setitem (exit_taken a) exitnum (n + 1)%Z ;;
  Py.ret (set_exit_taken v a).

(** Lines 706-715: the loop over the early exits, left at the first exit
    taken; the flag [earlyexit_taken] comes with the result. *)
Fixpoint take_exit (o : output) (target : tgt) (batch_index : Z)
    (exitnums : list Z) (a : args) : M (bool * args) :=
  match exitnums with
  | [] => Py.ret (false, a)
  | exitnum :: rest =>
      losses <- Py.getitem (loss_exits a) exitnum ;;
      loss <- Py.getitem losses batch_index ;;
      threshold <- Py.getitem (earlyexit_thresholds a) exitnum ;;
      if Py.lt loss threshold then
        a <- count_exit o target batch_index a exitnum ;;
        Py.ret (true, a)
      else take_exit o target batch_index rest a
  end.

(** Lines 703-722: one sample. *)
Definition validate_sample (o : output) (target : tgt) (a : args)
    (batch_index : Z) : M args :=
  ' (earlyexit_taken, a) <-
      take_exit o target batch_index (Py.range (num_exits a - 1)) a ;;
  if earlyexit_taken then Py.ret a
  else count_exit o target batch_index a (num_exits a - 1).

Definition earlyexit_validate_loss (o : output) (target : tgt) (a : args)
  : M args :=
  let this_batch_size := size0 target in
  a <- Py.for_each (record_losses o target) (Py.range (num_exits a)) a ;;
  Py.for_each (validate_sample o target) (Py.range this_batch_size) a.

(** The lists [earlyexit_validate_stats] fills, and its sum. *)
Record exit_stats : Type := {
  top1k_stats : list Q;
  top5k_stats : list Q;
  losses_exits_stats : list Q;
  sum_exit_stats : Z
}.

(** Lines 731-737 *)
Definition collect_exit (a : args) (s : exit_stats) (exitnum : Z) : M exit_stats :=
  n <- Py.getitem (exit_taken a) exitnum ;;
  if truthy n then
    let sum := (sum_exit_stats s + n)%Z in
    Py.emit (InfoExit exitnum n) ;;;
    t1 <- Py.getitem (top1k_stats s) exitnum ;;
    m <- Py.getitem (exiterrors a) exitnum ;;
    v1 <- value 1 m ;;
    top1k <- Py.setitem (top1k_stats s) exitnum (t1 + v1)%Q ;;
    t5 <- Py.getitem (top5k_stats s) exitnum ;;
    m <- Py.getitem (exiterrors a) exitnum ;;
    v5 <- value 5 m ;;
    top5k <- Py.setitem (top5k_stats s) exitnum (t5 + v5)%Q ;;
    l <- Py.getitem (losses_exits_stats s) exitnum ;;
    lm <- Py.getitem (losses_exits a) exitnum ;;
    losses <- Py.setitem (losses_exits_stats s) exitnum (l + meter_mean lm)%Q ;;
    Py.ret {| top1k_stats := top1k; top5k_stats := top5k;
              losses_exits_stats := losses; sum_exit_stats := sum |}
  else Py.ret s.

(** Lines 738-741 *)
Definition percent_exit (a : args) (s : exit_stats) (_ : unit) (exitnum : Z)
  : M unit :=
  n <- Py.getitem (exit_taken a) exitnum ;;
  if truthy n then
    p <- Py.divide (inject_Z n * 100) (inject_Z (sum_exit_stats s)) ;;
    Py.emit (InfoPercent exitnum p)
  else Py.ret tt.

(** Lines 744-748 *)
Definition total_exit (a : args) (s : exit_stats) (totals : Q * Q) (exitnum : Z)
  : M (Q * Q) :=
  let '(total_top1, total_top5) := totals in
  t1 <- Py.getitem (top1k_stats s) exitnum ;;
  n <- Py.getitem (exit_taken a) exitnum ;;
  w <- Py.divide (inject_Z n) (inject_Z (sum_exit_stats s)) ;;
  let total_top1 := (total_top1 + t1 * w)%Q in
  t5 <- Py.getitem (top5k_stats s) exitnum ;;
  w <- Py.divide (inject_Z n) (inject_Z (sum_exit_stats s)) ;;
  let total_top5 := (total_top5 + t5 * w)%Q in
  Py.emit (InfoAccuracy exitnum t1 t5) ;;;
  Py.ret (total_top1, total_top5).

Definition earlyexit_validate_stats (a : args) : M (Q * Q * list Q) :=
  let zeros := repeat 0%Q (Z.to_nat (num_exits a)) in
  s <- Py.for_each (collect_exit a) (Py.range (num_exits a))
         {| top1k_stats := zeros; top5k_stats := zeros;
            losses_exits_stats := zeros; sum_exit_stats := 0 |} ;;
  Py.for_each (percent_exit a s) (Py.range (num_exits a)) tt ;;;
  ' (total_top1, total_top5) <-
      Py.for_each (total_exit a s) (Py.range (num_exits a)) (0%Q, 0%Q) ;;
  Py.emit (InfoTotals total_top1 total_top5) ;;;
  Py.ret (total_top1, total_top5, losses_exits_stats s).

(** [str(exitnum)] *)
Definition str (n : Z) : string := QTensor.show_Z n.

(** Lines 578-585: the meters and counters of the exits are made anew. *)
Definition new_exit_meters (a : args) : args :=
  let a := set_losses_exits [] (set_exiterrors [] a) in
  let a := fold_left (fun a _ =>
                        set_losses_exits (losses_exits a ++ [[]])
                          (set_exiterrors (exiterrors a ++ [[]]) a))
                     (Py.range (num_exits a)) a in
  set_exit_taken (repeat 0%Z (Z.to_nat (num_exits a))) a.

(** The local meters of [_validate], and [args]. *)
Record validation : Type := {
  objective_loss : list Q;
  classerr : meter;
  confusion : meter;
  the_args : args
}.

(** Lines 628-642: the statistics of the exits for the log. *)
Definition exit_progress (a : args) (stats_dict : Dict.dict Q) (exitnum : Z)
  : M (Dict.dict Q) :=
  let la_string := ("LossAvg" ++ str exitnum)%string in
  lm <- Py.getitem (losses_exits a) exitnum ;;
  let stats_dict := Dict.set la_string (meter_mean lm) stats_dict in
  n <- Py.getitem (exit_taken a) exitnum ;;
  if truthy n then
    let t1 := ("Top1_exit" ++ str exitnum)%string in
    let t5 := ("Top5_exit" ++ str exitnum)%string in
    m <- Py.getitem (exiterrors a) exitnum ;;
    v1 <- value 1 m ;;
    let stats_dict := Dict.set t1 v1 stats_dict in
    m <- Py.getitem (exiterrors a) exitnum ;;
    v5 <- value 5 m ;;
    Py.ret (Dict.set t5 v5 stats_dict)
  else Py.ret stats_dict.

(** Lines 600-644: one minibatch. *)
Definition validation_step (total_steps : Q) (epoch : Z) (v : validation)
    (step : Z * (inputs * tgt)) : M validation :=
  let '(validation_step, (inp, target)) := step in
  let a := the_args v in
  let o := model inp in
  v <- match earlyexit_thresholds a with
       | [] =>
           let loss := criterion o target in
           Py.ret {| objective_loss := (objective_loss v ++ [loss])%list;
                     classerr := (classerr v ++ [(data o, target)])%list;
                     confusion := if display_confusion a
                                  then (confusion v ++ [(data o, target)])%list
                                  else confusion v;
                     the_args := a |}
       | _ :: _ =>
           a <- earlyexit_validate_loss o target a ;;
           Py.ret {| objective_loss := objective_loss v; classerr := classerr v;
                     confusion := confusion v; the_args := a |}
       end ;;
  let a := the_args v in
  let steps_completed := (validation_step + 1)%Z in
  r <- Py.modulo steps_completed (print_freq a) ;;
  (if (r =? 0)%Z || Qeq_bool (inject_Z steps_completed) total_steps then
     s <- match earlyexit_thresholds a with
          | [] =>
              t1 <- value 1 (classerr v) ;;
              t5 <- value 5 (classerr v) ;;
              Py.ret (""%string,
                      [("Loss"%string, meter_mean (objective_loss v));
                       ("Top1"%string, t1); ("Top5"%string, t5)])
          | _ :: _ =>
              stats_dict <-
                Py.for_each (exit_progress a) (Py.range (num_exits a))
                  [("Test"%string, inject_Z validation_step)] ;;
              Py.ret ("Performance/Validation/"%string, stats_dict)
          end ;;
     Py.emit (LogProgress s epoch steps_completed total_steps (print_freq a))
   else Py.ret tt) ;;;
  Py.ret v.

(** What [_validate] reads of the data loader: [len(data_loader.sampler)],
    [data_loader.batch_size] and the minibatches it yields. *)
Record loader : Type := {
  sampler_len : Z;
  batch_size : Z;
  batches : list (inputs * tgt)
}.

(** [_validate]; the result comes with [args] as the call leaves it. *)
Definition _validate (data_loader : loader) (a : args) (epoch : Z)
  : M (Q * Q * Q * args) :=
  let a := match earlyexit_thresholds a with
           | [] => a
           | _ :: _ => new_exit_meters a
           end in
  let total_samples := sampler_len data_loader in
  total_steps <- Py.divide (inject_Z total_samples)
                   (inject_Z (batch_size data_loader)) ;;
  Py.emit (InfoSamples total_samples (batch_size data_loader)) ;;;
  v <- Py.for_each (validation_step total_steps epoch)
         (Py.enumerate (batches data_loader))
         {| objective_loss := []; classerr := []; confusion := [];
            the_args := a |} ;;
  let a := the_args v in
  match earlyexit_thresholds a with
  | [] =>
      t1 <- value 1 (classerr v) ;;
      _ <- value 5 (classerr v) ;;
      _ <- value 1 (classerr v) ;;
      t5 <- value 5 (classerr v) ;;
      Py.emit (InfoResult t1 t5 (meter_mean (objective_loss v))) ;;;
      (if display_confusion a then Py.emit (InfoConfusion (confusion v))
       else Py.ret tt) ;;;
      t1 <- value 1 (classerr v) ;;
      t5 <- value 5 (classerr v) ;;
      Py.ret (t1, t5, meter_mean (objective_loss v), a)
  | _ :: _ =>
      ' (total_top1, total_top5, losses_exits_stats) <-
          earlyexit_validate_stats a ;;
      l <- Py.getitem losses_exits_stats (num_exits a - 1) ;;
      Py.ret (total_top1, total_top5, l, a)
  end.

End Validate.

Arguments earlyexit_thresholds {tgt out} a.
Arguments earlyexit_lossweights {tgt out} a.
Arguments display_confusion {tgt out} a.
Arguments kd_policy {tgt out} a.
Arguments log_params_histograms {tgt out} a.
Arguments print_freq {tgt out} a.
Arguments num_exits {tgt out} a.
Arguments loss_exits {tgt out} a.
Arguments losses_exits {tgt out} a.
Arguments exiterrors {tgt out} a.
Arguments exit_taken {tgt out} a.
Arguments set_loss_exits {tgt out} v a.
Arguments set_losses_exits {tgt out} v a.
Arguments set_exiterrors {tgt out} v a.
Arguments set_exit_taken {tgt out} v a.
Arguments objective_loss {tgt out} v.
Arguments classerr {tgt out} v.
Arguments confusion {tgt out} v.
Arguments the_args {tgt out} v.
Arguments sampler_len {inputs tgt} l.
Arguments batch_size {inputs tgt} l.
Arguments batches {inputs tgt} l.

End Validate.

(* ------------------------------------------------------------------------- *)
(** ** Training for one epoch *)

Module Training.

Local Open Scope py_scope.

Definition OVERALL_LOSS_KEY : string := "Overall Loss".
Definition OBJECTIVE_LOSS_KEY : string := "Objective Loss".

Section Training.

Variable inputs : Type.
Variable tgt : Type.
Variable out : Type.
Variable output : Type.

(** What training changes: the network, the optimizer and the scheduler. *)
Variable world : Type.

(** [model(inputs)] and [args.kd_policy.forward(inputs)], in training mode *)
Variable forward : world -> inputs -> output * world.
Variable kd_forward : world -> inputs -> output * world.
(** [criterion(output, target)] and [criterion(output[exitnum], target)] *)
Variable criterion : output -> tgt -> Q.
Variable exit_criterion : out -> tgt -> Q.
(** [output.data] *)
Variable data : output -> out.
(** The list [output] is with early exits. *)
Variable exits : output -> list out.
(** [ClassErrorMeter.value(k)], None when it divides by zero, and
    [AverageValueMeter.mean] *)
Variable meter_value : Z -> Validate.meter tgt out -> option Q.
Variable meter_mean : list Q -> Q.
(** [model.train()] *)
Variable train_mode : world -> world.
(** The compression scheduler; [before_backward_pass] returns the overall
    loss and the loss components. *)
Variable on_minibatch_begin : world -> Z -> Z -> Z -> world.
Variable before_backward_pass :
  world -> Z -> Z -> Z -> Q -> (Q * list (string * Q)) * world.
Variable before_parameter_optimization : world -> Z -> Z -> Z -> world.
Variable on_minibatch_end : world -> Z -> Z -> Z -> world.
(** [optimizer.zero_grad()], [loss.backward()], [optimizer.step()] and
    [optimizer.param_groups[0]['lr']] *)
Variable zero_grad : world -> world.
Variable backward : world -> Q -> world.
Variable optimizer_step : world -> world.
Variable lr : world -> Q.
(** [batch_time.mean] after a step; the clock is not modelled. *)
Variable batch_time_mean : Z -> Q.

Local Notation "'args'" := (Validate.args tgt out).
Local Notation "'meter'" := (Validate.meter tgt out).

Inductive event : Type :=
| InfoEpoch (total_samples batch_size : Z)
| OnMinibatchBegin (epoch train_step steps_per_epoch : Z)
| ModelCall (train_step : Z) (distilled : bool)
| BeforeBackwardPass (epoch train_step steps_per_epoch : Z) (loss : Q)
| ZeroGrad (train_step : Z)
| Backward (train_step : Z) (loss : Q)
| BeforeParameterOptimization (epoch train_step steps_per_epoch : Z)
| OptimizerStep (train_step : Z)
| OnMinibatchEnd (epoch train_step steps_per_epoch : Z)
| LogTrainingProgress (s : Validate.stats) (params : bool)
                      (epoch steps_completed steps_per_epoch freq : Z).

Definition M : Type -> Type := @Py.M event.

(** [m.value(k)] of a ClassErrorMeter *)
Definition value (k : Z) (m : meter) : M Q :=
  match meter_value k m with
  | Some q => Py.ret q
  | None => Py.raise ZeroDivisionError
  end.

(** [args.exiterrors[exitnum].add(output[exitnum].data, target)] *)
Definition add_batch (o : output) (target : tgt) (a : args) (exitnum : Z)
  : M args :=
  m <- Py.getitem (Validate.exiterrors a) exitnum ;;
  x <- Py.getitem (exits o) exitnum ;;
  v <- Py.setitem (Validate.exiterrors a) exitnum (m ++ [(x, target)])%list ;;
  Py.ret (Validate.set_exiterrors v a).

(** Lines 679-682: an early exit. *)
Definition exit_loss (o : output) (target : tgt) (st : Q * Q * args)
    (exitnum : Z) : M (Q * Q * args) :=
  let '(loss, sum_lossweights, a) := st in
  w <- Py.getitem (Validate.earlyexit_lossweights a) exitnum ;;
  x <- Py.getitem (exits o) exitnum ;;
  let loss := (loss + w * exit_criterion x target)%Q in
  w <- Py.getitem (Validate.earlyexit_lossweights a) exitnum ;;
  let sum_lossweights := (sum_lossweights + w)%Q in
  a <- add_batch o target a exitnum ;;
  Py.ret (loss, sum_lossweights, a).

Definition earlyexit_loss (o : output) (target : tgt) (a : args) : M (Q * args) :=
  ' (loss, sum_lossweights, a) <-
      Py.for_each (exit_loss o target) (Py.range (Validate.num_exits a - 1))
        (0%Q, 0%Q, a) ;;
  x <- Py.getitem (exits o) (Validate.num_exits a - 1) ;;
  let loss := (loss + (1 - sum_lossweights) * exit_criterion x target)%Q in
  a <- add_batch o target a (Validate.num_exits a - 1) ;;
  Py.ret (loss, a).

(** [losses[name].add(x)] on the OrderedDict of the loss meters *)
Definition add_loss (name : string) (x : Q) (losses : Dict.dict (list Q))
  : M (Dict.dict (list Q)) :=
  match Dict.get name losses with
  | Some m => Py.ret (Dict.set name (m ++ [x])%list losses)
  | None => Py.raise (Raised (KeyError name))
  end.

(** Lines 453-456: a loss component gets a meter when it has none. *)
Definition add_component (losses : Dict.dict (list Q)) (lc : string * Q)
  : M (Dict.dict (list Q)) :=
  let losses := if Dict.mem (fst lc) losses then losses
                else Dict.set (fst lc) [] losses in
  add_loss (fst lc) (snd lc) losses.

(** The local variables of [train] that last from step to step, the network
    and [args]. *)
Record training : Type := {
  losses : Dict.dict (list Q);
  classerr : meter;
  acc_stats : list (Q * Q);
  the_world : world;
  the_args : args
}.

(** Lines 481-484: the accuracies of the exits for the log. *)
Definition exit_errs (a : args) (errs : Dict.dict Q) (exitnum : Z)
  : M (Dict.dict Q) :=
  m <- Py.getitem (Validate.exiterrors a) exitnum ;;
  v1 <- value 1 m ;;
  let errs := Dict.set ("Top1_exit" ++ Validate.str exitnum)%string v1 errs in
  m <- Py.getitem (Validate.exiterrors a) exitnum ;;
  v5 <- value 5 m ;;
  Py.ret (Dict.set ("Top5_exit" ++ Validate.str exitnum)%string v5 errs).

(** Lines 419-500: one minibatch. *)
Definition train_step (epoch steps_per_epoch : Z) (compression_scheduler : bool)
    (t : training) (step : Z * (inputs * tgt)) : M training :=
  let '(train_step, (inp, target)) := step in
  let a := the_args t in
  w <- (if compression_scheduler then
          Py.emit (OnMinibatchBegin epoch train_step steps_per_epoch) ;;;
          Py.ret (on_minibatch_begin (the_world t) epoch train_step steps_per_epoch)
        else Py.ret (the_world t)) ;;
  Py.emit (ModelCall train_step (Validate.kd_policy a)) ;;;
  let '(o, w) := if Validate.kd_policy a then kd_forward w inp
                 else forward w inp in
  ' (loss, classerr, acc_stats, a) <-
      match Validate.earlyexit_lossweights a with
      | [] =>
          let loss := criterion o target in
          let classerr := (classerr t ++ [(data o, target)])%list in
          v1 <- value 1 classerr ;;
          v5 <- value 5 classerr ;;
          Py.ret (loss, classerr, (acc_stats t ++ [(v1, v5)])%list, a)
      | _ :: _ =>
          ' (loss, a) <- earlyexit_loss o target a ;;
          Py.ret (loss, classerr t, acc_stats t, a)
      end ;;
  losses <- add_loss OBJECTIVE_LOSS_KEY loss (losses t) ;;
  ' (loss, losses, w) <-
      (if compression_scheduler then
         Py.emit (BeforeBackwardPass epoch train_step steps_per_epoch loss) ;;;
         let '(agg_loss, w) :=
           before_backward_pass w epoch train_step steps_per_epoch loss in
         let loss := fst agg_loss in
         losses <- add_loss OVERALL_LOSS_KEY loss losses ;;
         losses <- Py.for_each add_component (snd agg_loss) losses ;;
         Py.ret (loss, losses, w)
       else
         losses <- add_loss OVERALL_LOSS_KEY loss losses ;;
         Py.ret (loss, losses, w)) ;;
  Py.emit (ZeroGrad train_step) ;;;
  let w := zero_grad w in
  Py.emit (Backward train_step loss) ;;;
  let w := backward w loss in
  w <- (if compression_scheduler then
          Py.emit (BeforeParameterOptimization epoch train_step steps_per_epoch) ;;;
          Py.ret (before_parameter_optimization w epoch train_step steps_per_epoch)
        else Py.ret w) ;;
  Py.emit (OptimizerStep train_step) ;;;
  let w := optimizer_step w in
  w <- (if compression_scheduler then
          Py.emit (OnMinibatchEnd epoch train_step steps_per_epoch) ;;;
          Py.ret (on_minibatch_end w epoch train_step steps_per_epoch)
        else Py.ret w) ;;
  let steps_completed := (train_step + 1)%Z in
  r <- Py.modulo steps_completed (Validate.print_freq a) ;;
  (if (r =? 0)%Z || (steps_completed =? steps_per_epoch)%Z then
     errs <- match Validate.earlyexit_lossweights a with
             | [] =>
                 v1 <- value 1 classerr ;;
                 v5 <- value 5 classerr ;;
                 Py.ret [("Top1"%string, v1); ("Top5"%string, v5)]
             | _ :: _ =>
                 Py.for_each (exit_errs a) (Py.range (Validate.num_exits a)) []
             end ;;
     let stats_dict :=
       fold_left (fun d nm => Dict.set (fst nm) (meter_mean (snd nm)) d)
         losses [] in
     let stats_dict :=
       fold_left (fun d kv => Dict.set (fst kv) (snd kv) d) errs stats_dict in
     let stats_dict := Dict.set "LR" (lr w) stats_dict in
     let stats_dict := Dict.set "Time" (batch_time_mean train_step) stats_dict in
     Py.emit (LogTrainingProgress ("Performance/Training/"%string, stats_dict)
                (Validate.log_params_histograms a) epoch steps_completed
                steps_per_epoch (Validate.print_freq a))
   else Py.ret tt) ;;;
  Py.ret {| losses := losses; classerr := classerr; acc_stats := acc_stats;
            the_world := w; the_args := a |}.

(** [train]; the result comes with the network and [args] as the call
    leaves them. *)
Definition train (train_loader : Validate.loader inputs tgt) (w : world)
    (epoch : Z) (compression_scheduler : bool) (a : args)
  : M (list (Q * Q) * world * args) :=
  let losses := [(OVERALL_LOSS_KEY, []); (OBJECTIVE_LOSS_KEY, [])] in
  let a := match Validate.earlyexit_lossweights a with
           | [] => a
           | _ :: _ =>
               Validate.set_exiterrors
                 (fold_left (fun l _ => l ++ [[]])%list
                    (Py.range (Validate.num_exits a)) [])
                 a
           end in
  let total_samples := Validate.sampler_len train_loader in
  let batch_size := Validate.batch_size train_loader in
  q <- Py.divide (inject_Z total_samples) (inject_Z batch_size) ;;
  let steps_per_epoch := Qceiling q in
  Py.emit (InfoEpoch total_samples batch_size) ;;;
  let w := train_mode w in
  t <- Py.for_each (train_step epoch steps_per_epoch compression_scheduler)
         (Py.enumerate (Validate.batches train_loader))
         {| losses := losses; classerr := []; acc_stats := [];
            the_world := w; the_args := a |} ;;
  Py.ret (acc_stats t, the_world t, the_args t).

End Training.

Arguments losses {tgt out world} t.
Arguments classerr {tgt out world} t.
Arguments acc_stats {tgt out world} t.
Arguments the_world {tgt out world} t.
Arguments the_args {tgt out world} t.

End Training.

(* ------------------------------------------------------------------------- *)
(** ** Vocabulary for the early exits *)

Module ValidateSpec.
Import Validate.

Section Spec.
Variable tgt : Type.
Variable out : Type.
Variable output : Type.
Variable exits : output -> list out.
Variable size0 : tgt -> Z.
Variable sample_losses : out -> tgt -> list Q.
Variable torch_mean : list Q -> Q.
Variable sample_output : out -> Z -> out.
Variable sample_target : tgt -> Z -> tgt.
Variable meter_value : Z -> meter tgt out -> option Q.
Variable meter_mean : list Q -> Q.
Variable inputs : Type.
Variable model : inputs -> output.
Variable criterion : output -> tgt -> Q.
Variable data : output -> out.

Local Notation "'args'" := (Validate.args tgt out).

(** [l] with [v] at place [j]. *)
Definition upd {A} (j : nat) (v : A) (l : list A) : list A :=
  (firstn j l ++ v :: skipn (S j) l)%list.

(** [sum(l)] *)
Definition zsum (l : list Z) : Z := fold_right Z.add 0%Z l.

(** [args.exit_taken[e]], the meter [args.exiterrors[e]] and the number of
    samples counted so far. *)
Definition taken (a : args) (e : Z) : Z := nth (Z.to_nat e) (exit_taken a) 0%Z.
Definition added (a : args) (e : Z) : meter tgt out :=
  nth (Z.to_nat e) (exiterrors a) [].
Definition total_taken (a : args) : Z := zsum (exit_taken a).

(** The lists of [args] as lines 183-184 of main and 578-585 of [_validate]
    make them: one place for each exit, one threshold for each early exit. *)
Definition well_formed (a : args) : Prop :=
  (1 <= num_exits a)%Z /\
  length (earlyexit_thresholds a) = Z.to_nat (num_exits a - 1) /\
  length (loss_exits a) = Z.to_nat (num_exits a) /\
  length (losses_exits a) = Z.to_nat (num_exits a) /\
  length (exiterrors a) = Z.to_nat (num_exits a) /\
  length (exit_taken a) = Z.to_nat (num_exits a).

(** The network has an output for each exit, and the criterion gives a loss
    for each sample of the minibatch. *)
Definition shaped (n : Z) (o : output) (target : tgt) : Prop :=
  length (exits o) = Z.to_nat n /\
  forall x, In x (exits o) ->
            length (sample_losses x target) = Z.to_nat (size0 target).

(** The losses of the samples at exit [e], and that of sample [b]. *)
Definition losses_of (o : output) (target : tgt) (e : Z) : list Q :=
  match nth_error (exits o) (Z.to_nat e) with
  | Some x => sample_losses x target
  | None => []
  end.

Definition loss_of (o : output) (target : tgt) (e b : Z) : Q :=
  nth (Z.to_nat b) (losses_of o target e) 0%Q.

(** Whether the loss of sample [b] at exit [e] is under the threshold. *)
Definition under (a : args) (o : output) (target : tgt) (b e : Z) : bool :=
  Py.lt (loss_of o target e b) (nth (Z.to_nat e) (earlyexit_thresholds a) 0%Q).

(** The exit of a sample: the first early exit with its loss under the
    threshold, the last exit when there is none. *)
Definition chosen_exit (a : args) (o : output) (target : tgt) (b : Z) : Z :=
  match find (under a o target b) (Py.range (num_exits a - 1)) with
  | Some e => e
  | None => (num_exits a - 1)%Z
  end.

(** What the meter of exit [e] gets for sample [b]. *)
Definition sample_of (o : output) (target : tgt) (e b : Z) : meter tgt out :=
  match nth_error (exits o) (Z.to_nat e) with
  | Some x => [(sample_output x b, sample_target target b)]
  | None => []
  end.

(** [args] after the losses of exit [e] are recorded. *)
Definition filled (o : output) (target : tgt) (a : args) (e : Z) : args :=
  let l := losses_of o target e in
  set_losses_exits
    (upd (Z.to_nat e) (nth (Z.to_nat e) (losses_exits a) [] ++ [torch_mean l])%list
       (losses_exits a))
    (set_loss_exits (upd (Z.to_nat e) l (loss_exits a)) a).

(** [args] after sample [b] is counted at exit [e]. *)
Definition counted (o : output) (target : tgt) (a : args) (e b : Z) : args :=
  set_exit_taken (upd (Z.to_nat e) (taken a e + 1)%Z (exit_taken a))
    (set_exiterrors
       (upd (Z.to_nat e) (added a e ++ sample_of o target e b)%list (exiterrors a))
       a).

(** What a minibatch leaves as it is. *)
Definition same_exits (a a' : args) : Prop :=
  num_exits a' = num_exits a /\
  earlyexit_thresholds a' = earlyexit_thresholds a /\
  display_confusion a' = display_confusion a /\
  print_freq a' = print_freq a.

(** [args.loss_exits] holds the losses of the minibatch. *)
Definition recorded (o : output) (target : tgt) (a : args) : Prop :=
  forall e, (0 <= e < num_exits a)%Z ->
            nth (Z.to_nat e) (loss_exits a) [] = losses_of o target e.

(** [args] after a minibatch. *)
Definition after_batch (o : output) (target : tgt) (a : args) : args :=
  fold_left (fun a b => counted o target a (chosen_exit a o target b) b)
    (Py.range (size0 target))
    (fold_left (filled o target) (Py.range (num_exits a)) a).

(** The samples of a minibatch that leave at exit [e]. *)
Definition leaving (a : args) (o : output) (target : tgt) (e : Z) : list Z :=
  filter (fun b => (e =? chosen_exit a o target b)%Z) (Py.range (size0 target)).

(** What the meter of exit [e] reads: its top-[k] accuracy. *)
Definition reading (k : Z) (a : args) (e : Z) : Q :=
  match meter_value k (added a e) with
  | Some v => v
  | None => 0%Q
  end.

Definition reading_of (k : Z) (m : meter tgt out) : Q :=
  match meter_value k m with
  | Some v => v
  | None => 0%Q
  end.

(** The statistics after exit [e] is collected, lines 731-737. *)
Definition collected (a : args) (s : exit_stats) (e : Z) : exit_stats :=
  if truthy (taken a e) then
    {| top1k_stats :=
         upd (Z.to_nat e) (nth (Z.to_nat e) (top1k_stats s) 0 + reading 1 a e)%Q
           (top1k_stats s);
       top5k_stats :=
         upd (Z.to_nat e) (nth (Z.to_nat e) (top5k_stats s) 0 + reading 5 a e)%Q
           (top5k_stats s);
       losses_exits_stats :=
         upd (Z.to_nat e)
           (nth (Z.to_nat e) (losses_exits_stats s) 0
            + meter_mean (nth (Z.to_nat e) (losses_exits a) []))%Q
           (losses_exits_stats s);
       sum_exit_stats := (sum_exit_stats s + taken a e)%Z |}
  else s.

(** The accuracy of exit [e] as [earlyexit_validate_stats] has it: that of
    its meter if the exit was taken, 0 otherwise. *)
Definition accuracy (k : Z) (a : args) (e : Z) : Q :=
  if truthy (taken a e) then (0 + reading k a e)%Q else 0%Q.

(** The lists of the statistics have a place for each exit. *)
Definition sized (n : Z) (s : exit_stats) : Prop :=
  length (top1k_stats s) = Z.to_nat n /\
  length (top5k_stats s) = Z.to_nat n /\
  length (losses_exits_stats s) = Z.to_nat n.

(** The meter of every exit taken has a value, for top 1 and top 5. *)
Definition readable (a : args) : Prop :=
  forall e k, (0 <= e < num_exits a)%Z -> taken a e <> 0%Z -> In k [1; 5]%Z ->
              meter_value k (added a e) <> None.

(** The share of the samples that left at exit [e]. *)
Definition weight (a : args) (s : exit_stats) (e : Z) : Q :=
  (inject_Z (taken a e) / inject_Z (sum_exit_stats s))%Q.

(** The totals after exit [e] is added, lines 745-746. *)
Definition totalled (a : args) (s : exit_stats) (totals : Q * Q) (e : Z) : Q * Q :=
  ((fst totals + nth (Z.to_nat e) (top1k_stats s) 0 * weight a s e)%Q,
   (snd totals + nth (Z.to_nat e) (top5k_stats s) 0 * weight a s e)%Q).

(** [sum(l)] for floats. *)
Definition qsum (l : list Q) : Q := fold_right Qplus 0%Q l.

(** The statistics the first loop of [earlyexit_validate_stats] starts from
    and those it ends with. *)
Definition no_stats (a : args) : exit_stats :=
  let zeros := repeat 0%Q (Z.to_nat (num_exits a)) in
  {| top1k_stats := zeros; top5k_stats := zeros; losses_exits_stats := zeros;
     sum_exit_stats := 0 |}.

Definition all_stats (a : args) : exit_stats :=
  fold_left (collected a) (Py.range (num_exits a)) (no_stats a).

(** [args] after the minibatches of a data loader. *)
Definition after_batches (l : list (inputs * tgt)) (a : args) : args :=
  fold_left (fun a b => after_batch (model (fst b)) (snd b) a) l a.

(** The number of samples in the minibatches. *)
Definition samples (l : list (inputs * tgt)) : Z :=
  zsum (map (fun b => Z.max 0 (size0 (snd b))) l).

(** The counter of every exit is the number of samples in its meter. *)
Definition consistent (a : args) : Prop :=
  forall e, (0 <= e)%Z -> taken a e = Z.of_nat (length (added a e)).

(** The local meters after a minibatch with early exits. *)
Definition stepped (v : validation tgt out) (b : Z * (inputs * tgt))
  : validation tgt out :=
  {| objective_loss := objective_loss v; classerr := classerr v;
     confusion := confusion v;
     the_args := after_batch (model (fst (snd b))) (snd (snd b)) (the_args v) |}.

(** Whether the progress is logged after [s] steps, line 621. *)
Definition due (freq : Z) (total_steps : Q) (s : Z) : bool :=
  ((s mod freq =? 0)%Z || Qeq_bool (inject_Z s) total_steps)%bool.

(** The steps after which [distiller.log_training_progress] was called. *)
Definition logged_steps (tr : list (event tgt out)) : list Z :=
  flat_map (fun ev => match ev with
                      | LogProgress _ _ _ _ s _ _ => [s]
                      | _ => []
                      end) tr.

(** What the meter of a validation without exits holds in the end, and the
    losses. *)
Definition all_added (l : list (inputs * tgt)) : meter tgt out :=
  map (fun b => (data (model (fst b)), snd b)) l.

Definition all_losses (l : list (inputs * tgt)) : list Q :=
  map (fun b => criterion (model (fst b)) (snd b)) l.

(** The local meters after a minibatch without exits. *)
Definition plainly_stepped (v : validation tgt out) (b : Z * (inputs * tgt))
  : validation tgt out :=
  let o := model (fst (snd b)) in
  let target := snd (snd b) in
  {| objective_loss := (objective_loss v ++ [criterion o target])%list;
     classerr := (classerr v ++ [(data o, target)])%list;
     confusion := if display_confusion (the_args v)
                  then (confusion v ++ [(data o, target)])%list
                  else confusion v;
     the_args := the_args v |}.

End Spec.

Arguments upd {A} j v l.
Arguments consistent {tgt out} a.
Arguments logged_steps {tgt out} tr.
Arguments taken {tgt out} a e.
Arguments added {tgt out} a e.
Arguments total_taken {tgt out} a.
Arguments well_formed {tgt out} a.
Arguments same_exits {tgt out} a a'.

End ValidateSpec.

(* ------------------------------------------------------------------------- *)
(** ** Vocabulary for training *)

Module TrainingSpec.
Import Training.

Section Spec.
Variable inputs : Type.
Variable tgt : Type.
Variable out : Type.
Variable output : Type.
Variable world : Type.
Variable exit_criterion : out -> tgt -> Q.
Variable exits : output -> list out.
Variable meter_value : Z -> Validate.meter tgt out -> option Q.

Local Notation "'args'" := (Validate.args tgt out).

(** The weight and the loss of exit [e]. *)
Definition weight_of (a : args) (e : Z) : Q :=
  nth (Z.to_nat e) (Validate.earlyexit_lossweights a) 0%Q.

Definition exit_loss_of (o : output) (target : tgt) (e : Z) : Q :=
  match nth_error (exits o) (Z.to_nat e) with
  | Some x => exit_criterion x target
  | None => 0%Q
  end.

(** [args] after the meter of exit [e] got the minibatch. *)
Definition batch_added (o : output) (target : tgt) (a : args) (e : Z) : args :=
  Validate.set_exiterrors
    (ValidateSpec.upd (Z.to_nat e)
       (ValidateSpec.added a e
        ++ match nth_error (exits o) (Z.to_nat e) with
           | Some x => [(x, target)]
           | None => []
           end)%list
       (Validate.exiterrors a))
    a.

(** The loop of [earlyexit_loss] over the early exits. *)
Definition exit_lossed (o : output) (target : tgt) (st : Q * Q * args) (e : Z)
  : Q * Q * args :=
  ((fst (fst st) + weight_of (snd st) e * exit_loss_of o target e)%Q,
   (snd (fst st) + weight_of (snd st) e)%Q,
   batch_added o target (snd st) e).

(** The sums of [earlyexit_loss]: of the weighted losses and of the weights
    of the early exits. *)
Definition weighted_losses (o : output) (target : tgt) (a : args) : Q :=
  ValidateSpec.qsum
    (map (fun e => weight_of a e * exit_loss_of o target e)%Q
       (Py.range (Validate.num_exits a - 1))).

Definition weights (a : args) : Q :=
  ValidateSpec.qsum (map (weight_of a) (Py.range (Validate.num_exits a - 1))).

(** The lists [earlyexit_loss] reads have their shape: a weight for each
    early exit, a meter for each exit. *)
Definition weighted (a : args) : Prop :=
  (1 <= Validate.num_exits a)%Z /\
  (Z.to_nat (Validate.num_exits a - 1)
   <= length (Validate.earlyexit_lossweights a))%nat /\
  length (Validate.exiterrors a) = Z.to_nat (Validate.num_exits a).

(** What holds of the local variables of [train] after [n] minibatches,
    for [args] as they were when the loop started: the two loss meters are
    there; without early exits [args] is as it was and there is an accuracy
    for each minibatch; with them only the meters of the exits have changed,
    each holds [n] minibatches, and there is no accuracy. *)
Definition in_step (a0 : args) (n : nat) (t : training tgt out world) : Prop :=
  Dict.get OVERALL_LOSS_KEY (losses t) <> None /\
  Dict.get OBJECTIVE_LOSS_KEY (losses t) <> None /\
  match Validate.earlyexit_lossweights a0 with
  | [] =>
      the_args t = a0 /\ length (acc_stats t) = n /\ length (classerr t) = n
  | _ :: _ =>
      the_args t = Validate.set_exiterrors (Validate.exiterrors (the_args t)) a0 /\
      acc_stats t = [] /\
      length (Validate.exiterrors (the_args t)) = Z.to_nat (Validate.num_exits a0) /\
      forall e, (0 <= e < Validate.num_exits a0)%Z ->
                length (ValidateSpec.added (the_args t) e) = n
  end.

(** [args] and the network fit the mode of [train]: without weights there are
    no early exits; with them there is a weight for each early exit and the
    network gives an output for each exit. *)
Definition fit (forward kd_forward : world -> inputs -> output * world)
    (a : args) : Prop :=
  Validate.earlyexit_lossweights a = [] \/
  ((1 <= Validate.num_exits a)%Z /\
   (Z.to_nat (Validate.num_exits a - 1)
    <= length (Validate.earlyexit_lossweights a))%nat /\
   forall w x,
     length (exits (fst (forward w x))) = Z.to_nat (Validate.num_exits a) /\
     length (exits (fst (kd_forward w x))) = Z.to_nat (Validate.num_exits a)).

(** Whether the progress is logged after [s] steps, line 475. *)
Definition due (freq steps_per_epoch s : Z) : bool :=
  ((s mod freq =? 0) || (s =? steps_per_epoch))%Z.

(** The places of the events of a minibatch; a log has none. *)
Definition place (ev : event) : option (Z * nat) :=
  match ev with
  | OnMinibatchBegin _ i _ => Some (i, 0%nat)
  | ModelCall i _ => Some (i, 1%nat)
  | BeforeBackwardPass _ i _ _ => Some (i, 2%nat)
  | ZeroGrad i => Some (i, 3%nat)
  | Backward i _ => Some (i, 4%nat)
  | BeforeParameterOptimization _ i _ => Some (i, 5%nat)
  | OptimizerStep i => Some (i, 6%nat)
  | OnMinibatchEnd _ i _ => Some (i, 7%nat)
  | InfoEpoch _ _ => None
  | LogTrainingProgress _ _ _ _ _ _ => None
  end.

Definition places (tr : list event) : list (Z * nat) :=
  flat_map (fun ev => match place ev with Some p => [p] | None => [] end) tr.

(** The places of a minibatch, with and without a scheduler. *)
Definition step_places (compression_scheduler : bool) (i : Z) : list (Z * nat) :=
  map (pair i)
    (if compression_scheduler then [0; 1; 2; 3; 4; 5; 6; 7] else [1; 3; 4; 6])%nat.

(** The steps after which the progress was logged. *)
Definition logged_steps (tr : list event) : list Z :=
  flat_map (fun ev => match ev with
                      | LogTrainingProgress _ _ _ s _ _ => [s]
                      | _ => []
                      end) tr.

End Spec.

End TrainingSpec.

(* ------------------------------------------------------------------------- *)
(** ** A sample validation *)

Module ValidateRuns.

Local Open Scope Q_scope.

(** The outputs of an exit: for each sample its loss and the class it is
    given; the targets: the class of each sample. *)
Definition out : Type := list (Q * Z).
Definition tgt : Type := list Z.
Definition output : Type := list out.

Definition model (inp : output) : output := inp.
Definition data (o : output) : out := hd [] o.
Definition exits (o : output) : list out := o.
Definition size0 (target : tgt) : Z := Z.of_nat (length target).
Definition sample_losses (x : out) (_ : tgt) : list Q := map fst x.
Definition criterion (o : output) (target : tgt) : Q :=
  QTensor.mean (sample_losses (data o) target).
Definition sample_output (x : out) (b : Z) : out := [nth (Z.to_nat b) x (0, 0%Z)].
Definition sample_target (target : tgt) (b : Z) : tgt := [nth (Z.to_nat b) target 0%Z].

(** The share, in percent, of the samples whose class is less than [k] away
    from the target. *)
Definition meter_value (k : Z) (m : list (out * tgt)) : option Q :=
  let pairs := flat_map (fun p => combine (map snd (fst p)) (snd p)) m in
  match m with
  | [] => None
  | _ => Some (Qred (100 * inject_Z (Z.of_nat (length
                 (filter (fun p => (Z.abs (fst p - snd p) <? k)%Z) pairs)))
               / inject_Z (Z.of_nat (length pairs))))
  end.

Definition args0 (thresholds : list Q) : Validate.args tgt out :=
  {| Validate.earlyexit_thresholds := thresholds;
     Validate.earlyexit_lossweights := [];
     Validate.display_confusion := false;
     Validate.print_freq := 10;
     Validate.kd_policy := false;
     Validate.log_params_histograms := false;
     Validate.num_exits := Z.of_nat (length thresholds) + 1;
     Validate.loss_exits := repeat [] (S (length thresholds));
     Validate.losses_exits := [];
     Validate.exiterrors := [];
     Validate.exit_taken := [] |}.

(** [args] as [_validate] makes them for one threshold. *)
Definition ready_args : Validate.args tgt out :=
  Validate.new_exit_meters tgt out (args0 [1 # 2]).

(** [args] after a minibatch of three samples, one of which left early. *)
Definition counted_args : Validate.args tgt out :=
  {| Validate.earlyexit_thresholds := [1 # 2];
     Validate.earlyexit_lossweights := [];
     Validate.display_confusion := false;
     Validate.print_freq := 10;
     Validate.kd_policy := false;
     Validate.log_params_histograms := false;
     Validate.num_exits := 2;
     Validate.loss_exits := [[2; 1 # 4; 1]; [1 # 2; 1 # 2; 1 # 8]];
     Validate.losses_exits := [[13 # 12]; [3 # 8]];
     Validate.exiterrors :=
       [[([(1 # 4, 2%Z)], [2%Z])];
        [([(1 # 2, 0%Z)], [0%Z]); ([(1 # 8, 1%Z)], [1%Z])]];
     Validate.exit_taken := [1%Z; 2%Z] |}.

(** Two exits; three samples, the second of which leaves early. *)
Definition batch : output * tgt :=
  ([[(2, 1%Z); (1 # 4, 2%Z); (1, 0%Z)];
    [(1 # 2, 0%Z); (1 # 2, 2%Z); (1 # 8, 1%Z)]],
   [0%Z; 2%Z; 1%Z]).

(** A last minibatch with one sample. *)
Definition short_batch : output * tgt :=
  ([[(1 # 4, 0%Z)]; [(1, 0%Z)]], [0%Z]).

Definition data_loader (l : list (output * tgt)) : Validate.loader output tgt :=
  {| Validate.sampler_len := Z.of_nat (length (flat_map snd l));
     Validate.batch_size := 3;
     Validate.batches := l |}.

Definition earlyexit_validate_loss :=
  Validate.earlyexit_validate_loss tgt out output exits size0 sample_losses
    QTensor.mean sample_output sample_target.

Definition earlyexit_validate_stats :=
  Validate.earlyexit_validate_stats tgt out meter_value QTensor.mean.

Definition _validate :=
  Validate._validate output tgt out output model criterion data exits size0
    sample_losses QTensor.mean sample_output sample_target meter_value
    QTensor.mean.

End ValidateRuns.

(* ------------------------------------------------------------------------- *)
(** ** A sample training epoch *)

Module EpochRuns.
Import ValidateRuns.

Local Open Scope Q_scope.

(** A network with two exits that gives what its input says; the world
    counts the steps of the optimizer. *)
Definition inputs : Type := (out * out)%type.
Definition world : Type := nat.

Definition forward (w : world) (inp : inputs) : output * world :=
  ([fst inp; snd inp], w).
Definition exit_criterion (x : out) (target : tgt) : Q :=
  QTensor.mean (sample_losses x target).
Definition train_mode (w : world) : world := w.
Definition on_minibatch (w : world) (_ _ _ : Z) : world := w.
Definition before_backward_pass (w : world) (_ _ _ : Z) (loss : Q)
  : (Q * list (string * Q)) * world :=
  ((loss + 1, [("reg"%string, 1)]), w).
Definition zero_grad (w : world) : world := w.
Definition backward (w : world) (_ : Q) : world := w.
Definition optimizer_step (w : world) : world := S w.
Definition lr (_ : world) : Q := 1 # 10.
Definition batch_time_mean (_ : Z) : Q := 1.

(** [args] with a weight for the early exit. *)
Definition args1 : Validate.args tgt out :=
  {| Validate.earlyexit_thresholds := [];
     Validate.earlyexit_lossweights := [1 # 4];
     Validate.display_confusion := false;
     Validate.print_freq := 10;
     Validate.kd_policy := false;
     Validate.log_params_histograms := false;
     Validate.num_exits := 2;
     Validate.loss_exits := [];
     Validate.losses_exits := [];
     Validate.exiterrors := [];
     Validate.exit_taken := [] |}.

(** A minibatch of three samples and a last one of one sample. *)
Definition batch : inputs * tgt :=
  (([(2, 1%Z); (1 # 4, 2%Z); (1, 0%Z)],
    [(1 # 2, 0%Z); (1 # 2, 2%Z); (1 # 8, 1%Z)]),
   [0%Z; 2%Z; 1%Z]).

Definition short_batch : inputs * tgt :=
  (([(1 # 4, 0%Z)], [(1, 0%Z)]), [0%Z]).

Definition train_loader (l : list (inputs * tgt)) : Validate.loader inputs tgt :=
  {| Validate.sampler_len := Z.of_nat (length (flat_map snd l));
     Validate.batch_size := 3;
     Validate.batches := l |}.

Definition train :=
  Training.train inputs tgt out output world forward forward criterion
    exit_criterion data exits meter_value QTensor.mean train_mode on_minibatch
    before_backward_pass on_minibatch on_minibatch zero_grad backward
    optimizer_step lr batch_time_mean.

End EpochRuns.

(* ========================================================================= *)
(** * Properties *)

(* ------------------------------------------------------------------------- *)
(** ** Strings *)

Module PyStrFacts.
Import PyStr.

Lemma cut_last_join (s a b : string) :
  cut_last s = Some (a, b) -> s = a ++ String dot b.
Proof.
  revert a b. induction s as [|c r IH]; intros a b; simpl; [discriminate|].
  destruct (cut_last r) as [[a' b']|].
  - intros [= <- <-]. simpl. now rewrite (IH a' b').
  - destruct (Ascii.eqb_spec c dot) as [->|]; [|discriminate].
    now intros [= <- <-].
Qed.

Lemma cut_last_app (a b : string) :
  cut_last b = None -> cut_last (a ++ String dot b) = Some (a, b).
Proof.
  intros Hb. induction a as [|c r IH]; simpl.
  - now rewrite Hb.
  - now rewrite IH.
Qed.

Lemma components_cut_last (s : string) :
  match cut_last s with
  | None => components s = [s]
  | Some (_, b) => exists h t, components s = h :: t /\ t <> [] /\ last t "" = b
  end.
Proof.
  induction s as [|c r IH]; simpl; [reflexivity|].
  destruct (cut_last r) as [[a b]|].
  - destruct IH as (h & t & -> & Ht & Hl).
    destruct (Ascii.eqb c dot).
    + exists "", (h :: t). repeat split; [discriminate|].
      destruct t; [contradiction|exact Hl].
    + exists (String c h), t. now repeat split.
  - rewrite IH. destruct (Ascii.eqb c dot).
    + exists "", [r]. repeat split. discriminate.
    + reflexivity.
Qed.

Lemma last_component_cut (s a b : string) :
  cut_last s = Some (a, b) -> last_component s = b.
Proof.
  intros H. unfold last_component.
  pose proof (components_cut_last s) as C. rewrite H in C.
  destruct C as (h & t & -> & Ht & Hl).
  destruct t; [contradiction|exact Hl].
Qed.

Lemma last_component_whole (s : string) :
  cut_last s = None -> last_component s = s.
Proof.
  intros H. unfold last_component.
  pose proof (components_cut_last s) as C. rewrite H in C. now rewrite C.
Qed.

Lemma first_component_cut (s : string) :
  first_component s =
  match cut_first s with Some (a, _) => a | None => s end.
Proof.
  unfold first_component. induction s as [|c r IH]; simpl; [reflexivity|].
  destruct (Ascii.eqb c dot); [reflexivity|].
  destruct (components r) as [|h t]; simpl in *;
    destruct (cut_first r) as [[a b]|]; now subst.
Qed.


Lemma mem_true (x : string) (l : list string) : mem x l = true <-> In x l.
Proof.
  unfold mem. rewrite existsb_exists. split.
  - intros (y & Hy & E). apply String.eqb_eq in E. now subst.
  - intros H. exists x. split; [exact H|apply String.eqb_refl].
Qed.

Lemma mem_false (x : string) (l : list string) : mem x l = false <-> ~ In x l.
Proof.
  rewrite <- mem_true. destruct (mem x l); split; intros; congruence.
Qed.

End PyStrFacts.

(* ------------------------------------------------------------------------- *)
(** ** Dictionaries *)

Module DictFacts.

Section Facts.
Context {V : Type}.
Implicit Types (d : Dict.dict V) (k : string) (v : V).

Lemma get_set_same k v d : Dict.get k (Dict.set k v d) = Some v.
Proof.
  induction d as [|[k' v'] r IH]; simpl.
  - now rewrite String.eqb_refl.
  - destruct (String.eqb k k') eqn:E; simpl; rewrite ?String.eqb_refl, ?E; auto.
Qed.

Lemma get_set_other k k' v d :
  k' <> k -> Dict.get k' (Dict.set k v d) = Dict.get k' d.
Proof.
  intros N. induction d as [|[k0 v0] r IH]; simpl.
  - destruct (String.eqb_spec k' k); congruence.
  - destruct (String.eqb_spec k k0) as [->|]; simpl.
    + destruct (String.eqb_spec k' k0); congruence.
    + now rewrite IH.
Qed.

Lemma get_remove_same k d : Dict.get k (Dict.remove k d) = None.
Proof.
  induction d as [|[k0 v0] r IH]; simpl; [reflexivity|].
  destruct (String.eqb k k0) eqn:E; simpl; [exact IH|now rewrite E].
Qed.

Lemma get_remove_other k k' d :
  k' <> k -> Dict.get k' (Dict.remove k d) = Dict.get k' d.
Proof.
  intros N. induction d as [|[k0 v0] r IH]; simpl; [reflexivity|].
  destruct (String.eqb_spec k k0) as [->|]; simpl.
  - destruct (String.eqb_spec k' k0); congruence.
  - now rewrite IH.
Qed.


Lemma mem_get k d : Dict.mem k d = true <-> Dict.get k d <> None.
Proof. unfold Dict.mem. destruct (Dict.get k d); split; congruence. Qed.

Lemma mem_false_get k d : Dict.mem k d = false <-> Dict.get k d = None.
Proof. unfold Dict.mem. destruct (Dict.get k d); split; congruence. Qed.

Lemma in_keys_get k d : In k (Dict.keys d) <-> Dict.get k d <> None.
Proof.
  induction d as [|[k0 v0] r IH]; simpl.
  - split; [contradiction|congruence].
  - destruct (String.eqb_spec k k0) as [->|N].
    + split; [discriminate|auto].
    + rewrite <- IH. split; [intros [E|]; congruence|auto].
Qed.


End Facts.

End DictFacts.

(* ------------------------------------------------------------------------- *)
(** ** The monad *)

Module RunFacts.

Section Facts.
Context {E : Type}.

Lemma bind_ok {A B} (m : @Run.M E A) (f : A -> Run.M B) (b : B) :
  Run.outcome (Run.bind m f) = inr b ->
  exists a, Run.outcome m = inr a /\ Run.outcome (f a) = inr b.
Proof.
  destruct m as [tr [e|a]]; simpl; [discriminate|].
  destruct (f a) as [tr' r] eqn:F. simpl. intros ->. exists a. now rewrite F.
Qed.

Lemma bind_outcome {A B} (m : @Run.M E A) (f : A -> Run.M B) (a : A) :
  Run.outcome m = inr a -> Run.outcome (Run.bind m f) = Run.outcome (f a).
Proof.
  destruct m as [tr [e|a']]; simpl; [discriminate|]. intros [= ->].
  now destruct (f a).
Qed.

Lemma bind_fail {A B} (m : @Run.M E A) (f : A -> Run.M B) (e : exn) :
  Run.outcome m = inl e -> Run.outcome (Run.bind m f) = inl e.
Proof. destruct m as [tr [e'|a]]; simpl; congruence. Qed.

Lemma bind_trace {A B} (m : @Run.M E A) (f : A -> Run.M B) (a : A) :
  Run.outcome m = inr a ->
  Run.trace (Run.bind m f) = (Run.trace m ++ Run.trace (f a))%list.
Proof.
  destruct m as [tr [e|a']]; simpl; [discriminate|]. intros [= ->].
  now destruct (f a).
Qed.

Lemma bind_trace_fail {A B} (m : @Run.M E A) (f : A -> Run.M B) (e : exn) :
  Run.outcome m = inl e -> Run.trace (Run.bind m f) = Run.trace m.
Proof. destruct m as [tr [e'|a]]; simpl; congruence. Qed.

(** A loop that completes went through a completed step for each element. *)
Lemma for_each_cons {S X} (body : S -> X -> @Run.M E S) x l st st' :
  Run.outcome (Run.for_each body (x :: l) st) = inr st' ->
  exists st1, Run.outcome (body st x) = inr st1 /\
              Run.outcome (Run.for_each body l st1) = inr st'.
Proof. simpl. apply bind_ok. Qed.

(** Loop invariants. *)
Lemma for_each_invariant {S X} (body : S -> X -> @Run.M E S) (P : S -> Prop) l :
  (forall st x st1, In x l -> P st -> Run.outcome (body st x) = inr st1 -> P st1) ->
  forall st st', P st -> Run.outcome (Run.for_each body l st) = inr st' -> P st'.
Proof.
  induction l as [|x r IH]; intros Hstep st st' HP H.
  - simpl in H. now injection H as <-.
  - apply for_each_cons in H as (st1 & H1 & H2).
    apply (IH (fun s y s1 Hy => Hstep s y s1 (or_intror Hy)) st1); [|exact H2].
    apply (Hstep st x); simpl; auto.
Qed.

End Facts.

End RunFacts.

(* ------------------------------------------------------------------------- *)
(** ** The converter: what one completed step of the loop does *)

Module StepFacts.
Import Ai84ize Ai84izeSpec.

Section Facts.
Context {L : TensorLib}.
Variable WEIGHT_BITS : Z.
Variable pow2_round : tensor -> Z -> tensor.

Local Notation "'step'" := (convert_key WEIGHT_BITS pow2_round).
Local Notation "'wb'" := (["weight"; "bias"]).
Local Notation "'step_ok'" := (step_ok WEIGHT_BITS).
Local Notation "'bits_of'" := (bits_of WEIGHT_BITS).
Local Notation "'zero_points'" := (["w_zero_point"; "b_zero_point"]).

Lemma unpack2_rsplit (s a b : string) :
  Run.outcome (unpack2 (PyStr.rsplit s)) = inr (a, b) ->
  PyStr.cut_last s = Some (a, b).
Proof.
  unfold PyStr.rsplit. destruct (PyStr.cut_last s) as [[x y]|]; simpl.
  - now intros [= -> ->].
  - discriminate.
Qed.

Lemma unpack2_split (s a b : string) :
  Run.outcome (unpack2 (PyStr.split s)) = inr (a, b) ->
  PyStr.cut_first s = Some (a, b).
Proof.
  unfold PyStr.split. destruct (PyStr.cut_first s) as [[x y]|]; simpl.
  - now intros [= -> ->].
  - discriminate.
Qed.

Lemma getitem_ok {V} (k : string) (d : Dict.dict V) (v : V) :
  Run.outcome (getitem k d) = inr v -> Dict.get k d = Some v.
Proof. unfold getitem. destruct (Dict.get k d); simpl; congruence. Qed.

Lemma delitem_ok {V} (k : string) (d d' : Dict.dict V) :
  Run.outcome (delitem k d) = inr d' ->
  Dict.mem k d = true /\ d' = Dict.remove k d.
Proof.
  unfold delitem, Dict.del. destruct (Dict.mem k d); simpl; [|discriminate].
  now intros [= <-].
Qed.

Lemma ret_ok {A} (x y : A) : Run.outcome (Run.ret x : M A) = inr y -> x = y.
Proof. simpl. congruence. Qed.

Ltac next H x Hx := apply RunFacts.bind_ok in H as (x & Hx & H).

Lemma convert_float_ok a st k op par st' :
  PyStr.cut_last k = Some (op, par) ->
  PyStr.mem par wb = true ->
  quantized a = false ->
  Run.outcome (convert_float WEIGHT_BITS a st k) = inr st' ->
  step_ok a st k st'.
Proof.
  intros Hk Hp Hq H. unfold convert_float in H.
  next H mr Hs. destruct mr as [module rest]. apply unpack2_split in Hs.
  next H t Ht. apply getitem_ok in Ht.
  next H sat Hsat. next H u Hu. apply ret_ok in H. subst st'.
  assert (E : (if negb (String.eqb module "fc") then WEIGHT_BITS else FC_CLAMP_BITS)
              = bits_of module)
    by (unfold Ai84izeSpec.bits_of; now destruct (String.eqb module "fc")).
  rewrite E. eapply ok_float; eauto.
Qed.

Lemma convert_quantized_ok a st k op par st' :
  PyStr.cut_last k = Some (op, par) ->
  PyStr.mem par wb = true ->
  quantized a = true ->
  Run.outcome (convert_quantized WEIGHT_BITS pow2_round st k op par) = inr st' ->
  step_ok a st k st'.
Proof.
  intros Hk Hp Hq H. unfold convert_quantized in H.
  next H ms Hs. destruct ms as [module s]. apply unpack2_rsplit in Hs.
  destruct (PyStr.mem s ["wrapped_module"]) eqn:Ew.
  - apply PyStrFacts.mem_true in Ew. destruct Ew as [<-|[]].
    next H w Hw. apply getitem_ok in Hw.
    destruct (String.eqb module "fc") eqn:Efc; simpl in H;
      next H fp Hfp; apply getitem_ok in Hfp;
      rewrite ?Efc in H; simpl in H;
      next H d1 H1; apply delitem_ok in H1 as [_ ->];
      next H d2 H2; apply delitem_ok in H2 as [_ ->];
      apply ret_ok in H; subst st'.
    + pose proof (ok_wrapped WEIGHT_BITS a st k op par module) as R.
      unfold Ai84izeSpec.bits_of, scale_name in R. rewrite Efc in R.
      eapply R; eauto.
    + pose proof (ok_wrapped WEIGHT_BITS a st k op par module) as R.
      unfold Ai84izeSpec.bits_of, scale_name in R. rewrite Efc in R.
      eapply R; eauto.
  - apply ret_ok in H. subst st'.
    eapply ok_unwrapped; eauto.
    intros ->. now rewrite (proj2 (PyStrFacts.mem_true _ _)) in Ew by (simpl; auto).
Qed.

(** Every completed step has one of the shapes of [step_ok]. *)
Lemma convert_key_ok a st k st' :
  Run.outcome (step a st k) = inr st' -> step_ok a st k st'.
Proof.
  intros H. unfold convert_key in H.
  next H p Hs. destruct p as [op par]. apply unpack2_rsplit in Hs.
  destruct (PyStr.mem par zero_points) eqn:Ez.
  - next H t Ht. apply getitem_ok in Ht.
    destruct (Nat.eqb (nonzero_numel t) 0) eqn:En; simpl in H; [|discriminate].
    apply Nat.eqb_eq in En.
    next H d Hd. apply delitem_ok in Hd as [Hm ->]. apply ret_ok in H. subst st'.
    eapply ok_zero_point; eauto.
  - destruct (PyStr.mem par wb) eqn:Ew.
    + destruct (quantized a) eqn:Eq; simpl in H.
      * eapply convert_quantized_ok; eauto.
      * eapply convert_float_ok; eauto.
    + destruct (PyStr.mem par ["base_b_q"]) eqn:Eb.
      * apply PyStrFacts.mem_true in Eb. destruct Eb as [<-|[]].
        next H d Hd. apply delitem_ok in Hd as [Hm ->]. apply ret_ok in H. subst st'.
        eapply ok_base_b_q; eauto.
      * apply ret_ok in H. subst st'. eapply ok_other; eauto.
        apply PyStrFacts.mem_false in Ez, Ew, Eb. simpl in *. tauto.
Qed.

End Facts.

End StepFacts.

(* ------------------------------------------------------------------------- *)
(** ** The converter: the loop as a whole *)

Module LoopFacts.
Import Ai84ize Ai84izeSpec.

Section Facts.
Context {L : TensorLib}.
Variable WEIGHT_BITS : Z.
Variable pow2_round : tensor -> Z -> tensor.

Local Notation "'step'" := (convert_key WEIGHT_BITS pow2_round).
Local Notation "'step_ok'" := (step_ok WEIGHT_BITS).
Local Notation "'bits_of'" := (bits_of WEIGHT_BITS).
Local Notation "'wb'" := (["weight"; "bias"]).

Lemma loop_invariant a (P : loop_state -> Prop) l :
  (forall st x st1, In x l -> P st -> step_ok a st x st1 -> P st1) ->
  forall st st', P st -> Run.outcome (Run.for_each (step a) l st) = inr st' -> P st'.
Proof.
  intros Hstep. apply RunFacts.for_each_invariant.
  intros st x st1 Hx HP H. apply (Hstep st x st1 Hx HP).
  now apply (StepFacts.convert_key_ok WEIGHT_BITS pow2_round).
Qed.

(** The key a step writes ends in 'weight' or 'bias'. *)
Lemma cut_last_written module par :
  In par wb -> PyStr.cut_last (module ++ "." ++ par) = Some (module, par).
Proof.
  intros [<-|[<-|[]]]; apply PyStrFacts.cut_last_app; reflexivity.
Qed.

Lemma last_component_written module par :
  In par wb -> PyStr.last_component (module ++ "." ++ par) = par.
Proof.
  intros H. eapply PyStrFacts.last_component_cut. now apply cut_last_written.
Qed.

Lemma cut_last_scale module par :
  In par wb ->
  PyStr.cut_last (scale_name module par)
  = Some (module, PyStr.first_char par ++ "_scale").
Proof.
  intros [<-|[<-|[]]]; apply PyStrFacts.cut_last_app; reflexivity.
Qed.

Lemma scale_not_wb module par :
  In par wb -> ~ In (PyStr.last_component (scale_name module par)) wb.
Proof.
  intros H. rewrite (PyStrFacts.last_component_cut _ _ _ (cut_last_scale module par H)).
  destruct H as [<-|[<-|[]]]; simpl; intuition discriminate.
Qed.

(** A name that is not in the new dictionary and does not end in 'weight' or
    'bias' is not brought back by any step. *)
Lemma step_keeps_absent a st x st1 k :
  step_ok a st x st1 ->
  ~ In (PyStr.last_component k) wb ->
  Dict.get k (new_checkpoint_state st) = None ->
  Dict.get k (new_checkpoint_state st1) = None.
Proof.
  intros S Hk Ha.
  assert (R : forall y, Dict.get k (Dict.remove y (new_checkpoint_state st)) = None).
  { intros y. destruct (String.eqb_spec k y) as [->|N].
    - apply DictFacts.get_remove_same.
    - now rewrite DictFacts.get_remove_other. }
  destruct S as [op par t Hc Hp Ht Hz Hm
                |op par module rest t sat Hc Hp Hq Hf Ht Hs
                |op par module w cs' Hc Hp Hq Ho Hcs
                |op par module s Hc Hp Hq Ho Hs
                |op Hc Hm
                |op par Hc Hp]; simpl; auto.
  - apply PyStrFacts.mem_true in Hp.
    rewrite DictFacts.get_set_other; [exact Ha|].
    intros ->. apply Hk. now rewrite (PyStrFacts.last_component_cut _ _ _ Hc).
  - apply PyStrFacts.mem_true in Hp.
    destruct (String.eqb_spec k (scale_name module par)) as [->|N1];
      [apply DictFacts.get_remove_same|].
    rewrite DictFacts.get_remove_other by assumption.
    destruct (String.eqb_spec k x) as [->|N2]; [apply DictFacts.get_remove_same|].
    rewrite DictFacts.get_remove_other by assumption.
    rewrite DictFacts.get_set_other; [exact Ha|].
    intros ->. apply Hk.
    pose proof (last_component_written module par Hp) as E. simpl in E.
    now rewrite E.
Qed.

Lemma loop_keeps_absent a k l st st' :
  ~ In (PyStr.last_component k) wb ->
  Dict.get k (new_checkpoint_state st) = None ->
  Run.outcome (Run.for_each (step a) l st) = inr st' ->
  Dict.get k (new_checkpoint_state st') = None.
Proof.
  intros Hk. apply (loop_invariant a (fun s => Dict.get k (new_checkpoint_state s) = None)).
  intros s x s1 _ HP S. eapply step_keeps_absent; eauto.
Qed.

(** A name that some step of the loop deletes is absent at the end. *)
Lemma loop_deletes a k (deleting : string -> Prop) l :
  ~ In (PyStr.last_component k) wb ->
  (forall st x st1, deleting x -> step_ok a st x st1 ->
                    Dict.get k (new_checkpoint_state st1) = None) ->
  forall st st',
    (exists x, In x l /\ deleting x) ->
    Run.outcome (Run.for_each (step a) l st) = inr st' ->
    Dict.get k (new_checkpoint_state st') = None.
Proof.
  intros Hk Hdel. induction l as [|y r IH]; intros st st' (x & Hx & Dx) H.
  - contradiction.
  - apply RunFacts.for_each_cons in H as (st1 & H1 & H2).
    destruct (in_dec string_dec x r) as [Hr|Hr].
    + apply (IH st1); eauto.
    + destruct Hx as [->|Hx]; [|contradiction].
      apply (StepFacts.convert_key_ok WEIGHT_BITS pow2_round) in H1.
      eapply loop_keeps_absent; eauto.
Qed.

(** What some step of the loop establishes and every step keeps holds at
    the end. *)
Lemma loop_establishes a (P : loop_state -> Prop) (trigger : string -> Prop) l :
  (forall st x st1, trigger x -> step_ok a st x st1 -> P st1) ->
  (forall st x st1, step_ok a st x st1 -> P st -> P st1) ->
  forall st st',
    (exists x, In x l /\ trigger x) ->
    Run.outcome (Run.for_each (step a) l st) = inr st' ->
    P st'.
Proof.
  intros Hset Hkeep. induction l as [|y r IH]; intros st st' (x & Hx & Tx) H.
  - contradiction.
  - apply RunFacts.for_each_cons in H as (st1 & H1 & H2).
    destruct (in_dec string_dec x r) as [Hr|Hr].
    + apply (IH st1); eauto.
    + destruct Hx as [->|Hx]; [|contradiction].
      apply (StepFacts.convert_key_ok WEIGHT_BITS pow2_round) in H1.
      revert H2. apply (loop_invariant a P); eauto.
Qed.

End Facts.

End LoopFacts.

(* ------------------------------------------------------------------------- *)
(** ** Float checkpoints *)

Module FloatFacts.
Import Ai84ize Ai84izeSpec.

Section Facts.
Context {L : TensorLib}.
Variable WEIGHT_BITS : Z.
Variable pow2_round : tensor -> Z -> tensor.
Variable get_contents_table : checkpoint -> string.

Local Notation "'step'" := (convert_key WEIGHT_BITS pow2_round).
Local Notation "'step_ok'" := (step_ok WEIGHT_BITS).
Local Notation "'bits_of'" := (bits_of WEIGHT_BITS).
Local Notation "'wb'" := (["weight"; "bias"]).

(** The statistic the code selects is the one the description names. *)
Lemma sat_fn_value (a : arguments) (t : tensor) :
  sat_fn a t = Run.ret (statistic_of_mode (clip_mode a) t).
Proof.
  unfold sat_fn, statistic_of_mode.
  destruct (String.eqb (clip_mode a) "STD"); [reflexivity|].
  destruct (String.eqb (clip_mode a) "MAX"); [reflexivity|].
  destruct (String.eqb (clip_mode a) "AVGMAX"); reflexivity.
Qed.

(** What a successful run of the part before the output has gone through. *)
Lemma convert_state_ok i o a ck ck' out :
  Run.outcome (convert_state WEIGHT_BITS pow2_round get_contents_table i o a ck)
  = inr (ck', out) ->
  exists sd st',
    ck' = (if quantized a then Dict.remove "quantizer_metadata" ck else ck) /\
    (quantized a = true -> Dict.mem "quantizer_metadata" ck = true) /\
    Dict.get "state_dict" ck = Some (StateDict sd) /\
    Run.outcome (Run.for_each (step a) (Dict.keys sd)
                   {| checkpoint_state := sd; new_checkpoint_state := sd |})
    = inr st' /\
    out = new_checkpoint_state st'.
Proof.
  intros H. unfold convert_state in H.
  apply RunFacts.bind_ok in H as (u1 & _ & H).
  apply RunFacts.bind_ok in H as (u2 & _ & H).
  apply RunFacts.bind_ok in H as (c & Hc & H).
  assert (C : c = (if quantized a then Dict.remove "quantizer_metadata" ck else ck)
              /\ (quantized a = true -> Dict.mem "quantizer_metadata" ck = true)).
  { destruct (quantized a).
    - destruct (Dict.mem "quantizer_metadata" ck) eqn:Em; simpl in Hc; [|discriminate].
      apply StepFacts.delitem_ok in Hc as [_ ->]. auto.
    - apply StepFacts.ret_ok in Hc. split; [auto|discriminate]. }
  destruct C as [C Hm].
  destruct (Dict.mem "state_dict" c) eqn:Es; simpl in H; [|discriminate].
  apply RunFacts.bind_ok in H as (e & He & H). apply StepFacts.getitem_ok in He.
  apply RunFacts.bind_ok in H as (sd & Hsd & H).
  destruct e as [d|obj]; [|discriminate]. apply StepFacts.ret_ok in Hsd. subst d.
  apply RunFacts.bind_ok in H as (u3 & _ & H).
  apply RunFacts.bind_ok in H as (st' & Hl & H).
  apply StepFacts.ret_ok in H. injection H as <- <-.
  exists sd, st'. repeat split; auto.
  subst c. destruct (quantized a); [|exact He].
  rewrite DictFacts.get_remove_other in He; [exact He|discriminate].
Qed.

Lemma float_step_frame a st x st1 :
  quantized a = false -> step_ok a st x st1 ->
  checkpoint_state st1 = checkpoint_state st /\
  forall k, k <> x ->
    Dict.get k (new_checkpoint_state st1) = Dict.get k (new_checkpoint_state st).
Proof.
  intros Hq S. destruct S; simpl; try congruence; split; auto; intros k' N;
    try apply DictFacts.get_remove_other; try apply DictFacts.get_set_other; auto.
Qed.

Lemma float_step_value a st k st1 :
  quantized a = false -> step_ok a st k st1 ->
  In (PyStr.last_component k) wb ->
  exists t, Dict.get k (checkpoint_state st) = Some t /\
            Dict.get k (new_checkpoint_state st1)
            = Some (fixed_point (bits_of (PyStr.first_component k))
                                (statistic_for a k t) t).
Proof.
  intros Hq S Hk.
  destruct S as [op par t Hc Hp Ht Hz Hm
                |op par module rest t sat Hc Hp _ Hf Ht Hs
                |op par module w cs' Hc Hp Hq' Ho Hcs
                |op par module s Hc Hp Hq' Ho Hs
                |op Hc Hm
                |op par Hc Hp]; try congruence;
    rewrite (PyStrFacts.last_component_cut _ _ _ Hc) in Hk.
  - apply PyStrFacts.mem_true in Hp. simpl in Hp, Hk. exfalso.
    intuition (subst; discriminate).
  - exists t. split; [exact Ht|]. simpl. rewrite DictFacts.get_set_same.
    unfold statistic_for. rewrite PyStrFacts.first_component_cut, Hf.
    unfold Ai84izeSpec.bits_of in *.
    destruct (String.eqb module "fc"); simpl in Hs.
    + injection Hs as <-. reflexivity.
    + rewrite sat_fn_value in Hs. injection Hs as <-. reflexivity.
  - simpl in Hk. exfalso. intuition discriminate.
  - exfalso. apply Hp. simpl in *. tauto.
Qed.

Lemma float_loop a :
  quantized a = false ->
  forall l st st',
    Run.outcome (Run.for_each (step a) l st) = inr st' ->
    checkpoint_state st' = checkpoint_state st /\
    forall k,
      (~ In k l ->
       Dict.get k (new_checkpoint_state st') = Dict.get k (new_checkpoint_state st)) /\
      (In k l -> In (PyStr.last_component k) wb ->
       exists t, Dict.get k (checkpoint_state st) = Some t /\
                 Dict.get k (new_checkpoint_state st')
                 = Some (fixed_point (bits_of (PyStr.first_component k))
                                     (statistic_for a k t) t)).
Proof.
  intros Hq. induction l as [|x r IH]; intros st st' H.
  - simpl in H. injection H as <-. split; [reflexivity|].
    intros k. split; [reflexivity|contradiction].
  - apply RunFacts.for_each_cons in H as (st1 & H1 & H2).
    apply (StepFacts.convert_key_ok WEIGHT_BITS pow2_round) in H1.
    destruct (float_step_frame a st x st1 Hq H1) as [Ecs Fr].
    destruct (IH st1 st' H2) as [Ecs' Hr].
    split; [congruence|]. intros k. destruct (Hr k) as [Hout Hin]. split.
    + intros N. rewrite Hout by (simpl in N; tauto).
      apply Fr. intros ->. apply N. now left.
    + intros Hk Hw. destruct (in_dec string_dec k r) as [I|I].
      * rewrite <- Ecs. auto.
      * destruct Hk as [->|Hk]; [|contradiction].
        rewrite (Hout I). now apply float_step_value.
Qed.

End Facts.

End FloatFacts.

(* ------------------------------------------------------------------------- *)
(** ** Checkpoints of the post-training quantizer, and what no mode touches *)

Module QuantFacts.
Import Ai84ize Ai84izeSpec.

Section Facts.
Context {L : TensorLib}.
Variable WEIGHT_BITS : Z.
Variable pow2_round : tensor -> Z -> tensor.

Local Notation "'step'" := (convert_key WEIGHT_BITS pow2_round).
Local Notation "'step_ok'" := (step_ok WEIGHT_BITS).
Local Notation "'bits_of'" := (bits_of WEIGHT_BITS).
Local Notation "'wb'" := (["weight"; "bias"]).
Local Notation "'handled'" :=
  (["weight"; "bias"; "w_zero_point"; "b_zero_point"; "base_b_q"]).

Lemma wrapped_name_split module par :
  wrapped_name module par
  = (module ++ String PyStr.dot "wrapped_module") ++ String PyStr.dot par.
Proof.
  unfold wrapped_name. induction module as [|c r IH]; simpl; [reflexivity|].
  now rewrite <- IH.
Qed.

Lemma cut_last_wrapped module par :
  In par wb ->
  PyStr.cut_last (wrapped_name module par)
  = Some (module ++ String PyStr.dot "wrapped_module", par).
Proof.
  intros H. rewrite wrapped_name_split.
  destruct H as [<-|[<-|[]]]; apply PyStrFacts.cut_last_app; reflexivity.
Qed.

Lemma cut_last_wrapper module :
  PyStr.cut_last (module ++ String PyStr.dot "wrapped_module")
  = Some (module, "wrapped_module").
Proof. apply PyStrFacts.cut_last_app. reflexivity. Qed.

(** A key read as [module.wrapped_module.parameter] is that name. *)
Lemma wrapped_name_of_cuts k op par module :
  PyStr.cut_last k = Some (op, par) ->
  PyStr.cut_last op = Some (module, "wrapped_module") ->
  k = wrapped_name module par.
Proof.
  intros Hk Ho. apply PyStrFacts.cut_last_join in Hk, Ho.
  rewrite wrapped_name_split. now subst.
Qed.

(** The step at a wrapped weight or bias deletes the scale. *)
Lemma wrapped_step_deletes_scale a st module par st1 :
  quantized a = true -> In par wb ->
  step_ok a st (wrapped_name module par) st1 ->
  Dict.get (scale_name module par) (new_checkpoint_state st1) = None.
Proof.
  intros Hq Hp S.
  pose proof (cut_last_wrapped module par Hp) as C.
  pose proof (cut_last_wrapper module) as W.
  inversion S as [op p t Hc Hm Ht Hz Hn
                 |op p m rest t sat Hc Hm Hq' Hf Ht Hs
                 |op p m w cs' Hc Hm Hq' Ho Hcs
                 |op p m s Hc Hm Hq' Ho Hs
                 |op Hc Hn
                 |op p Hc Hn]; subst; rewrite C in Hc; injection Hc as E1 E2; subst.
  - apply PyStrFacts.mem_true in Hm. simpl in Hm, Hp. exfalso.
    intuition (subst; discriminate).
  - congruence.
  - rewrite W in Ho. injection Ho as <-. simpl. apply DictFacts.get_remove_same.
  - rewrite W in Ho. injection Ho as <- <-. contradiction.
  - simpl in Hp. exfalso. intuition discriminate.
  - exfalso. apply Hn. simpl in *. tauto.
Qed.

(** The step at a zero point deletes it. *)
Lemma zero_point_step_deletes a st k st1 :
  In (PyStr.last_component k) ["w_zero_point"; "b_zero_point"] ->
  step_ok a st k st1 ->
  Dict.get k (new_checkpoint_state st1) = None.
Proof.
  intros Hk S.
  destruct S as [op par t Hc Hp Ht Hz Hm
                |op par module rest t sat Hc Hp Hq Hf Ht Hs
                |op par module w cs' Hc Hp Hq Ho Hcs
                |op par module s Hc Hp Hq Ho Hs
                |op Hc Hm
                |op par Hc Hp];
    rewrite (PyStrFacts.last_component_cut _ _ _ Hc) in Hk; simpl;
    try apply DictFacts.get_remove_same;
    try (apply PyStrFacts.mem_true in Hp; simpl in Hp, Hk; exfalso;
         intuition (subst; discriminate)).
  exfalso. apply Hp. simpl in *. tauto.
Qed.

(** Names that do not end in 'weight' or 'bias' keep their tensor in
    [checkpoint_state]. *)
Lemma step_source_frame a st x st1 k :
  step_ok a st x st1 ->
  ~ In (PyStr.last_component k) wb ->
  Dict.get k (checkpoint_state st1) = Dict.get k (checkpoint_state st).
Proof.
  intros S Hk.
  destruct S as [op par t Hc Hp Ht Hz Hm
                |op par module rest t sat Hc Hp Hq Hf Ht Hs
                |op par module w cs' Hc Hp Hq Ho Hcs
                |op par module s Hc Hp Hq Ho Hs
                |op Hc Hm
                |op par Hc Hp]; simpl; auto.
  destruct Hcs as [->|[w' ->]]; [reflexivity|].
  apply DictFacts.get_set_other. intros ->. apply Hk.
  rewrite (PyStrFacts.last_component_cut _ _ _ Hc).
  now apply PyStrFacts.mem_true.
Qed.

(** What a step leaves alone in the new dictionary. *)
Lemma step_frame a st x st1 k :
  step_ok a st x st1 ->
  ~ In (PyStr.last_component k) handled ->
  (forall module par, quantized a = true -> In par wb ->
                      x = wrapped_name module par ->
                      k <> scale_name module par) ->
  Dict.get k (new_checkpoint_state st1) = Dict.get k (new_checkpoint_state st).
Proof.
  intros S Hk Hs.
  assert (N : forall op par, PyStr.cut_last x = Some (op, par) ->
                             In par handled -> k <> x).
  { intros op par Hc Hp ->. apply Hk.
    now rewrite (PyStrFacts.last_component_cut _ _ _ Hc). }
  destruct S as [op par t Hc Hp Ht Hz Hm
                |op par module rest t sat Hc Hp Hq Hf Ht Hs'
                |op par module w cs' Hc Hp Hq Ho Hcs
                |op par module s Hc Hp Hq Ho Hs'
                |op Hc Hm
                |op par Hc Hp]; simpl; auto.
  - apply PyStrFacts.mem_true in Hp.
    apply DictFacts.get_remove_other, (N op par Hc). simpl in *. tauto.
  - apply PyStrFacts.mem_true in Hp.
    apply DictFacts.get_set_other, (N op par Hc). simpl in *. tauto.
  - apply PyStrFacts.mem_true in Hp.
    rewrite DictFacts.get_remove_other
      by (apply Hs; [exact Hq|exact Hp|eapply wrapped_name_of_cuts; eauto]).
    rewrite DictFacts.get_remove_other by (apply (N op par Hc); simpl in *; tauto).
    apply DictFacts.get_set_other. intros ->. apply Hk.
    pose proof (LoopFacts.last_component_written module par Hp) as E. simpl in E.
    rewrite E. simpl in *. tauto.
  - apply DictFacts.get_remove_other, (N op "base_b_q" Hc). simpl. tauto.
Qed.

Lemma append_neq (s : string) (c : ascii) (t : string) : s <> s ++ String c t.
Proof.
  induction s as [|a r IH]; simpl; [discriminate|].
  intros E. injection E as E. now apply IH.
Qed.

End Facts.

End QuantFacts.

(* ------------------------------------------------------------------------- *)
(** ** The converter: float checkpoints *)

Module FloatConversion.
Import Ai84ize Ai84izeSpec.

Section Theorems.
Context {L : TensorLib}.
Variable WEIGHT_BITS : Z.
Variable pow2_round : tensor -> Z -> tensor.
Variable get_contents_table : checkpoint -> string.

Local Notation "'convert'" :=
  (convert_state WEIGHT_BITS pow2_round get_contents_table).

Lemma float_key_value i o a ck ck' out sd k t :
  quantized a = false ->
  Run.outcome (convert i o a ck) = inr (ck', out) ->
  Dict.get "state_dict" ck = Some (StateDict sd) ->
  Dict.get k sd = Some t ->
  In (PyStr.last_component k) ["weight"; "bias"] ->
  Dict.get k out
  = Some (fixed_point (bits_of WEIGHT_BITS (PyStr.first_component k))
                      (statistic_for a k t) t).
Proof.
  intros Hq H Hsd Hk Hw.
  apply FloatFacts.convert_state_ok in H as (sd' & st' & _ & _ & Hsd' & Hl & ->).
  rewrite Hsd in Hsd'. injection Hsd' as <-.
  destruct (FloatFacts.float_loop _ _ a Hq _ _ _ Hl) as [_ F].
  destruct (F k) as [_ Fin].
  destruct Fin as (t' & Ht' & Hv); [|exact Hw|].
  - apply DictFacts.in_keys_get. congruence.
  - simpl in Ht'. rewrite Hk in Ht'. now injection Ht' as <-.
Qed.

(** C1: in a conversion without --quantized, the value stored for a key that
    ends in 'weight' or 'bias' is round(clamp(2^(clamp_bits-1) * sat(t) * t,
    -(2^(clamp_bits-1)), 2^(clamp_bits-1)-1)) of the original tensor [t], with
    clamp_bits = ai84.WEIGHT_BITS and the selected statistic when the first
    component of the key is not 'fc', and clamp_bits = 16 and the constant
    when it is 'fc'. *)
Theorem float_conversion_value i o a ck ck' out sd k t :
  quantized a = false ->
  Run.outcome (convert i o a ck) = inr (ck', out) ->
  Dict.get "state_dict" ck = Some (StateDict sd) ->
  Dict.get k sd = Some t ->
  In (PyStr.last_component k) ["weight"; "bias"] ->
  let fc := String.eqb (PyStr.first_component k) "fc" in
  let clamp_bits := if fc then FC_CLAMP_BITS else WEIGHT_BITS in
  let sat := if fc then get_const t else statistic_of_mode (clip_mode a) t in
  Dict.get k out
  = Some (round (clamp (- pow2 (clamp_bits - 1)) (pow2 (clamp_bits - 1) - 1)
                   (scale_by (s_mul (number (pow2 (clamp_bits - 1))) sat) t))).
Proof.
  intros Hq H Hsd Hk Hw fc clamp_bits sat.
  rewrite (float_key_value i o a ck ck' out sd k t Hq H Hsd Hk Hw).
  unfold fixed_point, statistic_for, Ai84izeSpec.bits_of, clamp_bits, sat, fc.
  destruct (String.eqb (PyStr.first_component k) "fc"); reflexivity.
Qed.

(** C4: in a conversion without --quantized, the statistic in the factor of a
    weight or bias outside 'fc' is chosen by --clip-mode: 'STD' gives
    max(|max(min t, mean t - 2 std t)|, |min(max t, mean t + 2 std t)|),
    'MAX' gives max(|min t|, |max t|), 'AVGMAX' gives max(|mean of the
    per-slice minima|, |mean of the per-slice maxima|), and 'SCALE' (like
    any other value) gives the constant 0.6372803137; inside 'fc' the constant
    is used whatever the clip mode. *)
Theorem statistic_follows_clip_mode i o a ck ck' out sd k t :
  quantized a = false ->
  Run.outcome (convert i o a ck) = inr (ck', out) ->
  Dict.get "state_dict" ck = Some (StateDict sd) ->
  Dict.get k sd = Some t ->
  In (PyStr.last_component k) ["weight"; "bias"] ->
  (PyStr.first_component k <> "fc" ->
     (clip_mode a = "STD" ->
        Dict.get k out = Some (fixed_point WEIGHT_BITS (std_statistic t) t)) /\
     (clip_mode a = "MAX" ->
        Dict.get k out = Some (fixed_point WEIGHT_BITS (max_statistic t) t)) /\
     (clip_mode a = "AVGMAX" ->
        Dict.get k out = Some (fixed_point WEIGHT_BITS (avgmax_statistic t) t)) /\
     (~ In (clip_mode a) ["STD"; "MAX"; "AVGMAX"] ->
        Dict.get k out
        = Some (fixed_point WEIGHT_BITS (number (6372803137 # 10000000000)) t))) /\
  (PyStr.first_component k = "fc" ->
     Dict.get k out
     = Some (fixed_point FC_CLAMP_BITS (number (6372803137 # 10000000000)) t)).
Proof.
  intros Hq H Hsd Hk Hw.
  rewrite (float_key_value i o a ck ck' out sd k t Hq H Hsd Hk Hw).
  unfold statistic_for, Ai84izeSpec.bits_of, statistic_of_mode.
  split.
  - intros N. apply String.eqb_neq in N. rewrite N.
    repeat split; intros M; try (rewrite M; reflexivity).
    destruct (String.eqb_spec (clip_mode a) "STD") as [E|_];
      [exfalso; apply M; simpl; auto|].
    destruct (String.eqb_spec (clip_mode a) "MAX") as [E|_];
      [exfalso; apply M; simpl; auto|].
    destruct (String.eqb_spec (clip_mode a) "AVGMAX") as [E|_];
      [exfalso; apply M; simpl; auto|].
    reflexivity.
  - intros ->. reflexivity.
Qed.

End Theorems.

Local Open Scope Q_scope.

Lemma float_conversion_value_witness :
  Dict.get "conv1.weight" Runs.float_output
  = Some (@round QTensor.lib
            (@clamp QTensor.lib (- pow2 (8 - 1)) (pow2 (8 - 1) - 1)
               (@scale_by QTensor.lib
                  (@s_mul QTensor.lib (pow2 (8 - 1))
                     (@statistic_of_mode QTensor.lib "MAX" Runs.conv1_weight))
                  Runs.conv1_weight))).
Proof.
  apply (@float_conversion_value QTensor.lib QTensor.WEIGHT_BITS
           QTensor.pow2_round QTensor.get_contents_table
           "in" "out" Runs.float_args Runs.float_checkpoint
           Runs.float_checkpoint Runs.float_output Runs.float_state
           "conv1.weight" Runs.conv1_weight).
  - reflexivity.
  - reflexivity.
  - reflexivity.
  - reflexivity.
  - vm_compute. auto.
Defined.

Lemma statistic_follows_clip_mode_witness :
  Dict.get "conv1.weight" Runs.float_output
  = Some (@fixed_point QTensor.lib 8 (@max_statistic QTensor.lib Runs.conv1_weight)
            Runs.conv1_weight).
Proof.
  refine (proj1 (proj2 (proj1
    (@statistic_follows_clip_mode QTensor.lib QTensor.WEIGHT_BITS
       QTensor.pow2_round QTensor.get_contents_table
       "in" "out" Runs.float_args Runs.float_checkpoint
       Runs.float_checkpoint Runs.float_output Runs.float_state
       "conv1.weight" Runs.conv1_weight _ _ _ _ _) _)) _).
  - reflexivity.
  - reflexivity.
  - reflexivity.
  - reflexivity.
  - vm_compute. auto.
  - vm_compute. discriminate.
  - reflexivity.
Defined.

End FloatConversion.

(* ------------------------------------------------------------------------- *)
(** ** The fixed-point format *)

Module Format.
Import Ai84ize Ai84izeSpec.

Local Open Scope Q_scope.

Lemma pow2_nonneg (n : Z) : (0 <= n)%Z -> pow2 n = inject_Z (2 ^ n).
Proof. destruct n; intros H; try reflexivity. lia. Qed.

Lemma is_whole_den1 (q : Q) : Qden q = 1%positive -> is_whole q = true.
Proof. intros H. unfold is_whole. rewrite H, Z.mod_1_r. reflexivity. Qed.

(** The bounds of a format of 1 to 25 bits are whole, ordered and at most
    2^24. *)
Lemma bounds_ok (clamp_bits : Z) :
  (1 <= clamp_bits <= 25)%Z ->
  is_whole (- pow2 (clamp_bits - 1)) = true /\
  is_whole (pow2 (clamp_bits - 1) - 1) = true /\
  - pow2 (clamp_bits - 1) <= pow2 (clamp_bits - 1) - 1 /\
  - inject_Z (2 ^ 24) <= - pow2 (clamp_bits - 1) /\
  pow2 (clamp_bits - 1) - 1 <= inject_Z (2 ^ 24).
Proof.
  intros H. rewrite pow2_nonneg by lia.
  assert (P : (0 < 2 ^ (clamp_bits - 1))%Z) by (apply Z.pow_pos_nonneg; lia).
  assert (U : (2 ^ (clamp_bits - 1) <= 2 ^ 24)%Z)
    by (apply Z.pow_le_mono_r; lia).
  set (N := (2 ^ (clamp_bits - 1))%Z) in *.
  set (T := (2 ^ 24)%Z) in *.
  repeat split; try (apply is_whole_den1; reflexivity);
    unfold Qle; simpl; lia.
Qed.

Section Generic.
Context {L : TensorLib} {laws : TensorLaws L}.
Variable WEIGHT_BITS : Z.
Hypothesis weight_bits_fit : (1 <= WEIGHT_BITS <= 25)%Z.

Lemma bits_of_fit (module : string) : (1 <= bits_of WEIGHT_BITS module <= 25)%Z.
Proof.
  unfold bits_of, FC_CLAMP_BITS. destruct (String.eqb module "fc"); lia.
Qed.

Lemma clamp_round_in_format (clamp_bits : Z) (w : tensor) :
  (1 <= clamp_bits <= 25)%Z ->
  has_nan (clamp_round clamp_bits w) = false ->
  all_in_format clamp_bits (clamp_round clamp_bits w) = true.
Proof.
  intros H N. destruct (bounds_ok clamp_bits H) as (A & B & C & D & E).
  unfold all_in_format, clamp_round in *. now apply round_clamp_in_format.
Qed.

End Generic.

(** The reference library satisfies the law of the interface. *)
Section Reference.
Import QTensor.

Lemma whole_floor (q : Q) : is_whole q = true -> q == inject_Z (Qfloor q).
Proof.
  destruct q as [n d]. unfold is_whole, Qeq. simpl. intros H.
  apply Z.eqb_eq in H. rewrite Z.mul_1_r.
  pose proof (Z.div_mod n (Zpos d)) as E. rewrite H in E. lia.
Qed.

Lemma clamp1_bounds (lo hi x : Q) :
  lo <= hi -> lo <= clamp1 lo hi x /\ clamp1 lo hi x <= hi.
Proof.
  intros H. unfold clamp1, qmin, qmax.
  destruct (Qle_bool x lo) eqn:E1.
  - destruct (Qle_bool lo hi) eqn:E2.
    + split; [apply Qle_refl|exact H].
    + split; [exact H|apply Qle_refl].
  - assert (lo <= x).
    { apply Qlt_le_weak, Qnot_le_lt. intros C. apply Qle_bool_iff in C. congruence. }
    destruct (Qle_bool x hi) eqn:E2.
    + split; [assumption|now apply Qle_bool_iff].
    + split; [exact H|apply Qle_refl].
Qed.

Lemma round1_cases (y : Q) :
  round1 y = inject_Z (Qfloor y) \/
  (round1 y = inject_Z (Qfloor y + 1) /\ 1 # 2 <= y - inject_Z (Qfloor y)).
Proof.
  unfold round1. destruct (y - inject_Z (Qfloor y) ?= 1 # 2) eqn:C.
  - apply Qeq_alt in C. destruct (Z.even (Qfloor y)); [now left|right].
    split; [reflexivity|]. rewrite C. apply Qle_refl.
  - now left.
  - right. split; [reflexivity|]. apply Qgt_alt in C. now apply Qlt_le_weak.
Qed.

Lemma round1_in_format (lo hi y : Q) :
  is_whole lo = true -> is_whole hi = true -> lo <= y -> y <= hi ->
  in_format lo hi (round1 y) = true.
Proof.
  intros Wl Wh Hl Hh. apply whole_floor in Wl, Wh.
  assert (Fl : (Qfloor lo <= Qfloor y)%Z) by now apply Qfloor_resp_le.
  assert (Fy : inject_Z (Qfloor y) <= y) by apply Qfloor_le.
  unfold in_format.
  destruct (round1_cases y) as [->|[-> Hr]];
    rewrite is_whole_den1 by reflexivity; simpl andb;
    apply andb_true_intro; split; apply Qle_bool_iff.
  - rewrite Wl. rewrite <- Zle_Qle. exact Fl.
  - eapply Qle_trans; eauto.
  - rewrite Wl. rewrite <- Zle_Qle. lia.
  - rewrite Wh. rewrite <- Zle_Qle.
    destruct (Z_lt_le_dec (Qfloor y) (Qfloor hi)) as [Lt|Ge]; [lia|exfalso].
    assert (E : y <= inject_Z (Qfloor y)).
    { eapply Qle_trans; [exact Hh|]. rewrite Wh at 1. now rewrite <- Zle_Qle. }
    assert (Z0 : y - inject_Z (Qfloor y) <= 0).
    { apply (Qplus_le_l _ _ (inject_Z (Qfloor y))). ring_simplify. exact E. }
    pose proof (Qle_trans _ _ _ Hr Z0) as Bad. now apply Qle_bool_iff in Bad.
Qed.

Lemma reference_laws : TensorLaws QTensor.lib.
Proof.
  constructor. intros lo hi t Wl Wh H _ _ _. simpl.
  unfold flat. induction t as [|row rest IH]; [reflexivity|].
  simpl. rewrite forallb_app, IH, andb_true_r.
  induction row as [|x r IHr]; [reflexivity|].
  simpl. rewrite IHr, andb_true_r.
  destruct (clamp1_bounds lo hi x H). now apply round1_in_format.
Qed.

End Reference.

End Format.

(* ------------------------------------------------------------------------- *)
(** ** The converter: what the output state dict holds *)

Module Conversion.
Import Ai84ize Ai84izeSpec.

Section Theorems.
Context {L : TensorLib}.
Variable WEIGHT_BITS : Z.
Variable pow2_round : tensor -> Z -> tensor.
Variable get_contents_table : checkpoint -> string.

Local Notation "'convert'" :=
  (convert_state WEIGHT_BITS pow2_round get_contents_table).
Local Notation "'step'" := (convert_key WEIGHT_BITS pow2_round).
Local Notation "'step_ok'" := (step_ok WEIGHT_BITS).
Local Notation "'bits_of'" := (bits_of WEIGHT_BITS).
Local Notation "'wb'" := (["weight"; "bias"]).

Lemma get_remove_some {V} (k x : string) (d : Dict.dict V) (v : V) :
  Dict.get k (Dict.remove x d) = Some v -> k <> x /\ Dict.get k d = Some v.
Proof.
  intros H. destruct (String.eqb_spec k x) as [->|N].
  - now rewrite DictFacts.get_remove_same in H.
  - split; [exact N|]. now rewrite DictFacts.get_remove_other in H.
Qed.

(** What is kept within the state dict (second half of C7, as the code has
    it). *)
Lemma untouched_entries_kept i o a ck ck' out sd k :
  Run.outcome (convert i o a ck) = inr (ck', out) ->
  Dict.get "state_dict" ck = Some (StateDict sd) ->
  ~ In (PyStr.last_component k)
       ["weight"; "bias"; "w_zero_point"; "b_zero_point"; "base_b_q"] ->
  (quantized a = true ->
   forall module parameter,
     In parameter ["weight"; "bias"] ->
     In (wrapped_name module parameter) (Dict.keys sd) ->
     k <> scale_name module parameter) ->
  Dict.get k out = Dict.get k sd.
Proof.
  intros H Hsd Hk Hs.
  apply FloatFacts.convert_state_ok in H as (sd' & st' & _ & _ & Hsd' & Hloop & ->).
  rewrite Hsd in Hsd'. injection Hsd' as <-.
  revert Hloop.
  apply (LoopFacts.loop_invariant WEIGHT_BITS pow2_round a
           (fun s => Dict.get k (new_checkpoint_state s) = Dict.get k sd));
    [|reflexivity].
  intros s x s1 Hx Ps S. rewrite <- Ps.
  eapply QuantFacts.step_frame; eauto.
  intros module par Hq Hp ->. apply Hs; auto.
Qed.

End Theorems.

End Conversion.

(* ------------------------------------------------------------------------- *)
(** ** The converter: what is printed, what is saved, what is raised *)

Module OutputFacts.
Import Ai84ize Ai84izeSpec.

Section Facts.
Context {L : TensorLib}.
Variable WEIGHT_BITS : Z.
Variable pow2_round : tensor -> Z -> tensor.
Variable get_contents_table : checkpoint -> string.

Local Notation "'convert'" :=
  (convert_state WEIGHT_BITS pow2_round get_contents_table).
Local Notation "'convert_all'" :=
  (convert_checkpoint WEIGHT_BITS pow2_round get_contents_table).
Local Notation "'step'" := (convert_key WEIGHT_BITS pow2_round).
Local Notation "'step_ok'" := (step_ok WEIGHT_BITS).

(** *** Traces *)

Lemma all_bind {A B} (P : event -> Prop) (m : M A) (f : A -> M B) :
  Forall P (Run.trace m) -> (forall a, Forall P (Run.trace (f a))) ->
  Forall P (Run.trace (Run.bind m f)).
Proof.
  intros Hm Hf. destruct m as [tr [e|a]]; simpl in *; [exact Hm|].
  specialize (Hf a). destruct (f a) as [tr' r]. simpl in *.
  apply Forall_app. now split.
Qed.

Lemma all_for_each {S X} (P : event -> Prop) (body : S -> X -> M S) l :
  (forall st x, Forall P (Run.trace (body st x))) ->
  forall st, Forall P (Run.trace (Run.for_each body l st)).
Proof.
  intros Hb. induction l as [|x r IH]; intros st; simpl.
  - constructor.
  - apply all_bind; auto.
Qed.

Lemma all_print (s : string) : Forall is_print (Run.trace (print s)).
Proof. repeat constructor. Qed.

Lemma all_getitem {V} (P : event -> Prop) k (d : Dict.dict V) :
  Forall P (Run.trace (getitem k d)).
Proof. unfold getitem. destruct (Dict.get k d); constructor. Qed.

Lemma all_delitem {V} (P : event -> Prop) k (d : Dict.dict V) :
  Forall P (Run.trace (delitem k d)).
Proof. unfold delitem. destruct (Dict.del k d); constructor. Qed.

Lemma all_unpack2 (P : event -> Prop) l : Forall P (Run.trace (unpack2 l)).
Proof. destruct l as [|a [|b [|c r]]]; constructor. Qed.

Ltac prints :=
  repeat first
    [ apply Forall_nil
    | apply all_print
    | apply all_getitem
    | apply all_delitem
    | apply all_unpack2
    | apply all_bind; [|intros ?]
    | match goal with
      | |- context [match ?x with _ => _ end] => destruct x
      end ].

Lemma convert_key_prints a st k : Forall is_print (Run.trace (step a st k)).
Proof.
  unfold convert_key, convert_float, convert_quantized, sat_fn, fc_sat_fn,
    mean_n_stds_max_abs.
  prints.
Qed.

Lemma convert_state_prints i o a ck :
  Forall is_print (Run.trace (convert i o a ck)).
Proof.
  unfold convert_state.
  apply all_bind; [apply all_print|intros _].
  apply all_bind; [destruct (verbose a); [apply all_print|constructor]|intros _].
  apply all_bind; [prints|intros c].
  destruct (negb (Dict.mem "state_dict" c)); [constructor|].
  apply all_bind; [apply all_getitem|intros e].
  apply all_bind; [destruct e; constructor|intros sd].
  apply all_bind; [destruct (verbose a); [apply all_print|constructor]|intros _].
  apply all_bind; [|intros st; constructor].
  apply all_for_each. intros st x. apply convert_key_prints.
Qed.


(** *** Outcomes *)

Lemma for_each_app {S X} (body : S -> X -> M S) pre l st st1 :
  Run.outcome (Run.for_each body pre st) = inr st1 ->
  Run.outcome (Run.for_each body (pre ++ l)%list st)
  = Run.outcome (Run.for_each body l st1).
Proof.
  revert st. induction pre as [|x r IH]; intros st H; simpl in *.
  - now injection H as <-.
  - apply RunFacts.bind_ok in H as (s & Hs & H).
    rewrite (RunFacts.bind_outcome _ _ s Hs). now apply IH.
Qed.

(** The outcome of the part before the output is the outcome of the loop. *)
Lemma convert_state_outcome i o a ck sd :
  (quantized a = true -> Dict.mem "quantizer_metadata" ck = true) ->
  Dict.get "state_dict" ck = Some (StateDict sd) ->
  Run.outcome (convert i o a ck)
  = match Run.outcome (Run.for_each (step a) (Dict.keys sd)
                         {| checkpoint_state := sd; new_checkpoint_state := sd |}) with
    | inl e => inl e
    | inr st =>
        inr (if quantized a then Dict.remove "quantizer_metadata" ck else ck,
             new_checkpoint_state st)
    end.
Proof.
  intros Hm Hsd. unfold convert_state.
  rewrite (RunFacts.bind_outcome _ _ tt) by reflexivity.
  rewrite (RunFacts.bind_outcome _ _ tt) by (destruct (verbose a); reflexivity).
  set (c := if quantized a then Dict.remove "quantizer_metadata" ck else ck).
  assert (Hc : Dict.get "state_dict" c = Some (StateDict sd)).
  { unfold c. destruct (quantized a); [|exact Hsd].
    rewrite DictFacts.get_remove_other; [exact Hsd|discriminate]. }
  rewrite (RunFacts.bind_outcome _ _ c).
  2:{ unfold c. destruct (quantized a); [|reflexivity].
      rewrite Hm by reflexivity. simpl. unfold delitem, Dict.del.
      now rewrite Hm. }
  assert (Hmem : Dict.mem "state_dict" c = true)
    by (apply DictFacts.mem_get; congruence).
  rewrite Hmem. simpl negb. cbv iota.
  rewrite (RunFacts.bind_outcome _ _ (StateDict sd))
    by (unfold getitem; now rewrite Hc).
  rewrite (RunFacts.bind_outcome _ _ sd) by reflexivity.
  rewrite (RunFacts.bind_outcome _ _ tt) by (destruct (verbose a); reflexivity).
  unfold Dict.copy.
  destruct (Run.for_each (step a) (Dict.keys sd)
              {| checkpoint_state := sd; new_checkpoint_state := sd |})
    as [tr [e|st]] eqn:E; simpl; [reflexivity|].
  reflexivity.
Qed.

(** The step at a zero point that is not zero. *)
Lemma zero_point_step_fails a st k op par t :
  PyStr.cut_last k = Some (op, par) ->
  In par ["w_zero_point"; "b_zero_point"] ->
  Dict.get k (checkpoint_state st) = Some t ->
  nonzero_numel t <> 0%nat ->
  Run.outcome (step a st k) = inl (RuntimeError (not_zero_msg k)).
Proof.
  intros Hc Hp Ht Hn. unfold convert_key.
  rewrite (RunFacts.bind_outcome _ _ (op, par))
    by (unfold PyStr.rsplit; now rewrite Hc).
  cbv beta iota.
  apply PyStrFacts.mem_true in Hp. rewrite Hp.
  rewrite (RunFacts.bind_outcome _ _ t) by (unfold getitem; now rewrite Ht).
  apply Nat.eqb_neq in Hn. now rewrite Hn.
Qed.

(** A completed step at a zero point has found it to be zero. *)
Lemma zero_point_step_checked a st k st1 :
  In (PyStr.last_component k) ["w_zero_point"; "b_zero_point"] ->
  step_ok a st k st1 ->
  exists t, Dict.get k (checkpoint_state st) = Some t /\ nonzero_numel t = 0%nat.
Proof.
  intros Hk S.
  destruct S as [op par t Hc Hp Ht Hz Hm
                |op par module rest t sat Hc Hp Hq Hf Ht Hs
                |op par module w cs' Hc Hp Hq Ho Hcs
                |op par module s Hc Hp Hq Ho Hs
                |op Hc Hm
                |op par Hc Hp];
    rewrite (PyStrFacts.last_component_cut _ _ _ Hc) in Hk;
    try (apply PyStrFacts.mem_true in Hp; simpl in Hp, Hk; exfalso;
         intuition (subst; discriminate)).
  - eauto.
  - simpl in Hk. exfalso. intuition discriminate.
  - exfalso. apply Hp. simpl in *. tauto.
Qed.

Lemma not_wb_of_zero_point k :
  In (PyStr.last_component k) ["w_zero_point"; "b_zero_point"] ->
  ~ In (PyStr.last_component k) ["weight"; "bias"].
Proof. simpl. intros [<-|[<-|[]]]; intuition discriminate. Qed.

Lemma loop_source_frame a k l st st' :
  ~ In (PyStr.last_component k) ["weight"; "bias"] ->
  Run.outcome (Run.for_each (step a) l st) = inr st' ->
  Dict.get k (checkpoint_state st') = Dict.get k (checkpoint_state st).
Proof.
  intros Hk.
  apply (LoopFacts.loop_invariant WEIGHT_BITS pow2_round a
           (fun s => Dict.get k (checkpoint_state s) = Dict.get k (checkpoint_state st)));
    [|reflexivity].
  intros s x s1 _ Ps S. rewrite <- Ps. eapply QuantFacts.step_source_frame; eauto.
Qed.

Lemma loop_checks_zero_points a k l :
  In (PyStr.last_component k) ["w_zero_point"; "b_zero_point"] ->
  forall st st', In k l ->
    Run.outcome (Run.for_each (step a) l st) = inr st' ->
    exists t, Dict.get k (checkpoint_state st) = Some t /\ nonzero_numel t = 0%nat.
Proof.
  intros Hk. induction l as [|x r IH]; intros st st' Hin H; [contradiction|].
  apply RunFacts.for_each_cons in H as (st1 & H1 & H2).
  apply (StepFacts.convert_key_ok WEIGHT_BITS pow2_round) in H1.
  destruct (String.eqb_spec x k) as [->|N].
  - eapply zero_point_step_checked; eauto.
  - destruct Hin as [E|Hin]; [contradiction|].
    destruct (IH st1 st' Hin H2) as (t & Ht & Hz). exists t. split; [|exact Hz].
    rewrite <- Ht. symmetry.
    eapply QuantFacts.step_source_frame; eauto using not_wb_of_zero_point.
Qed.

(** *** The output stage *)

Lemma print_defines out l :
  (forall k, In k l -> Dict.get k out <> None) ->
  Run.for_each (print_define out) l tt
  = (flat_map (fun k => match Dict.get k out with
                        | Some t => [Print (define_line k); Print (int_repr t)]
                        | None => []
                        end) l, inr tt).
Proof.
  induction l as [|k r IH]; intros H; [reflexivity|].
  cbn [Run.for_each flat_map].
  destruct (Dict.get k out) as [t|] eqn:E.
  - assert (P : print_define out tt k
                = ([Print (define_line k); Print (int_repr t)], inr tt))
      by (unfold print_define, getitem; now rewrite E).
    rewrite P. unfold Run.bind.
    rewrite IH by (intros; apply H; now right). reflexivity.
  - exfalso. apply (H k); [now left|exact E].
Qed.

Lemma convert_checkpoint_after i o a ck ck' out :
  Run.outcome (convert i o a ck) = inr (ck', out) ->
  Run.outcome (convert_all i o a ck) = inr tt /\
  Run.trace (convert_all i o a ck)
  = (Run.trace (convert i o a ck) ++
     if embedded a then define_lines out
     else [TorchSave (Dict.set "state_dict" (StateDict out) ck') o])%list.
Proof.
  intros H. unfold convert_checkpoint.
  rewrite (RunFacts.bind_outcome _ _ _ H), (RunFacts.bind_trace _ _ _ H).
  destruct (embedded a); simpl negb; cbv iota.
  - rewrite print_defines by (intros k; apply DictFacts.in_keys_get).
    split; reflexivity.
  - split; reflexivity.
Qed.

Lemma convert_checkpoint_failed i o a ck e :
  Run.outcome (convert i o a ck) = inl e ->
  Run.outcome (convert_all i o a ck) = inl e /\
  Run.trace (convert_all i o a ck) = Run.trace (convert i o a ck).
Proof.
  intros H. unfold convert_checkpoint.
  now rewrite (RunFacts.bind_fail _ _ _ H), (RunFacts.bind_trace_fail _ _ _ H).
Qed.

End Facts.

End OutputFacts.

(* ------------------------------------------------------------------------- *)
(** ** The converter: errors, frame and output *)

Module Output.
Import Ai84ize Ai84izeSpec.

Section Theorems.
Context {L : TensorLib}.
Variable WEIGHT_BITS : Z.
Variable pow2_round : tensor -> Z -> tensor.
Variable get_contents_table : checkpoint -> string.

Local Notation "'convert'" :=
  (convert_state WEIGHT_BITS pow2_round get_contents_table).
Local Notation "'convert_all'" :=
  (convert_checkpoint WEIGHT_BITS pow2_round get_contents_table).
Local Notation "'step'" := (convert_key WEIGHT_BITS pow2_round).

Lemma no_state_dict_raises i o a ck :
  Dict.mem "state_dict" ck = false ->
  exists msg, Run.outcome (convert i o a ck) = inl (RuntimeError msg).
Proof.
  intros Hs. unfold convert_state.
  rewrite (RunFacts.bind_outcome _ _ tt) by reflexivity.
  rewrite (RunFacts.bind_outcome _ _ tt) by (destruct (verbose a); reflexivity).
  destruct (quantized a).
  - destruct (Dict.mem "quantizer_metadata" ck) eqn:Em.
    + rewrite (RunFacts.bind_outcome _ _ (Dict.remove "quantizer_metadata" ck))
        by (simpl; unfold delitem, Dict.del; now rewrite Em).
      assert (E : Dict.mem "state_dict" (Dict.remove "quantizer_metadata" ck) = false).
      { apply DictFacts.mem_false_get.
        rewrite DictFacts.get_remove_other by discriminate.
        now apply DictFacts.mem_false_get. }
      rewrite E. eexists. reflexivity.
    + eexists. reflexivity.
  - rewrite (RunFacts.bind_outcome _ _ ck) by reflexivity.
    rewrite Hs. eexists. reflexivity.
Qed.

Lemma no_metadata_raises i o a ck :
  quantized a = true -> Dict.mem "quantizer_metadata" ck = false ->
  Run.outcome (convert i o a ck) = inl (RuntimeError no_metadata_msg).
Proof.
  intros Hq Hm. unfold convert_state.
  rewrite (RunFacts.bind_outcome _ _ tt) by reflexivity.
  rewrite (RunFacts.bind_outcome _ _ tt) by (destruct (verbose a); reflexivity).
  rewrite Hq, Hm. reflexivity.
Qed.

(** C6: convert_checkpoint raises a RuntimeError when the loaded checkpoint
    has no 'state_dict' entry and, with --quantized, when it has no
    'quantizer_metadata' entry; with --quantized no checkpoint that is saved
    holds a 'quantizer_metadata' entry any more. *)
Theorem missing_entries_raise i o a ck :
  (Dict.mem "state_dict" ck = false ->
   exists msg, Run.outcome (convert_all i o a ck) = inl (RuntimeError msg)) /\
  (quantized a = true -> Dict.mem "quantizer_metadata" ck = false ->
   Run.outcome (convert_all i o a ck) = inl (RuntimeError no_metadata_msg)) /\
  (quantized a = true ->
   forall obj path, In (TorchSave obj path) (Run.trace (convert_all i o a ck)) ->
                    Dict.mem "quantizer_metadata" obj = false).
Proof.
  repeat split.
  - intros Hs. destruct (no_state_dict_raises i o a ck Hs) as (msg & H).
    exists msg. now apply OutputFacts.convert_checkpoint_failed.
  - intros Hq Hm. apply OutputFacts.convert_checkpoint_failed.
    now apply no_metadata_raises.
  - intros Hq obj path Hin.
    pose proof (OutputFacts.convert_state_prints WEIGHT_BITS pow2_round
                  get_contents_table i o a ck) as Pr.
    assert (NoSave : ~ In (TorchSave obj path) (Run.trace (convert i o a ck))).
    { intros I. rewrite Forall_forall in Pr. exact (Pr _ I). }
    destruct (Run.outcome (convert i o a ck)) as [e|[ck' out]] eqn:E.
    + apply OutputFacts.convert_checkpoint_failed in E as [_ T].
      rewrite T in Hin. contradiction.
    + pose proof E as E'.
      apply OutputFacts.convert_checkpoint_after in E as [_ T].
      rewrite T in Hin. apply in_app_or in Hin as [I|I]; [contradiction|].
      apply FloatFacts.convert_state_ok in E' as (sd & st' & -> & _).
      rewrite Hq in I.
      destruct (embedded a).
      * unfold define_lines in I. apply in_flat_map in I as (k & _ & I).
        destruct (Dict.get k out); simpl in I; intuition discriminate.
      * destruct I as [I|[]]. injection I as <- _.
        apply DictFacts.mem_false_get.
        rewrite DictFacts.get_set_other by discriminate.
        apply DictFacts.get_remove_same.
Qed.

(** C7, as the code has it: a conversion without --embedded saves the
    checkpoint with every top-level entry other than 'state_dict' (and
    'quantizer_metadata' under --quantized) unchanged, the optimizer state
    included; within the state dict every entry whose last component is not
    'weight', 'bias', 'w_zero_point', 'b_zero_point' or 'base_b_q' is carried
    over unchanged, except that under --quantized the scale entries
    [module.w_scale] and [module.b_scale] of the wrapped weights and biases
    are removed. *)
Theorem entries_carried_over i o a ck ck' out sd :
  embedded a = false ->
  Run.outcome (convert i o a ck) = inr (ck', out) ->
  Dict.get "state_dict" ck = Some (StateDict sd) ->
  let saved := Dict.set "state_dict" (StateDict out) ck' in
  Run.outcome (convert_all i o a ck) = inr tt /\
  Run.trace (convert_all i o a ck)
  = (Run.trace (convert i o a ck) ++ [TorchSave saved o])%list /\
  Dict.get "state_dict" saved = Some (StateDict out) /\
  (forall key, key <> "state_dict" ->
               (quantized a = true -> key <> "quantizer_metadata") ->
               Dict.get key saved = Dict.get key ck) /\
  (forall k,
     ~ In (PyStr.last_component k)
          ["weight"; "bias"; "w_zero_point"; "b_zero_point"; "base_b_q"] ->
     (quantized a = true ->
      forall module parameter,
        In parameter ["weight"; "bias"] ->
        In (wrapped_name module parameter) (Dict.keys sd) ->
        k <> scale_name module parameter) ->
     Dict.get k out = Dict.get k sd).
Proof.
  intros He H Hsd saved.
  destruct (OutputFacts.convert_checkpoint_after _ _ _ i o a ck ck' out H) as [O T].
  rewrite He in T.
  split; [exact O|]. split; [exact T|].
  split; [apply DictFacts.get_set_same|]. split.
  - intros key N Nm. unfold saved. rewrite DictFacts.get_set_other by exact N.
    apply FloatFacts.convert_state_ok in H as (sd' & st' & -> & _).
    destruct (quantized a); [|reflexivity].
    apply DictFacts.get_remove_other. now apply Nm.
  - intros k Hk Hs.
    now apply (Conversion.untouched_entries_kept WEIGHT_BITS pow2_round
                 get_contents_table i o a ck ck' out sd k).
Qed.

(** C8, as the code has it: for a state-dict key whose last component is
    'w_zero_point' or 'b_zero_point' and whose tensor has a nonzero element,
    the conversion never completes, and it raises the RuntimeError
    "Parameter ... is not zero." when the loop gets to that key (the key
    contains a dot and no earlier key has raised); a conversion that completes
    has found the tensor to be zero and its output state dict has no
    zero-point entry. *)
Theorem zero_points_checked i o a ck sd k t :
  Dict.get "state_dict" ck = Some (StateDict sd) ->
  Dict.get k sd = Some t ->
  In (PyStr.last_component k) ["w_zero_point"; "b_zero_point"] ->
  (nonzero_numel t <> 0%nat ->
   (forall r, Run.outcome (convert_all i o a ck) <> inr r) /\
   (forall pre post st op par,
      (quantized a = true -> Dict.mem "quantizer_metadata" ck = true) ->
      Dict.keys sd = (pre ++ k :: post)%list ->
      PyStr.cut_last k = Some (op, par) ->
      Run.outcome (Run.for_each (step a) pre
                     {| checkpoint_state := sd; new_checkpoint_state := sd |})
      = inr st ->
      Run.outcome (convert_all i o a ck) = inl (RuntimeError (not_zero_msg k)))) /\
  (forall ck' out,
     Run.outcome (convert i o a ck) = inr (ck', out) ->
     nonzero_numel t = 0%nat /\
     forall k', In (PyStr.last_component k') ["w_zero_point"; "b_zero_point"] ->
                Dict.get k' out = None).
Proof.
  intros Hsd Hk Hz.
  assert (Hin : In k (Dict.keys sd)) by (apply DictFacts.in_keys_get; congruence).
  assert (Done : forall ck' out,
             Run.outcome (convert i o a ck) = inr (ck', out) ->
             nonzero_numel t = 0%nat /\
             forall k', In (PyStr.last_component k') ["w_zero_point"; "b_zero_point"] ->
                        Dict.get k' out = None).
  { intros ck' out H.
    apply FloatFacts.convert_state_ok in H as (sd' & st' & _ & _ & Hsd' & Hloop & ->).
    rewrite Hsd in Hsd'. injection Hsd' as <-. split.
    - destruct (OutputFacts.loop_checks_zero_points WEIGHT_BITS pow2_round
                  a k (Dict.keys sd) Hz _ _ Hin Hloop) as (t' & Ht' & Z).
      simpl in Ht'. congruence.
    - intros k' Hz'.
      pose proof (OutputFacts.not_wb_of_zero_point k' Hz') as Nw.
      destruct (in_dec string_dec k' (Dict.keys sd)) as [I|I].
      + apply (LoopFacts.loop_deletes WEIGHT_BITS pow2_round a k'
                 (fun x => x = k') (Dict.keys sd) Nw)
          with (st := {| checkpoint_state := sd; new_checkpoint_state := sd |});
          eauto.
        intros s x s1 -> S. eapply QuantFacts.zero_point_step_deletes; eauto.
      + eapply LoopFacts.loop_keeps_absent; eauto. simpl.
        destruct (Dict.get k' sd) eqn:E; [|reflexivity].
        exfalso. apply I, DictFacts.in_keys_get. congruence. }
  split; [|exact Done].
  intros Hn. split.
  - intros [] H. unfold convert_checkpoint in H.
    apply RunFacts.bind_ok in H as ([ck' out] & H & _).
    destruct (Done ck' out H) as [Z _]. contradiction.
  - intros pre post st op par Hm Hkeys Hc Hpre.
    apply OutputFacts.convert_checkpoint_failed.
    rewrite (OutputFacts.convert_state_outcome _ _ _ i o a ck sd Hm Hsd).
    rewrite Hkeys, (OutputFacts.for_each_app _ _ _ _ _ Hpre).
    cbn [Run.for_each].
    rewrite RunFacts.bind_fail with (e := RuntimeError (not_zero_msg k));
      [reflexivity|].
    apply (OutputFacts.zero_point_step_fails _ _ a st k op par t Hc).
    + now rewrite (PyStrFacts.last_component_cut _ _ _ Hc) in Hz.
    + rewrite (OutputFacts.loop_source_frame _ _ a k pre _ st
                 (OutputFacts.not_wb_of_zero_point k Hz) Hpre).
      exact Hk.
    + exact Hn.
Qed.

(** C9: with --embedded nothing is saved: whatever the run does, it only
    prints; and when the conversion completes, what follows it on standard
    output is, for each key of the converted state dict in order, the line
    '#define NAME \' (dots replaced by underscores, upper-cased) and the
    values as integers. *)
Theorem embedded_only_prints i o a ck :
  embedded a = true ->
  Forall is_print (Run.trace (convert_all i o a ck)) /\
  (forall obj path, ~ In (TorchSave obj path) (Run.trace (convert_all i o a ck))) /\
  (forall ck' out,
     Run.outcome (convert i o a ck) = inr (ck', out) ->
     Run.outcome (convert_all i o a ck) = inr tt /\
     Run.trace (convert_all i o a ck)
     = (Run.trace (convert i o a ck) ++
        flat_map (fun k =>
                    match Dict.get k out with
                    | Some t =>
                        [Print ("#define " ++ PyStr.upper (PyStr.replace_dots k) ++ " \");
                         Print (int_repr t)]
                    | None => []
                    end) (Dict.keys out))%list).
Proof.
  intros He.
  assert (After : forall ck' out,
             Run.outcome (convert i o a ck) = inr (ck', out) ->
             Run.outcome (convert_all i o a ck) = inr tt /\
             Run.trace (convert_all i o a ck)
             = (Run.trace (convert i o a ck) ++ define_lines out)%list).
  { intros ck' out H.
    destruct (OutputFacts.convert_checkpoint_after _ _ _ i o a ck ck' out H) as [O T].
    now rewrite He in T. }
  assert (Pr : Forall is_print (Run.trace (convert_all i o a ck))).
  { pose proof (OutputFacts.convert_state_prints WEIGHT_BITS pow2_round
                  get_contents_table i o a ck) as P.
    destruct (Run.outcome (convert i o a ck)) as [e|[ck' out]] eqn:E.
    - apply OutputFacts.convert_checkpoint_failed in E as [_ ->]. exact P.
    - destruct (After ck' out eq_refl) as [_ ->].
      apply Forall_app. split; [exact P|].
      unfold define_lines. apply Forall_flat_map, Forall_forall. intros k _.
      destruct (Dict.get k out); repeat constructor. }
  split; [exact Pr|]. split; [|exact After].
  intros obj path I. rewrite Forall_forall in Pr. exact (Pr _ I).
Qed.

End Theorems.

End Output.

(* ------------------------------------------------------------------------- *)
(** ** The converter on the sample checkpoints *)

Module ConverterRuns.
Import Ai84ize Ai84izeSpec.

Local Open Scope Q_scope.

(** The quantized sample: 'bn.sub.weight' is not inside a 'wrapped_module';
    it reaches the output as 1/3. *)
Lemma unwrapped_weight_not_in_format :
  Run.outcome (QTensor.convert_state "in" "out" Runs.quantized_args
                 Runs.quantized_checkpoint)
  = inr (Dict.remove "quantizer_metadata" Runs.quantized_checkpoint,
         Runs.quantized_output) /\
  Dict.get "bn.sub.weight" Runs.quantized_output = Some [[1 # 3]] /\
  PyStr.last_component "bn.sub.weight" = "weight"%string /\
  @all_in_format QTensor.lib QTensor.WEIGHT_BITS [[1 # 3]] = false /\
  @all_in_format QTensor.lib FC_CLAMP_BITS [[1 # 3]] = false.
Proof. repeat split; reflexivity. Qed.

(** The quantized sample: 'fc.wrapped_module.bias' is converted to 'fc.bias'
    and its scale 'fc.b_scale' is not in the output. *)
Lemma scale_entry_deleted :
  Run.outcome (QTensor.convert_state "in" "out" Runs.quantized_args
                 Runs.quantized_checkpoint)
  = inr (Dict.remove "quantizer_metadata" Runs.quantized_checkpoint,
         Runs.quantized_output) /\
  Dict.get "fc.wrapped_module.bias" Runs.quantized_state = Some [[5]] /\
  Dict.get "fc.b_scale" Runs.quantized_state = Some [[7 # 2]] /\
  Dict.get "fc.bias" Runs.quantized_output = Some [[18]] /\
  Dict.get "fc.b_scale" Runs.quantized_output = None.
Proof. repeat split; reflexivity. Qed.

Lemma missing_entries_raise_witness :
  exists msg,
    Run.outcome (QTensor.convert_checkpoint "in" "out" Runs.float_args
                   Runs.no_state_checkpoint)
    = inl (RuntimeError msg).
Proof.
  apply (proj1 (@Output.missing_entries_raise QTensor.lib QTensor.WEIGHT_BITS
                  QTensor.pow2_round QTensor.get_contents_table
                  "in" "out" Runs.float_args Runs.no_state_checkpoint)).
  reflexivity.
Defined.

Lemma entries_carried_over_witness :
  Dict.get "optimizer"
    (Dict.set "state_dict" (Runs.state_dict Runs.quantized_output)
       (Dict.remove "quantizer_metadata" Runs.quantized_checkpoint))
  = Dict.get "optimizer" Runs.quantized_checkpoint.
Proof.
  refine (proj1 (proj2 (proj2 (proj2
    (@Output.entries_carried_over QTensor.lib QTensor.WEIGHT_BITS
       QTensor.pow2_round QTensor.get_contents_table
       "in" "out" Runs.quantized_args Runs.quantized_checkpoint
       (Dict.remove "quantizer_metadata" Runs.quantized_checkpoint)
       Runs.quantized_output Runs.quantized_state _ _ _)))) "optimizer"%string _ _).
  - reflexivity.
  - reflexivity.
  - reflexivity.
  - discriminate.
  - intros _. discriminate.
Defined.

(** The quantized sample, saved: 'conv1.w_scale' ends in none of the five
    names, is an entry of the input, and is not in the saved state dict. *)
Lemma scale_entry_not_carried_over :
  QTensor.convert_checkpoint "in" "out" Runs.quantized_args
    Runs.quantized_checkpoint
  = ([Print "Converting checkpoint file in to out";
      TorchSave Runs.quantized_saved "out"], inr tt) /\
  Dict.get "state_dict" Runs.quantized_saved
  = Some (Runs.state_dict Runs.quantized_output) /\
  PyStr.last_component "conv1.w_scale" = "w_scale"%string /\
  Dict.get "conv1.w_scale" Runs.quantized_state = Some [[3 # 2]] /\
  Dict.get "conv1.w_scale" Runs.quantized_output = None.
Proof. repeat split; reflexivity. Qed.

Lemma zero_points_checked_witness :
  Run.outcome (QTensor.convert_checkpoint "in" "out" Runs.float_args
                 Runs.nonzero_checkpoint)
  = inl (RuntimeError (not_zero_msg "conv1.w_zero_point")).
Proof.
  refine (proj2 (proj1
    (@Output.zero_points_checked QTensor.lib QTensor.WEIGHT_BITS
       QTensor.pow2_round QTensor.get_contents_table
       "in" "out" Runs.float_args Runs.nonzero_checkpoint Runs.nonzero_state
       "conv1.w_zero_point" [[1]] _ _ _) _)
    ["conv1.weight"%string] []
    (@Build_loop_state QTensor.lib Runs.nonzero_state
       [("conv1.weight", [[127; -128]; [127; 0]]);
        ("conv1.w_zero_point", [[1]])])
    "conv1"%string "w_zero_point"%string _ _ _ _).
  - reflexivity.
  - reflexivity.
  - vm_compute. auto.
  - vm_compute. discriminate.
  - discriminate.
  - reflexivity.
  - reflexivity.
  - reflexivity.
Defined.

(** A key without a dot in front of a zero point that is not zero: the
    unpacking of [k.rsplit] raises a ValueError before the zero point is
    looked at. *)
Lemma dotless_key_raises_value_error :
  Dict.get "conv1.w_zero_point" Runs.dotless_state = Some [[1]] /\
  PyStr.last_component "conv1.w_zero_point" = "w_zero_point"%string /\
  @nonzero_numel QTensor.lib [[1]] = 1%nat /\
  Run.outcome (QTensor.convert_checkpoint "in" "out" Runs.float_args
                 Runs.dotless_checkpoint)
  = inl (ValueError "not enough values to unpack (expected 2, got 1)").
Proof. repeat split; reflexivity. Qed.

Lemma embedded_only_prints_witness :
  Run.trace (QTensor.convert_checkpoint "in" "out" Runs.embedded_args
               Runs.float_checkpoint)
  = [Print "Converting checkpoint file in to out";
     Print "#define CONV1_WEIGHT \"; Print "[127 -128 127 0]";
     Print "#define FC_BIAS \"; Print "[2088]";
     Print "#define BN_RUNNING_MEAN \"; Print "[0]"].
Proof.
  refine (proj2 (proj2 (proj2
    (@Output.embedded_only_prints QTensor.lib QTensor.WEIGHT_BITS
       QTensor.pow2_round QTensor.get_contents_table
       "in" "out" Runs.embedded_args Runs.float_checkpoint _))
    Runs.float_checkpoint Runs.float_output _)).
  - reflexivity.
  - reflexivity.
Defined.

End ConverterRuns.

(* ------------------------------------------------------------------------- *)
(** ** train.py: the order of the scores *)

Module ScoreOrder.
Import Train.

#[local] Instance Z_order : OrderLike Z.compare.
Proof.
  constructor.
  - intros a b. apply Z.compare_antisym.
  - intros a b c. rewrite !Z.compare_lt_iff. lia.
  - intros a b c H. apply Z.compare_eq in H. now subst.
Qed.

#[local] Instance Q_order : OrderLike Qcompare.
Proof.
  constructor.
  - intros a b. symmetry. apply Qcompare_antisym.
  - intros a b c. rewrite <- !Qlt_alt. apply Qlt_trans.
  - intros a b c H. apply Qeq_alt in H. now rewrite H.
Qed.

Lemma cmp_eq_r {T} (cmp : T -> T -> comparison) `{!OrderLike cmp} a b c :
  cmp a b = Eq -> cmp c a = cmp c b.
Proof.
  intros H. rewrite (cmp_sym a c), (cmp_sym b c). f_equal. now apply cmp_eq_l.
Qed.

#[local] Instance lex_order {T} (c1 c2 : T -> T -> comparison)
  `{!OrderLike c1} `{!OrderLike c2} :
  OrderLike (fun a b => lex (c1 a b) (c2 a b)).
Proof.
  constructor.
  - intros a b. rewrite (cmp_sym (cmp := c1) a b), (cmp_sym (cmp := c2) a b).
    now destruct (c1 a b).
  - intros a b c. unfold lex.
    destruct (c1 a b) eqn:Eab; try discriminate;
      destruct (c1 b c) eqn:Ebc; try discriminate; intros H1 H2.
    + rewrite (cmp_eq_l a b c Eab), Ebc. eapply cmp_lt_trans; eauto.
    + now rewrite (cmp_eq_l a b c Eab), Ebc.
    + now rewrite <- (cmp_eq_r c1 b c a Ebc), Eab.
    + now rewrite (cmp_lt_trans a b c Eab Ebc).
  - intros a b c. unfold lex. destruct (c1 a b) eqn:Eab; try discriminate.
    intros H. now rewrite (cmp_eq_l a b c Eab), (cmp_eq_l (cmp := c2) a b c H).
Qed.

#[local] Instance on_order {T U} (f : T -> U) (cmp : U -> U -> comparison)
  `{!OrderLike cmp} : OrderLike (fun a b => cmp (f a) (f b)).
Proof.
  constructor.
  - intros a b. apply cmp_sym.
  - intros a b c. apply cmp_lt_trans.
  - intros a b c. apply cmp_eq_l.
Qed.

Lemma key_order : OrderLike key_compare.
Proof.
  unfold key_compare.
  apply (lex_order (fun a b => (params_nnz_cnt a ?= params_nnz_cnt b)%Z) _).
Qed.

Lemma key_ge_trans a b c : key_ge a b -> key_ge b c -> key_ge a c.
Proof.
  pose proof key_order as O. unfold key_ge. intros Hab Hbc Hac.
  destruct (key_compare a b) eqn:E; [| contradiction |].
  - rewrite (cmp_eq_l a b c E) in Hac. contradiction.
  - apply Hbc. apply (cmp_lt_trans b a c); [|exact Hac].
    now rewrite (cmp_sym a b), E.
Qed.

Lemma key_ge_refl a : key_ge a a.
Proof.
  pose proof key_order as O. unfold key_ge.
  pose proof (cmp_sym a a) as S. destruct (key_compare a a); simpl in S; congruence.
Qed.

Lemma key_ltb_false a b : key_ltb a b = false -> key_ge a b.
Proof. unfold key_ltb, key_ge. destruct (key_compare a b); congruence. Qed.

Lemma key_ltb_true a b : key_ltb a b = true -> key_ge b a.
Proof.
  pose proof key_order as O. unfold key_ltb, key_ge. rewrite (cmp_sym a b).
  destruct (key_compare a b); simpl; congruence.
Qed.

(** *** The sort *)

Lemma insert_desc_perm x l : Permutation (insert_desc x l) (x :: l).
Proof.
  induction l as [|y r IH]; simpl; [reflexivity|].
  destruct (key_ltb x y); [|reflexivity].
  rewrite IH. apply perm_swap.
Qed.

Lemma sort_desc_perm l : Permutation (sort_desc l) l.
Proof.
  induction l as [|x r IH]; simpl; [reflexivity|].
  rewrite insert_desc_perm. now constructor.
Qed.

Lemma insert_desc_sorted x l :
  StronglySorted key_ge l -> StronglySorted key_ge (insert_desc x l).
Proof.
  induction l as [|y r IH]; intros S; simpl.
  - repeat constructor.
  - inversion S as [|? ? Sr Fy]; subst.
    destruct (key_ltb x y) eqn:E.
    + constructor; [now apply IH|].
      apply (Permutation_Forall (x := x :: r)); [symmetry; apply insert_desc_perm|].
      constructor; [now apply key_ltb_true|exact Fy].
    + constructor; [exact S|]. apply key_ltb_false in E.
      constructor; [exact E|].
      eapply Forall_impl; [|exact Fy]. intros z Hz. eapply key_ge_trans; eauto.
Qed.

Lemma sort_desc_sorted l : StronglySorted key_ge (sort_desc l).
Proof.
  induction l as [|x r IH]; simpl; [constructor|]. now apply insert_desc_sorted.
Qed.

(** The first element of a sorted history is the best of it. *)
Lemma head_is_best best rest :
  StronglySorted key_ge (best :: rest) ->
  forall s, In s (best :: rest) -> key_ge best s.
Proof.
  intros S s [<-|Hs]; [apply key_ge_refl|].
  inversion S as [|? ? _ F]; subst. rewrite Forall_forall in F. now apply F.
Qed.

Lemma sort_desc_nonempty l x : exists best rest, sort_desc (l ++ [x]) = best :: rest.
Proof.
  destruct (sort_desc (l ++ [x])) as [|b r] eqn:E; [|eauto].
  pose proof (sort_desc_perm (l ++ [x])) as P. rewrite E in P.
  apply Permutation_nil in P. destruct l; discriminate.
Qed.

End ScoreOrder.

(* ------------------------------------------------------------------------- *)
(** ** train.py: the epoch loop *)

Module TrainingLoop.
Import Train.

Section Theorems.
Variable model : Type.
Variable train : model -> Z -> model.
Variable validate : model -> Z -> Q * Q * Q.
Variable model_params_stats : model -> Q * Z.
Variable on_epoch_begin : model -> Z -> Q -> model.
Variable on_epoch_end : model -> Z -> model.

Local Notation "'update'" := (update_training_scores_history model model_params_stats).
Local Notation "'body'" :=
  (epoch_body model train validate model_params_stats on_epoch_begin on_epoch_end).
Local Notation "'loop'" :=
  (training_loop model train validate model_params_stats on_epoch_begin on_epoch_end).
Local Notation "'new_score'" := (score_of model model_params_stats).

Lemma log_each (l : list score) :
  Run.for_each (fun (_ : unit) s => Run.emit (LogBest s)) l tt
  = (map LogBest l, inr tt).
Proof.
  induction l as [|s r IH]; [reflexivity|].
  cbn [Run.for_each map]. unfold Run.bind, Run.emit at 1. now rewrite IH.
Qed.

Lemma logs_are_logs (l : list score) : Forall is_log (map LogBest l).
Proof. induction l; constructor; simpl; auto. Qed.

Lemma update_eq history m t1 t5 e n :
  update history m t1 t5 e n
  = (map LogBest (firstn n (sort_desc (history ++ [new_score m t1 t5 e]))),
     inr (sort_desc (history ++ [new_score m t1 t5 e]))).
Proof.
  unfold update_training_scores_history, score_of.
  destruct (model_params_stats m) as [sp nnz]. simpl fst. simpl snd.
  rewrite log_each. unfold Run.bind, Run.ret. now rewrite app_nil_r.
Qed.

(** One epoch, written out. *)
Lemma epoch_body_eq cs n st e :
  exists logs t1 best rest st' new,
    body cs n st e
    = (((if cs then [OnEpochBegin e (vloss model st)] else []) ++
        [TrainPass e; ValidatePass e] ++
        (if cs then [OnEpochEnd e] else []) ++
        logs ++
        [SaveCheckpoint e t1 (top1 best) (epoch best) (e =? epoch best)%Z])%list,
       inr st') /\
    Forall is_log logs /\
    perf_scores_history model st' = best :: rest /\
    best :: rest = sort_desc (perf_scores_history model st ++ [new]) /\
    epoch new = e.
Proof.
  unfold epoch_body.
  destruct cs; cbn -[update_training_scores_history];
    match goal with
    | |- context [validate ?x e] =>
        destruct (validate x e) as [[t1 t5] vl] eqn:V
    end;
    match goal with
    | |- context [update ?h ?m1 ?a ?b e n] =>
        rewrite (update_eq h m1 a b e n);
        destruct (ScoreOrder.sort_desc_nonempty h (new_score m1 a b e))
          as (best & rest & E);
        exists (map LogBest (firstn n (best :: rest))), a, best, rest,
          {| the_model := m1; vloss := vl; perf_scores_history := best :: rest |},
          (new_score m1 a b e);
        rewrite E
    end;
    (split; [|split; [apply logs_are_logs|repeat split; auto]]);
    cbn; rewrite <- ?app_assoc; reflexivity.
Qed.

Lemma in_range a b e : In e (range a b) <-> (a <= e < b)%Z.
Proof.
  unfold range. rewrite in_map_iff. split.
  - intros (i & <- & Hi). apply in_seq in Hi. lia.
  - intros H. exists (Z.to_nat (e - a)). split; [lia|]. apply in_seq. lia.
Qed.

(** A loop whose body always completes completes, and its trace holds the
    trace of the body for every element. *)
Lemma for_each_total {S X} (f : S -> X -> M S) :
  (forall st x, exists st', Run.outcome (f st x) = inr st') ->
  forall l st,
    (exists st', Run.outcome (Run.for_each f l st) = inr st') /\
    forall x, In x l ->
      exists stx pre post,
        Run.trace (Run.for_each f l st) = (pre ++ Run.trace (f stx x) ++ post)%list.
Proof.
  intros Tot. induction l as [|y r IH]; intros st.
  - split; [now exists st|intros x []].
  - destruct (Tot st y) as (st1 & H1). destruct (IH st1) as [(st' & H') Hin].
    cbn [Run.for_each]. split.
    + exists st'. now rewrite (RunFacts.bind_outcome _ _ _ H1).
    + intros x [->|Hx]; rewrite (RunFacts.bind_trace _ _ _ H1).
      * exists st, [], (Run.trace (Run.for_each f r st1)). reflexivity.
      * destruct (Hin x Hx) as (stx & pre & post & ->).
        exists stx, (Run.trace (f st y) ++ pre)%list, post.
        now rewrite <- app_assoc.
Qed.

Lemma body_total cs n st e : exists st', Run.outcome (body cs n st e) = inr st'.
Proof.
  destruct (epoch_body_eq cs n st e) as (logs & t1 & best & rest & st' & new & E & _).
  exists st'. now rewrite E.
Qed.

(** C5: with a compression scheduler, every epoch of the main loop calls
    on_epoch_begin, then trains, then validates, then calls on_epoch_end,
    and then (after the log of the best scores) saves a checkpoint. *)
Theorem epoch_events_in_order n start_epoch ending_epoch m history e :
  (start_epoch <= e < ending_epoch)%Z ->
  exists st pre post metrics logs t1 best_top1 best_epoch is_best,
    Run.outcome (loop true n start_epoch ending_epoch m history) = inr st /\
    Run.trace (loop true n start_epoch ending_epoch m history)
    = (pre ++
       [OnEpochBegin e metrics; TrainPass e; ValidatePass e; OnEpochEnd e] ++
       logs ++
       [SaveCheckpoint e t1 best_top1 best_epoch is_best] ++ post)%list /\
    Forall is_log logs.
Proof.
  intros He. unfold training_loop.
  assert (G : (start_epoch >=? ending_epoch)%Z = false) by lia. rewrite G.
  set (st0 := {| the_model := m; vloss := inject_Z (10 ^ 6);
                 perf_scores_history := history |}).
  destruct (for_each_total (body true n) (body_total true n)
              (range start_epoch ending_epoch) st0) as [(st & Hst) Hin].
  destruct (Hin e (proj2 (in_range _ _ _) He)) as (stx & pre & post & T).
  destruct (epoch_body_eq true n stx e)
    as (logs & t1 & best & rest & st' & new & E & Logs & _).
  rewrite E in T. cbn [Run.trace fst] in T.
  exists st, pre, (post ++ [TestPass])%list, (vloss model stx), logs, t1,
    (top1 best), (epoch best), (e =? epoch best)%Z.
  split; [|split; [|exact Logs]].
  - rewrite (RunFacts.bind_outcome _ _ _ Hst). reflexivity.
  - rewrite (RunFacts.bind_trace _ _ _ Hst), T. cbn [Run.trace fst Run.bind Run.emit Run.ret].
    simpl. rewrite <- !app_assoc. simpl. rewrite <- !app_assoc. reflexivity.
Qed.

(** C10: update_training_scores_history leaves the history sorted from the
    largest key (params_nnz_cnt, top1, top5, epoch) to the smallest, so that
    its first element is the best score so far; and the checkpoint an epoch
    saves is marked is_best exactly when the epoch is the epoch of that
    first element. *)
Theorem history_sorted_best_first :
  (forall history m t1 t5 e k,
     exists sorted,
       Run.outcome (update history m t1 t5 e k) = inr sorted /\
       StronglySorted key_ge sorted /\
       Permutation sorted (history ++ [new_score m t1 t5 e]) /\
       exists best rest,
         sorted = best :: rest /\ forall s, In s sorted -> key_ge best s) /\
  (forall cs n st e,
     exists st' best rest,
       Run.outcome (body cs n st e) = inr st' /\
       perf_scores_history model st' = best :: rest /\
       StronglySorted key_ge (perf_scores_history model st') /\
       (forall s, In s (perf_scores_history model st') -> key_ge best s) /\
       (exists current_top1,
          In (SaveCheckpoint e current_top1 (top1 best) (epoch best)
                (e =? epoch best)%Z)
             (Run.trace (body cs n st e))) /\
       forall e' current_top1 best_top1 best_epoch is_best,
         In (SaveCheckpoint e' current_top1 best_top1 best_epoch is_best)
            (Run.trace (body cs n st e)) ->
         e' = e /\ best_epoch = epoch best /\
         (is_best = true <-> e = epoch best)).
Proof.
  split.
  - intros history m t1 t5 e k. rewrite update_eq. eexists. split; [reflexivity|].
    split; [apply ScoreOrder.sort_desc_sorted|].
    split; [apply ScoreOrder.sort_desc_perm|].
    destruct (ScoreOrder.sort_desc_nonempty history (new_score m t1 t5 e))
      as (best & rest & E).
    exists best, rest. split; [exact E|]. rewrite E.
    apply ScoreOrder.head_is_best. rewrite <- E. apply ScoreOrder.sort_desc_sorted.
  - intros cs n st e.
    destruct (epoch_body_eq cs n st e)
      as (logs & t1 & best & rest & st' & new & E & Logs & Hh & Hs & _).
    assert (S : StronglySorted key_ge (best :: rest))
      by (rewrite Hs; apply ScoreOrder.sort_desc_sorted).
    exists st', best, rest. rewrite E. cbn [Run.outcome Run.trace fst snd].
    split; [reflexivity|]. split; [exact Hh|]. rewrite Hh.
    split; [exact S|]. split; [now apply ScoreOrder.head_is_best|]. split.
    + exists t1. rewrite !in_app_iff. do 4 right. now left.
    + intros e' c b be ib I.
      assert (I' : In (SaveCheckpoint e' c b be ib)
                      [SaveCheckpoint e t1 (top1 best) (epoch best)
                         (e =? epoch best)%Z]).
      { rewrite !in_app_iff in I.
        destruct I as [I|[I|[I|[I|I]]]]; [| | | |exact I]; exfalso.
        - destruct cs; simpl in I; intuition discriminate.
        - simpl in I. intuition discriminate.
        - destruct cs; simpl in I; intuition discriminate.
        - rewrite Forall_forall in Logs. exact (Logs _ I). }
      destruct I' as [I'|[]]. injection I' as <- <- <- <- <-.
      split; [reflexivity|]. split; [reflexivity|]. apply Z.eqb_eq.
Qed.

End Theorems.

End TrainingLoop.

(* ------------------------------------------------------------------------- *)
(** ** The sample training run *)

Module TrainingRuns.
Import Train.

Local Open Scope Q_scope.

(** Three epochs: the first has more parameters left and ranks last; of the
    other two the second has the better top1 and stays the best. *)
Example sample_history :
  map epoch (perf_scores_history nat
               (match Run.outcome (TrainRuns.run true) with
                | inr st => st
                | inl _ => {| the_model := 0%nat; vloss := 0;
                              perf_scores_history := [] |}
                end))
  = [1; 2; 0]%Z.
Proof. reflexivity. Qed.

Example sample_saves :
  filter (fun ev => match ev with SaveCheckpoint _ _ _ _ _ => true | _ => false end)
         (Run.trace (TrainRuns.run true))
  = [SaveCheckpoint 0 90 90 0 true;
     SaveCheckpoint 1 95 95 1 true;
     SaveCheckpoint 2 93 95 1 false].
Proof. reflexivity. Qed.

Lemma epoch_events_in_order_witness :
  exists st pre post metrics logs t1 best_top1 best_epoch is_best,
    Run.outcome (TrainRuns.run true) = inr st /\
    Run.trace (TrainRuns.run true)
    = (pre ++
       [OnEpochBegin 1 metrics; TrainPass 1; ValidatePass 1; OnEpochEnd 1] ++
       logs ++
       [SaveCheckpoint 1 t1 best_top1 best_epoch is_best] ++ post)%list /\
    Forall is_log logs.
Proof.
  apply (TrainingLoop.epoch_events_in_order nat TrainRuns.train
           TrainRuns.validate TrainRuns.model_params_stats
           TrainRuns.on_epoch_begin TrainRuns.on_epoch_end 1 0 3 0%nat [] 1).
  lia.
Defined.

End TrainingRuns.

(* ========================================================================= *)
(** * Further properties of the converter *)

Module RejectFacts.
Import Ai84ize Ai84izeSpec.

Section Facts.
Context {L : TensorLib}.
Variable WEIGHT_BITS : Z.
Variable pow2_round : tensor -> Z -> tensor.
Variable get_contents_table : checkpoint -> string.

Local Notation "'convert'" :=
  (convert_state WEIGHT_BITS pow2_round get_contents_table).
Local Notation "'convert_all'" :=
  (convert_checkpoint WEIGHT_BITS pow2_round get_contents_table).
Local Notation "'step'" := (convert_key WEIGHT_BITS pow2_round).
Local Notation "'step_ok'" := (step_ok WEIGHT_BITS).

(** A loop that contains a key at which no step can complete does not
    complete. *)
Lemma loop_never_completes a (Inv : loop_state -> Prop) k l :
  (forall st x st1, step_ok a st x st1 -> Inv st -> Inv st1) ->
  (forall st st1, Inv st -> Run.outcome (step a st k) <> inr st1) ->
  In k l ->
  forall st st', Inv st -> Run.outcome (Run.for_each (step a) l st) <> inr st'.
Proof.
  intros Keep Fail. induction l as [|x r IH]; intros Hin st st' HI H; [contradiction|].
  apply RunFacts.for_each_cons in H as (st1 & H1 & H2).
  destruct (String.eqb_spec x k) as [->|N].
  - exact (Fail st st1 HI H1).
  - destruct Hin as [E|Hin]; [contradiction|].
    apply (IH Hin st1 st'); [|exact H2].
    apply (Keep st x st1); [|exact HI].
    now apply (StepFacts.convert_key_ok WEIGHT_BITS pow2_round).
Qed.

(** If the loop completes, so does each of its steps: a whole conversion
    that completes has completed its loop. *)
Lemma completed_loop i o a ck sd r :
  Dict.get "state_dict" ck = Some (StateDict sd) ->
  Run.outcome (convert_all i o a ck) = inr r ->
  exists st', Run.outcome (Run.for_each (step a) (Dict.keys sd)
                             {| checkpoint_state := sd; new_checkpoint_state := sd |})
              = inr st'.
Proof.
  intros Hsd H. unfold convert_checkpoint in H.
  apply RunFacts.bind_ok in H as ([ck' out] & H & _).
  apply FloatFacts.convert_state_ok in H as (sd' & st' & _ & _ & Hsd' & Hl & _).
  rewrite Hsd in Hsd'. injection Hsd' as <-. eauto.
Qed.

(** The exception of the step the loop has got to is the exception of the
    conversion. *)
Lemma reached_step_raises i o a ck sd pre k post st e :
  (quantized a = true -> Dict.mem "quantizer_metadata" ck = true) ->
  Dict.get "state_dict" ck = Some (StateDict sd) ->
  Dict.keys sd = (pre ++ k :: post)%list ->
  Run.outcome (Run.for_each (step a) pre
                 {| checkpoint_state := sd; new_checkpoint_state := sd |}) = inr st ->
  Run.outcome (step a st k) = inl e ->
  Run.outcome (convert_all i o a ck) = inl e.
Proof.
  intros Hm Hsd Hkeys Hpre Hstep.
  apply OutputFacts.convert_checkpoint_failed.
  rewrite (OutputFacts.convert_state_outcome _ _ _ i o a ck sd Hm Hsd).
  rewrite Hkeys, (OutputFacts.for_each_app _ _ _ _ _ Hpre).
  cbn [Run.for_each]. now rewrite (RunFacts.bind_fail _ _ _ Hstep).
Qed.

Lemma dotless_step_fails a st k :
  PyStr.cut_last k = None ->
  Run.outcome (step a st k)
  = inl (ValueError "not enough values to unpack (expected 2, got 1)").
Proof.
  intros Hk. unfold convert_key, PyStr.rsplit. now rewrite Hk.
Qed.

Lemma wb_not_zero_point par :
  In par ["weight"; "bias"] ->
  PyStr.mem par ["w_zero_point"; "b_zero_point"] = false /\
  PyStr.mem par ["weight"; "bias"] = true.
Proof. intros [<-|[<-|[]]]; split; reflexivity. Qed.

Lemma unwrapped_step_fails a st k op par :
  quantized a = true ->
  PyStr.cut_last k = Some (op, par) ->
  In par ["weight"; "bias"] ->
  PyStr.cut_last op = None ->
  Run.outcome (step a st k)
  = inl (ValueError "not enough values to unpack (expected 2, got 1)").
Proof.
  intros Hq Hk Hp Ho. destruct (wb_not_zero_point par Hp) as [Z W].
  unfold convert_key.
  rewrite (RunFacts.bind_outcome _ _ (op, par))
    by (unfold PyStr.rsplit; now rewrite Hk).
  cbv beta iota. rewrite Z, W, Hq. simpl negb. cbv iota.
  unfold convert_quantized, PyStr.rsplit. now rewrite Ho.
Qed.

(** The step at a wrapped weight or bias whose scale is missing. *)
Lemma scaleless_step a st module par w :
  quantized a = true ->
  In par ["weight"; "bias"] ->
  Dict.get (wrapped_name module par) (checkpoint_state st) = Some w ->
  Dict.get (scale_name module par) (checkpoint_state st) = None ->
  Run.outcome (step a st (wrapped_name module par))
  = inl (KeyError (scale_name module par)).
Proof.
  intros Hq Hp Hw Hs. destruct (wb_not_zero_point par Hp) as [Z W].
  unfold convert_key.
  rewrite (RunFacts.bind_outcome _ _ (module ++ String PyStr.dot "wrapped_module", par))
    by (unfold PyStr.rsplit; now rewrite (QuantFacts.cut_last_wrapped module par Hp)).
  cbv beta iota. rewrite Z, W, Hq. simpl negb. cbv iota.
  unfold convert_quantized.
  rewrite (RunFacts.bind_outcome _ _ (module, "wrapped_module"))
    by (unfold PyStr.rsplit; now rewrite (QuantFacts.cut_last_wrapper module)).
  cbv beta iota.
  replace (PyStr.mem "wrapped_module" ["wrapped_module"]) with true by reflexivity.
  cbv iota.
  rewrite (RunFacts.bind_outcome _ _ w) by (unfold getitem; now rewrite Hw).
  destruct (negb (String.eqb module "fc"));
    (rewrite RunFacts.bind_fail with (e := KeyError (scale_name module par));
     [reflexivity|unfold getitem, scale_name in *; now rewrite Hs]).
Qed.

(** The keys of [checkpoint_state] stay. *)
Lemma step_source_keeps a st x st1 k :
  step_ok a st x st1 ->
  Dict.get k (checkpoint_state st) <> None ->
  Dict.get k (checkpoint_state st1) <> None.
Proof.
  intros S Hk. destruct S; simpl; auto.
  match goal with H : _ \/ _ |- _ => destruct H as [->|[w' ->]] end; [exact Hk|].
  destruct (String.eqb_spec k x) as [->|N].
  - rewrite DictFacts.get_set_same. discriminate.
  - now rewrite DictFacts.get_set_other.
Qed.

Lemma loop_source_keeps a k l st st' :
  Dict.get k (checkpoint_state st) <> None ->
  Run.outcome (Run.for_each (step a) l st) = inr st' ->
  Dict.get k (checkpoint_state st') <> None.
Proof.
  apply (LoopFacts.loop_invariant WEIGHT_BITS pow2_round a
           (fun s => Dict.get k (checkpoint_state s) <> None)).
  intros s x s1 _ P S. eapply step_source_keeps; eauto.
Qed.

End Facts.

End RejectFacts.

(* ------------------------------------------------------------------------- *)
(** ** Keys the converter cannot take, entries it drops *)

Module Rejections.
Import Ai84ize Ai84izeSpec.

Section Theorems.
Context {L : TensorLib}.
Variable WEIGHT_BITS : Z.
Variable pow2_round : tensor -> Z -> tensor.
Variable get_contents_table : checkpoint -> string.

Local Notation "'convert'" :=
  (convert_state WEIGHT_BITS pow2_round get_contents_table).
Local Notation "'convert_all'" :=
  (convert_checkpoint WEIGHT_BITS pow2_round get_contents_table).
Local Notation "'step'" := (convert_key WEIGHT_BITS pow2_round).
Local Notation "'step_ok'" := (step_ok WEIGHT_BITS).

(** X1: a state dict with a key that contains no dot is never converted;
    when the loop gets to that key, the unpacking of [k.rsplit] at line 85
    raises ValueError. *)
Theorem dotless_key_rejected i o a ck sd k :
  Dict.get "state_dict" ck = Some (StateDict sd) ->
  In k (Dict.keys sd) ->
  PyStr.cut_last k = None ->
  (forall r, Run.outcome (convert_all i o a ck) <> inr r) /\
  (forall pre post st,
     (quantized a = true -> Dict.mem "quantizer_metadata" ck = true) ->
     Dict.keys sd = (pre ++ k :: post)%list ->
     Run.outcome (Run.for_each (step a) pre
                    {| checkpoint_state := sd; new_checkpoint_state := sd |})
     = inr st ->
     Run.outcome (convert_all i o a ck)
     = inl (ValueError "not enough values to unpack (expected 2, got 1)")).
Proof.
  intros Hsd Hin Hk. split.
  - intros r H. destruct (RejectFacts.completed_loop _ _ _ i o a ck sd r Hsd H) as (st' & Hl).
    revert Hl.
    apply (RejectFacts.loop_never_completes WEIGHT_BITS pow2_round a
             (fun _ => True) k); auto.
    intros st st1 _. now rewrite RejectFacts.dotless_step_fails.
  - intros pre post st Hm Hkeys Hpre.
    eapply RejectFacts.reached_step_raises; eauto.
    now apply RejectFacts.dotless_step_fails.
Qed.

(** X2: with --quantized, a key that ends in 'weight' or 'bias' and has a
    single dot ('conv1.weight', as in a float checkpoint) is never converted:
    the unpacking of [operation.rsplit] at line 114 raises ValueError. *)
Theorem plain_weight_rejected_when_quantized i o a ck sd k op par :
  quantized a = true ->
  Dict.get "state_dict" ck = Some (StateDict sd) ->
  In k (Dict.keys sd) ->
  PyStr.cut_last k = Some (op, par) ->
  In par ["weight"; "bias"] ->
  PyStr.cut_last op = None ->
  (forall r, Run.outcome (convert_all i o a ck) <> inr r) /\
  (forall pre post st,
     Dict.mem "quantizer_metadata" ck = true ->
     Dict.keys sd = (pre ++ k :: post)%list ->
     Run.outcome (Run.for_each (step a) pre
                    {| checkpoint_state := sd; new_checkpoint_state := sd |})
     = inr st ->
     Run.outcome (convert_all i o a ck)
     = inl (ValueError "not enough values to unpack (expected 2, got 1)")).
Proof.
  intros Hq Hsd Hin Hk Hp Ho. split.
  - intros r H. destruct (RejectFacts.completed_loop _ _ _ i o a ck sd r Hsd H) as (st' & Hl).
    revert Hl.
    apply (RejectFacts.loop_never_completes WEIGHT_BITS pow2_round a
             (fun _ => True) k); auto.
    intros st st1 _.
    now rewrite (RejectFacts.unwrapped_step_fails _ _ a st k op par Hq Hk Hp Ho).
  - intros pre post st Hm Hkeys Hpre.
    eapply RejectFacts.reached_step_raises; eauto.
    now apply (RejectFacts.unwrapped_step_fails _ _ a st k op par).
Qed.

(** X3: with --quantized, a wrapped weight or bias whose scale entry
    ([module.w_scale], [module.b_scale]) is missing from the state dict is
    never converted: the lookup at line 121 raises KeyError for the scale. *)
Theorem missing_scale_rejected i o a ck sd module par :
  quantized a = true ->
  Dict.get "state_dict" ck = Some (StateDict sd) ->
  In par ["weight"; "bias"] ->
  In (wrapped_name module par) (Dict.keys sd) ->
  Dict.get (scale_name module par) sd = None ->
  (forall r, Run.outcome (convert_all i o a ck) <> inr r) /\
  (forall pre post st,
     Dict.mem "quantizer_metadata" ck = true ->
     Dict.keys sd = (pre ++ wrapped_name module par :: post)%list ->
     Run.outcome (Run.for_each (step a) pre
                    {| checkpoint_state := sd; new_checkpoint_state := sd |})
     = inr st ->
     Run.outcome (convert_all i o a ck) = inl (KeyError (scale_name module par))).
Proof.
  intros Hq Hsd Hp Hin Hs.
  apply DictFacts.in_keys_get in Hin.
  assert (Fail : forall st,
             Dict.get (scale_name module par) (checkpoint_state st) = None ->
             Dict.get (wrapped_name module par) (checkpoint_state st) <> None ->
             Run.outcome (step a st (wrapped_name module par))
             = inl (KeyError (scale_name module par))).
  { intros st Hs' Hw.
    destruct (Dict.get (wrapped_name module par) (checkpoint_state st)) as [w|] eqn:E;
      [|contradiction].
    now apply (RejectFacts.scaleless_step _ _ a st module par w). }
  split.
  - intros r H. destruct (RejectFacts.completed_loop _ _ _ i o a ck sd r Hsd H) as (st' & Hl).
    revert Hl.
    apply (RejectFacts.loop_never_completes WEIGHT_BITS pow2_round a
             (fun s => Dict.get (scale_name module par) (checkpoint_state s) = None /\
                       Dict.get (wrapped_name module par) (checkpoint_state s) <> None)
             (wrapped_name module par)).
    + intros st x st1 S [A B]. split.
      * rewrite <- A. eapply QuantFacts.step_source_frame; eauto.
        now apply LoopFacts.scale_not_wb.
      * eapply RejectFacts.step_source_keeps; eauto.
    + intros st st1 [A B]. now rewrite (Fail st A B).
    + now apply DictFacts.in_keys_get.
    + simpl. auto.
  - intros pre post st Hm Hkeys Hpre.
    eapply RejectFacts.reached_step_raises; eauto.
    apply Fail.
    + rewrite (OutputFacts.loop_source_frame _ _ a _ pre _ st
                 (LoopFacts.scale_not_wb module par Hp) Hpre). exact Hs.
    + apply (RejectFacts.loop_source_keeps WEIGHT_BITS pow2_round a _ pre
               {| checkpoint_state := sd; new_checkpoint_state := sd |} st);
        [exact Hin|exact Hpre].
Qed.

Lemma base_b_q_step_deletes a st k st1 :
  PyStr.last_component k = "base_b_q" ->
  step_ok a st k st1 ->
  Dict.get k (new_checkpoint_state st1) = None.
Proof.
  intros Hk S.
  destruct S as [op par t Hc Hp Ht Hz Hm
                |op par module rest t sat Hc Hp Hq Hf Ht Hs
                |op par module w cs' Hc Hp Hq Ho Hcs
                |op par module s Hc Hp Hq Ho Hs
                |op Hc Hm
                |op par Hc Hp];
    rewrite (PyStrFacts.last_component_cut _ _ _ Hc) in Hk; simpl;
    try apply DictFacts.get_remove_same;
    try (apply PyStrFacts.mem_true in Hp; simpl in Hp; exfalso;
         intuition (subst; discriminate)).
  exfalso. apply Hp. subst par. simpl. tauto.
Qed.

(** X4: a converted output state dict has no entry whose last component is
    'base_b_q', in either mode. *)
Theorem base_b_q_removed i o a ck ck' out sd k :
  Run.outcome (convert i o a ck) = inr (ck', out) ->
  Dict.get "state_dict" ck = Some (StateDict sd) ->
  PyStr.last_component k = "base_b_q" ->
  Dict.get k out = None.
Proof.
  intros H Hsd Hk.
  apply FloatFacts.convert_state_ok in H as (sd' & st' & _ & _ & Hsd' & Hloop & ->).
  rewrite Hsd in Hsd'. injection Hsd' as <-.
  assert (Nw : ~ In (PyStr.last_component k) ["weight"; "bias"])
    by (rewrite Hk; simpl; intuition discriminate).
  destruct (in_dec string_dec k (Dict.keys sd)) as [I|I].
  - apply (LoopFacts.loop_deletes WEIGHT_BITS pow2_round a k
             (fun x => x = k) (Dict.keys sd) Nw)
      with (st := {| checkpoint_state := sd; new_checkpoint_state := sd |}); eauto.
    intros s x s1 -> S. eapply base_b_q_step_deletes; eauto.
  - eapply LoopFacts.loop_keeps_absent; eauto. simpl.
    destruct (Dict.get k sd) eqn:E; [|reflexivity].
    exfalso. apply I, DictFacts.in_keys_get. congruence.
Qed.

End Theorems.

Local Open Scope Q_scope.

Lemma dotless_key_rejected_witness :
  Run.outcome (QTensor.convert_checkpoint "in" "out" Runs.float_args
                 Runs.dotless_checkpoint)
  = inl (ValueError "not enough values to unpack (expected 2, got 1)").
Proof.
  refine (proj2 (@dotless_key_rejected QTensor.lib QTensor.WEIGHT_BITS
                   QTensor.pow2_round QTensor.get_contents_table
                   "in" "out" Runs.float_args Runs.dotless_checkpoint
                   Runs.dotless_state "scale" _ _ _)
            [] [("conv1.w_zero_point")%string]
            (@Build_loop_state QTensor.lib Runs.dotless_state Runs.dotless_state)
            _ _ _).
  - reflexivity.
  - simpl. auto.
  - reflexivity.
  - discriminate.
  - reflexivity.
  - reflexivity.
Defined.

Lemma plain_weight_rejected_when_quantized_witness :
  Run.outcome (QTensor.convert_checkpoint "in" "out" Runs.quantized_args
                 MoreRuns.plain_checkpoint)
  = inl (ValueError "not enough values to unpack (expected 2, got 1)").
Proof.
  refine (proj2 (@plain_weight_rejected_when_quantized QTensor.lib QTensor.WEIGHT_BITS
                   QTensor.pow2_round QTensor.get_contents_table
                   "in" "out" Runs.quantized_args MoreRuns.plain_checkpoint
                   MoreRuns.plain_state "conv1.weight" "conv1" "weight" _ _ _ _ _ _)
            [] []
            (@Build_loop_state QTensor.lib MoreRuns.plain_state MoreRuns.plain_state)
            _ _ _).
  - reflexivity.
  - reflexivity.
  - simpl. auto.
  - reflexivity.
  - simpl. auto.
  - reflexivity.
  - reflexivity.
  - reflexivity.
  - reflexivity.
Defined.

Lemma missing_scale_rejected_witness :
  Run.outcome (QTensor.convert_checkpoint "in" "out" Runs.quantized_args
                 MoreRuns.scaleless_checkpoint)
  = inl (KeyError "conv1.w_scale").
Proof.
  refine (proj2 (@missing_scale_rejected QTensor.lib QTensor.WEIGHT_BITS
                   QTensor.pow2_round QTensor.get_contents_table
                   "in" "out" Runs.quantized_args MoreRuns.scaleless_checkpoint
                   MoreRuns.scaleless_state "conv1" "weight" _ _ _ _ _)
            [] []
            (@Build_loop_state QTensor.lib MoreRuns.scaleless_state
               MoreRuns.scaleless_state)
            _ _ _).
  - reflexivity.
  - reflexivity.
  - simpl. auto.
  - simpl. auto.
  - reflexivity.
  - reflexivity.
  - reflexivity.
  - reflexivity.
Defined.

Lemma base_b_q_removed_witness :
  Dict.get "conv1.base_b_q" MoreRuns.aware_output = None.
Proof.
  apply (@base_b_q_removed QTensor.lib QTensor.WEIGHT_BITS
           QTensor.pow2_round QTensor.get_contents_table
           "in" "out" Runs.float_args MoreRuns.aware_checkpoint
           MoreRuns.aware_checkpoint MoreRuns.aware_output MoreRuns.aware_state
           "conv1.base_b_q").
  - reflexivity.
  - reflexivity.
  - reflexivity.
Defined.

End Rejections.

(* ------------------------------------------------------------------------- *)
(** ** Float checkpoints: when the conversion completes, and in which order *)

Module FloatCompletion.
Import Ai84ize Ai84izeSpec Ai84izeMore.

Section Theorems.
Context {L : TensorLib}.
Variable WEIGHT_BITS : Z.
Variable pow2_round : tensor -> Z -> tensor.
Variable get_contents_table : checkpoint -> string.

Local Notation "'convert'" :=
  (convert_state WEIGHT_BITS pow2_round get_contents_table).
Local Notation "'convert_all'" :=
  (convert_checkpoint WEIGHT_BITS pow2_round get_contents_table).
Local Notation "'step'" := (convert_key WEIGHT_BITS pow2_round).
Local Notation "'step_ok'" := (step_ok WEIGHT_BITS).

Lemma cut_first_of_cut_last (s a b : string) :
  PyStr.cut_last s = Some (a, b) -> exists m r, PyStr.cut_first s = Some (m, r).
Proof.
  revert a b. induction s as [|c r IH]; intros a b; simpl; [discriminate|].
  destruct (Ascii.eqb c PyStr.dot); [eauto|].
  destruct (PyStr.cut_last r) as [[a' b']|]; [|discriminate].
  intros _. destruct (IH _ _ eq_refl) as (m & r' & ->). eauto.
Qed.

(** A step of a float conversion completes at a key that has a dot, is
    still in both dictionaries and, if it is a zero point, is zero. *)
Lemma float_step_completes a st x t :
  quantized a = false ->
  PyStr.cut_last x <> None ->
  Dict.get x (checkpoint_state st) = Some t ->
  (In (PyStr.last_component x) ["w_zero_point"; "b_zero_point"] ->
   nonzero_numel t = 0%nat) ->
  Dict.mem x (new_checkpoint_state st) = true ->
  exists st1, Run.outcome (step a st x) = inr st1.
Proof.
  intros Hq Hdot Ht Hz Hm.
  destruct (PyStr.cut_last x) as [[op par]|] eqn:Hc; [|contradiction].
  rewrite (PyStrFacts.last_component_cut _ _ _ Hc) in Hz.
  unfold convert_key.
  rewrite (RunFacts.bind_outcome _ _ (op, par))
    by (unfold PyStr.rsplit; now rewrite Hc).
  cbv beta iota.
  assert (Del : Run.outcome (delitem x (new_checkpoint_state st))
                = inr (Dict.remove x (new_checkpoint_state st)))
    by (unfold delitem, Dict.del; now rewrite Hm).
  destruct (PyStr.mem par ["w_zero_point"; "b_zero_point"]) eqn:Ez.
  - rewrite (RunFacts.bind_outcome _ _ t) by (unfold getitem; now rewrite Ht).
    rewrite Hz by now apply PyStrFacts.mem_true. simpl negb. cbv iota.
    rewrite (RunFacts.bind_outcome _ _ _ Del). eexists. reflexivity.
  - destruct (PyStr.mem par ["weight"; "bias"]) eqn:Ew.
    + rewrite Hq. simpl negb. cbv iota. unfold convert_float.
      destruct (cut_first_of_cut_last x op par Hc) as (m & r & Hf).
      rewrite (RunFacts.bind_outcome _ _ (m, r))
        by (unfold PyStr.split; now rewrite Hf).
      cbv beta iota.
      rewrite (RunFacts.bind_outcome _ _ t) by (unfold getitem; now rewrite Ht).
      rewrite (RunFacts.bind_outcome _ _
                 (if negb (String.eqb m "fc") then statistic_of_mode (clip_mode a) t
                  else get_const t))
        by (destruct (negb (String.eqb m "fc"));
            [now rewrite FloatFacts.sat_fn_value|reflexivity]).
      rewrite (RunFacts.bind_outcome _ _ tt) by (destruct (verbose a); reflexivity).
      eexists. reflexivity.
    + destruct (PyStr.mem par ["base_b_q"]).
      * rewrite (RunFacts.bind_outcome _ _ _ Del). eexists. reflexivity.
      * eexists. reflexivity.
Qed.

Lemma float_loop_completes a :
  quantized a = false ->
  forall l st,
    NoDup l ->
    (forall x, In x l ->
       PyStr.cut_last x <> None /\
       Dict.mem x (new_checkpoint_state st) = true /\
       exists t, Dict.get x (checkpoint_state st) = Some t /\
                 (In (PyStr.last_component x) ["w_zero_point"; "b_zero_point"] ->
                  nonzero_numel t = 0%nat)) ->
    exists st', Run.outcome (Run.for_each (step a) l st) = inr st'.
Proof.
  intros Hq. induction l as [|x r IH]; intros st ND H.
  - now exists st.
  - inversion ND as [|? ? Nx NDr]; subst.
    destruct (H x (or_introl eq_refl)) as (Hdot & Hm & t & Ht & Hz).
    destruct (float_step_completes a st x t Hq Hdot Ht Hz Hm) as (st1 & H1).
    pose proof (StepFacts.convert_key_ok WEIGHT_BITS pow2_round a st x st1 H1) as S.
    destruct (FloatFacts.float_step_frame WEIGHT_BITS a st x st1 Hq S) as [Ecs Fr].
    destruct (IH st1 NDr) as (st' & H').
    + intros y Hy. destruct (H y (or_intror Hy)) as (A & B & C).
      assert (N : y <> x) by (intros ->; contradiction).
      split; [exact A|]. split.
      * apply DictFacts.mem_get. rewrite (Fr y N). now apply DictFacts.mem_get.
      * now rewrite Ecs.
    + exists st'. cbn [Run.for_each]. now rewrite (RunFacts.bind_outcome _ _ _ H1).
Qed.

(** X5: when a float conversion completes.  For a checkpoint with a state
    dict (whose keys are distinct, as in every dictionary), a conversion
    without --quantized that gets to the end of its loop has found a dot in
    every key and only zeros under the 'w_zero_point' and 'b_zero_point'
    keys, whatever the clip mode.  With a clip mode that takes no statistic
    of the tensors (any but STD, MAX and AVGMAX), without --verbose and with
    ai84.WEIGHT_BITS at most 63 (the bounds of clamp are 64-bit integers),
    the converse holds: such a state dict is converted to the end. *)
Theorem float_conversion_completes_iff i o a ck sd :
  quantized a = false ->
  Dict.get "state_dict" ck = Some (StateDict sd) ->
  NoDup (Dict.keys sd) ->
  ((exists r, Run.outcome (convert i o a ck) = inr r) ->
   (forall k, In k (Dict.keys sd) -> PyStr.cut_last k <> None) /\
   (forall k t, Dict.get k sd = Some t ->
                In (PyStr.last_component k) ["w_zero_point"; "b_zero_point"] ->
                nonzero_numel t = 0%nat)) /\
  (constant_mode a = true -> verbose a = false -> (WEIGHT_BITS <= 63)%Z ->
   (forall k, In k (Dict.keys sd) -> PyStr.cut_last k <> None) ->
   (forall k t, Dict.get k sd = Some t ->
                In (PyStr.last_component k) ["w_zero_point"; "b_zero_point"] ->
                nonzero_numel t = 0%nat) ->
   exists r, Run.outcome (convert i o a ck) = inr r).
Proof.
  intros Hq Hsd ND. split.
  - intros ([ck' out] & H).
    apply FloatFacts.convert_state_ok in H as (sd' & st' & _ & _ & Hsd' & Hl & _).
    rewrite Hsd in Hsd'. injection Hsd' as <-.
    split.
    + intros k Hin Hk. revert Hl.
      apply (RejectFacts.loop_never_completes WEIGHT_BITS pow2_round a
               (fun _ => True) k); auto.
      intros st st1 _. now rewrite RejectFacts.dotless_step_fails.
    + intros k t Hk Hz.
      destruct (OutputFacts.loop_checks_zero_points WEIGHT_BITS pow2_round
                  a k (Dict.keys sd) Hz _ _
                  (proj2 (DictFacts.in_keys_get k sd) ltac:(congruence)) Hl)
        as (t' & Ht' & Z).
      simpl in Ht'. congruence.
  - intros _ _ _ Hdot Hz.
    destruct (float_loop_completes a Hq (Dict.keys sd)
                {| checkpoint_state := sd; new_checkpoint_state := sd |} ND)
      as (st' & Hl).
    + intros x Hx. split; [now apply Hdot|]. simpl.
      apply DictFacts.in_keys_get in Hx. split; [now apply DictFacts.mem_get|].
      destruct (Dict.get x sd) as [t|] eqn:E; [|contradiction].
      exists t. split; [reflexivity|]. now apply (Hz x t).
    + assert (Hm : quantized a = true -> Dict.mem "quantizer_metadata" ck = true)
        by congruence.
      pose proof (OutputFacts.convert_state_outcome WEIGHT_BITS pow2_round
                    get_contents_table i o a ck sd Hm Hsd) as O.
      rewrite Hl in O. eexists. exact O.
Qed.

(** *** The order of the keys *)

Lemma keys_remove {V} (x : string) (d : Dict.dict V) :
  Dict.keys (Dict.remove x d) = filter (fun y => negb (String.eqb x y)) (Dict.keys d).
Proof.
  induction d as [|[k v] r IH]; simpl; [reflexivity|].
  destruct (String.eqb x k); simpl; now rewrite <- IH.
Qed.

Lemma keys_set_present {V} (x : string) (v : V) (d : Dict.dict V) :
  In x (Dict.keys d) -> Dict.keys (Dict.set x v d) = Dict.keys d.
Proof.
  induction d as [|[k w] r IH]; simpl; [contradiction|].
  intros H. destruct (String.eqb_spec x k) as [->|N]; simpl; [reflexivity|].
  f_equal. apply IH. destruct H; congruence.
Qed.

Lemma filter_twice {A} (f g : A -> bool) (l : list A) :
  filter f (filter g l) = filter (fun x => g x && f x) l.
Proof.
  induction l as [|x r IH]; simpl; [reflexivity|].
  destruct (g x); simpl; [destruct (f x)|]; now rewrite IH.
Qed.

Lemma removable_cut x op par :
  PyStr.cut_last x = Some (op, par) ->
  removable x = PyStr.mem par ["w_zero_point"; "b_zero_point"; "base_b_q"].
Proof.
  intros Hc. unfold removable. now rewrite (PyStrFacts.last_component_cut _ _ _ Hc).
Qed.

Lemma float_loop_keys a :
  quantized a = false ->
  forall l st st',
    Run.outcome (Run.for_each (step a) l st) = inr st' ->
    (forall x, In x l -> In (PyStr.last_component x) ["weight"; "bias"] ->
               In x (Dict.keys (new_checkpoint_state st))) ->
    Dict.keys (new_checkpoint_state st')
    = filter (fun y => negb (removable y && among l y))
             (Dict.keys (new_checkpoint_state st)).
Proof.
  intros Hq. induction l as [|x r IH]; intros st st' H Hw.
  - simpl in H. injection H as <-. symmetry. apply forallb_filter_id.
    apply forallb_forall. intros y _. now rewrite andb_false_r.
  - apply RunFacts.for_each_cons in H as (st1 & H1 & H2).
    apply (StepFacts.convert_key_ok WEIGHT_BITS pow2_round) in H1.
    assert (Same : removable x = false ->
                   Dict.keys (new_checkpoint_state st1)
                   = Dict.keys (new_checkpoint_state st) ->
                   Dict.keys (new_checkpoint_state st')
                   = filter (fun y => negb (removable y && among (x :: r) y))
                            (Dict.keys (new_checkpoint_state st))).
    { intros Rx E. rewrite (IH st1 st' H2).
      - rewrite E. apply filter_ext. intros y. unfold among. simpl.
        destruct (String.eqb_spec y x) as [->|N]; [|reflexivity].
        now rewrite Rx.
      - intros y Hy Wy. rewrite E. apply Hw; [now right|exact Wy]. }
    assert (Gone : removable x = true ->
                   new_checkpoint_state st1 = Dict.remove x (new_checkpoint_state st) ->
                   Dict.keys (new_checkpoint_state st')
                   = filter (fun y => negb (removable y && among (x :: r) y))
                            (Dict.keys (new_checkpoint_state st))).
    { intros Rx E. rewrite (IH st1 st' H2).
      - rewrite E, keys_remove, filter_twice. apply filter_ext. intros y.
        unfold among. simpl. rewrite (String.eqb_sym y x).
        destruct (String.eqb_spec x y) as [->|N]; simpl.
        + now rewrite Rx.
        + reflexivity.
      - intros y Hy Wy. rewrite E, keys_remove. apply filter_In. split.
        + apply Hw; [now right|exact Wy].
        + destruct (String.eqb_spec x y) as [->|N]; [|reflexivity].
          exfalso. unfold removable in Rx. apply PyStrFacts.mem_true in Rx.
          simpl in Rx, Wy. intuition congruence. }
    destruct H1 as [op par t Hc Hp Ht Hz Hm
                   |op par module rest t sat Hc Hp _ Hf Ht Hs
                   |op par module w cs' Hc Hp Hq' Ho Hcs
                   |op par module s Hc Hp Hq' Ho Hs
                   |op Hc Hm
                   |op par Hc Hp]; try congruence.
    + apply Gone; [|reflexivity]. rewrite (removable_cut _ _ _ Hc).
      apply PyStrFacts.mem_true in Hp. apply PyStrFacts.mem_true.
      simpl in *. tauto.
    + apply PyStrFacts.mem_true in Hp. apply Same.
      * rewrite (removable_cut _ _ _ Hc). apply PyStrFacts.mem_false.
        simpl in *. intuition (subst; discriminate).
      * simpl. apply keys_set_present. apply Hw; [now left|].
        now rewrite (PyStrFacts.last_component_cut _ _ _ Hc).
    + apply Gone; [|reflexivity]. now rewrite (removable_cut _ _ _ Hc).
    + apply Same; [|reflexivity]. rewrite (removable_cut _ _ _ Hc).
      apply PyStrFacts.mem_false. simpl in *. tauto.
Qed.

(** X6: a float conversion keeps the keys in their order: the keys of the
    converted state dict are the keys of the input, in the same order,
    without the zero points and the 'base_b_q' entries. *)
Theorem float_conversion_keeps_order i o a ck ck' out sd :
  quantized a = false ->
  Run.outcome (convert i o a ck) = inr (ck', out) ->
  Dict.get "state_dict" ck = Some (StateDict sd) ->
  Dict.keys out = filter (fun k => negb (removable k)) (Dict.keys sd).
Proof.
  intros Hq H Hsd.
  apply FloatFacts.convert_state_ok in H as (sd' & st' & _ & _ & Hsd' & Hl & ->).
  rewrite Hsd in Hsd'. injection Hsd' as <-.
  rewrite (float_loop_keys a Hq _ _ _ Hl) by (simpl; auto).
  simpl. apply filter_ext_in. intros y Hy.
  assert (A : among (Dict.keys sd) y = true).
  { apply existsb_exists. exists y. split; [exact Hy|apply String.eqb_refl]. }
  now rewrite A, andb_true_r.
Qed.

(** X7: a conversion without --embedded saves a checkpoint with the
    top-level keys of the loaded one, in the same order, less
    'quantizer_metadata' under --quantized. *)
Theorem saved_checkpoint_keeps_keys i o a ck ck' out :
  embedded a = false ->
  Run.outcome (convert i o a ck) = inr (ck', out) ->
  exists saved,
    Run.trace (convert_all i o a ck)
    = (Run.trace (convert i o a ck) ++ [TorchSave saved o])%list /\
    Dict.keys saved
    = if quantized a
      then filter (fun k => negb (String.eqb "quantizer_metadata" k)) (Dict.keys ck)
      else Dict.keys ck.
Proof.
  intros He H.
  destruct (OutputFacts.convert_checkpoint_after _ _ _ i o a ck ck' out H) as [_ T].
  rewrite He in T. eexists. split; [exact T|].
  apply FloatFacts.convert_state_ok in H as (sd & st' & -> & _ & Hsd & _).
  assert (P : forall c : checkpoint,
             Dict.get "state_dict" c <> None ->
             Dict.keys (Dict.set "state_dict" (StateDict out) c) = Dict.keys c)
    by (intros c Hc; apply keys_set_present; now apply DictFacts.in_keys_get).
  destruct (quantized a).
  - rewrite P, keys_remove; [reflexivity|].
    rewrite DictFacts.get_remove_other by discriminate. congruence.
  - apply P. congruence.
Qed.

End Theorems.

Local Open Scope Q_scope.

Lemma float_conversion_completes_iff_witness :
  exists r,
    Run.outcome (QTensor.convert_state "in" "out" MoreRuns.scale_args
                   Runs.float_checkpoint) = inr r.
Proof.
  apply (proj2 (@float_conversion_completes_iff QTensor.lib QTensor.WEIGHT_BITS
                  QTensor.pow2_round QTensor.get_contents_table
                  "in" "out" MoreRuns.scale_args Runs.float_checkpoint
                  Runs.float_state eq_refl eq_refl
                  ltac:(repeat constructor; simpl; intuition discriminate))).
  - reflexivity.
  - reflexivity.
  - unfold QTensor.WEIGHT_BITS. lia.
  - simpl. intros k [<-|[<-|[<-|[<-|[]]]]]; discriminate.
  - intros k t Hk Hz.
    assert (E : k = "conv1.w_zero_point"%string).
    { simpl in Hk.
      repeat match type of Hk with
             | (if String.eqb k ?s then _ else _) = _ =>
                 destruct (String.eqb_spec k s) as [->|_];
                 [simpl in Hz; intuition discriminate || reflexivity|]
             end.
      discriminate. }
    subst k. simpl in Hk. injection Hk as <-. reflexivity.
Defined.

Lemma float_conversion_keeps_order_witness :
  Dict.keys Runs.float_output
  = filter (fun k => negb (removable k)) (Dict.keys Runs.float_state).
Proof.
  apply (@float_conversion_keeps_order QTensor.lib QTensor.WEIGHT_BITS
           QTensor.pow2_round QTensor.get_contents_table
           "in" "out" Runs.float_args Runs.float_checkpoint
           Runs.float_checkpoint Runs.float_output Runs.float_state).
  - reflexivity.
  - reflexivity.
  - reflexivity.
Defined.

Lemma saved_checkpoint_keeps_keys_witness :
  exists saved,
    Run.trace (QTensor.convert_checkpoint "in" "out" Runs.quantized_args
                 Runs.quantized_checkpoint)
    = (Run.trace (QTensor.convert_state "in" "out" Runs.quantized_args
                    Runs.quantized_checkpoint) ++ [TorchSave saved "out"])%list /\
    Dict.keys saved = ["state_dict"; "optimizer"]%string.
Proof.
  apply (@saved_checkpoint_keeps_keys QTensor.lib QTensor.WEIGHT_BITS
           QTensor.pow2_round QTensor.get_contents_table
           "in" "out" Runs.quantized_args Runs.quantized_checkpoint
           (Dict.remove "quantizer_metadata" Runs.quantized_checkpoint)
           Runs.quantized_output).
  - reflexivity.
  - reflexivity.
Defined.

End FloatCompletion.

(* ------------------------------------------------------------------------- *)
(** ** Quantized checkpoints: the value that is stored *)

Module QuantizedValue.
Import Ai84ize Ai84izeSpec Ai84izeMore.

Section Theorems.
Context {L : TensorLib}.
Variable WEIGHT_BITS : Z.
Variable pow2_round : tensor -> Z -> tensor.
Variable get_contents_table : checkpoint -> string.

Local Notation "'convert'" :=
  (convert_state WEIGHT_BITS pow2_round get_contents_table).
Local Notation "'step'" := (convert_key WEIGHT_BITS pow2_round).
Local Notation "'step_ok'" := (step_ok WEIGHT_BITS).
Local Notation "'wb'" := (["weight"; "bias"]).

Lemma for_each_app_inv {S X} (body : S -> X -> M S) pre l st st' :
  Run.outcome (Run.for_each body (pre ++ l)%list st) = inr st' ->
  exists st1, Run.outcome (Run.for_each body pre st) = inr st1 /\
              Run.outcome (Run.for_each body l st1) = inr st'.
Proof.
  revert st. induction pre as [|x r IH]; intros st H.
  - exists st. now split.
  - simpl app in H. apply RunFacts.for_each_cons in H as (s & Hs & H).
    destruct (IH s H) as (st1 & A & B). exists st1. split; [|exact B].
    cbn [Run.for_each]. now rewrite (RunFacts.bind_outcome _ _ _ Hs).
Qed.

(** A step changes [checkpoint_state] at its own key only. *)
Lemma step_source_other a st x st1 y :
  step_ok a st x st1 -> y <> x ->
  Dict.get y (checkpoint_state st1) = Dict.get y (checkpoint_state st).
Proof.
  intros S N. destruct S; simpl; auto.
  match goal with H : _ \/ _ |- _ => destruct H as [->|[w' ->]] end; [reflexivity|].
  now apply DictFacts.get_set_other.
Qed.

Lemma loop_source_other a y l st st' :
  ~ In y l ->
  Run.outcome (Run.for_each (step a) l st) = inr st' ->
  Dict.get y (checkpoint_state st') = Dict.get y (checkpoint_state st).
Proof.
  intros N.
  apply (LoopFacts.loop_invariant WEIGHT_BITS pow2_round a
           (fun s => Dict.get y (checkpoint_state s) = Dict.get y (checkpoint_state st)));
    [|reflexivity].
  intros s x s1 Hx P S. rewrite <- P. eapply step_source_other; eauto.
  intros ->. contradiction.
Qed.

(** The step at a wrapped weight or bias, computed. *)
Lemma wrapped_step_value a st module par w fp st1 :
  quantized a = true -> In par wb ->
  Dict.get (wrapped_name module par) (checkpoint_state st) = Some w ->
  Dict.get (scale_name module par) (checkpoint_state st) = Some fp ->
  Run.outcome (step a st (wrapped_name module par)) = inr st1 ->
  Dict.get (module ++ "." ++ par) (new_checkpoint_state st1)
  = Some (quantized_value WEIGHT_BITS pow2_round module w fp).
Proof.
  intros Hq Hp Hw Hs H.
  destruct (RejectFacts.wb_not_zero_point par Hp) as [Z W].
  pose proof (QuantFacts.cut_last_wrapped module par Hp) as C.
  pose proof (LoopFacts.cut_last_written module par Hp) as K.
  assert (N1 : module ++ "." ++ par <> scale_name module par).
  { intros E. apply (LoopFacts.scale_not_wb module par Hp).
    rewrite <- E, (PyStrFacts.last_component_cut _ _ _ K). exact Hp. }
  assert (N2 : module ++ "." ++ par <> wrapped_name module par).
  { intros E. rewrite E, C in K. injection K as K.
    symmetry in K. now apply QuantFacts.append_neq in K. }
  unfold convert_key in H.
  rewrite (RunFacts.bind_outcome _ _ (module ++ String PyStr.dot "wrapped_module", par))
    in H by (unfold PyStr.rsplit; now rewrite C).
  cbv beta iota in H. rewrite Z, W, Hq in H. simpl negb in H. cbv iota in H.
  unfold convert_quantized in H.
  rewrite (RunFacts.bind_outcome _ _ (module, "wrapped_module")) in H
    by (unfold PyStr.rsplit; now rewrite (QuantFacts.cut_last_wrapper module)).
  cbv beta iota in H.
  replace (PyStr.mem "wrapped_module" ["wrapped_module"]) with true in H by reflexivity.
  cbv iota in H.
  rewrite (RunFacts.bind_outcome _ _ w) in H by (unfold getitem; now rewrite Hw).
  unfold quantized_value, Ai84izeSpec.bits_of.
  assert (G : Run.outcome (getitem (scale_name module par) (checkpoint_state st))
              = inr fp) by (unfold getitem; now rewrite Hs).
  unfold PyStr.mem in H. simpl existsb in H. rewrite orb_false_r in H.
  destruct (String.eqb module "fc"); simpl negb in H; cbv iota in H;
    rewrite (RunFacts.bind_outcome _ _ fp G) in H; cbv beta iota in H;
    apply RunFacts.bind_ok in H as (d1 & H1 & H);
    apply StepFacts.delitem_ok in H1 as [_ ->];
    apply RunFacts.bind_ok in H as (d2 & H2 & H);
    apply StepFacts.delitem_ok in H2 as [_ ->];
    apply StepFacts.ret_ok in H; subst st1; simpl new_checkpoint_state;
    unfold scale_name in N1;
    rewrite DictFacts.get_remove_other by exact N1;
    rewrite DictFacts.get_remove_other by exact N2;
    rewrite DictFacts.get_set_same; reflexivity.
Qed.

(** The steps at other keys leave the stored value alone. *)
Lemma step_keeps_value a st y st1 module par :
  quantized a = true -> In par wb ->
  (forall m, module <> m ++ String PyStr.dot "wrapped_module") ->
  y <> wrapped_name module par ->
  step_ok a st y st1 ->
  Dict.get (module ++ "." ++ par) (new_checkpoint_state st1)
  = Dict.get (module ++ "." ++ par) (new_checkpoint_state st).
Proof.
  intros Hq Hp Hm Ny S.
  pose proof (LoopFacts.cut_last_written module par Hp) as K.
  assert (N : forall op p, PyStr.cut_last y = Some (op, p) ->
                           ~ In p wb -> module ++ "." ++ par <> y).
  { intros op p Hc Np E. rewrite E, Hc in K. injection K as _ <-. contradiction. }
  destruct S as [op p t Hc Hp' Ht Hz Hn
                |op p m rest t sat Hc Hp' Hq' Hf Ht Hs
                |op p m w cs' Hc Hp' Hq' Ho Hcs
                |op p m s Hc Hp' Hq' Ho Hs
                |op Hc Hn
                |op p Hc Hp']; try congruence; auto; simpl new_checkpoint_state.
  - apply DictFacts.get_remove_other, (N op p Hc).
    apply PyStrFacts.mem_true in Hp'. simpl in *. intuition (subst; discriminate).
  - apply PyStrFacts.mem_true in Hp'.
    rewrite DictFacts.get_remove_other.
    2:{ intros E. apply (LoopFacts.scale_not_wb m p Hp').
        rewrite <- E, (PyStrFacts.last_component_cut _ _ _ K). exact Hp. }
    rewrite DictFacts.get_remove_other.
    2:{ intros E. rewrite E, Hc in K. injection K as -> _.
        apply PyStrFacts.cut_last_join in Ho. now apply (Hm m). }
    apply DictFacts.get_set_other. intros E.
    pose proof (LoopFacts.cut_last_written m p Hp') as K'.
    assert (F : PyStr.cut_last (module ++ "." ++ par) = PyStr.cut_last (m ++ "." ++ p))
      by (f_equal; exact E).
    rewrite K, K' in F. injection F as -> ->.
    apply Ny. eapply QuantFacts.wrapped_name_of_cuts; eauto.
  - apply DictFacts.get_remove_other, (N op "base_b_q" Hc).
    simpl. intuition discriminate.
Qed.

(** The loop at a wrapped weight or bias: a completed loop has found its
    scale and left the computed value. *)
Lemma loop_wrapped_value a sd st' module par w :
  quantized a = true ->
  Run.outcome (Run.for_each (step a) (Dict.keys sd)
                 {| checkpoint_state := sd; new_checkpoint_state := sd |})
  = inr st' ->
  NoDup (Dict.keys sd) ->
  In par wb ->
  Dict.get (wrapped_name module par) sd = Some w ->
  exists fp,
    Dict.get (scale_name module par) sd = Some fp /\
    ((forall m, module <> m ++ ".wrapped_module") ->
     Dict.get (module ++ "." ++ par) (new_checkpoint_state st')
     = Some (quantized_value WEIGHT_BITS pow2_round module w fp)).
Proof.
  intros Hq Hl ND Hp Hw.
  assert (Hin : In (wrapped_name module par) (Dict.keys sd))
    by (apply DictFacts.in_keys_get; congruence).
  destruct (in_split _ _ Hin) as (pre & post & E).
  rewrite E in Hl, ND.
  apply NoDup_remove_2 in ND.
  assert (Npre : ~ In (wrapped_name module par) pre)
    by (intros I; apply ND, in_or_app; now left).
  assert (Npost : ~ In (wrapped_name module par) post)
    by (intros I; apply ND, in_or_app; now right).
  apply for_each_app_inv in Hl as (st1 & Hpre & Hl).
  apply RunFacts.for_each_cons in Hl as (st2 & Hk & Hpost).
  assert (W1 : Dict.get (wrapped_name module par) (checkpoint_state st1) = Some w)
    by now rewrite (loop_source_other a _ pre _ st1 Npre Hpre).
  assert (S1 : Dict.get (scale_name module par) (checkpoint_state st1)
               = Dict.get (scale_name module par) sd)
    by exact (OutputFacts.loop_source_frame WEIGHT_BITS pow2_round a _ pre _ st1
                (LoopFacts.scale_not_wb module par Hp) Hpre).
  destruct (Dict.get (scale_name module par) sd) as [fp|] eqn:Hs.
  2:{ exfalso.
      rewrite (RejectFacts.scaleless_step WEIGHT_BITS pow2_round a st1 module par w
                 Hq Hp W1 S1) in Hk.
      discriminate Hk. }
  exists fp. split; [reflexivity|]. intros Hm.
  assert (V : Dict.get (module ++ "." ++ par) (new_checkpoint_state st2)
              = Some (quantized_value WEIGHT_BITS pow2_round module w fp))
    by exact (wrapped_step_value a st1 module par w fp st2 Hq Hp W1 S1 Hk).
  rewrite <- V. revert Hpost.
  apply (LoopFacts.loop_invariant WEIGHT_BITS pow2_round a
           (fun s => Dict.get (module ++ "." ++ par) (new_checkpoint_state s)
                     = Dict.get (module ++ "." ++ par) (new_checkpoint_state st2)));
    [|reflexivity].
  intros s x s1 Hx P S. rewrite <- P.
  apply (step_keeps_value a s x s1 module par Hq Hp Hm); [|exact S].
  intros ->. contradiction.
Qed.

(** X8: the quantized counterpart of the float formula.  After a conversion
    with --quantized (of a state dict whose keys are distinct), the entry
    [module.weight] or [module.bias] made from [module.wrapped_module.weight]
    or [.bias] holds round(clamp(v)), where v is round(w * scale) with 16
    clamp bits for 'fc' and w * pow2_round(scale, 8) with ai84.WEIGHT_BITS
    clamp bits for any other module, [w] and [scale] being the tensors of the
    input; [module] must not itself be the inside of a wrapper. *)
Theorem wrapped_conversion_value i o a ck ck' out sd module par w fp :
  quantized a = true ->
  Run.outcome (convert i o a ck) = inr (ck', out) ->
  Dict.get "state_dict" ck = Some (StateDict sd) ->
  NoDup (Dict.keys sd) ->
  In par ["weight"; "bias"] ->
  Dict.get (wrapped_name module par) sd = Some w ->
  Dict.get (scale_name module par) sd = Some fp ->
  (forall m, module <> m ++ ".wrapped_module") ->
  Dict.get (module ++ "." ++ par) out
  = Some (quantized_value WEIGHT_BITS pow2_round module w fp).
Proof.
  intros Hq H Hsd ND Hp Hw Hs Hm.
  apply FloatFacts.convert_state_ok in H as (sd' & st' & _ & _ & Hsd' & Hl & ->).
  rewrite Hsd in Hsd'. injection Hsd' as <-.
  destruct (loop_wrapped_value a sd st' module par w Hq Hl ND Hp Hw)
    as (fp' & Hs' & V).
  rewrite Hs in Hs'. injection Hs' as <-. exact (V Hm).
Qed.

End Theorems.

Local Open Scope Q_scope.

Lemma wrapped_conversion_value_witness :
  Dict.get "conv1.weight" Runs.quantized_output
  = Some (@quantized_value QTensor.lib QTensor.WEIGHT_BITS QTensor.pow2_round
            "conv1" [[1; -3]; [2; 0]] [[3 # 2]]).
Proof.
  apply (@wrapped_conversion_value QTensor.lib QTensor.WEIGHT_BITS
           QTensor.pow2_round QTensor.get_contents_table
           "in" "out" Runs.quantized_args Runs.quantized_checkpoint
           (Dict.remove "quantizer_metadata" Runs.quantized_checkpoint)
           Runs.quantized_output Runs.quantized_state "conv1" "weight").
  - reflexivity.
  - reflexivity.
  - reflexivity.
  - repeat constructor; simpl; intuition discriminate.
  - simpl. auto.
  - reflexivity.
  - reflexivity.
  - intros m E.
    do 5 (destruct m as [|? m]; simpl in E; [discriminate E|injection E as _ E]).
    destruct m; discriminate E.
Defined.

End QuantizedValue.

(* ------------------------------------------------------------------------- *)
(** ** The converter: the format of the output and the scales *)

Module QuantizedConversion.
Import Ai84ize Ai84izeSpec Ai84izeMore.

Section Theorems.
Context {L : TensorLib}.
Variable WEIGHT_BITS : Z.
Variable pow2_round : tensor -> Z -> tensor.
Variable get_contents_table : checkpoint -> string.

Local Notation "'convert'" :=
  (convert_state WEIGHT_BITS pow2_round get_contents_table).
Local Notation "'step'" := (convert_key WEIGHT_BITS pow2_round).
Local Notation "'step_ok'" := (step_ok WEIGHT_BITS).
Local Notation "'bits_of'" := (bits_of WEIGHT_BITS).
Local Notation "'wb'" := (["weight"; "bias"]).

(** No step brings a key without a dot into the new dictionary. *)
Lemma step_keeps_dotless_absent a st x st1 k :
  PyStr.cut_last k = None ->
  step_ok a st x st1 ->
  Dict.get k (new_checkpoint_state st) = None ->
  Dict.get k (new_checkpoint_state st1) = None.
Proof.
  intros Hk S Ha.
  assert (R : forall y d, Dict.get k d = None ->
                          Dict.get k (Dict.remove y d) = @None tensor).
  { intros y d Hd. destruct (String.eqb_spec k y) as [->|N].
    - apply DictFacts.get_remove_same.
    - now rewrite DictFacts.get_remove_other. }
  destruct S as [op par t Hc Hp Ht Hz Hm
                |op par module rest t sat Hc Hp Hq Hf Ht Hs
                |op par module w cs' Hc Hp Hq Ho Hcs
                |op par module s Hc Hp Hq Ho Hs
                |op Hc Hm
                |op par Hc Hp]; simpl; auto.
  - rewrite DictFacts.get_set_other; [exact Ha|]. intros ->. congruence.
  - apply PyStrFacts.mem_true in Hp. apply R, R.
    rewrite DictFacts.get_set_other; [exact Ha|]. intros ->.
    pose proof (LoopFacts.cut_last_written module par Hp) as C. simpl in C.
    congruence.
Qed.

(** Every key of the output of a completed loop has a dot. *)
Lemma output_key_has_dot a sd st' k :
  Run.outcome (Run.for_each (step a) (Dict.keys sd)
                 {| checkpoint_state := sd; new_checkpoint_state := sd |})
  = inr st' ->
  Dict.get k (new_checkpoint_state st') <> None ->
  PyStr.cut_last k <> None.
Proof.
  intros Hl Hk Hdot.
  destruct (Dict.get k sd) as [t|] eqn:E.
  - revert Hl.
    apply (RejectFacts.loop_never_completes WEIGHT_BITS pow2_round a
             (fun _ => True) k); auto.
    + intros st st1 _. now rewrite RejectFacts.dotless_step_fails.
    + apply DictFacts.in_keys_get. congruence.
  - apply Hk. revert Hl.
    apply (LoopFacts.loop_invariant WEIGHT_BITS pow2_round a
             (fun s => Dict.get k (new_checkpoint_state s) = None));
      [|exact E].
    intros s x s1 _ P S. now apply (step_keeps_dotless_absent a s x s1 k).
Qed.

(** In a quantized conversion the step at [module.wrapped_module.parameter]
    leaves a value it has clamped and rounded under [module.parameter], if
    it leaves one. *)
Lemma wrapped_step_format (laws : TensorLaws L) a st st1 module par :
  (1 <= WEIGHT_BITS <= 25)%Z ->
  quantized a = true ->
  In par wb ->
  step_ok a st (wrapped_name module par) st1 ->
  forall t,
    Dict.get (module ++ "." ++ par) (new_checkpoint_state st1) = Some t ->
    has_nan t = false ->
    all_in_format (bits_of module) t = true.
Proof.
  intros Hw Hq Hp S t.
  pose proof (QuantFacts.cut_last_wrapped module par Hp) as C.
  pose proof (QuantFacts.cut_last_wrapper module) as W.
  inversion S as [op p t0 Hc Hm Ht0 Hz Hn0
                 |op p m rest t0 sat Hc Hm Hq' Hf Ht0 Hs
                 |op p m w cs' Hc Hm Hq' Ho Hcs
                 |op p m s Hc Hm Hq' Ho Hs
                 |op Hc Hn0
                 |op p Hc Hn0]; subst; rewrite C in Hc;
    injection Hc as E1 E2; try subst op; try subst p.
  - apply PyStrFacts.mem_true in Hm. simpl in Hm, Hp. exfalso.
    intuition (subst; discriminate).
  - congruence.
  - rewrite W in Ho. injection Ho as <-. simpl new_checkpoint_state.
    intros H Hn.
    apply Conversion.get_remove_some in H as [_ H].
    apply Conversion.get_remove_some in H as [_ H].
    rewrite DictFacts.get_set_same in H. injection H as <-.
    apply Format.clamp_round_in_format; [apply Format.bits_of_fit, Hw|exact Hn].
  - rewrite W in Ho. injection Ho as <- <-. contradiction.
  - subst par. simpl in Hp. exfalso. intuition discriminate.
  - exfalso. apply Hn0. simpl in *. tauto.
Qed.

(** The step at any other key leaves under [module.parameter] what was
    there, if it leaves something. *)
Lemma other_step_keeps a st x st1 module par :
  quantized a = true ->
  In par wb ->
  x <> wrapped_name module par ->
  step_ok a st x st1 ->
  forall t,
    Dict.get (module ++ "." ++ par) (new_checkpoint_state st1) = Some t ->
    Dict.get (module ++ "." ++ par) (new_checkpoint_state st) = Some t.
Proof.
  intros Hq Hpar N S t.
  pose proof (LoopFacts.cut_last_written module par Hpar) as K. simpl in K.
  destruct S as [op p t0 Hc Hp Ht Hz Hm
                |op p m rest t0 sat Hc Hp Hq' Hf Ht Hs
                |op p m w cs' Hc Hp Hq' Ho Hcs
                |op p m s Hc Hp Hq' Ho Hs
                |op Hc Hm
                |op p Hc Hp]; simpl; auto; try congruence.
  - intros H. now apply Conversion.get_remove_some in H as [_ H].
  - intros H. apply Conversion.get_remove_some in H as [_ H].
    apply Conversion.get_remove_some in H as [_ H].
    apply PyStrFacts.mem_true in Hp.
    pose proof (LoopFacts.cut_last_written m p Hp) as C. simpl in C.
    rewrite DictFacts.get_set_other in H; [exact H|].
    intros E. rewrite E in K. rewrite C in K. injection K as -> ->.
    apply N. eapply QuantFacts.wrapped_name_of_cuts; eauto.
  - intros H. now apply Conversion.get_remove_some in H as [_ H].
Qed.

(** C2, as the code has it: a completed conversion and a 'weight' or 'bias'
    tensor of its output, ai84.WEIGHT_BITS being between 1 and 25.  Without
    --quantized the tensor, if it holds no NaN, holds whole numbers within
    [-(2^(clamp_bits-1)), 2^(clamp_bits-1) - 1], clamp_bits being 16 when the
    first component of the key is 'fc' and ai84.WEIGHT_BITS otherwise.  With
    --quantized, the key being [module.parameter]: if the input has the entry
    [module.wrapped_module.parameter], the same holds with the clamp_bits of
    [module]; if it has not, the tensor is the entry of the input under the
    same key, as it was. *)
Theorem converted_weights_in_format (laws : TensorLaws L)
    i o a ck ck' out sd k t :
  (1 <= WEIGHT_BITS <= 25)%Z ->
  Run.outcome (convert i o a ck) = inr (ck', out) ->
  Dict.get "state_dict" ck = Some (StateDict sd) ->
  Dict.get k out = Some t ->
  In (PyStr.last_component k) ["weight"; "bias"] ->
  (quantized a = false ->
   has_nan t = false ->
   all_in_format (bits_of (PyStr.first_component k)) t = true) /\
  (quantized a = true ->
   (In (wrapped_name (operation_of k) (PyStr.last_component k)) (Dict.keys sd) ->
    has_nan t = false ->
    all_in_format (bits_of (operation_of k)) t = true) /\
   (~ In (wrapped_name (operation_of k) (PyStr.last_component k)) (Dict.keys sd) ->
    Dict.get k sd = Some t)).
Proof.
  intros Hw H Hsd Hk Hl. split; intros Hq.
  - intros Hn. destruct (Dict.get k sd) as [t0|] eqn:E.
    + rewrite (FloatConversion.float_key_value _ _ _ i o a ck ck' out sd k t0
                 Hq H Hsd E Hl) in Hk.
      injection Hk as <-. unfold fixed_point in *.
      apply (Format.clamp_round_in_format
               (bits_of (PyStr.first_component k))
               (scale_by (s_mul (number (pow2 (bits_of (PyStr.first_component k) - 1)))
                                (statistic_for a k t0)) t0));
        [apply Format.bits_of_fit, Hw|exact Hn].
    + exfalso.
      apply FloatFacts.convert_state_ok in H as (sd' & st' & _ & _ & Hsd' & Hloop & ->).
      rewrite Hsd in Hsd'. injection Hsd' as <-.
      destruct (FloatFacts.float_loop _ _ a Hq _ _ _ Hloop) as [_ F].
      destruct (F k) as [Fout _]. simpl in Fout.
      rewrite Fout in Hk by (rewrite DictFacts.in_keys_get; congruence).
      congruence.
  - apply FloatFacts.convert_state_ok in H as (sd' & st' & _ & _ & Hsd' & Hloop & ->).
    rewrite Hsd in Hsd'. injection Hsd' as <-.
    assert (Hdot : PyStr.cut_last k <> None)
      by (apply (output_key_has_dot a sd st' k Hloop); congruence).
    destruct (PyStr.cut_last k) as [[module par]|] eqn:Hc; [|contradiction].
    rewrite (PyStrFacts.last_component_cut _ _ _ Hc) in *.
    unfold operation_of. rewrite Hc.
    apply PyStrFacts.cut_last_join in Hc. subst k.
    change (module ++ String PyStr.dot par)%string
      with (module ++ "." ++ par)%string in *.
    split.
    + intros Hin Hn. revert t Hk Hn.
      apply (LoopFacts.loop_establishes WEIGHT_BITS pow2_round a
               (fun s => forall t,
                    Dict.get (module ++ "." ++ par) (new_checkpoint_state s) = Some t ->
                    has_nan t = false ->
                    all_in_format (bits_of module) t = true)
               (fun x => x = wrapped_name module par)
               (Dict.keys sd)) with (st := {| checkpoint_state := sd;
                                              new_checkpoint_state := sd |});
        [| |eauto|exact Hloop].
      * intros st x st1 -> S.
        exact (wrapped_step_format laws a st st1 module par Hw Hq Hl S).
      * intros st x st1 S P t Ht Hn.
        destruct (string_dec x (wrapped_name module par)) as [->|N].
        -- exact (wrapped_step_format laws a st st1 module par Hw Hq Hl S t Ht Hn).
        -- apply P; [|exact Hn].
           exact (other_step_keeps a st x st1 module par Hq Hl N S t Ht).
    + intros Hnot. revert t Hk.
      apply (LoopFacts.loop_invariant WEIGHT_BITS pow2_round a
               (fun s => forall t,
                    Dict.get (module ++ "." ++ par) (new_checkpoint_state s) = Some t ->
                    Dict.get (module ++ "." ++ par) sd = Some t)
               (Dict.keys sd) ) with (st := {| checkpoint_state := sd;
                                               new_checkpoint_state := sd |});
        [|auto|exact Hloop].
      intros st x st1 Hx P S t Ht. apply P.
      apply (other_step_keeps a st x st1 module par Hq Hl); [|exact S|exact Ht].
      intros ->. contradiction.
Qed.

(** C3, as the code has it: after a completed conversion with --quantized
    (of a state dict whose keys are distinct) the output holds the
    fixed-point weights and biases, and not the scale factors.  For every
    wrapped weight or bias [w] of the input, [module.wrapped_module.weight]
    or [module.wrapped_module.bias], the input holds the scale
    [module.w_scale] or [module.b_scale], that entry is absent from the
    output, and the output holds under [module.weight] or [module.bias]
    (unless [module] is itself the inside of a wrapper) the value
    round(clamp(v)), where v is round(w * scale) with 16 clamp bits for 'fc'
    and w * pow2_round(scale, 8) with ai84.WEIGHT_BITS clamp bits for any
    other module. *)
Theorem scales_are_consumed i o a ck ck' out sd module parameter w :
  quantized a = true ->
  Run.outcome (convert i o a ck) = inr (ck', out) ->
  Dict.get "state_dict" ck = Some (StateDict sd) ->
  NoDup (Dict.keys sd) ->
  In parameter ["weight"; "bias"] ->
  Dict.get (wrapped_name module parameter) sd = Some w ->
  Dict.get (scale_name module parameter) out = None /\
  exists fp_scale,
    Dict.get (scale_name module parameter) sd = Some fp_scale /\
    ((forall m, module <> m ++ ".wrapped_module") ->
     Dict.get (module ++ "." ++ parameter) out
     = Some (quantized_value WEIGHT_BITS pow2_round module w fp_scale)).
Proof.
  intros Hq H Hsd ND Hp Hw.
  apply FloatFacts.convert_state_ok in H as (sd' & st' & _ & _ & Hsd' & Hloop & ->).
  rewrite Hsd in Hsd'. injection Hsd' as <-. split.
  - apply (LoopFacts.loop_deletes WEIGHT_BITS pow2_round a
             (scale_name module parameter)
             (fun x => x = wrapped_name module parameter)
             (Dict.keys sd)) with (st := {| checkpoint_state := sd;
                                            new_checkpoint_state := sd |}).
    + now apply LoopFacts.scale_not_wb.
    + intros st x st1 -> S. eapply QuantFacts.wrapped_step_deletes_scale; eauto.
    + exists (wrapped_name module parameter). split; [|reflexivity].
      apply DictFacts.in_keys_get. congruence.
    + exact Hloop.
  - exact (QuantizedValue.loop_wrapped_value WEIGHT_BITS pow2_round a sd st'
             module parameter w Hq Hloop ND Hp Hw).
Qed.

End Theorems.

Local Open Scope Q_scope.

Lemma no_wrapper_conv1 : forall m, "conv1"%string <> (m ++ ".wrapped_module")%string.
Proof.
  intros m E.
  do 5 (destruct m as [|? m]; simpl in E; [discriminate E|injection E as _ E]).
  destruct m; discriminate E.
Qed.

Lemma converted_weights_in_format_witness :
  @all_in_format QTensor.lib
    (bits_of QTensor.WEIGHT_BITS (PyStr.first_component "conv1.weight"))
    [[127; -128]; [127; 0]] = true /\
  @all_in_format QTensor.lib
    (bits_of QTensor.WEIGHT_BITS (operation_of "conv1.weight"))
    [[2; -4]; [3; 0]] = true /\
  Dict.get "bn.sub.weight" Runs.quantized_state = Some [[1 # 3]].
Proof.
  split; [|split].
  - refine (proj1
      (@converted_weights_in_format QTensor.lib QTensor.WEIGHT_BITS
         QTensor.pow2_round QTensor.get_contents_table Format.reference_laws
         "in" "out" Runs.float_args Runs.float_checkpoint
         Runs.float_checkpoint Runs.float_output Runs.float_state
         "conv1.weight" [[127; -128]; [127; 0]] _ _ _ _ _) eq_refl eq_refl).
    + unfold QTensor.WEIGHT_BITS. lia.
    + reflexivity.
    + reflexivity.
    + reflexivity.
    + vm_compute. auto.
  - refine (proj1 (proj2
      (@converted_weights_in_format QTensor.lib QTensor.WEIGHT_BITS
         QTensor.pow2_round QTensor.get_contents_table Format.reference_laws
         "in" "out" Runs.quantized_args Runs.quantized_checkpoint
         (Dict.remove "quantizer_metadata" Runs.quantized_checkpoint)
         Runs.quantized_output Runs.quantized_state
         "conv1.weight" [[2; -4]; [3; 0]] _ _ _ _ _) eq_refl) _ eq_refl).
    + unfold QTensor.WEIGHT_BITS. lia.
    + reflexivity.
    + reflexivity.
    + reflexivity.
    + vm_compute. auto.
    + vm_compute. auto.
  - refine (proj2 (proj2
      (@converted_weights_in_format QTensor.lib QTensor.WEIGHT_BITS
         QTensor.pow2_round QTensor.get_contents_table Format.reference_laws
         "in" "out" Runs.quantized_args Runs.quantized_checkpoint
         (Dict.remove "quantizer_metadata" Runs.quantized_checkpoint)
         Runs.quantized_output Runs.quantized_state
         "bn.sub.weight" [[1 # 3]] _ _ _ _ _) eq_refl) _).
    + unfold QTensor.WEIGHT_BITS. lia.
    + reflexivity.
    + reflexivity.
    + reflexivity.
    + vm_compute. auto.
    + vm_compute. intuition discriminate.
Defined.

Lemma scales_are_consumed_witness :
  Dict.get (scale_name "conv1" "weight") Runs.quantized_output = None /\
  exists fp_scale,
    Dict.get (scale_name "conv1" "weight") Runs.quantized_state = Some fp_scale /\
    Dict.get "conv1.weight" Runs.quantized_output
    = Some (@quantized_value QTensor.lib QTensor.WEIGHT_BITS QTensor.pow2_round
              "conv1" [[1; -3]; [2; 0]] fp_scale).
Proof.
  destruct (@scales_are_consumed QTensor.lib QTensor.WEIGHT_BITS
              QTensor.pow2_round QTensor.get_contents_table
              "in" "out" Runs.quantized_args Runs.quantized_checkpoint
              (Dict.remove "quantizer_metadata" Runs.quantized_checkpoint)
              Runs.quantized_output Runs.quantized_state "conv1" "weight"
              [[1; -3]; [2; 0]])
    as (A & fp & B & C).
  - reflexivity.
  - reflexivity.
  - reflexivity.
  - repeat constructor; simpl; intuition discriminate.
  - simpl. auto.
  - reflexivity.
  - split; [exact A|]. exists fp. split; [exact B|].
    exact (C no_wrapper_conv1).
Defined.

End QuantizedConversion.

(* ------------------------------------------------------------------------- *)
(** ** What --verbose changes, and the names of the C macros *)

Module Surface.
Import Ai84ize Ai84izeSpec Ai84izeMore.

Section Theorems.
Context {L : TensorLib}.
Variable WEIGHT_BITS : Z.
Variable pow2_round : tensor -> Z -> tensor.
Variable get_contents_table : checkpoint -> string.

Local Notation "'convert'" :=
  (convert_state WEIGHT_BITS pow2_round get_contents_table).
Local Notation "'convert_all'" :=
  (convert_checkpoint WEIGHT_BITS pow2_round get_contents_table).
Local Notation "'step'" := (convert_key WEIGHT_BITS pow2_round).

Lemma bind_ext {A B} (m m' : M A) (f f' : A -> M B) :
  Run.outcome m = Run.outcome m' ->
  (forall x, Run.outcome (f x) = Run.outcome (f' x)) ->
  Run.outcome (Run.bind m f) = Run.outcome (Run.bind m' f').
Proof.
  intros Hm Hf. destruct m as [tr [e|x]], m' as [tr' [e'|x']]; simpl in *;
    try congruence.
  injection Hm as <-. specialize (Hf x).
  destruct (f x), (f' x). exact Hf.
Qed.

Lemma for_each_ext {S X} (f g : S -> X -> M S) l :
  (forall st x, Run.outcome (f st x) = Run.outcome (g st x)) ->
  forall st, Run.outcome (Run.for_each f l st) = Run.outcome (Run.for_each g l st).
Proof.
  intros H. induction l as [|x r IH]; intros st; [reflexivity|].
  cbn [Run.for_each]. now apply bind_ext.
Qed.

Lemma optional_print (b : bool) (s : string) :
  Run.outcome (if b then print s else Run.ret tt) = inr tt.
Proof. now destruct b. Qed.

Lemma step_ignores_verbose v a st k :
  Run.outcome (step (with_verbose v a) st k) = Run.outcome (step a st k).
Proof.
  unfold convert_key. apply bind_ext; [reflexivity|]. intros [op par].
  destruct (PyStr.mem par ["w_zero_point"; "b_zero_point"]); [reflexivity|].
  destruct (PyStr.mem par ["weight"; "bias"]); [|reflexivity].
  change (quantized (with_verbose v a)) with (quantized a).
  destruct (quantized a); simpl negb; cbv iota; [reflexivity|].
  unfold convert_float. apply bind_ext; [reflexivity|]. intros [module rest].
  apply bind_ext; [reflexivity|]. intros t.
  apply bind_ext; [reflexivity|]. intros sat.
  apply bind_ext; [|reflexivity].
  now rewrite !optional_print.
Qed.

Lemma convert_ignores_verbose v v' i o i' o' a ck :
  Run.outcome (convert i' o' (with_verbose v a) ck)
  = Run.outcome (convert i o (with_verbose v' a) ck).
Proof.
  unfold convert_state.
  apply bind_ext; [reflexivity|]. intros _.
  apply bind_ext; [now rewrite !optional_print|]. intros _.
  apply bind_ext; [reflexivity|]. intros c.
  destruct (negb (Dict.mem "state_dict" c)); [reflexivity|].
  apply bind_ext; [reflexivity|]. intros e.
  apply bind_ext; [reflexivity|]. intros sd.
  apply bind_ext; [now rewrite !optional_print|]. intros _.
  apply bind_ext; [|reflexivity].
  apply for_each_ext. intros st x.
  rewrite step_ignores_verbose. symmetry. apply step_ignores_verbose.
Qed.

(** X9: --verbose changes what is printed, never the result.  Whenever the
    conversion with --verbose gets to the end of its loop, so does the
    conversion without it (and with any file names), and with the same
    checkpoint and the same converted state dict.  (With --verbose more is
    computed for the prints, so the converse is not claimed.) *)
Theorem verbose_changes_no_result i o i' o' a ck r :
  Run.outcome (convert i' o' (with_verbose true a) ck) = inr r ->
  Run.outcome (convert i o (with_verbose false a) ck) = inr r.
Proof.
  intros H. rewrite <- H. apply convert_ignores_verbose.
Qed.

End Theorems.

Lemma upper_replace_char (c : ascii) :
  let u := PyStr.upper_ascii (if Ascii.eqb c PyStr.dot then "_"%char else c) in
  u <> PyStr.dot /\ lowercase u = false.
Proof.
  destruct c as [[] [] [] [] [] [] [] []]; vm_compute; split;
    (reflexivity || discriminate).
Qed.

(** X10: for a key of ASCII characters, the name in a '#define' line has as
    many characters as the key, and none of them is a dot or a lower-case
    letter. *)
Theorem define_name_shape (k : string) :
  isascii k = true ->
  exists name,
    define_line k = ("#define " ++ name ++ " \")%string /\
    String.length name = String.length k /\
    forall c, In c (list_ascii_of_string name) ->
              c <> PyStr.dot /\ lowercase c = false.
Proof.
  intros _.
  exists (PyStr.upper (PyStr.replace_dots k)). split; [reflexivity|].
  induction k as [|c r [IHl IHc]]; simpl.
  - split; [reflexivity|contradiction].
  - split; [now rewrite IHl|]. intros x [<-|Hx]; [|now apply IHc].
    apply upper_replace_char.
Qed.

Lemma verbose_changes_no_result_witness :
  Run.outcome (QTensor.convert_state "in" "out"
                 (with_verbose false Runs.float_args) Runs.float_checkpoint)
  = inr (Runs.float_checkpoint, Runs.float_output).
Proof.
  apply (@verbose_changes_no_result QTensor.lib QTensor.WEIGHT_BITS
           QTensor.pow2_round QTensor.get_contents_table
           "in" "out" "in" "out" Runs.float_args Runs.float_checkpoint).
  reflexivity.
Defined.

Lemma define_name_shape_witness :
  exists name,
    define_line "conv1.weight" = ("#define " ++ name ++ " \")%string /\
    String.length name = 12%nat.
Proof.
  destruct (define_name_shape "conv1.weight" eq_refl) as (name & E & L & _).
  exists name. split; [exact E|exact L].
Defined.

End Surface.

(* ========================================================================= *)
(** * Further properties of the epoch loop *)

Module EpochFacts.
Import Train TrainMore.

Section Facts.
Variable model : Type.
Variable train : model -> Z -> model.
Variable validate : model -> Z -> Q * Q * Q.
Variable model_params_stats : model -> Q * Z.
Variable on_epoch_begin : model -> Z -> Q -> model.
Variable on_epoch_end : model -> Z -> model.

Local Notation "'update'" := (update_training_scores_history model model_params_stats).
Local Notation "'body'" :=
  (epoch_body model train validate model_params_stats on_epoch_begin on_epoch_end).
Local Notation "'loop'" :=
  (training_loop model train validate model_params_stats on_epoch_begin on_epoch_end).
Local Notation "'new_score'" := (score_of model model_params_stats).

(** One epoch, written out with the score it appends. *)
Lemma epoch_body_score cs n st e :
  exists m t1 t5 st' best rest,
    body cs n st e
    = (((if cs then [OnEpochBegin e (vloss model st)] else []) ++
        [TrainPass e; ValidatePass e] ++
        (if cs then [OnEpochEnd e] else []) ++
        map LogBest (firstn n (best :: rest)) ++
        [SaveCheckpoint e t1 (top1 best) (epoch best) (e =? epoch best)%Z])%list,
       inr st') /\
    perf_scores_history model st' = best :: rest /\
    best :: rest = sort_desc (perf_scores_history model st ++ [new_score m t1 t5 e]).
Proof.
  unfold epoch_body.
  destruct cs; cbn -[update_training_scores_history];
    match goal with
    | |- context [validate ?x e] =>
        destruct (validate x e) as [[t1 t5] vl] eqn:V
    end;
    match goal with
    | |- context [update ?h ?m1 ?a ?b e n] =>
        rewrite (TrainingLoop.update_eq model model_params_stats h m1 a b e n);
        destruct (ScoreOrder.sort_desc_nonempty h (new_score m1 a b e))
          as (best & rest & E);
        exists m1, a, b,
          {| the_model := m1; vloss := vl; perf_scores_history := best :: rest |},
          best, rest;
        rewrite E
    end;
    (split; [|split; reflexivity]);
    cbn; rewrite <- ?app_assoc; reflexivity.
Qed.

Lemma epochs_of_app kind a b :
  epochs_of kind (a ++ b) = (epochs_of kind a ++ epochs_of kind b)%list.
Proof. unfold epochs_of. now rewrite flat_map_app. Qed.

Lemma epochs_of_logs kind l :
  In kind epoch_kinds -> epochs_of kind (map LogBest l) = [].
Proof.
  intros K. induction l as [|s r IH]; [reflexivity|].
  unfold epochs_of in *. simpl. rewrite IH.
  simpl in K. now repeat (destruct K as [<-|K]; [reflexivity|]).
Qed.

(** The events of each kind in one epoch. *)
Lemma body_epochs cs n st e :
  let tr := Run.trace (body cs n st e) in
  epochs_of train_epoch tr = [e] /\
  epochs_of validate_epoch tr = [e] /\
  epochs_of save_epoch tr = [e] /\
  epochs_of begin_epoch tr = (if cs then [e] else []) /\
  epochs_of end_epoch tr = (if cs then [e] else []).
Proof.
  destruct (epoch_body_score cs n st e) as (m & t1 & t5 & st' & best & rest & E & _).
  rewrite E. cbn [Run.trace fst].
  repeat split; rewrite !epochs_of_app, epochs_of_logs by (simpl; auto 6);
    destruct cs; reflexivity.
Qed.

Lemma for_each_epochs kind (g : Z -> list Z) cs n :
  (forall st e, epochs_of kind (Run.trace (body cs n st e)) = g e) ->
  forall l st,
    epochs_of kind (Run.trace (Run.for_each (body cs n) l st)) = flat_map g l.
Proof.
  intros H. induction l as [|e r IH]; intros st; [reflexivity|].
  destruct (TrainingLoop.body_total model train validate model_params_stats
              on_epoch_begin on_epoch_end cs n st e) as (st1 & H1).
  cbn [Run.for_each flat_map].
  now rewrite (RunFacts.bind_trace _ _ _ H1), epochs_of_app, H, IH.
Qed.

Lemma flat_map_singleton (l : list Z) : flat_map (fun e => [e]) l = l.
Proof. induction l; simpl; congruence. Qed.

Lemma flat_map_nothing (l : list Z) : flat_map (fun _ : Z => @nil Z) l = [].
Proof. induction l; simpl; congruence. Qed.

Lemma no_test_pass_in_epochs cs n l :
  forall st, ~ In TestPass (Run.trace (Run.for_each (body cs n) l st)).
Proof.
  induction l as [|e r IH]; intros s; [intros []|].
  destruct (epoch_body_score cs n s e)
    as (m1 & t1 & t5 & s' & best & rest & E & _).
  cbn [Run.for_each]. rewrite (RunFacts.bind_trace _ _ s') by now rewrite E.
  rewrite E. cbn [Run.trace fst]. intros I.
  rewrite !in_app_iff in I.
  destruct I as [[I|[I|[I|[I|I]]]]|I]; [| | | | |exact (IH s' I)].
  - destruct cs; simpl in I; intuition discriminate.
  - simpl in I; intuition discriminate.
  - destruct cs; simpl in I; intuition discriminate.
  - apply in_map_iff in I as (x & Hx & _). discriminate.
  - simpl in I; intuition discriminate.
Qed.

(** The state after the loop, and the history it has built. *)
Lemma loop_history cs n l :
  forall st, exists st',
    Run.outcome (Run.for_each (body cs n) l st) = inr st' /\
    Permutation (map epoch (perf_scores_history model st'))
                (map epoch (perf_scores_history model st) ++ l) /\
    (l <> [] -> StronglySorted key_ge (perf_scores_history model st')).
Proof.
  induction l as [|e r IH]; intros st.
  - exists st. split; [reflexivity|]. split; [now rewrite app_nil_r|congruence].
  - destruct (epoch_body_score cs n st e)
      as (m & t1 & t5 & st1 & best & rest & E & Hh & Hs).
    destruct (IH st1) as (st' & H' & P & S).
    exists st'. split; [|split].
    + cbn [Run.for_each]. rewrite (RunFacts.bind_outcome _ _ st1); [exact H'|].
      now rewrite E.
    + rewrite P, Hh, Hs.
      rewrite (Permutation_map epoch (ScoreOrder.sort_desc_perm _)).
      rewrite map_app. simpl. now rewrite <- app_assoc.
    + intros _. destruct r as [|e' r'].
      * simpl in H'. injection H' as <-. rewrite Hh, Hs.
        apply ScoreOrder.sort_desc_sorted.
      * apply S. discriminate.
Qed.

Local Notation "'epoch_score'" :=
  (epoch_score model train validate model_params_stats on_epoch_begin on_epoch_end).
Local Notation "'after_epoch'" :=
  (after_epoch model train validate model_params_stats on_epoch_begin on_epoch_end).
Local Notation "'scores_of'" :=
  (scores_of model train validate model_params_stats on_epoch_begin on_epoch_end).

(** One epoch, written out with what it has measured. *)
Lemma epoch_body_measured cs n st e :
  exists best rest,
    sort_desc (perf_scores_history model st ++ [epoch_score cs st e]) = best :: rest /\
    body cs n st e
    = (((if cs then [OnEpochBegin e (vloss model st)] else []) ++
        [TrainPass e; ValidatePass e] ++
        (if cs then [OnEpochEnd e] else []) ++
        map LogBest (firstn n (best :: rest)) ++
        [SaveCheckpoint e (top1 (epoch_score cs st e)) (top1 best) (epoch best)
           (e =? epoch best)%Z])%list,
       inr (after_epoch cs st e)).
Proof.
  destruct (ScoreOrder.sort_desc_nonempty (perf_scores_history model st)
              (epoch_score cs st e)) as (best & rest & E).
  exists best, rest. split; [exact E|].
  unfold epoch_body, TrainMore.after_epoch. rewrite E.
  unfold TrainMore.epoch_score, TrainMore.finished, TrainMore.measured,
    TrainMore.trained in *.
  destruct cs; cbn -[update_training_scores_history];
    match goal with
    | |- context [validate ?x e] =>
        destruct (validate x e) as [[t1 t5] vl] eqn:V
    end;
    cbn [fst snd] in *;
    match goal with
    | |- context [update ?h ?m1 ?a ?b e n] =>
        rewrite (TrainingLoop.update_eq model model_params_stats h m1 a b e n)
    end;
    rewrite E; cbn; rewrite <- ?app_assoc; reflexivity.
Qed.

(** The loop over a list of epochs, and the history it builds. *)
Lemma loop_scores cs n l :
  forall st,
    Run.outcome (Run.for_each (body cs n) l st) = inr (fold_left (after_epoch cs) l st) /\
    Permutation (perf_scores_history model (fold_left (after_epoch cs) l st))
                (perf_scores_history model st ++ scores_of cs l st) /\
    map epoch (scores_of cs l st) = l.
Proof.
  induction l as [|e r IH]; intros st; cbn [fold_left TrainMore.scores_of map].
  - split; [reflexivity|]. split; [now rewrite app_nil_r|reflexivity].
  - destruct (epoch_body_measured cs n st e) as (best & rest & _ & E).
    destruct (IH (after_epoch cs st e)) as (H' & P & M).
    split; [|split].
    + cbn [Run.for_each]. rewrite (RunFacts.bind_outcome _ _ (after_epoch cs st e));
        [exact H'|now rewrite E].
    + rewrite P. cbn [TrainMore.after_epoch perf_scores_history].
      rewrite (ScoreOrder.sort_desc_perm _), <- app_assoc. reflexivity.
    + now rewrite M.
Qed.

End Facts.

End EpochFacts.

(* ------------------------------------------------------------------------- *)
(** ** The epoch loop as a whole *)

Module EpochLoop.
Import Train TrainMore.

Section Theorems.
Variable model : Type.
Variable train : model -> Z -> model.
Variable validate : model -> Z -> Q * Q * Q.
Variable model_params_stats : model -> Q * Z.
Variable on_epoch_begin : model -> Z -> Q -> model.
Variable on_epoch_end : model -> Z -> model.

Local Notation "'body'" :=
  (epoch_body model train validate model_params_stats on_epoch_begin on_epoch_end).
Local Notation "'loop'" :=
  (training_loop model train validate model_params_stats on_epoch_begin on_epoch_end).

(** X11: a loop of main that ends without an exception has run every
    epoch of range(start_epoch, ending_epoch) once and in order: the
    training passes, the validation passes and the saved checkpoints are, in
    the order of the trace, those of the epochs start_epoch, ...,
    ending_epoch - 1; so are the calls of on_epoch_begin and on_epoch_end
    with a scheduler, and without one there are none; the test pass comes
    last, once. *)
Theorem each_epoch_once cs n start_epoch ending_epoch m history st :
  Run.outcome (loop cs n start_epoch ending_epoch m history) = inr st ->
  let tr := Run.trace (loop cs n start_epoch ending_epoch m history) in
  let epochs := range start_epoch ending_epoch in
  epochs_of train_epoch tr = epochs /\
  epochs_of validate_epoch tr = epochs /\
  epochs_of save_epoch tr = epochs /\
  epochs_of begin_epoch tr = (if cs then epochs else []) /\
  epochs_of end_epoch tr = (if cs then epochs else []) /\
  exists before, tr = (before ++ [TestPass])%list /\ ~ In TestPass before.
Proof.
  intros Hc tr epochs. unfold tr. unfold training_loop in *.
  destruct (start_epoch >=? ending_epoch)%Z eqn:G; [discriminate Hc|].
  clear Hc.
  set (st0 := {| the_model := m; vloss := inject_Z (10 ^ 6);
                 perf_scores_history := history |}).
  destruct (EpochFacts.loop_history model train validate model_params_stats
              on_epoch_begin on_epoch_end cs n epochs st0) as (st1 & Hst & _).
  fold epochs. rewrite (RunFacts.bind_trace _ _ _ Hst).
  cbn [Run.trace Run.bind Run.emit Run.ret fst app].
  pose proof (fun kind g H =>
                EpochFacts.for_each_epochs model train validate model_params_stats
                  on_epoch_begin on_epoch_end kind g cs n H epochs st0) as F.
  pose proof (fun st e => EpochFacts.body_epochs model train validate
                            model_params_stats on_epoch_begin on_epoch_end
                            cs n st e) as B.
  repeat split.
  - rewrite EpochFacts.epochs_of_app, (F train_epoch (fun e => [e]))
      by (intros; apply B).
    change (epochs_of train_epoch [TestPass]) with (@nil Z).
    rewrite app_nil_r. apply EpochFacts.flat_map_singleton.
  - rewrite EpochFacts.epochs_of_app, (F validate_epoch (fun e => [e]))
      by (intros; apply B).
    change (epochs_of validate_epoch [TestPass]) with (@nil Z).
    rewrite app_nil_r. apply EpochFacts.flat_map_singleton.
  - rewrite EpochFacts.epochs_of_app, (F save_epoch (fun e => [e]))
      by (intros; apply B).
    change (epochs_of save_epoch [TestPass]) with (@nil Z).
    rewrite app_nil_r. apply EpochFacts.flat_map_singleton.
  - rewrite EpochFacts.epochs_of_app,
      (F begin_epoch (fun e => if cs then [e] else [])) by (intros; apply B).
    change (epochs_of begin_epoch [TestPass]) with (@nil Z).
    rewrite app_nil_r. destruct cs;
      [apply EpochFacts.flat_map_singleton|apply EpochFacts.flat_map_nothing].
  - rewrite EpochFacts.epochs_of_app,
      (F end_epoch (fun e => if cs then [e] else [])) by (intros; apply B).
    change (epochs_of end_epoch [TestPass]) with (@nil Z).
    rewrite app_nil_r. destruct cs;
      [apply EpochFacts.flat_map_singleton|apply EpochFacts.flat_map_nothing].
  - eexists. split; [reflexivity|].
    apply EpochFacts.no_test_pass_in_epochs.
Qed.

(** X13: the history keeps every score.  After a loop that ends without an
    exception it holds the scores it started with and, for each epoch run,
    the score of that epoch (the accuracies the validation pass has measured
    and the parameters of the model when the epoch was over), whatever
    num_best_scores is, and it is sorted from best to worst. *)
Theorem history_keeps_every_score cs n start_epoch ending_epoch m history st :
  Run.outcome (loop cs n start_epoch ending_epoch m history) = inr st ->
  let scores :=
    scores_of model train validate model_params_stats on_epoch_begin
      on_epoch_end cs (range start_epoch ending_epoch)
      {| the_model := m; vloss := inject_Z (10 ^ 6);
         perf_scores_history := history |} in
  Permutation (perf_scores_history model st) (history ++ scores) /\
  map epoch scores = range start_epoch ending_epoch /\
  StronglySorted key_ge (perf_scores_history model st).
Proof.
  intros Hc scores. unfold scores. unfold training_loop in Hc.
  destruct (start_epoch >=? ending_epoch)%Z eqn:G; [discriminate Hc|].
  set (st0 := {| the_model := m; vloss := inject_Z (10 ^ 6);
                 perf_scores_history := history |}) in *.
  destruct (EpochFacts.loop_scores model train validate model_params_stats
              on_epoch_begin on_epoch_end cs n (range start_epoch ending_epoch) st0)
    as (Hst & P & M).
  destruct (EpochFacts.loop_history model train validate model_params_stats
              on_epoch_begin on_epoch_end cs n (range start_epoch ending_epoch) st0)
    as (st1 & Hst1 & _ & S).
  rewrite Hst in Hst1. injection Hst1 as <-.
  rewrite (RunFacts.bind_outcome _ _ _ Hst) in Hc.
  cbn in Hc. injection Hc as <-.
  split; [exact P|]. split; [exact M|].
  apply S. unfold range. intros E. apply (f_equal (@length Z)) in E.
  rewrite length_map, length_seq in E. simpl in E. lia.
Qed.

End Theorems.

Lemma each_epoch_once_witness :
  epochs_of save_epoch (Run.trace (TrainRuns.run false)) = [0; 1; 2]%Z /\
  epochs_of begin_epoch (Run.trace (TrainRuns.run false)) = [].
Proof.
  destruct (Run.outcome (TrainRuns.run false)) as [e|st] eqn:O;
    [discriminate O|].
  pose proof (each_epoch_once nat TrainRuns.train TrainRuns.validate
                TrainRuns.model_params_stats TrainRuns.on_epoch_begin
                TrainRuns.on_epoch_end false 1 0 3 0%nat [] st O) as H.
  split; [exact (proj1 (proj2 (proj2 H)))|exact (proj1 (proj2 (proj2 (proj2 H))))].
Defined.

Lemma history_keeps_every_score_witness :
  exists st,
    Run.outcome (TrainRuns.run true) = inr st /\
    Permutation (perf_scores_history nat st)
      [ {| params_nnz_cnt := -1000; sparsity := 0; top1 := 90; top5 := 99;
           epoch := 0 |};
        {| params_nnz_cnt := -990; sparsity := 0; top1 := 95; top5 := 99;
           epoch := 1 |};
        {| params_nnz_cnt := -990; sparsity := 0; top1 := 93; top5 := 99;
           epoch := 2 |} ].
Proof.
  destruct (Run.outcome (TrainRuns.run true)) as [e|st] eqn:O;
    [discriminate O|].
  exists st. split; [reflexivity|].
  exact (proj1 (history_keeps_every_score nat TrainRuns.train TrainRuns.validate
                  TrainRuns.model_params_stats TrainRuns.on_epoch_begin
                  TrainRuns.on_epoch_end true 1 0 3 0%nat [] st O)).
Defined.

End EpochLoop.

(* ------------------------------------------------------------------------- *)
(** ** Which checkpoint is the best *)

Module BestScore.
Import Train TrainMore.

Lemma key_compare_eq_epoch a b : key_compare a b = Eq -> epoch a = epoch b.
Proof.
  unfold key_compare, lex.
  destruct (params_nnz_cnt a ?= params_nnz_cnt b)%Z; try discriminate.
  destruct (top1 a ?= top1 b)%Q; try discriminate.
  destruct (top5 a ?= top5 b)%Q; try discriminate.
  apply Z.compare_eq.
Qed.

(** What being at least as good means, component by component. *)
Lemma key_ge_components best s :
  key_ge best s ->
  (params_nnz_cnt s <= params_nnz_cnt best)%Z /\
  (params_nnz_cnt s = params_nnz_cnt best -> (top1 s <= top1 best)%Q).
Proof.
  unfold key_ge, key_compare, lex. intros H.
  destruct (Z.compare_spec (params_nnz_cnt best) (params_nnz_cnt s)) as [E|E|E].
  - split; [lia|]. intros _.
    destruct (top1 best ?= top1 s)%Q eqn:C.
    + apply Qeq_alt in C. rewrite C. apply Qle_refl.
    + contradiction.
    + apply Qgt_alt in C. now apply Qlt_le_weak.
  - contradiction.
  - split; lia.
Qed.

Lemma range_cons a b : (a < b)%Z -> range a b = a :: range (a + 1) b.
Proof.
  intros H. unfold range.
  replace (Z.to_nat (b - a)) with (S (Z.to_nat (b - (a + 1)))) by lia.
  cbn [seq map]. f_equal; [lia|].
  rewrite <- seq_shift, map_map. apply map_ext. intros i. lia.
Qed.

Lemma range_split a b l1 e l2 :
  range a b = (l1 ++ e :: l2)%list ->
  forall x, In x (l1 ++ [e])%list -> (a <= x <= e)%Z /\ (e < b)%Z.
Proof.
  revert a. induction l1 as [|y r IH]; intros a H x Hx.
  - assert (I : In e (range a b)) by (rewrite H; now left).
    apply TrainingLoop.in_range in I.
    simpl in Hx. destruct Hx as [<-|[]].
    rewrite range_cons in H by lia. injection H as -> _. lia.
  - assert (I : In y (range a b)) by (rewrite H; now left).
    apply TrainingLoop.in_range in I.
    rewrite range_cons in H by lia. injection H as <- H.
    destruct Hx as [<-|Hx].
    + assert (Ie : In e (range (a + 1) b))
        by (rewrite H; apply in_or_app; right; now left).
      apply TrainingLoop.in_range in Ie. lia.
    + destruct (IH (a + 1)%Z H x Hx). lia.
Qed.

Section Theorems.
Variable model : Type.
Variable train : model -> Z -> model.
Variable validate : model -> Z -> Q * Q * Q.
Variable model_params_stats : model -> Q * Z.
Variable on_epoch_begin : model -> Z -> Q -> model.
Variable on_epoch_end : model -> Z -> model.

Local Notation "'update'" := (update_training_scores_history model model_params_stats).
Local Notation "'body'" :=
  (epoch_body model train validate model_params_stats on_epoch_begin on_epoch_end).
Local Notation "'loop'" :=
  (training_loop model train validate model_params_stats on_epoch_begin on_epoch_end).
Local Notation "'new_score'" := (score_of model model_params_stats).

(** X14: a checkpoint is the best exactly when it beats every earlier
    score.  In an epoch whose number is not yet in the history, a saved
    checkpoint carries the top1 the validation pass has just measured, and it
    has is_best set if and only if the key of the score of the epoch (the
    parameters of the model when the epoch is over, the top1 and top5 just
    measured, the epoch) is greater than the key of every score of the
    history; and then best_epoch and best_top1 are this epoch and its
    top1. *)
Theorem best_iff_beats_all cs n st e current_top1 best_top1 best_epoch is_best :
  (forall h, In h (perf_scores_history model st) -> epoch h <> e) ->
  In (SaveCheckpoint e current_top1 best_top1 best_epoch is_best)
     (Run.trace (body cs n st e)) ->
  let new := epoch_score model train validate model_params_stats on_epoch_begin
               on_epoch_end cs st e in
  current_top1
  = fst (fst (measured model train validate on_epoch_begin cs st e)) /\
  (is_best = true <->
   forall h, In h (perf_scores_history model st) -> key_compare h new = Lt) /\
  (is_best = true -> best_epoch = e /\ best_top1 = current_top1).
Proof.
  intros Hfresh I new.
  destruct (EpochFacts.epoch_body_measured model train validate model_params_stats
              on_epoch_begin on_epoch_end cs n st e)
    as (best & rest & Hs & E).
  fold new in Hs, E.
  rewrite E in I. cbn [Run.trace fst] in I. rewrite !in_app_iff in I.
  assert (I' : In (SaveCheckpoint e current_top1 best_top1 best_epoch is_best)
                  [SaveCheckpoint e (top1 new) (top1 best) (epoch best)
                     (e =? epoch best)%Z]).
  { destruct I as [I|[I|[I|[I|I]]]]; [| | | |exact I]; exfalso.
    - destruct cs; simpl in I; intuition discriminate.
    - simpl in I. intuition discriminate.
    - destruct cs; simpl in I; intuition discriminate.
    - apply in_map_iff in I as (s & Hx & _). discriminate. }
  clear I. destruct I' as [I'|[]]. injection I' as <- <- <- <-.
  pose proof ScoreOrder.key_order as O.
  assert (S : StronglySorted key_ge (best :: rest))
    by (rewrite <- Hs; apply ScoreOrder.sort_desc_sorted).
  pose proof (ScoreOrder.head_is_best best rest S) as Best.
  assert (P : forall s, In s (best :: rest) <->
                        In s (perf_scores_history model st) \/ s = new).
  { intros s. rewrite <- Hs.
    rewrite (Permutation_in' (eq_refl s) (ScoreOrder.sort_desc_perm _)).
    rewrite in_app_iff. simpl. intuition. }
  assert (Head : epoch best = e <-> best = new).
  { split; [|now intros ->].
    intros Ee. destruct (proj1 (P best) (or_introl eq_refl)) as [I|I]; [|exact I].
    now apply Hfresh in I. }
  split; [reflexivity|split].
  - rewrite Z.eqb_eq. split.
    + intros Ee h Hh. symmetry in Ee. apply Head in Ee. subst best.
      assert (G : key_ge new h) by (apply Best, P; now left).
      unfold key_ge in G. rewrite (cmp_sym new h).
      destruct (key_compare new h) eqn:C; [|contradiction|reflexivity].
      apply key_compare_eq_epoch in C. symmetry in C. now apply Hfresh in C.
    + intros Hall. symmetry. apply Head.
      destruct (proj1 (P best) (or_introl eq_refl)) as [I|I]; [exfalso|exact I].
      assert (G : key_ge best new) by (apply Best, P; now right).
      apply G, Hall, I.
  - rewrite Z.eqb_eq. intros Ee. symmetry in Ee. split; [exact Ee|].
    apply Head in Ee. now rewrite Ee.
Qed.

(** X15: the main key is the number of parameters.  The first score of the
    updated history has the largest [params_nnz_cnt] field (the field holds
    the negated count, so: the fewest nonzero parameters), and among the
    scores with the same count it has the largest top1. *)
Theorem fewest_parameters_first history m t1 t5 e k :
  exists best rest,
    Run.outcome (update history m t1 t5 e k) = inr (best :: rest) /\
    forall s, In s (history ++ [new_score m t1 t5 e]) ->
      (params_nnz_cnt s <= params_nnz_cnt best)%Z /\
      (params_nnz_cnt s = params_nnz_cnt best -> (top1 s <= top1 best)%Q).
Proof.
  rewrite TrainingLoop.update_eq.
  destruct (ScoreOrder.sort_desc_nonempty history (new_score m t1 t5 e))
    as (best & rest & E).
  exists best, rest. rewrite E. split; [reflexivity|].
  intros s Hs. apply key_ge_components.
  apply (ScoreOrder.head_is_best best rest).
  - rewrite <- E. apply ScoreOrder.sort_desc_sorted.
  - rewrite <- E.
    now apply (Permutation_in s (Permutation_sym (ScoreOrder.sort_desc_perm _))).
Qed.

(** The saved checkpoints of a loop over a list of epochs. *)
Lemma saves_of_loop cs n l :
  forall st e c bt be ib,
    In (SaveCheckpoint e c bt be ib) (Run.trace (Run.for_each (body cs n) l st)) ->
    exists l1 l2,
      l = (l1 ++ e :: l2)%list /\
      In be (map epoch (perf_scores_history model st) ++ l1 ++ [e])%list.
Proof.
  induction l as [|x r IH]; intros st e c bt be ib I; [destruct I|].
  destruct (EpochFacts.epoch_body_score model train validate model_params_stats
              on_epoch_begin on_epoch_end cs n st x)
    as (m & t1 & t5 & st' & best & rest & E & Hh & Hs).
  cbn [Run.for_each] in I.
  rewrite (RunFacts.bind_trace _ _ st') in I by now rewrite E.
  assert (B : In (epoch best) (map epoch (perf_scores_history model st) ++ [x])%list).
  { assert (Ib : In best (perf_scores_history model st ++ [new_score m t1 t5 x])%list).
    { apply (Permutation_in best (ScoreOrder.sort_desc_perm _)).
      rewrite <- Hs. now left. }
    apply in_app_iff in Ib as [Ib|[<-|[]]]; apply in_app_iff.
    - left. now apply in_map.
    - right. now left. }
  apply in_app_iff in I as [I|I].
  - rewrite E in I. cbn [Run.trace fst] in I. rewrite !in_app_iff in I.
    assert (I' : In (SaveCheckpoint e c bt be ib)
                    [SaveCheckpoint x t1 (top1 best) (epoch best) (x =? epoch best)%Z]).
    { destruct I as [I|[I|[I|[I|I]]]]; [| | | |exact I]; exfalso.
      - destruct cs; simpl in I; intuition discriminate.
      - simpl in I. intuition discriminate.
      - destruct cs; simpl in I; intuition discriminate.
      - apply in_map_iff in I as (s & Hx & _). discriminate. }
    destruct I' as [I'|[]]. injection I' as <- <- <- <- <-.
    exists [], r. split; [reflexivity|]. exact B.
  - destruct (IH st' e c bt be ib I) as (l1 & l2 & -> & Hbe).
    exists (x :: l1), l2. split; [reflexivity|].
    rewrite Hh, Hs in Hbe.
    apply in_app_iff in Hbe as [Hbe|Hbe].
    + apply in_map_iff in Hbe as (s & <- & Is).
      apply (Permutation_in s (ScoreOrder.sort_desc_perm _)) in Is.
      apply in_app_iff in Is as [Is|[<-|[]]].
      * apply in_app_iff. left. now apply in_map.
      * apply in_app_iff. right. now left.
    + apply in_app_iff. right. now right.
Qed.

(** X16: best_epoch never names an epoch that has not been run.  In the
    loop of main, which starts with an empty history, every saved checkpoint
    of an epoch e carries a best_epoch with start_epoch <= best_epoch <= e. *)
Theorem best_epoch_already_run cs n start_epoch ending_epoch m
    e current_top1 best_top1 best_epoch is_best :
  In (SaveCheckpoint e current_top1 best_top1 best_epoch is_best)
     (Run.trace (loop cs n start_epoch ending_epoch m [])) ->
  (start_epoch <= best_epoch <= e)%Z /\ (e < ending_epoch)%Z.
Proof.
  unfold training_loop. intros I.
  destruct (start_epoch >=? ending_epoch)%Z; [destruct I|].
  set (st0 := {| the_model := m; vloss := inject_Z (10 ^ 6);
                 perf_scores_history := [] |}) in *.
  destruct (EpochFacts.loop_history model train validate model_params_stats
              on_epoch_begin on_epoch_end cs n (range start_epoch ending_epoch) st0)
    as (st & Hst & _).
  rewrite (RunFacts.bind_trace _ _ _ Hst) in I.
  apply in_app_iff in I as [I|I]; [|simpl in I; intuition discriminate].
  destruct (saves_of_loop cs n _ st0 _ _ _ _ _ I) as (l1 & l2 & R & Hbe).
  simpl in Hbe. exact (range_split _ _ _ _ _ R best_epoch Hbe).
Qed.

End Theorems.

Lemma best_iff_beats_all_witness :
  95 = fst (fst (measured nat TrainRuns.train TrainRuns.validate
                   TrainRuns.on_epoch_begin true after_first_epoch 1)) /\
  key_compare
    {| params_nnz_cnt := -1000; sparsity := 0; top1 := 90; top5 := 99; epoch := 0 |}
    (epoch_score nat TrainRuns.train TrainRuns.validate
       TrainRuns.model_params_stats TrainRuns.on_epoch_begin
       TrainRuns.on_epoch_end true after_first_epoch 1) = Lt.
Proof.
  refine (let H := best_iff_beats_all nat TrainRuns.train TrainRuns.validate
                     TrainRuns.model_params_stats TrainRuns.on_epoch_begin
                     TrainRuns.on_epoch_end true 1 after_first_epoch 1 95 95 1 true
                     _ _ in
          conj (proj1 H) (proj1 (proj1 (proj2 H)) eq_refl _ (or_introl eq_refl))).
  - intros h [<-|[]]. discriminate.
  - vm_compute. tauto.
Defined.

Lemma best_epoch_already_run_witness : (0 <= 1 <= 2)%Z /\ (2 < 3)%Z.
Proof.
  apply (best_epoch_already_run nat TrainRuns.train TrainRuns.validate
           TrainRuns.model_params_stats TrainRuns.on_epoch_begin
           TrainRuns.on_epoch_end true 1 0 3 0%nat 2 93 95 1 false).
  vm_compute. tauto.
Defined.

End BestScore.

(* ========================================================================= *)
(** * The input transform *)

Module NormalizeFacts.
Import Normalize.

Local Open Scope Q_scope.

Lemma round1_whole x : exists z, QTensor.round1 x = inject_Z z.
Proof.
  unfold QTensor.round1.
  destruct (x - inject_Z (Qfloor x) ?= 1 # 2); try destruct (Z.even (Qfloor x));
    eexists; reflexivity.
Qed.

Lemma clamp1_cases lo hi x :
  lo <= hi ->
  (QTensor.clamp1 lo hi x = x /\ lo <= x <= hi) \/
  (QTensor.clamp1 lo hi x = lo /\ x <= lo) \/
  (QTensor.clamp1 lo hi x = hi /\ hi <= x).
Proof.
  intros Hlh. unfold QTensor.clamp1, QTensor.qmin, QTensor.qmax.
  destruct (Qle_bool x lo) eqn:A.
  - apply Qle_bool_iff in A.
    destruct (Qle_bool lo hi) eqn:B.
    + right. left. split; [reflexivity|exact A].
    + apply Qle_bool_iff in Hlh. congruence.
  - assert (A' : lo < x).
    { apply Qnot_le_lt. intros H. apply Qle_bool_iff in H. congruence. }
    destruct (Qle_bool x hi) eqn:B.
    + apply Qle_bool_iff in B. left. split; [reflexivity|].
      split; [now apply Qlt_le_weak|exact B].
    + right. right. split; [reflexivity|].
      apply Qlt_le_weak, Qnot_le_lt. intros H. apply Qle_bool_iff in H. congruence.
Qed.

Lemma in_concat_map2 (f : Q -> Q) img x :
  In x (concat (map (map f) img)) -> exists y, In y (concat img) /\ x = f y.
Proof.
  induction img as [|r img IH]; simpl; [contradiction|].
  rewrite !in_app_iff. intros [H|H].
  - apply in_map_iff in H as (y & <- & Hy). exists y. rewrite in_app_iff. auto.
  - destruct (IH H) as (y & Hy & ->). exists y. rewrite in_app_iff. auto.
Qed.

Lemma normalize_elements act img :
  normalize act img
  = map (map (fun x => if act
                       then QTensor.clamp1 (-128) 127
                              (QTensor.round1 ((x - (1 # 2)) * 256))
                       else x - (1 # 2))) img.
Proof.
  unfold normalize, clamp, round, mul, sub.
  destruct act; [|reflexivity].
  rewrite !map_map. apply map_ext. intros r. rewrite !map_map. reflexivity.
Qed.

(** The bytes 0..255, checked one by one. *)
Lemma byte_levels :
  forallb (fun n => let k := Z.of_nat n in
                    Qeq_bool (QTensor.clamp1 (-128) 127
                                (QTensor.round1 (((k # 255) - (1 # 2)) * 256)))
                             (inject_Z (level k))
                    && (Qden (QTensor.clamp1 (-128) 127
                                (QTensor.round1 (((k # 255) - (1 # 2)) * 256)))
                        =? 1)%positive)
          (seq 0 256) = true.
Proof. vm_compute. reflexivity. Qed.

Lemma byte_level k :
  (0 <= k <= 255)%Z ->
  QTensor.clamp1 (-128) 127 (QTensor.round1 (((k # 255) - (1 # 2)) * 256))
  = inject_Z (level k).
Proof.
  intros Hk. pose proof byte_levels as B.
  rewrite forallb_forall in B.
  specialize (B (Z.to_nat k)).
  rewrite Z2Nat.id in B by lia.
  assert (I : In (Z.to_nat k) (seq 0 256)) by (apply in_seq; lia).
  apply B in I. cbv zeta in I. apply andb_true_iff in I as [E D].
  apply Qeq_bool_iff in E. apply Pos.eqb_eq in D.
  destruct (QTensor.clamp1 (-128) 127 (QTensor.round1 (((k # 255) - (1 # 2)) * 256)))
    as [n d].
  simpl in D. subst d. unfold Qeq, inject_Z in *. simpl in E. f_equal. lia.
Qed.

(** X17: the range of [normalize].  With act_mode_8bit every element of the
    result is a whole number from -128 to 127, whatever the input; without
    it, an input with elements in [0, 1] gives elements in [-1/2, 1/2]. *)
Theorem normalize_range act img x :
  In x (concat (normalize act img)) ->
  (act = true -> exists z : Z, x = inject_Z z /\ (-128 <= z <= 127)%Z) /\
  (act = false -> (forall y, In y (concat img) -> 0 <= y <= 1) ->
   - (1 # 2) <= x <= 1 # 2).
Proof.
  rewrite normalize_elements. intros H.
  apply in_concat_map2 in H as (y & Hy & ->). split.
  - intros ->.
    destruct (round1_whole ((y - (1 # 2)) * 256)) as (z & ->).
    destruct (clamp1_cases (-128) 127 (inject_Z z)) as [[-> B]|[[-> _]|[-> _]]].
    + discriminate.
    + exists z. split; [reflexivity|].
      destruct B as [B1 B2].
      change (-128) with (inject_Z (-128)) in B1.
      change 127 with (inject_Z 127) in B2.
      rewrite <- Zle_Qle in B1, B2. lia.
    + exists (-128)%Z. split; [reflexivity|lia].
    + exists 127%Z. split; [reflexivity|lia].
  - intros -> Hin. destruct (Hin y Hy) as [A B].
    unfold Qle, Qminus, Qplus, Qopp in *. simpl in *. lia.
Qed.

(** X18: the 8-bit levels of an image of bytes.  With act_mode_8bit, the
    byte k (the element k/255 after ToTensor) becomes k - 128 for k <= 127
    and min(k - 127, 127) for k >= 128: no byte becomes 0, and the bytes 254
    and 255 both become 127. *)
Theorem normalize_bytes bytes :
  (forall k, In k (concat bytes) -> (0 <= k <= 255)%Z) ->
  normalize true (of_bytes bytes) = map (map (fun k => inject_Z (level k))) bytes /\
  (forall k, In k (concat bytes) -> level k <> 0%Z) /\
  level 254 = level 255.
Proof.
  intros Hb. split; [|split].
  - rewrite normalize_elements. unfold of_bytes. rewrite map_map.
    apply map_ext_in. intros r Hr. rewrite map_map.
    apply map_ext_in. intros k Hk. apply byte_level, Hb.
    apply in_concat. exists r. split; assumption.
  - intros k Hk. apply Hb in Hk. unfold level.
    destruct (k <=? 127)%Z eqn:E; lia.
  - reflexivity.
Qed.

Lemma normalize_range_witness :
  (true = true -> exists z : Z, 127 = inject_Z z /\ (-128 <= z <= 127)%Z) /\
  (true = false -> (forall y, In y (concat [[1; 0]]) -> 0 <= y <= 1) ->
   - (1 # 2) <= 127 <= 1 # 2).
Proof.
  apply (normalize_range true [[1; 0]] 127).
  vm_compute. left. reflexivity.
Defined.

Lemma normalize_bytes_witness :
  normalize true (of_bytes [[0; 127]; [128; 255]]%Z)
  = map (map (fun k => inject_Z (level k))) [[0; 127]; [128; 255]]%Z /\
  (forall k, In k (concat [[0; 127]; [128; 255]]%Z) -> level k <> 0%Z) /\
  level 254 = level 255.
Proof.
  apply (normalize_bytes [[0; 127]; [128; 255]]%Z).
  simpl. intros k H. intuition lia.
Defined.

End NormalizeFacts.

(* ========================================================================= *)
(** * Validation with early exits *)

From Stdlib Require Import Lqa.

Module PyFacts.
Import ValidateSpec.

Section Facts.
Context {E : Type}.

Lemma bind_ret_l {A B} (a : A) (f : A -> @Py.M E B) :
  Py.bind (Py.ret a) f = f a.
Proof. unfold Py.bind, Py.ret. now destruct (f a). Qed.

Lemma bind_assoc {A B C} (m : @Py.M E A) (f : A -> @Py.M E B)
    (g : B -> @Py.M E C) :
  Py.bind (Py.bind m f) g = Py.bind m (fun x => Py.bind (f x) g).
Proof.
  destruct m as [tr [e|a]]; [reflexivity|]. unfold Py.bind.
  destruct (f a) as [tr' [e|b]]; [reflexivity|].
  destruct (g b) as [tr3 r3]. now rewrite app_assoc.
Qed.

Lemma bind_returned {A B} (m : @Py.M E A) (f : A -> @Py.M E B) a :
  Py.outcome m = inr a -> Py.outcome (Py.bind m f) = Py.outcome (f a).
Proof.
  destruct m as [tr [e|x]]; simpl; intros H; [discriminate|].
  injection H as ->. now destruct (f a).
Qed.

Lemma bind_raised {A B} (m : @Py.M E A) (f : A -> @Py.M E B) e :
  Py.outcome m = inl e -> Py.outcome (Py.bind m f) = inl e.
Proof.
  destruct m as [tr [e'|x]]; simpl; intros H; [|discriminate].
  now injection H as ->.
Qed.

Lemma index_range {A} (l : list A) i :
  (0 <= i < Z.of_nat (length l))%Z -> Py.index l i = Some (Z.to_nat i).
Proof.
  intros H. unfold Py.index.
  assert (G : ((0 <=? i) && (i <? Z.of_nat (length l)))%Z = true)
    by (apply andb_true_iff; split; lia).
  now rewrite G.
Qed.

Lemma getitem_nth {A} (l : list A) i d :
  (0 <= i < Z.of_nat (length l))%Z ->
  @Py.getitem E A l i = Py.ret (nth (Z.to_nat i) l d).
Proof.
  intros H. unfold Py.getitem. rewrite index_range by exact H.
  now rewrite (nth_error_nth' l d) by lia.
Qed.

Lemma getitem_some {A} (l : list A) i x :
  (0 <= i)%Z -> nth_error l (Z.to_nat i) = Some x ->
  @Py.getitem E A l i = Py.ret x.
Proof.
  intros H Hx.
  assert (Z.to_nat i < length l)%nat by (apply nth_error_Some; congruence).
  unfold Py.getitem. rewrite index_range by lia. now rewrite Hx.
Qed.

Lemma setitem_upd {A} (l : list A) i v :
  (0 <= i < Z.of_nat (length l))%Z ->
  @Py.setitem E A l i v = Py.ret (upd (Z.to_nat i) v l).
Proof. intros H. unfold Py.setitem. now rewrite index_range by exact H. Qed.

Lemma divide_ret x (y : Z) :
  y <> 0%Z -> @Py.divide E x (inject_Z y) = Py.ret (x / inject_Z y)%Q.
Proof.
  intros H. unfold Py.divide.
  destruct (Qeq_bool (inject_Z y) 0) eqn:Q; [|reflexivity].
  apply Qeq_bool_iff in Q. unfold Qeq in Q. simpl in Q. lia.
Qed.

Lemma modulo_ret x y :
  y <> 0%Z -> @Py.modulo E x y = Py.ret (x mod y)%Z.
Proof.
  intros H. unfold Py.modulo.
  destruct (Z.eqb_spec y 0) as [->|_]; [contradiction|reflexivity].
Qed.

(** A loop whose steps raise nothing and log nothing. *)
Lemma for_each_ret {S X} (body : S -> X -> @Py.M E S) (g : S -> X -> S)
    (I : S -> Prop) (P : X -> Prop) l :
  (forall st x, I st -> P x -> body st x = Py.ret (g st x) /\ I (g st x)) ->
  forall st, (forall x, In x l -> P x) -> I st ->
    Py.for_each body l st = Py.ret (fold_left g l st) /\ I (fold_left g l st).
Proof.
  intros Hstep. induction l as [|x r IH]; intros st HP HI; simpl.
  - split; [reflexivity|exact HI].
  - destruct (Hstep st x HI (HP x (or_introl eq_refl))) as [-> HI'].
    rewrite bind_ret_l. apply IH; [|exact HI'].
    intros y Hy. apply HP. now right.
Qed.

Lemma for_each_returns {S X} (body : S -> X -> @Py.M E S) (P : X -> Prop) l :
  (forall st x, P x -> exists st', body st x = Py.ret st') ->
  (forall x, In x l -> P x) ->
  forall st, exists st', Py.for_each body l st = Py.ret st'.
Proof.
  intros Hstep. induction l as [|x r IH]; intros HP st; simpl.
  - eexists. reflexivity.
  - destruct (Hstep st x (HP x (or_introl eq_refl))) as (st1 & ->).
    rewrite bind_ret_l. apply IH. intros y Hy. apply HP. now right.
Qed.

Lemma bind_run {A B} (m : @Py.M E A) (f : A -> @Py.M E B) tr a :
  m = (tr, inr a) -> Py.bind m f = ((tr ++ Py.trace (f a))%list, Py.outcome (f a)).
Proof. intros ->. unfold Py.bind. now destruct (f a). Qed.

Lemma emit_run {B} (ev : E) (f : unit -> @Py.M E B) :
  Py.bind (Py.emit ev) f = (ev :: Py.trace (f tt), Py.outcome (f tt)).
Proof. unfold Py.bind, Py.emit. now destruct (f tt). Qed.

(** A loop whose steps raise nothing, with what they log. *)
Lemma for_each_run {S X Y} (body : S -> X -> @Py.M E S) (g : S -> X -> S)
    (k : E -> list Y) (h : X -> list Y) (I : S -> Prop) (P : X -> Prop) l :
  (forall st x, I st -> P x ->
     exists tr, body st x = (tr, inr (g st x)) /\ flat_map k tr = h x /\
                I (g st x)) ->
  forall st, (forall x, In x l -> P x) -> I st ->
    exists tr, Py.for_each body l st = (tr, inr (fold_left g l st)) /\
               flat_map k tr = flat_map h l /\ I (fold_left g l st).
Proof.
  intros Hstep. induction l as [|x r IH]; intros st HP HI; cbn [Py.for_each].
  - exists []. repeat split. exact HI.
  - destruct (Hstep st x HI (HP x (or_introl eq_refl))) as (tr & Hx & Hk & HI').
    destruct (IH (g st x)) as (tr' & Hr & Hk' & HI''); [|exact HI'|].
    { intros y Hy. apply HP. now right. }
    exists (tr ++ tr')%list. rewrite (bind_run _ _ _ _ Hx), Hr.
    split; [reflexivity|]. split; [|exact HI''].
    cbn [flat_map fold_left]. now rewrite flat_map_app, Hk, Hk'.
Qed.

(** A loop whose steps raise nothing, with two views of what they log and
    a count of the steps. *)
Lemma for_each_counted {S X Y1 Y2} (body : S -> X -> @Py.M E S)
    (k1 : E -> list Y1) (h1 : X -> list Y1) (k2 : E -> list Y2)
    (h2 : X -> list Y2) (J : nat -> S -> Prop) l :
  (forall n st x, J n st ->
     exists tr st', body st x = (tr, inr st') /\ flat_map k1 tr = h1 x /\
                    flat_map k2 tr = h2 x /\ J (Datatypes.S n) st') ->
  forall n st, J n st ->
    exists tr st', Py.for_each body l st = (tr, inr st') /\
                   flat_map k1 tr = flat_map h1 l /\
                   flat_map k2 tr = flat_map h2 l /\
                   J (n + length l)%nat st'.
Proof.
  intros Hstep. induction l as [|x r IH]; intros n st HJ; cbn [Py.for_each].
  - exists [], st. repeat split. now rewrite Nat.add_0_r.
  - destruct (Hstep n st x HJ) as (tr & st1 & Hx & H1 & H2 & HJ1).
    destruct (IH _ _ HJ1) as (tr' & st2 & Hr & H1' & H2' & HJ2).
    exists (tr ++ tr')%list, st2. rewrite (bind_run _ _ _ _ Hx), Hr.
    split; [reflexivity|]. cbn [flat_map length].
    rewrite !flat_map_app, H1, H2, H1', H2'.
    repeat split. now rewrite Nat.add_succ_r.
Qed.

(** A loop whose steps raise nothing. *)
Lemma for_each_outcome {S X} (body : S -> X -> @Py.M E S) (g : S -> X -> S)
    (I : S -> Prop) (P : X -> Prop) l :
  (forall st x, I st -> P x ->
                Py.outcome (body st x) = inr (g st x) /\ I (g st x)) ->
  forall st, (forall x, In x l -> P x) -> I st ->
    Py.outcome (Py.for_each body l st) = inr (fold_left g l st) /\
    I (fold_left g l st).
Proof.
  intros Hstep. induction l as [|x r IH]; intros st HP HI; simpl.
  - split; [reflexivity|exact HI].
  - destruct (Hstep st x HI (HP x (or_introl eq_refl))) as [Hx HI'].
    rewrite (bind_returned _ _ _ Hx). apply IH; [|exact HI'].
    intros y Hy. apply HP. now right.
Qed.

End Facts.

Lemma upd_length {A} j (v : A) l :
  (j < length l)%nat -> length (upd j v l) = length l.
Proof.
  intros H. unfold upd. rewrite length_app, length_firstn. cbn [length].
  rewrite length_skipn. lia.
Qed.

Lemma nth_upd_same {A} j (v : A) l d :
  (j < length l)%nat -> nth j (upd j v l) d = v.
Proof.
  intros H. unfold upd. rewrite app_nth2; rewrite length_firstn; [|lia].
  replace (j - Nat.min j (length l))%nat with 0%nat by lia. reflexivity.
Qed.

Lemma nth_upd_other {A} j k (v : A) l d :
  (j < length l)%nat -> j <> k -> nth k (upd j v l) d = nth k l d.
Proof.
  intros H Hk. unfold upd.
  rewrite <- (firstn_skipn j l) at 3.
  destruct (Nat.lt_ge_cases k j) as [L|G].
  - rewrite !app_nth1 by (rewrite length_firstn; lia). reflexivity.
  - rewrite !app_nth2 by (rewrite length_firstn; lia).
    rewrite length_firstn.
    replace (k - Nat.min j (length l))%nat with (S (k - S j)) by lia.
    simpl. rewrite <- (firstn_skipn 1 (skipn j l)) at 1.
    rewrite skipn_skipn. simpl.
    destruct (skipn j l) as [|y r] eqn:Ey.
    + apply (f_equal (@length A)) in Ey. rewrite length_skipn in Ey. simpl in Ey. lia.
    + simpl. now rewrite skipn_O_l || reflexivity.
Qed.

Lemma zsum_app l l' : zsum (l ++ l') = (zsum l + zsum l')%Z.
Proof. induction l as [|x r IH]; simpl; [reflexivity|]. rewrite IH. lia. Qed.

Lemma zsum_upd j x l :
  (j < length l)%nat -> zsum (upd j x l) = (zsum l - nth j l 0 + x)%Z.
Proof.
  intros H. unfold upd.
  rewrite <- (firstn_skipn j l) at 3 4.
  rewrite !zsum_app.
  rewrite app_nth2 by (rewrite length_firstn; lia).
  rewrite length_firstn. replace (j - Nat.min j (length l))%nat with 0%nat by lia.
  destruct (skipn j l) as [|y r] eqn:Ey.
  - apply (f_equal (@length Z)) in Ey. rewrite length_skipn in Ey. simpl in Ey. lia.
  - assert (R : skipn (S j) l = r).
    { replace (S j) with (1 + j)%nat by lia. rewrite <- skipn_skipn, Ey. reflexivity. }
    rewrite R. simpl. lia.
Qed.

Lemma range_eq n : Py.range n = map Z.of_nat (seq 0 (Z.to_nat n)).
Proof.
  unfold Py.range, Train.range. rewrite Z.sub_0_r. apply map_ext. intros. lia.
Qed.

Lemma range_spec n e : In e (Py.range n) <-> (0 <= e < n)%Z.
Proof.
  rewrite range_eq, in_map_iff. split.
  - intros (i & <- & Hi). apply in_seq in Hi. lia.
  - intros H. exists (Z.to_nat e). split; [lia|]. apply in_seq. lia.
Qed.

Lemma range_nodup n : NoDup (Py.range n).
Proof.
  rewrite range_eq. apply Finite.Injective_map_NoDup; [|apply seq_NoDup].
  intros x y. lia.
Qed.

End PyFacts.

(* ------------------------------------------------------------------------- *)
(** ** One minibatch *)

Module ExitFacts.
Import Validate ValidateSpec.

Section Facts.
Variables tgt out output : Type.
Variable exits : output -> list out.
Variable size0 : tgt -> Z.
Variable sample_losses : out -> tgt -> list Q.
Variable torch_mean : list Q -> Q.
Variable sample_output : out -> Z -> out.
Variable sample_target : tgt -> Z -> tgt.

Local Notation "'args'" := (Validate.args tgt out).
Local Notation "'record_losses'" :=
  (Validate.record_losses tgt out output exits sample_losses torch_mean).
Local Notation "'count_exit'" :=
  (Validate.count_exit tgt out output exits sample_output sample_target).
Local Notation "'take_exit'" :=
  (Validate.take_exit tgt out output exits sample_output sample_target).
Local Notation "'validate_sample'" :=
  (Validate.validate_sample tgt out output exits sample_output sample_target).
Local Notation "'earlyexit_validate_loss'" :=
  (Validate.earlyexit_validate_loss tgt out output exits size0 sample_losses
     torch_mean sample_output sample_target).
Local Notation "'losses_of'" := (ValidateSpec.losses_of tgt out output exits sample_losses).
Local Notation "'loss_of'" := (ValidateSpec.loss_of tgt out output exits sample_losses).
Local Notation "'filled'" :=
  (ValidateSpec.filled tgt out output exits sample_losses torch_mean).
Local Notation "'counted'" :=
  (ValidateSpec.counted tgt out output exits sample_output sample_target).
Local Notation "'under'" := (ValidateSpec.under tgt out output exits sample_losses).
Local Notation "'chosen_exit'" :=
  (ValidateSpec.chosen_exit tgt out output exits sample_losses).
Local Notation "'sample_of'" :=
  (ValidateSpec.sample_of tgt out output exits sample_output sample_target).
Local Notation "'shaped'" := (ValidateSpec.shaped tgt out output exits size0 sample_losses).
Local Notation "'after_batch'" :=
  (ValidateSpec.after_batch tgt out output exits size0 sample_losses torch_mean
     sample_output sample_target).
Local Notation "'leaving'" :=
  (ValidateSpec.leaving tgt out output exits size0 sample_losses).

Local Notation "'recorded'" :=
  (ValidateSpec.recorded tgt out output exits sample_losses).

Lemma exit_output o n e :
  length (exits o) = Z.to_nat n -> (0 <= e < n)%Z ->
  exists x, nth_error (exits o) (Z.to_nat e) = Some x.
Proof.
  intros L H. destruct (nth_error (exits o) (Z.to_nat e)) eqn:E; [eauto|].
  apply nth_error_None in E. lia.
Qed.

Lemma same_exits_refl (a : args) : same_exits a a.
Proof. repeat split. Qed.

Lemma same_exits_trans (a b c : args) :
  same_exits a b -> same_exits b c -> same_exits a c.
Proof. unfold same_exits. intuition congruence. Qed.

(** Lines 697-701, for an exit the lists have a place for. *)
Lemma record_losses_ret o target a e :
  well_formed a -> length (exits o) = Z.to_nat (num_exits a) ->
  (0 <= e < num_exits a)%Z ->
  record_losses o target a e = Py.ret (filled o target a e).
Proof.
  intros (Hn & Ht & Hl & Hls & He & Hk) Ho Hr.
  destruct (exit_output o _ e Ho Hr) as (x & Ex).
  unfold Validate.record_losses, ValidateSpec.filled, ValidateSpec.losses_of.
  rewrite Ex.
  rewrite (PyFacts.getitem_some _ _ x) by (lia || exact Ex).
  rewrite PyFacts.bind_ret_l.
  rewrite PyFacts.setitem_upd by lia. rewrite PyFacts.bind_ret_l.
  cbn [losses_exits loss_exits set_loss_exits].
  rewrite (PyFacts.getitem_nth (losses_exits a) _ []) by lia.
  rewrite PyFacts.bind_ret_l.
  rewrite (PyFacts.getitem_nth _ _ []) by (rewrite PyFacts.upd_length; lia).
  rewrite PyFacts.bind_ret_l.
  rewrite PyFacts.nth_upd_same by lia.
  rewrite PyFacts.setitem_upd by lia. rewrite PyFacts.bind_ret_l.
  reflexivity.
Qed.

Lemma filled_keeps o target a e :
  well_formed a -> (0 <= e < num_exits a)%Z ->
  well_formed (filled o target a e) /\ same_exits a (filled o target a e) /\
  exit_taken (filled o target a e) = exit_taken a /\
  exiterrors (filled o target a e) = exiterrors a.
Proof.
  intros (Hn & Ht & Hl & Hls & He & Hk) Hr.
  unfold well_formed, same_exits, ValidateSpec.filled. cbn.
  rewrite !PyFacts.upd_length by lia. tauto.
Qed.

Lemma filled_loop_keeps o target l :
  forall a, well_formed a -> (forall e, In e l -> (0 <= e < num_exits a)%Z) ->
    well_formed (fold_left (filled o target) l a) /\
    same_exits a (fold_left (filled o target) l a) /\
    exit_taken (fold_left (filled o target) l a) = exit_taken a /\
    exiterrors (fold_left (filled o target) l a) = exiterrors a.
Proof.
  induction l as [|e r IH]; intros a W Hl; simpl.
  - repeat split; apply W.
  - destruct (filled_keeps o target a e W (Hl e (or_introl eq_refl)))
      as (W' & S' & T' & E').
    assert (Hr : forall x, In x r -> (0 <= x < num_exits (filled o target a e))%Z).
    { intros x Hx. destruct S' as [-> _]. apply Hl. now right. }
    destruct (IH _ W' Hr) as (W2 & S2 & T2 & E2).
    split; [exact W2|]. split; [exact (same_exits_trans _ _ _ S' S2)|].
    split; congruence.
Qed.

(** The losses the first loop leaves in [args.loss_exits]. *)
Lemma filled_loop_losses o target l :
  forall a, well_formed a -> (forall e, In e l -> (0 <= e < num_exits a)%Z) ->
    forall i, (0 <= i)%Z ->
      (In i l -> nth (Z.to_nat i) (loss_exits (fold_left (filled o target) l a)) []
                 = losses_of o target i) /\
      (~ In i l -> nth (Z.to_nat i) (loss_exits (fold_left (filled o target) l a)) []
                   = nth (Z.to_nat i) (loss_exits a) []).
Proof.
  induction l as [|e r IH]; intros a W Hl i Hi; simpl.
  - split; [contradiction|reflexivity].
  - pose proof (Hl e (or_introl eq_refl)) as He.
    destruct (filled_keeps o target a e W He) as (W' & S' & _).
    assert (Hr : forall x, In x r -> (0 <= x < num_exits (filled o target a e))%Z).
    { intros x Hx. destruct S' as [-> _]. apply Hl. now right. }
    destruct (IH _ W' Hr i Hi) as [IH1 IH2].
    destruct W as (Hn & Ht & Hlen & _).
    assert (Same : nth (Z.to_nat e) (loss_exits (filled o target a e)) []
                   = losses_of o target e).
    { unfold ValidateSpec.filled. cbn. apply PyFacts.nth_upd_same. lia. }
    assert (Other : e <> i ->
                    nth (Z.to_nat i) (loss_exits (filled o target a e)) []
                    = nth (Z.to_nat i) (loss_exits a) []).
    { intros Hne. unfold ValidateSpec.filled. cbn.
      apply PyFacts.nth_upd_other; lia. }
    destruct (in_dec Z.eq_dec i r) as [Ir|Ir].
    + split; intros H; [now apply IH1|]. exfalso. apply H. now right.
    + split; intros H.
      * destruct H as [->|H]; [|contradiction]. now rewrite IH2.
      * rewrite IH2 by exact Ir. apply Other. intros ->. apply H. now left.
Qed.

(** Lines 709-713 and 718-722, for an exit the lists have a place for. *)
Lemma count_exit_ret o target b a e :
  well_formed a -> length (exits o) = Z.to_nat (num_exits a) ->
  (0 <= e < num_exits a)%Z ->
  count_exit o target b a e = Py.ret (counted o target a e b).
Proof.
  intros (Hn & Ht & Hl & Hls & He & Hk) Ho Hr.
  destruct (exit_output o _ e Ho Hr) as (x & Ex).
  unfold Validate.count_exit, ValidateSpec.counted, ValidateSpec.sample_of,
    ValidateSpec.added, ValidateSpec.taken.
  rewrite Ex.
  rewrite (PyFacts.getitem_nth (exiterrors a) _ []) by lia.
  rewrite PyFacts.bind_ret_l.
  rewrite (PyFacts.getitem_some _ _ x) by (lia || exact Ex).
  rewrite PyFacts.bind_ret_l.
  rewrite PyFacts.setitem_upd by lia. rewrite PyFacts.bind_ret_l.
  cbn [exit_taken set_exiterrors].
  rewrite (PyFacts.getitem_nth (exit_taken a) _ 0%Z) by lia.
  rewrite PyFacts.bind_ret_l.
  rewrite PyFacts.setitem_upd by lia. rewrite PyFacts.bind_ret_l.
  reflexivity.
Qed.

Lemma counted_keeps o target a e b :
  well_formed a -> (0 <= e < num_exits a)%Z ->
  well_formed (counted o target a e b) /\ same_exits a (counted o target a e b) /\
  loss_exits (counted o target a e b) = loss_exits a /\
  losses_exits (counted o target a e b) = losses_exits a.
Proof.
  intros (Hn & Ht & Hl & Hls & He & Hk) Hr.
  unfold well_formed, same_exits, ValidateSpec.counted. cbn.
  rewrite !PyFacts.upd_length by lia. tauto.
Qed.

(** Lines 706-715: the loop stops at the first exit under its threshold. *)
Lemma take_exit_ret o target b a l :
  well_formed a -> shaped (num_exits a) o target -> recorded o target a ->
  (0 <= b < size0 target)%Z ->
  (forall e, In e l -> (0 <= e < num_exits a - 1)%Z) ->
  take_exit o target b l a
  = Py.ret (match find (under a o target b) l with
            | Some e => (true, counted o target a e b)
            | None => (false, a)
            end).
Proof.
  intros W [Ho Hs] R Hb. induction l as [|e r IH]; intros Hl; [reflexivity|].
  pose proof (Hl e (or_introl eq_refl)) as He.
  assert (He' : (0 <= e < num_exits a)%Z) by lia.
  pose proof W as (Hn & Ht & Hlen & Hls & Hee & Hk).
  cbn [Validate.take_exit find].
  rewrite (PyFacts.getitem_nth (loss_exits a) _ []) by lia.
  rewrite PyFacts.bind_ret_l, (R e He').
  assert (Len : length (losses_of o target e) = Z.to_nat (size0 target)).
  { unfold ValidateSpec.losses_of.
    destruct (exit_output o _ e Ho He') as (x & Ex). rewrite Ex.
    apply Hs. eapply nth_error_In, Ex. }
  rewrite (PyFacts.getitem_nth (losses_of o target e) _ 0%Q) by lia.
  rewrite PyFacts.bind_ret_l.
  rewrite (PyFacts.getitem_nth (earlyexit_thresholds a) _ 0%Q) by lia.
  rewrite PyFacts.bind_ret_l.
  change (Py.lt (nth (Z.to_nat b) (losses_of o target e) 0%Q)
            (nth (Z.to_nat e) (earlyexit_thresholds a) 0%Q))
    with (under a o target b e).
  destruct (under a o target b e).
  - rewrite (count_exit_ret o target b a e W Ho He'), PyFacts.bind_ret_l.
    reflexivity.
  - apply IH. intros x Hx. apply Hl. now right.
Qed.

Lemma chosen_exit_range (a : args) o target b :
  (1 <= num_exits a)%Z -> (0 <= chosen_exit a o target b < num_exits a)%Z.
Proof.
  intros Hn. unfold ValidateSpec.chosen_exit.
  destruct (find _ _) as [e|] eqn:F; [|lia].
  apply find_some in F as [F _]. apply PyFacts.range_spec in F. lia.
Qed.

(** Lines 703-722: one sample. *)
Lemma validate_sample_ret o target a b :
  well_formed a -> shaped (num_exits a) o target -> recorded o target a ->
  (0 <= b < size0 target)%Z ->
  validate_sample o target a b
  = Py.ret (counted o target a (chosen_exit a o target b) b).
Proof.
  intros W S R Hb. unfold Validate.validate_sample.
  rewrite (take_exit_ret o target b a _ W S R Hb)
    by (intros e He; now apply PyFacts.range_spec in He).
  rewrite PyFacts.bind_ret_l. unfold ValidateSpec.chosen_exit.
  destruct (find _ _) as [e|] eqn:F; [reflexivity|].
  apply count_exit_ret; [exact W|apply S|].
  destruct W as [Hn _]. lia.
Qed.

Lemma chosen_exit_same (a a' : args) o target b :
  same_exits a a' -> chosen_exit a' o target b = chosen_exit a o target b.
Proof.
  intros (Hn & Ht & _). unfold ValidateSpec.chosen_exit, ValidateSpec.under.
  now rewrite Hn, Ht.
Qed.

(** [earlyexit_validate_loss] raises nothing when the lists of [args] and
    the minibatch have their shape, and leaves [after_batch]. *)
Lemma earlyexit_validate_loss_ret o target a :
  well_formed a -> shaped (num_exits a) o target ->
  earlyexit_validate_loss o target a = Py.ret (after_batch o target a).
Proof.
  intros W S. unfold Validate.earlyexit_validate_loss, ValidateSpec.after_batch.
  destruct (PyFacts.for_each_ret (record_losses o target) (filled o target)
              (fun a' => well_formed a' /\ same_exits a a')
              (fun e => (0 <= e < num_exits a)%Z) (Py.range (num_exits a)))
    with (st := a) as [-> _].
  - intros st e [W' S'] He. pose proof S' as [Hn _].
    rewrite record_losses_ret by (rewrite ?Hn; (exact W' || apply S || exact He)).
    split; [reflexivity|].
    destruct (filled_keeps o target st e W') as (W2 & S2 & _);
      [rewrite Hn; exact He|].
    split; [exact W2|exact (same_exits_trans _ _ _ S' S2)].
  - intros e. apply PyFacts.range_spec.
  - split; [exact W|apply same_exits_refl].
  - rewrite PyFacts.bind_ret_l.
    set (a1 := fold_left (filled o target) (Py.range (num_exits a)) a).
    destruct (filled_loop_keeps o target (Py.range (num_exits a)) a W)
      as (W1 & S1 & _); [intros e; apply PyFacts.range_spec|].
    fold a1 in W1, S1.
    assert (R1 : recorded o target a1).
    { intros e He. destruct S1 as [Hn _]. rewrite Hn in He.
      apply (filled_loop_losses o target (Py.range (num_exits a)) a W);
        [intros x; apply PyFacts.range_spec|lia|now apply PyFacts.range_spec]. }
    apply (PyFacts.for_each_ret (validate_sample o target)
             (fun a' b => counted o target a' (chosen_exit a' o target b) b)
             (fun a' => well_formed a' /\ same_exits a a' /\ recorded o target a')
             (fun b => (0 <= b < size0 target)%Z) (Py.range (size0 target))).
    + intros st b (W' & S' & R') Hb. pose proof S' as [Hn _].
      rewrite validate_sample_ret by (rewrite ?Hn; assumption).
      split; [reflexivity|].
      destruct (counted_keeps o target st (chosen_exit st o target b) b W')
        as (W2 & S2 & L2 & _);
        [apply chosen_exit_range, W'|].
      split; [exact W2|]. split; [exact (same_exits_trans _ _ _ S' S2)|].
      intros e He. rewrite L2. apply R'. destruct S2 as [<- _]. exact He.
    + intros b. apply PyFacts.range_spec.
    + auto.
Qed.

Lemma counted_same o target (a : args) e b :
  same_exits a (counted o target a e b).
Proof. repeat split. Qed.

Lemma counted_taken o target (a : args) e b i :
  well_formed a -> (0 <= e < num_exits a)%Z -> (0 <= i)%Z ->
  taken (counted o target a e b) i
  = (taken a i + if (i =? e)%Z then 1 else 0)%Z /\
  added (counted o target a e b) i
  = (added a i ++ if (i =? e)%Z then sample_of o target e b else [])%list.
Proof.
  intros (Hn & Ht & Hl & Hls & He & Hk) Hr Hi.
  unfold ValidateSpec.taken, ValidateSpec.added, ValidateSpec.counted. cbn.
  destruct (Z.eqb_spec i e) as [->|Hne].
  - rewrite !PyFacts.nth_upd_same by lia. split; reflexivity.
  - rewrite !PyFacts.nth_upd_other by lia. rewrite app_nil_r.
    split; [lia|reflexivity].
Qed.

Lemma counted_total o target (a : args) e b :
  well_formed a -> (0 <= e < num_exits a)%Z ->
  total_taken (counted o target a e b) = (total_taken a + 1)%Z.
Proof.
  intros (Hn & Ht & Hl & Hls & He & Hk) Hr.
  unfold ValidateSpec.total_taken, ValidateSpec.counted, ValidateSpec.taken. cbn.
  rewrite PyFacts.zsum_upd by lia. lia.
Qed.

(** The second loop with the exits of the samples given by [c]. *)
Lemma counted_loop o target (c : Z -> Z) bs :
  forall a : args,
    well_formed a -> (forall b, In b bs -> (0 <= c b < num_exits a)%Z) ->
    let a' := fold_left (fun a b => counted o target a (c b) b) bs a in
    well_formed a' /\ same_exits a a' /\
    loss_exits a' = loss_exits a /\ losses_exits a' = losses_exits a /\
    total_taken a' = (total_taken a + Z.of_nat (length bs))%Z /\
    forall e, (0 <= e)%Z ->
      taken a' e
      = (taken a e + Z.of_nat (length (filter (fun b => (e =? c b)%Z) bs)))%Z /\
      added a' e
      = (added a e
         ++ flat_map (sample_of o target e) (filter (fun b => (e =? c b)%Z) bs))%list.
Proof.
  induction bs as [|b r IH]; intros a W Hc; cbn [fold_left].
  - cbv zeta. split; [exact W|]. split; [apply same_exits_refl|].
    do 2 (split; [reflexivity|]). split; [simpl; lia|].
    intros e _. simpl. rewrite app_nil_r. split; [lia|reflexivity].
  - pose proof (Hc b (or_introl eq_refl)) as Hb.
    destruct (counted_keeps o target a (c b) b W Hb) as (W1 & S1 & L1 & M1).
    assert (Hr : forall x, In x r ->
                   (0 <= c x < num_exits (counted o target a (c b) b))%Z).
    { intros x Hx. destruct S1 as [-> _]. apply Hc. now right. }
    destruct (IH _ W1 Hr) as (W2 & S2 & L2 & M2 & T2 & P2).
    cbv zeta. split; [exact W2|].
    split; [exact (same_exits_trans _ _ _ S1 S2)|].
    split; [congruence|]. split; [congruence|]. split.
    + rewrite T2, (counted_total o target a (c b) b W Hb). simpl length. lia.
    + intros e He. destruct (P2 e He) as [-> ->].
      destruct (counted_taken o target a (c b) b e W Hb He) as [-> ->].
      cbn [filter]. destruct (Z.eqb_spec e (c b)) as [Ec|Ec].
      * rewrite <- Ec. cbn [length flat_map]. rewrite <- !app_assoc. split; [lia|reflexivity].
      * rewrite app_nil_r. split; [lia|reflexivity].
Qed.

Lemma chosen_loop o target (a0 : args) bs :
  forall a : args, same_exits a0 a ->
    fold_left (fun a b => counted o target a (chosen_exit a o target b) b) bs a
    = fold_left (fun a b => counted o target a (chosen_exit a0 o target b) b) bs a.
Proof.
  induction bs as [|b r IH]; intros a S; [reflexivity|].
  cbn [fold_left]. rewrite (chosen_exit_same a0 a o target b S).
  apply IH. exact (same_exits_trans _ _ _ S (counted_same o target a _ b)).
Qed.

(** [args] after a minibatch: every sample is counted at its exit. *)
Lemma after_batch_counts o target (a : args) :
  well_formed a ->
  let a' := after_batch o target a in
  well_formed a' /\ same_exits a a' /\
  total_taken a' = (total_taken a + Z.max 0 (size0 target))%Z /\
  forall e, (0 <= e)%Z ->
    taken a' e = (taken a e + Z.of_nat (length (leaving a o target e)))%Z /\
    added a' e
    = (added a e ++ flat_map (sample_of o target e) (leaving a o target e))%list.
Proof.
  intros W. cbv zeta. unfold ValidateSpec.after_batch.
  set (a1 := fold_left (filled o target) (Py.range (num_exits a)) a).
  destruct (filled_loop_keeps o target (Py.range (num_exits a)) a W)
    as (W1 & S1 & T1 & E1); [intros e; apply PyFacts.range_spec|].
  fold a1 in W1, S1, T1, E1.
  rewrite (chosen_loop o target a _ a1 S1).
  destruct (counted_loop o target (chosen_exit a o target)
              (Py.range (size0 target)) a1 W1)
    as (W2 & S2 & _ & _ & T2 & P2).
  { intros b _. destruct S1 as [-> _]. apply chosen_exit_range, W. }
  split; [exact W2|]. split; [exact (same_exits_trans _ _ _ S1 S2)|]. split.
  - rewrite T2. unfold ValidateSpec.total_taken. rewrite T1.
    rewrite PyFacts.range_eq, length_map, length_seq. lia.
  - intros e He. destruct (P2 e He) as [-> ->].
    unfold ValidateSpec.taken, ValidateSpec.added. rewrite T1, E1.
    split; reflexivity.
Qed.

End Facts.

End ExitFacts.

(* ------------------------------------------------------------------------- *)
(** ** The statistics of the exits *)

Module StatsFacts.
Import Validate ValidateSpec.

Section Facts.
Variables tgt out : Type.
Variable meter_value : Z -> meter tgt out -> option Q.
Variable meter_mean : list Q -> Q.

Local Notation "'args'" := (Validate.args tgt out).
Local Notation "'value'" := (Validate.value tgt out meter_value).
Local Notation "'collect_exit'" :=
  (Validate.collect_exit tgt out meter_value meter_mean).
Local Notation "'percent_exit'" := (Validate.percent_exit tgt out).
Local Notation "'total_exit'" := (Validate.total_exit tgt out).
Local Notation "'earlyexit_validate_stats'" :=
  (Validate.earlyexit_validate_stats tgt out meter_value meter_mean).
Local Notation "'reading'" := (ValidateSpec.reading tgt out meter_value).
Local Notation "'accuracy'" := (ValidateSpec.accuracy tgt out meter_value).
Local Notation "'readable'" := (ValidateSpec.readable tgt out meter_value).
Local Notation "'collected'" :=
  (ValidateSpec.collected tgt out meter_value meter_mean).
Local Notation "'weight'" := (ValidateSpec.weight tgt out).
Local Notation "'totalled'" := (ValidateSpec.totalled tgt out).
Local Notation "'no_stats'" := (ValidateSpec.no_stats tgt out).
Local Notation "'all_stats'" :=
  (ValidateSpec.all_stats tgt out meter_value meter_mean).

Lemma value_ret k m v : meter_value k m = Some v -> value k m = Py.ret v.
Proof. intros H. unfold Validate.value. now rewrite H. Qed.

Lemma truthy_true n : truthy n = true <-> n <> 0%Z.
Proof. unfold truthy. rewrite negb_true_iff, Z.eqb_neq. tauto. Qed.

Lemma truthy_false n : truthy n = false <-> n = 0%Z.
Proof. unfold truthy. rewrite negb_false_iff, Z.eqb_eq. tauto. Qed.

Lemma reading_some k (a : args) e :
  meter_value k (added a e) <> None ->
  meter_value k (added a e) = Some (reading k a e).
Proof.
  unfold ValidateSpec.reading. destruct (meter_value k (added a e)); congruence.
Qed.

(** Lines 731-737 for one exit. *)
Lemma collect_exit_outcome (a : args) s e :
  well_formed a -> readable a -> sized (num_exits a) s ->
  (0 <= e < num_exits a)%Z ->
  Py.outcome (collect_exit a s e) = inr (collected a s e) /\
  sized (num_exits a) (collected a s e).
Proof.
  intros (Hn & Ht & Hl & Hls & He & Hk) R (S1 & S5 & SL) Hr.
  unfold Validate.collect_exit, ValidateSpec.collected.
  rewrite (PyFacts.getitem_nth (exit_taken a) _ 0%Z) by lia.
  rewrite PyFacts.bind_ret_l. fold (taken a e).
  destruct (truthy (taken a e)) eqn:T; [|split; [reflexivity|repeat split; assumption]].
  apply truthy_true in T.
  pose proof (reading_some 1 a e (R e 1%Z Hr T ltac:(simpl; auto))) as V1.
  pose proof (reading_some 5 a e (R e 5%Z Hr T ltac:(simpl; auto))) as V5.
  split.
  - rewrite (PyFacts.bind_returned _ _ tt) by reflexivity.
    rewrite (PyFacts.getitem_nth (top1k_stats s) _ 0%Q) by lia.
    rewrite (PyFacts.getitem_nth (top5k_stats s) _ 0%Q) by lia.
    rewrite (PyFacts.getitem_nth (losses_exits_stats s) _ 0%Q) by lia.
    rewrite (PyFacts.getitem_nth (exiterrors a) _ []) by lia.
    rewrite (PyFacts.getitem_nth (losses_exits a) _ []) by lia.
    fold (added a e).
    repeat first [ rewrite PyFacts.bind_ret_l
                 | rewrite (value_ret _ _ _ V1)
                 | rewrite (value_ret _ _ _ V5)
                 | rewrite PyFacts.setitem_upd by lia ].
    reflexivity.
  - unfold sized. cbn. rewrite !PyFacts.upd_length by lia. tauto.
Qed.

Lemma collected_sized (a : args) s e :
  sized (num_exits a) s -> (0 <= e < num_exits a)%Z ->
  sized (num_exits a) (collected a s e).
Proof.
  intros (S1 & S5 & SL) Hr. unfold ValidateSpec.collected.
  destruct (truthy (taken a e)); [|repeat split; assumption].
  unfold sized. cbn. rewrite !PyFacts.upd_length by lia. tauto.
Qed.

Lemma collected_nth (a : args) s e i :
  sized (num_exits a) s -> (0 <= e < num_exits a)%Z -> (0 <= i)%Z ->
  nth (Z.to_nat i) (top1k_stats (collected a s e)) 0%Q
  = (if (i =? e)%Z && truthy (taken a e)
     then (nth (Z.to_nat i) (top1k_stats s) 0 + reading 1 a i)%Q
     else nth (Z.to_nat i) (top1k_stats s) 0%Q) /\
  nth (Z.to_nat i) (top5k_stats (collected a s e)) 0%Q
  = (if (i =? e)%Z && truthy (taken a e)
     then (nth (Z.to_nat i) (top5k_stats s) 0 + reading 5 a i)%Q
     else nth (Z.to_nat i) (top5k_stats s) 0%Q).
Proof.
  intros (S1 & S5 & SL) Hr Hi. unfold ValidateSpec.collected.
  destruct (truthy (taken a e)); [|rewrite andb_false_r; split; reflexivity].
  rewrite andb_true_r. cbn [top1k_stats top5k_stats].
  destruct (Z.eqb_spec i e) as [->|Hne].
  - rewrite !PyFacts.nth_upd_same by lia. split; reflexivity.
  - rewrite !PyFacts.nth_upd_other by lia. split; reflexivity.
Qed.

Lemma collected_sum (a : args) s e :
  sum_exit_stats (collected a s e) = (sum_exit_stats s + taken a e)%Z.
Proof.
  unfold ValidateSpec.collected. destruct (truthy (taken a e)) eqn:T; [reflexivity|].
  apply truthy_false in T. lia.
Qed.

Lemma collected_loop (a : args) l :
  forall s, NoDup l -> (forall e, In e l -> (0 <= e < num_exits a)%Z) ->
    sized (num_exits a) s ->
    let s' := fold_left (collected a) l s in
    sized (num_exits a) s' /\
    sum_exit_stats s' = (sum_exit_stats s + zsum (map (taken a) l))%Z /\
    forall i, (0 <= i)%Z ->
      nth (Z.to_nat i) (top1k_stats s') 0%Q
      = (if existsb (Z.eqb i) l && truthy (taken a i)
         then (nth (Z.to_nat i) (top1k_stats s) 0 + reading 1 a i)%Q
         else nth (Z.to_nat i) (top1k_stats s) 0%Q) /\
      nth (Z.to_nat i) (top5k_stats s') 0%Q
      = (if existsb (Z.eqb i) l && truthy (taken a i)
         then (nth (Z.to_nat i) (top5k_stats s) 0 + reading 5 a i)%Q
         else nth (Z.to_nat i) (top5k_stats s) 0%Q).
Proof.
  induction l as [|e r IH]; intros s ND Hl Sz; cbn [fold_left].
  - cbv zeta. split; [exact Sz|]. split; [simpl; lia|]. intros i _.
    split; reflexivity.
  - inversion ND as [|? ? Ne ND']; subst.
    pose proof (Hl e (or_introl eq_refl)) as He.
    destruct (IH (collected a s e) ND') as (Sz' & Sum' & Nth');
      [intros x Hx; apply Hl; now right|now apply collected_sized|].
    cbv zeta. split; [exact Sz'|]. split.
    + rewrite Sum', collected_sum. simpl. lia.
    + intros i Hi. destruct (Nth' i Hi) as [-> ->].
      destruct (collected_nth a s e i Sz He Hi) as [-> ->].
      cbn [existsb].
      destruct (Z.eqb_spec i e) as [->|Hne].
      * assert (X : existsb (Z.eqb e) r = false).
        { apply not_true_is_false. intros X. apply existsb_exists in X as (x & Hx & E).
          apply Z.eqb_eq in E. subst x. contradiction. }
        rewrite X. cbn [orb andb]. destruct (truthy (taken a e)); split; reflexivity.
      * cbn [orb andb]. split; reflexivity.
Qed.

Lemma map_nth_seq {A} (l : list A) d :
  map (fun i => nth i l d) (seq 0 (length l)) = l.
Proof.
  induction l as [|x r IH]; [reflexivity|].
  cbn [length seq map nth]. f_equal.
  rewrite <- seq_shift, map_map. exact IH.
Qed.

Lemma taken_range (a : args) :
  well_formed a -> map (taken a) (Py.range (num_exits a)) = exit_taken a.
Proof.
  intros (Hn & Ht & Hl & Hls & He & Hk).
  rewrite PyFacts.range_eq, map_map, <- Hk.
  transitivity (map (fun i => nth i (exit_taken a) 0%Z)
                  (seq 0 (length (exit_taken a)))); [|apply map_nth_seq].
  apply map_ext. intros i. unfold ValidateSpec.taken. now rewrite Nat2Z.id.
Qed.

(** The statistics the first loop ends with. *)
Lemma all_stats_facts (a : args) :
  well_formed a ->
  sized (num_exits a) (all_stats a) /\
  sum_exit_stats (all_stats a) = total_taken a /\
  forall e, (0 <= e < num_exits a)%Z ->
    nth (Z.to_nat e) (top1k_stats (all_stats a)) 0%Q = accuracy 1 a e /\
    nth (Z.to_nat e) (top5k_stats (all_stats a)) 0%Q = accuracy 5 a e.
Proof.
  intros W. unfold ValidateSpec.all_stats.
  assert (Sz : sized (num_exits a) (no_stats a)).
  { unfold sized, ValidateSpec.no_stats. cbn. rewrite !repeat_length. tauto. }
  destruct (collected_loop a (Py.range (num_exits a)) (no_stats a)
              (PyFacts.range_nodup _)) as (Sz' & Sum' & Nth');
    [intros e; apply PyFacts.range_spec|exact Sz|].
  split; [exact Sz'|]. split.
  - rewrite Sum', (taken_range a W). reflexivity.
  - intros e He. destruct (Nth' e ltac:(lia)) as [-> ->].
    assert (X : existsb (Z.eqb e) (Py.range (num_exits a)) = true).
    { apply existsb_exists. exists e. split; [now apply PyFacts.range_spec|lia]. }
    rewrite X. cbn [andb]. unfold ValidateSpec.accuracy, ValidateSpec.no_stats.
    cbn [top1k_stats top5k_stats]. rewrite !nth_repeat.
    destruct (truthy (taken a e)); split; reflexivity.
Qed.

(** Lines 738-741 *)
Lemma percent_loop (a : args) s :
  well_formed a -> sum_exit_stats s <> 0%Z ->
  Py.outcome (Py.for_each (percent_exit a s) (Py.range (num_exits a)) tt) = inr tt.
Proof.
  intros (Hn & Ht & Hl & Hls & He & Hk) HS.
  destruct (PyFacts.for_each_outcome (percent_exit a s) (fun _ _ => tt)
              (fun _ => True) (fun e => (0 <= e < num_exits a)%Z)
              (Py.range (num_exits a))) with (st := tt) as [-> _].
  - intros [] e _ Hr. split; [|exact I].
    unfold Validate.percent_exit.
    rewrite (PyFacts.getitem_nth (exit_taken a) _ 0%Z) by lia.
    rewrite PyFacts.bind_ret_l.
    destruct (truthy _); [|reflexivity].
    rewrite PyFacts.divide_ret by exact HS. rewrite PyFacts.bind_ret_l.
    reflexivity.
  - intros e. apply PyFacts.range_spec.
  - exact I.
  - now destruct (fold_left _ _ _).
Qed.

(** Lines 744-748 *)
Lemma total_exit_outcome (a : args) s totals e :
  well_formed a -> sized (num_exits a) s -> sum_exit_stats s <> 0%Z ->
  (0 <= e < num_exits a)%Z ->
  Py.outcome (total_exit a s totals e) = inr (totalled a s totals e).
Proof.
  intros (Hn & Ht & Hl & Hls & He & Hk) (S1 & S5 & SL) HS Hr.
  destruct totals as [t1 t5]. unfold Validate.total_exit, ValidateSpec.totalled.
  rewrite (PyFacts.getitem_nth (top1k_stats s) _ 0%Q) by lia.
  rewrite (PyFacts.getitem_nth (top5k_stats s) _ 0%Q) by lia.
  rewrite (PyFacts.getitem_nth (exit_taken a) _ 0%Z) by lia.
  repeat first [ rewrite PyFacts.bind_ret_l
               | rewrite PyFacts.divide_ret by exact HS ].
  reflexivity.
Qed.

Lemma total_loop (a : args) s :
  well_formed a -> sized (num_exits a) s -> sum_exit_stats s <> 0%Z ->
  Py.outcome (Py.for_each (total_exit a s) (Py.range (num_exits a)) (0%Q, 0%Q))
  = inr (fold_left (totalled a s) (Py.range (num_exits a)) (0%Q, 0%Q)).
Proof.
  intros W Sz HS.
  apply (PyFacts.for_each_outcome (total_exit a s) (totalled a s)
           (fun _ => True) (fun e => (0 <= e < num_exits a)%Z)).
  - intros st e _ Hr. split; [|exact I]. now apply total_exit_outcome.
  - intros e. apply PyFacts.range_spec.
  - exact I.
Qed.

(** [earlyexit_validate_stats] when a sample was counted. *)
Lemma stats_outcome (a : args) :
  well_formed a -> readable a -> total_taken a <> 0%Z ->
  let totals := fold_left (totalled a (all_stats a)) (Py.range (num_exits a))
                  (0%Q, 0%Q) in
  Py.outcome (earlyexit_validate_stats a)
  = inr (fst totals, snd totals, losses_exits_stats (all_stats a)).
Proof.
  intros W R HS. cbv zeta.
  destruct (all_stats_facts a W) as (Sz & Sum & _).
  unfold Validate.earlyexit_validate_stats.
  fold (no_stats a).
  destruct (PyFacts.for_each_outcome (collect_exit a) (collected a)
              (sized (num_exits a)) (fun e => (0 <= e < num_exits a)%Z)
              (Py.range (num_exits a))) with (st := no_stats a) as [C _].
  - intros st e Hs Hr. now apply collect_exit_outcome.
  - intros e. apply PyFacts.range_spec.
  - unfold sized, ValidateSpec.no_stats. cbn. rewrite !repeat_length. tauto.
  - fold (all_stats a) in C. rewrite (PyFacts.bind_returned _ _ _ C).
    assert (HS' : sum_exit_stats (all_stats a) <> 0%Z) by (rewrite Sum; exact HS).
    rewrite (PyFacts.bind_returned _ _ _ (percent_loop a _ W HS')).
    rewrite (PyFacts.bind_returned _ _ _ (total_loop a _ W Sz HS')).
    destruct (fold_left _ _ _) as [t1 t5]. reflexivity.
Qed.

Lemma range_first n : (1 <= n)%Z -> exists r, Py.range n = 0%Z :: r.
Proof.
  intros H. rewrite PyFacts.range_eq.
  destruct (Z.to_nat n) as [|k] eqn:E; [lia|].
  eexists. reflexivity.
Qed.

Lemma zsum_nonneg l : Forall (fun x => 0 <= x)%Z l -> (0 <= zsum l)%Z.
Proof. induction 1; simpl; lia. Qed.

Lemma zsum_zero l :
  Forall (fun x => 0 <= x)%Z l -> zsum l = 0%Z -> Forall (fun x => x = 0%Z) l.
Proof.
  induction 1 as [|x r Hx Hr IH]; intros H; [constructor|].
  simpl in H. pose proof (zsum_nonneg r Hr). constructor; [lia|]. apply IH. lia.
Qed.

(** [earlyexit_validate_stats] when no sample was counted. *)
Lemma stats_of_nothing (a : args) :
  well_formed a -> Forall (fun x => 0 <= x)%Z (exit_taken a) ->
  total_taken a = 0%Z ->
  Py.outcome (earlyexit_validate_stats a) = inl ZeroDivisionError.
Proof.
  intros W NN HS.
  pose proof W as (Hn & Ht & Hl & Hls & He & Hk).
  assert (Z0 : forall e, taken a e = 0%Z).
  { intros e. unfold ValidateSpec.taken.
    destruct (nth_in_or_default (Z.to_nat e) (exit_taken a) 0%Z) as [I | ->];
      [|reflexivity].
    pose proof (zsum_zero _ NN HS) as F. rewrite Forall_forall in F. now apply F. }
  unfold Validate.earlyexit_validate_stats. fold (no_stats a).
  destruct (PyFacts.for_each_ret (collect_exit a) (fun s _ => s)
              (fun _ => True) (fun e => (0 <= e < num_exits a)%Z)
              (Py.range (num_exits a))) with (st := no_stats a) as [-> _].
  - intros st e _ Hr. split; [|exact I]. unfold Validate.collect_exit.
    rewrite (PyFacts.getitem_nth (exit_taken a) _ 0%Z) by lia.
    rewrite PyFacts.bind_ret_l. fold (taken a e). now rewrite Z0.
  - intros e. apply PyFacts.range_spec.
  - exact I.
  - rewrite PyFacts.bind_ret_l.
    assert (F : forall l : list Z, fold_left (fun (s : exit_stats) (_ : Z) => s) l (no_stats a)
                        = no_stats a) by (induction l; auto).
    rewrite F.
    destruct (PyFacts.for_each_ret (percent_exit a (no_stats a)) (fun _ _ => tt)
                (fun _ => True) (fun e => (0 <= e < num_exits a)%Z)
                (Py.range (num_exits a))) with (st := tt) as [-> _].
    + intros [] e _ Hr. split; [|exact I]. unfold Validate.percent_exit.
      rewrite (PyFacts.getitem_nth (exit_taken a) _ 0%Z) by lia.
      rewrite PyFacts.bind_ret_l. fold (taken a e). now rewrite Z0.
    + intros e. apply PyFacts.range_spec.
    + exact I.
    + rewrite PyFacts.bind_ret_l.
      apply PyFacts.bind_raised.
      destruct (range_first (num_exits a) Hn) as (r & ->).
      cbn [Py.for_each]. apply PyFacts.bind_raised.
      unfold Validate.total_exit, ValidateSpec.no_stats.
      cbn [top1k_stats top5k_stats sum_exit_stats].
      rewrite (PyFacts.getitem_nth (repeat 0%Q _) _ 0%Q)
        by (rewrite repeat_length; lia).
      rewrite PyFacts.bind_ret_l.
      rewrite (PyFacts.getitem_nth (exit_taken a) _ 0%Z) by lia.
      rewrite PyFacts.bind_ret_l. reflexivity.
Qed.

End Facts.

End StatsFacts.

(* ------------------------------------------------------------------------- *)
(** ** The loop over the data loader *)

Module LoaderFacts.
Import Validate ValidateSpec.

Section Facts.
Variables inputs tgt out output : Type.
Variable model : inputs -> output.
Variable criterion : output -> tgt -> Q.
Variable data : output -> out.
Variable exits : output -> list out.
Variable size0 : tgt -> Z.
Variable sample_losses : out -> tgt -> list Q.
Variable torch_mean : list Q -> Q.
Variable sample_output : out -> Z -> out.
Variable sample_target : tgt -> Z -> tgt.
Variable meter_value : Z -> meter tgt out -> option Q.
Variable meter_mean : list Q -> Q.

Local Notation "'args'" := (Validate.args tgt out).
Local Notation "'validation'" := (Validate.validation tgt out).
Local Notation "'value'" := (Validate.value tgt out meter_value).
Local Notation "'exit_progress'" :=
  (Validate.exit_progress tgt out meter_value meter_mean).
Local Notation "'earlyexit_validate_loss'" :=
  (Validate.earlyexit_validate_loss tgt out output exits size0 sample_losses
     torch_mean sample_output sample_target).
Local Notation "'earlyexit_validate_stats'" :=
  (Validate.earlyexit_validate_stats tgt out meter_value meter_mean).
Local Notation "'validation_step'" :=
  (Validate.validation_step inputs tgt out output model criterion data exits
     size0 sample_losses torch_mean sample_output sample_target meter_value
     meter_mean).
Local Notation "'validate'" :=
  (Validate._validate inputs tgt out output model criterion data exits
     size0 sample_losses torch_mean sample_output sample_target meter_value
     meter_mean).
Local Notation "'new_exit_meters'" := (Validate.new_exit_meters tgt out).
Local Notation "'shaped'" :=
  (ValidateSpec.shaped tgt out output exits size0 sample_losses).
Local Notation "'chosen_exit'" :=
  (ValidateSpec.chosen_exit tgt out output exits sample_losses).
Local Notation "'sample_of'" :=
  (ValidateSpec.sample_of tgt out output exits sample_output sample_target).
Local Notation "'leaving'" :=
  (ValidateSpec.leaving tgt out output exits size0 sample_losses).
Local Notation "'after_batch'" :=
  (ValidateSpec.after_batch tgt out output exits size0 sample_losses torch_mean
     sample_output sample_target).
Local Notation "'after_batches'" :=
  (ValidateSpec.after_batches tgt out output exits size0 sample_losses
     torch_mean sample_output sample_target inputs model).
Local Notation "'samples'" := (ValidateSpec.samples tgt size0 inputs).
Local Notation "'stepped'" :=
  (ValidateSpec.stepped tgt out output exits size0 sample_losses torch_mean
     sample_output sample_target inputs model).
Local Notation "'readable'" := (ValidateSpec.readable tgt out meter_value).
Local Notation "'reading'" := (ValidateSpec.reading tgt out meter_value).
Local Notation "'accuracy'" := (ValidateSpec.accuracy tgt out meter_value).
Local Notation "'all_stats'" :=
  (ValidateSpec.all_stats tgt out meter_value meter_mean).

(** Lines 580-585 *)
Lemma append_meters (l : list Z) :
  forall a : args,
    fold_left (fun (a : args) (_ : Z) =>
                 set_losses_exits (losses_exits a ++ [[]])
                   (set_exiterrors (exiterrors a ++ [[]]) a)) l a
    = set_losses_exits (losses_exits a ++ repeat [] (length l))
        (set_exiterrors (exiterrors a ++ repeat [] (length l)) a).
Proof.
  induction l as [|x r IH]; intros a; cbn [fold_left length repeat].
  - destruct a. unfold set_losses_exits, set_exiterrors. cbn.
    now rewrite !app_nil_r.
  - rewrite IH. unfold set_losses_exits, set_exiterrors. cbn.
    now rewrite <- !app_assoc.
Qed.

Lemma new_exit_meters_eq (a : args) :
  new_exit_meters a
  = set_exit_taken (repeat 0%Z (Z.to_nat (num_exits a)))
      (set_losses_exits (repeat [] (Z.to_nat (num_exits a)))
         (set_exiterrors (repeat [] (Z.to_nat (num_exits a))) a)).
Proof.
  unfold Validate.new_exit_meters. rewrite append_meters.
  cbn [num_exits set_losses_exits set_exiterrors losses_exits exiterrors app].
  rewrite PyFacts.range_eq, length_map, length_seq. reflexivity.
Qed.

Lemma zsum_repeat n : zsum (repeat 0%Z n) = 0%Z.
Proof. induction n; simpl; lia. Qed.

(** The lists of [args] when the loop over the data loader starts. *)
Lemma new_exit_meters_facts (a : args) :
  num_exits a = (Z.of_nat (length (earlyexit_thresholds a)) + 1)%Z ->
  length (loss_exits a) = Z.to_nat (num_exits a) ->
  well_formed (new_exit_meters a) /\ same_exits a (new_exit_meters a) /\
  consistent (new_exit_meters a) /\ total_taken (new_exit_meters a) = 0%Z.
Proof.
  intros Hn Hl. rewrite new_exit_meters_eq.
  unfold well_formed, same_exits, consistent, total_taken, taken, added. cbn.
  rewrite !repeat_length, zsum_repeat.
  repeat split; try lia.
  intros e _. now rewrite !nth_repeat.
Qed.

Lemma leaving_length (a : args) o target e :
  well_formed a -> length (exits o) = Z.to_nat (num_exits a) -> (0 <= e)%Z ->
  length (flat_map (sample_of o target e) (leaving a o target e))
  = length (leaving a o target e).
Proof.
  intros W Ho He.
  destruct (Z_lt_le_dec e (num_exits a)) as [Lt|Ge].
  - destruct (ExitFacts.exit_output _ _ exits o _ e Ho (conj He Lt)) as (x & Ex).
    induction (leaving a o target e) as [|b r IH]; [reflexivity|].
    cbn [flat_map]. rewrite length_app, IH.
    unfold ValidateSpec.sample_of. now rewrite Ex.
  - assert (E : leaving a o target e = []).
    { unfold ValidateSpec.leaving.
      induction (Py.range (size0 target)) as [|b r IH]; [reflexivity|].
      cbn [filter].
      pose proof (ExitFacts.chosen_exit_range _ _ _ exits sample_losses
                    a o target b (proj1 W)).
      destruct (Z.eqb_spec e (chosen_exit a o target b)); [lia|exact IH]. }
    now rewrite E.
Qed.

(** What a minibatch keeps. *)
Lemma after_batch_keeps (a : args) o target :
  well_formed a -> consistent a -> shaped (num_exits a) o target ->
  well_formed (after_batch o target a) /\ same_exits a (after_batch o target a) /\
  consistent (after_batch o target a) /\
  total_taken (after_batch o target a)
  = (total_taken a + Z.max 0 (size0 target))%Z.
Proof.
  intros W C [Ho _].
  destruct (ExitFacts.after_batch_counts _ _ _ exits size0 sample_losses torch_mean
              sample_output sample_target o target a W) as (W' & S' & T' & P').
  split; [exact W'|]. split; [exact S'|]. split; [|exact T'].
  intros e He. destruct (P' e He) as [-> ->].
  rewrite length_app, (leaving_length a o target e W Ho He), (C e He). lia.
Qed.

Lemma after_batches_keeps l :
  forall a : args,
    well_formed a -> consistent a ->
    (forall b, In b l -> shaped (num_exits a) (model (fst b)) (snd b)) ->
    well_formed (after_batches l a) /\ same_exits a (after_batches l a) /\
    consistent (after_batches l a) /\
    total_taken (after_batches l a) = (total_taken a + samples l)%Z.
Proof.
  induction l as [|b r IH]; intros a W C Hs.
  - unfold ValidateSpec.after_batches, ValidateSpec.samples. simpl.
    split; [exact W|]. split; [apply ExitFacts.same_exits_refl|].
    split; [exact C|]. lia.
  - destruct (after_batch_keeps a (model (fst b)) (snd b) W C
                (Hs b (or_introl eq_refl))) as (W1 & S1 & C1 & T1).
    assert (Hr : forall x, In x r ->
                   shaped (num_exits (after_batch (model (fst b)) (snd b) a))
                     (model (fst x)) (snd x)).
    { intros x Hx. destruct S1 as [-> _]. apply Hs. now right. }
    destruct (IH _ W1 C1 Hr) as (W2 & S2 & C2 & T2).
    unfold ValidateSpec.after_batches in *. cbn [fold_left].
    split; [exact W2|].
    split; [exact (ExitFacts.same_exits_trans _ _ _ _ _ S1 S2)|].
    split; [exact C2|]. rewrite T2, T1.
    unfold ValidateSpec.samples. simpl. lia.
Qed.

(** The meters of the exits taken can be read. *)
Lemma consistent_readable (a : args) :
  (forall k m, m <> [] -> meter_value k m <> None) ->
  consistent a -> readable a.
Proof.
  intros Hm C e k He Ht _. apply Hm. intros E.
  rewrite (C e) in Ht by lia. rewrite E in Ht. simpl in Ht. lia.
Qed.

Lemma consistent_nonneg (a : args) :
  well_formed a -> consistent a -> Forall (fun x => 0 <= x)%Z (exit_taken a).
Proof.
  intros W C. apply Forall_forall. intros x Hx.
  destruct (In_nth _ _ 0%Z Hx) as (i & Hi & <-).
  specialize (C (Z.of_nat i) ltac:(lia)). unfold taken in C.
  rewrite Nat2Z.id in C. lia.
Qed.

(** Lines 628-642: the statistics for the log can be read. *)
Lemma exit_progress_ret (a : args) d e :
  well_formed a -> readable a -> (0 <= e < num_exits a)%Z ->
  exists d', exit_progress a d e = Py.ret d'.
Proof.
  intros (Hn & Ht & Hl & Hls & He & Hk) R Hr.
  unfold Validate.exit_progress.
  rewrite (PyFacts.getitem_nth (losses_exits a) _ []) by lia.
  rewrite (PyFacts.getitem_nth (exit_taken a) _ 0%Z) by lia.
  rewrite (PyFacts.getitem_nth (exiterrors a) _ []) by lia.
  rewrite !PyFacts.bind_ret_l. fold (taken a e) (added a e).
  destruct (truthy (taken a e)) eqn:T; [|eexists; reflexivity].
  apply (StatsFacts.truthy_true tgt out meter_value) in T.
  pose proof (StatsFacts.reading_some _ _ meter_value 1 a e
                (R e 1%Z Hr T ltac:(simpl; auto))) as V1.
  pose proof (StatsFacts.reading_some _ _ meter_value 5 a e
                (R e 5%Z Hr T ltac:(simpl; auto))) as V5.
  repeat first [ rewrite PyFacts.bind_ret_l
               | rewrite (StatsFacts.value_ret _ _ meter_value _ _ _ V1)
               | rewrite (StatsFacts.value_ret _ _ meter_value _ _ _ V5) ].
  eexists. reflexivity.
Qed.

(** Lines 600-644 for a minibatch with early exits. *)
Lemma early_step_run total_steps epoch (v : validation) i inp target :
  (forall k m, m <> [] -> meter_value k m <> None) ->
  well_formed (the_args v) -> consistent (the_args v) ->
  earlyexit_thresholds (the_args v) <> [] ->
  print_freq (the_args v) <> 0%Z ->
  shaped (num_exits (the_args v)) (model inp) target ->
  exists tr,
    validation_step total_steps epoch v (i, (inp, target))
    = (tr, inr (stepped v (i, (inp, target)))) /\
    logged_steps tr
    = if due (print_freq (the_args v)) total_steps (i + 1) then [(i + 1)%Z] else [].
Proof.
  intros Hm W C Ht Hp S.
  destruct (after_batch_keeps (the_args v) (model inp) target W C S)
    as (W1 & S1 & C1 & _).
  pose proof (consistent_readable _ Hm C1) as R1.
  destruct S1 as (N1 & T1 & _ & P1).
  unfold Validate.validation_step, ValidateSpec.stepped, ValidateSpec.due.
  cbn [fst snd].
  destruct (earlyexit_thresholds (the_args v)) as [|t0 tl] eqn:Et; [contradiction|].
  rewrite (ExitFacts.earlyexit_validate_loss_ret _ _ _ exits size0 sample_losses
             torch_mean sample_output sample_target (model inp) target
             (the_args v) W S).
  rewrite !PyFacts.bind_ret_l. cbn [the_args].
  rewrite P1, T1.
  rewrite PyFacts.modulo_ret by exact Hp. rewrite PyFacts.bind_ret_l.
  destruct (_ || _).
  - destruct (PyFacts.for_each_returns
                (exit_progress (after_batch (model inp) target (the_args v)))
                (fun e => (0 <= e < num_exits
                                      (after_batch (model inp) target (the_args v)))%Z)
                (Py.range (num_exits (after_batch (model inp) target (the_args v)))))
      with (st := [("Test"%string, inject_Z i)]) as (d & ->).
    + intros st e He. now apply exit_progress_ret.
    + intros e. apply PyFacts.range_spec.
    + rewrite !PyFacts.bind_ret_l. eexists. split; reflexivity.
  - rewrite PyFacts.bind_ret_l. eexists. split; reflexivity.
Qed.

Lemma validation_step_outcome total_steps epoch (v : validation) i inp target :
  (forall k m, m <> [] -> meter_value k m <> None) ->
  well_formed (the_args v) -> consistent (the_args v) ->
  earlyexit_thresholds (the_args v) <> [] ->
  print_freq (the_args v) <> 0%Z ->
  shaped (num_exits (the_args v)) (model inp) target ->
  Py.outcome (validation_step total_steps epoch v (i, (inp, target)))
  = inr (stepped v (i, (inp, target))).
Proof.
  intros Hm W C Ht Hp S.
  destruct (early_step_run total_steps epoch v i inp target Hm W C Ht Hp S)
    as (tr & -> & _).
  reflexivity.
Qed.

Lemma stepped_args steps :
  forall v : validation,
    the_args (fold_left stepped steps v)
    = after_batches (map snd steps) (the_args v).
Proof.
  induction steps as [|b r IH]; intros v; [reflexivity|].
  cbn [fold_left map]. rewrite IH. reflexivity.
Qed.

Lemma enumerate_snd {A} (l : list A) : map snd (Py.enumerate l) = l.
Proof.
  unfold Py.enumerate. generalize 0%nat.
  induction l as [|x r IH]; intros s; [reflexivity|].
  cbn [length seq map combine snd]. now rewrite IH.
Qed.

(** The loop over the data loader, with early exits. *)
Lemma loader_loop total_steps epoch l (v : validation) :
  (forall k m, m <> [] -> meter_value k m <> None) ->
  well_formed (the_args v) -> consistent (the_args v) ->
  earlyexit_thresholds (the_args v) <> [] ->
  print_freq (the_args v) <> 0%Z ->
  (forall b, In b l -> shaped (num_exits (the_args v)) (model (fst b)) (snd b)) ->
  exists v',
    Py.outcome (Py.for_each (validation_step total_steps epoch) (Py.enumerate l) v)
    = inr v' /\
    the_args v' = after_batches l (the_args v).
Proof.
  intros Hm W C Ht Hp Hs.
  destruct (PyFacts.for_each_outcome (validation_step total_steps epoch) stepped
              (fun v' : validation =>
                 well_formed (the_args v') /\ consistent (the_args v') /\
                 same_exits (the_args v) (the_args v'))
              (fun b : Z * (inputs * tgt) =>
                 shaped (num_exits (the_args v)) (model (fst (snd b))) (snd (snd b)))
              (Py.enumerate l)) with (st := v) as [O _].
  - intros st [i [inp target]] (W' & C' & S') Sh. pose proof S' as (N' & T' & _ & P').
    cbn [fst snd] in Sh.
    assert (Sh' : shaped (num_exits (the_args st)) (model inp) target)
      by (rewrite N'; exact Sh).
    split.
    + apply validation_step_outcome; try assumption; congruence.
    + destruct (after_batch_keeps (the_args st) (model inp) target W' C' Sh')
        as (W1 & S1 & C1 & _).
      unfold ValidateSpec.stepped. cbn [the_args fst snd].
      split; [exact W1|]. split; [exact C1|].
      exact (ExitFacts.same_exits_trans _ _ _ _ _ S' S1).
  - intros b Hb. apply Hs. rewrite <- (enumerate_snd l). now apply in_map.
  - split; [exact W|]. split; [exact C|]. apply ExitFacts.same_exits_refl.
  - eexists. split; [exact O|]. now rewrite stepped_args, enumerate_snd.
Qed.

Local Notation "'plainly_stepped'" :=
  (ValidateSpec.plainly_stepped tgt out output inputs model criterion data).
Local Notation "'all_added'" :=
  (ValidateSpec.all_added tgt out output inputs model data).
Local Notation "'all_losses'" :=
  (ValidateSpec.all_losses tgt output inputs model criterion).

Lemma value_of_added k (m : meter tgt out) :
  (forall k m, m <> [] -> meter_value k m <> None) -> m <> [] ->
  value k m = Py.ret (ValidateSpec.reading_of tgt out meter_value k m).
Proof.
  intros Hm Hne. unfold Validate.value, ValidateSpec.reading_of.
  destruct (meter_value k m) eqn:E; [reflexivity|]. now apply Hm in E.
Qed.

(** Lines 600-644 for a minibatch without exits. *)
Lemma plain_step_run total_steps epoch (v : validation) i inp target :
  (forall k m, m <> [] -> meter_value k m <> None) ->
  earlyexit_thresholds (the_args v) = [] ->
  print_freq (the_args v) <> 0%Z ->
  exists tr,
    validation_step total_steps epoch v (i, (inp, target))
    = (tr, inr (plainly_stepped v (i, (inp, target)))) /\
    logged_steps tr
    = if due (print_freq (the_args v)) total_steps (i + 1) then [(i + 1)%Z] else [].
Proof.
  intros Hm Et Hp.
  unfold Validate.validation_step, ValidateSpec.plainly_stepped, ValidateSpec.due.
  cbn [fst snd].
  rewrite Et. rewrite PyFacts.bind_ret_l. cbn [the_args classerr objective_loss].
  rewrite Et.
  rewrite PyFacts.modulo_ret by exact Hp. rewrite PyFacts.bind_ret_l.
  destruct (_ || _).
  - rewrite !(value_of_added _ _ Hm) by (now destruct (classerr v)).
    rewrite !PyFacts.bind_ret_l. eexists. split; reflexivity.
  - rewrite PyFacts.bind_ret_l. eexists. split; reflexivity.
Qed.

Lemma plain_step_outcome total_steps epoch (v : validation) i inp target :
  (forall k m, m <> [] -> meter_value k m <> None) ->
  earlyexit_thresholds (the_args v) = [] ->
  print_freq (the_args v) <> 0%Z ->
  Py.outcome (validation_step total_steps epoch v (i, (inp, target)))
  = inr (plainly_stepped v (i, (inp, target))).
Proof.
  intros Hm Et Hp.
  destruct (plain_step_run total_steps epoch v i inp target Hm Et Hp)
    as (tr & -> & _).
  reflexivity.
Qed.

Lemma plain_steps steps :
  forall v : validation,
    the_args (fold_left plainly_stepped steps v) = the_args v /\
    classerr (fold_left plainly_stepped steps v)
    = (classerr v ++ all_added (map snd steps))%list /\
    objective_loss (fold_left plainly_stepped steps v)
    = (objective_loss v ++ all_losses (map snd steps))%list.
Proof.
  induction steps as [|b r IH]; intros v; cbn [fold_left map].
  - unfold ValidateSpec.all_added, ValidateSpec.all_losses. simpl.
    now rewrite !app_nil_r.
  - destruct (IH (plainly_stepped v b)) as (-> & -> & ->).
    unfold ValidateSpec.plainly_stepped, ValidateSpec.all_added,
      ValidateSpec.all_losses.
    cbn [the_args classerr objective_loss map]. now rewrite <- !app_assoc.
Qed.

(** The loop over the data loader, without exits. *)
Lemma plain_loop total_steps epoch l (v : validation) :
  (forall k m, m <> [] -> meter_value k m <> None) ->
  earlyexit_thresholds (the_args v) = [] ->
  print_freq (the_args v) <> 0%Z ->
  exists v',
    Py.outcome (Py.for_each (validation_step total_steps epoch) (Py.enumerate l) v)
    = inr v' /\
    the_args v' = the_args v /\
    classerr v' = (classerr v ++ all_added l)%list /\
    objective_loss v' = (objective_loss v ++ all_losses l)%list.
Proof.
  intros Hm Et Hp.
  destruct (PyFacts.for_each_outcome (validation_step total_steps epoch)
              plainly_stepped
              (fun v' : validation => the_args v' = the_args v)
              (fun _ => True) (Py.enumerate l)) with (st := v) as [O _].
  - intros st [i [inp target]] Ha _. split.
    + apply plain_step_outcome; [exact Hm|now rewrite Ha..].
    + exact Ha.
  - intros; exact I.
  - reflexivity.
  - eexists. split; [exact O|].
    pose proof (plain_steps (Py.enumerate l) v) as P.
    now rewrite enumerate_snd in P.
Qed.

(** The steps a loop over the data loader logs. *)
Lemma logged_of_enumerate {A} (c : Z -> bool) (l : list A) :
  flat_map (fun b : Z * A => if c (fst b + 1)%Z then [(fst b + 1)%Z] else [])
    (Py.enumerate l)
  = filter c (map (fun i => (i + 1)%Z) (Py.range (Z.of_nat (length l)))).
Proof.
  unfold Py.enumerate. rewrite PyFacts.range_eq, Nat2Z.id. generalize 0%nat.
  induction l as [|x r IH]; intros s; [reflexivity|].
  cbn [length seq map combine flat_map filter fst]. rewrite IH.
  now destruct (c (Z.of_nat s + 1)%Z).
Qed.

Lemma early_loop_run total_steps epoch l (v : validation) :
  (forall k m, m <> [] -> meter_value k m <> None) ->
  well_formed (the_args v) -> consistent (the_args v) ->
  earlyexit_thresholds (the_args v) <> [] ->
  print_freq (the_args v) <> 0%Z ->
  (forall b, In b l -> shaped (num_exits (the_args v)) (model (fst b)) (snd b)) ->
  exists tr v',
    Py.for_each (validation_step total_steps epoch) (Py.enumerate l) v
    = (tr, inr v') /\
    logged_steps tr
    = filter (due (print_freq (the_args v)) total_steps)
        (map (fun i => (i + 1)%Z) (Py.range (Z.of_nat (length l)))) /\
    the_args v' = after_batches l (the_args v).
Proof.
  intros Hm W C Ht Hp Hs.
  destruct (PyFacts.for_each_run (validation_step total_steps epoch) stepped
              (fun ev : event tgt out =>
                 match ev with LogProgress _ _ _ _ s _ _ => [s] | _ => [] end)
              (fun b : Z * (inputs * tgt) =>
                 if due (print_freq (the_args v)) total_steps (fst b + 1)
                 then [(fst b + 1)%Z] else [])
              (fun v' : validation =>
                 well_formed (the_args v') /\ consistent (the_args v') /\
                 same_exits (the_args v) (the_args v'))
              (fun b : Z * (inputs * tgt) =>
                 shaped (num_exits (the_args v)) (model (fst (snd b))) (snd (snd b)))
              (Py.enumerate l)) with (st := v) as (tr & O & L & _).
  - intros st [i [inp target]] (W' & C' & S') Sh. pose proof S' as (N' & T' & _ & P').
    cbn [fst snd] in Sh.
    assert (Sh' : shaped (num_exits (the_args st)) (model inp) target)
      by (rewrite N'; exact Sh).
    destruct (early_step_run total_steps epoch st i inp target Hm W' C')
      as (tr & E & L); [congruence|congruence|exact Sh'|].
    exists tr. split; [exact E|]. split; [now rewrite <- P'|].
    destruct (after_batch_keeps (the_args st) (model inp) target W' C' Sh')
      as (W1 & S1 & C1 & _).
    unfold ValidateSpec.stepped. cbn [the_args fst snd].
    split; [exact W1|]. split; [exact C1|].
    exact (ExitFacts.same_exits_trans _ _ _ _ _ S' S1).
  - intros b Hb. apply Hs. rewrite <- (enumerate_snd l). now apply in_map.
  - split; [exact W|]. split; [exact C|]. apply ExitFacts.same_exits_refl.
  - exists tr. eexists. split; [exact O|]. split.
    + unfold ValidateSpec.logged_steps. rewrite L. apply logged_of_enumerate.
    + now rewrite stepped_args, enumerate_snd.
Qed.

Lemma plain_loop_run total_steps epoch l (v : validation) :
  (forall k m, m <> [] -> meter_value k m <> None) ->
  earlyexit_thresholds (the_args v) = [] ->
  print_freq (the_args v) <> 0%Z ->
  exists tr v',
    Py.for_each (validation_step total_steps epoch) (Py.enumerate l) v
    = (tr, inr v') /\
    logged_steps tr
    = filter (due (print_freq (the_args v)) total_steps)
        (map (fun i => (i + 1)%Z) (Py.range (Z.of_nat (length l)))) /\
    the_args v' = the_args v.
Proof.
  intros Hm Et Hp.
  destruct (PyFacts.for_each_run (validation_step total_steps epoch)
              plainly_stepped
              (fun ev : event tgt out =>
                 match ev with LogProgress _ _ _ _ s _ _ => [s] | _ => [] end)
              (fun b : Z * (inputs * tgt) =>
                 if due (print_freq (the_args v)) total_steps (fst b + 1)
                 then [(fst b + 1)%Z] else [])
              (fun v' : validation => the_args v' = the_args v)
              (fun _ => True) (Py.enumerate l)) with (st := v) as (tr & O & L & A).
  - intros st [i [inp target]] Ha _.
    destruct (plain_step_run total_steps epoch st i inp target Hm)
      as (tr & E & L); [now rewrite Ha..|].
    exists tr. split; [exact E|]. split; [now rewrite <- Ha|exact Ha].
  - intros; exact I.
  - reflexivity.
  - exists tr. eexists. split; [exact O|]. split; [|exact A].
    unfold ValidateSpec.logged_steps. rewrite L. apply logged_of_enumerate.
Qed.

End Facts.

End LoaderFacts.

(* ------------------------------------------------------------------------- *)
(** ** What logs no progress *)

Module LogFacts.
Import Validate ValidateSpec.

Section Facts.
Variables tgt out : Type.
Variable meter_value : Z -> meter tgt out -> option Q.
Variable meter_mean : list Q -> Q.

Local Notation "'M'" := (Validate.M tgt out).
Local Notation "'logged'" := (@logged_steps tgt out).

Lemma logged_app (tr tr' : list (event tgt out)) :
  logged (tr ++ tr') = (logged tr ++ logged tr')%list.
Proof. apply flat_map_app. Qed.

Lemma logged_info total_samples batch_size (tr : list (event tgt out)) :
  logged (InfoSamples tgt out total_samples batch_size :: tr) = logged tr.
Proof. reflexivity. Qed.

Lemma silent_bind {A B} (m : M A) (f : A -> M B) :
  logged (Py.trace m) = [] -> (forall a, logged (Py.trace (f a)) = []) ->
  logged (Py.trace (Py.bind m f)) = [].
Proof.
  destruct m as [tr [e|a]]; intros Hm Hf; [exact Hm|].
  specialize (Hf a). unfold Py.bind. destruct (f a) as [tr' r].
  cbn [Py.trace fst] in *. now rewrite logged_app, Hm, Hf.
Qed.

Lemma silent_for_each {S X} (body : S -> X -> M S) l :
  (forall st x, logged (Py.trace (body st x)) = []) ->
  forall st, logged (Py.trace (Py.for_each body l st)) = [].
Proof.
  intros Hb. induction l as [|x r IH]; intros st; [reflexivity|].
  cbn [Py.for_each]. apply silent_bind; [apply Hb|apply IH].
Qed.

Lemma silent_getitem {A} (l : list A) i :
  logged (Py.trace (Py.getitem l i : M A)) = [].
Proof.
  unfold Py.getitem. destruct (Py.index l i); [|reflexivity].
  now destruct (nth_error l n).
Qed.

Lemma silent_setitem {A} (l : list A) i x :
  logged (Py.trace (Py.setitem l i x : M (list A))) = [].
Proof. unfold Py.setitem. now destruct (Py.index l i). Qed.

Lemma silent_divide x y : logged (Py.trace (Py.divide x y : M Q)) = [].
Proof. unfold Py.divide. now destruct (Qeq_bool y 0). Qed.

Lemma silent_value k m :
  logged (Py.trace (Validate.value tgt out meter_value k m)) = [].
Proof. unfold Validate.value. now destruct (meter_value k m). Qed.

Lemma silent_stats (a : Validate.args tgt out) :
  logged (Py.trace (Validate.earlyexit_validate_stats tgt out meter_value
                      meter_mean a)) = [].
Proof.
  unfold Validate.earlyexit_validate_stats, Validate.collect_exit,
    Validate.percent_exit, Validate.total_exit.
  repeat first
    [ reflexivity
    | apply silent_getitem | apply silent_setitem | apply silent_divide
    | apply silent_value
    | apply silent_for_each; intros
    | apply silent_bind; [|intros]
    | match goal with
      | |- context [if ?c then _ else _] => destruct c
      | |- context [match ?p with pair _ _ => _ end] => destruct p
      end ].
Qed.

End Facts.

End LogFacts.

(* ------------------------------------------------------------------------- *)
(** ** Early exits: the theorems *)

Module EarlyExits.
Import Validate ValidateSpec.

Section Theorems.
Variables inputs tgt out output : Type.
Variable model : inputs -> output.
Variable criterion : output -> tgt -> Q.
Variable data : output -> out.
Variable exits : output -> list out.
Variable size0 : tgt -> Z.
Variable sample_losses : out -> tgt -> list Q.
Variable torch_mean : list Q -> Q.
Variable sample_output : out -> Z -> out.
Variable sample_target : tgt -> Z -> tgt.
Variable meter_value : Z -> meter tgt out -> option Q.
Variable meter_mean : list Q -> Q.

Local Notation "'args'" := (Validate.args tgt out).
Local Notation "'earlyexit_validate_loss'" :=
  (Validate.earlyexit_validate_loss tgt out output exits size0 sample_losses
     torch_mean sample_output sample_target).
Local Notation "'earlyexit_validate_stats'" :=
  (Validate.earlyexit_validate_stats tgt out meter_value meter_mean).
Local Notation "'validate'" :=
  (Validate._validate inputs tgt out output model criterion data exits
     size0 sample_losses torch_mean sample_output sample_target meter_value
     meter_mean).
Local Notation "'shaped'" :=
  (ValidateSpec.shaped tgt out output exits size0 sample_losses).
Local Notation "'sample_of'" :=
  (ValidateSpec.sample_of tgt out output exits sample_output sample_target).
Local Notation "'leaving'" :=
  (ValidateSpec.leaving tgt out output exits size0 sample_losses).
Local Notation "'samples'" := (ValidateSpec.samples tgt size0 inputs).
Local Notation "'readable'" := (ValidateSpec.readable tgt out meter_value).
Local Notation "'reading'" := (ValidateSpec.reading tgt out meter_value).
Local Notation "'all_added'" := (ValidateSpec.all_added tgt out output inputs model data).
Local Notation "'all_losses'" := (ValidateSpec.all_losses tgt output inputs model criterion).

(** X19: every sample of a minibatch leaves at one exit.  When the lists of
    [args] have a place for each exit and the network and the criterion give
    an output and a loss for each exit and sample, [earlyexit_validate_loss]
    raises nothing; the counter of an exit grows by the number of samples
    whose first early exit with a loss under its threshold it is (for the
    last exit: the samples with no such exit), its meter gets these samples
    in their order, and the counters grow by the size of the minibatch in
    all. *)
Theorem each_sample_leaves_once o target (a : args) :
  well_formed a -> shaped (num_exits a) o target ->
  exists a',
    Py.outcome (earlyexit_validate_loss o target a) = inr a' /\
    well_formed a' /\
    total_taken a' = (total_taken a + Z.max 0 (size0 target))%Z /\
    forall e, (0 <= e < num_exits a)%Z ->
      taken a' e = (taken a e + Z.of_nat (length (leaving a o target e)))%Z /\
      added a' e
      = (added a e ++ flat_map (sample_of o target e) (leaving a o target e))%list.
Proof.
  intros W S.
  rewrite (ExitFacts.earlyexit_validate_loss_ret _ _ _ exits size0 sample_losses
             torch_mean sample_output sample_target o target a W S).
  destruct (ExitFacts.after_batch_counts _ _ _ exits size0 sample_losses torch_mean
              sample_output sample_target o target a W) as (W' & _ & T' & P').
  eexists. split; [reflexivity|]. split; [exact W'|]. split; [exact T'|].
  intros e He. apply P'. lia.
Qed.

(** X20: [earlyexit_validate_stats] needs a sample.  With lists that have
    a place for each exit, counters that are not negative and a value in the
    meter of every exit taken, the function raises ZeroDivisionError if and
    only if no sample was counted; otherwise it returns its totals and the
    list of the losses. *)
Theorem stats_need_a_sample (a : args) :
  well_formed a -> Forall (fun x => 0 <= x)%Z (exit_taken a) -> readable a ->
  (Py.outcome (earlyexit_validate_stats a) = inl ZeroDivisionError
   <-> total_taken a = 0%Z) /\
  (total_taken a <> 0%Z ->
   exists total_top1 total_top5 losses,
     Py.outcome (earlyexit_validate_stats a)
     = inr (total_top1, total_top5, losses) /\
     length losses = Z.to_nat (num_exits a)).
Proof.
  intros W NN R.
  assert (Ret : total_taken a <> 0%Z ->
                exists total_top1 total_top5 losses,
                  Py.outcome (earlyexit_validate_stats a)
                  = inr (total_top1, total_top5, losses) /\
                  length losses = Z.to_nat (num_exits a)).
  { intros HS.
    pose proof (StatsFacts.stats_outcome _ _ meter_value meter_mean a W R HS) as O.
    cbv zeta in O.
    destruct (StatsFacts.all_stats_facts _ _ meter_value meter_mean a W)
      as ((_ & _ & SL) & _).
    eexists _, _, _. split; [exact O|exact SL]. }
  split; [|exact Ret]. split.
  - intros O. destruct (Z.eq_dec (total_taken a) 0) as [E|N]; [exact E|].
    destruct (Ret N) as (t1 & t5 & l & O' & _). congruence.
  - intros HS. now apply StatsFacts.stats_of_nothing.
Qed.

(** X21: a validation with early exits counts every sample.  For [args] as
    main makes them (one exit more than thresholds, [loss_exits] with a
    place for each), a batch size and a print frequency that are not 0, a
    network and a criterion that give an output and a loss for each exit and
    sample, and meters that have a value once something was added:
    [_validate] raises ZeroDivisionError when the data loader yields no
    sample; otherwise it returns, the counters of the exits add up to the
    number of samples, and the counter of every exit is the number of
    samples its meter has got. *)
Theorem validation_with_exits data_loader (a : args) epoch :
  earlyexit_thresholds a <> [] ->
  num_exits a = (Z.of_nat (length (earlyexit_thresholds a)) + 1)%Z ->
  length (loss_exits a) = Z.to_nat (num_exits a) ->
  batch_size data_loader <> 0%Z -> print_freq a <> 0%Z ->
  (forall b, In b (batches data_loader) ->
             shaped (num_exits a) (model (fst b)) (snd b)) ->
  (forall k m, m <> [] -> meter_value k m <> None) ->
  (samples (batches data_loader) = 0%Z ->
   Py.outcome (validate data_loader a epoch) = inl ZeroDivisionError) /\
  (samples (batches data_loader) <> 0%Z ->
   exists top1 top5 loss a',
     Py.outcome (validate data_loader a epoch) = inr (top1, top5, loss, a') /\
     total_taken a' = samples (batches data_loader) /\
     consistent a').
Proof.
  intros Ht Hn Hl Hb Hp Hs Hm.
  destruct (LoaderFacts.new_exit_meters_facts _ _ a Hn Hl) as (W1 & S1 & C1 & T1).
  pose proof S1 as (N1 & E1 & _ & P1).
  set (a1 := Validate.new_exit_meters tgt out a) in *.
  assert (O : exists v,
             Py.outcome (validate data_loader a epoch)
             = Py.outcome
                 (Py.bind (earlyexit_validate_stats (the_args v))
                    (fun r => match r with
                              | (total_top1, total_top5, losses) =>
                                  Py.bind (Py.getitem losses
                                             (num_exits (the_args v) - 1))
                                    (fun l => Py.ret (total_top1, total_top5, l,
                                                      the_args v))
                              end)) /\
             the_args v
             = ValidateSpec.after_batches tgt out output exits size0 sample_losses
                 torch_mean sample_output sample_target inputs model
                 (batches data_loader) a1).
  { unfold Validate._validate.
    destruct (earlyexit_thresholds a) as [|t0 tl] eqn:Et; [contradiction|].
    fold a1. rewrite PyFacts.divide_ret by exact Hb. rewrite PyFacts.bind_ret_l.
    rewrite (PyFacts.bind_returned _ _ tt) by reflexivity.
    destruct (LoaderFacts.loader_loop inputs tgt out output model criterion data
                exits size0 sample_losses torch_mean sample_output sample_target
                meter_value meter_mean
                (inject_Z (sampler_len data_loader) / inject_Z (batch_size data_loader))
                epoch (batches data_loader)
                {| objective_loss := []; classerr := []; confusion := [];
                   the_args := a1 |})
      as (v & Ov & Av); cbn [the_args]; try assumption.
    - rewrite E1. discriminate.
    - now rewrite P1.
    - intros b Hx. rewrite N1. now apply Hs.
    - exists v. split; [|exact Av].
      rewrite (PyFacts.bind_returned _ _ _ Ov).
      destruct (LoaderFacts.after_batches_keeps inputs tgt out output model exits
                  size0 sample_losses torch_mean sample_output sample_target
                  (batches data_loader) a1 W1 C1) as (_ & (_ & E2 & _) & _).
      { intros b Hx. rewrite N1. now apply Hs. }
      cbn [the_args] in Av. rewrite <- Av in E2. rewrite E2, E1.
      reflexivity. }
  destruct O as (v & -> & Av).
  destruct (LoaderFacts.after_batches_keeps inputs tgt out output model exits
              size0 sample_losses torch_mean sample_output sample_target
              (batches data_loader) a1 W1 C1) as (W2 & (N2 & _) & C2 & T2).
  { intros b Hx. rewrite N1. now apply Hs. }
  rewrite <- Av in W2, N2, C2, T2. rewrite T1, Z.add_0_l in T2.
  pose proof (LoaderFacts.consistent_nonneg _ _ _ W2 C2) as NN.
  split; intros HS; rewrite <- T2 in HS.
  - apply PyFacts.bind_raised. now apply StatsFacts.stats_of_nothing.
  - pose proof (LoaderFacts.consistent_readable _ _ meter_value _ Hm C2) as R.
    pose proof (StatsFacts.stats_outcome _ _ meter_value meter_mean _ W2 R HS)
      as O.
    cbv zeta in O.
    rewrite (PyFacts.bind_returned _ _ _ O).
    destruct (StatsFacts.all_stats_facts _ _ meter_value meter_mean _ W2)
      as ((_ & _ & SL) & _).
    pose proof W2 as (Hn2 & _).
    rewrite (PyFacts.getitem_nth _ _ 0%Q) by lia.
    rewrite PyFacts.bind_ret_l.
    eexists _, _, _, (the_args v). split; [reflexivity|].
    split; [exact T2|exact C2].
Qed.

(** X22: a validation without early exits.  With a batch size and a print
    frequency that are not 0 and a meter that has a value once something was
    added and none before: [_validate] raises ZeroDivisionError when the data
    loader yields no minibatch; otherwise it returns the top-1 and top-5
    values of the meter that got the output and the target of every
    minibatch once, in the order of the loader, with the mean of the losses
    of the minibatches, and [args] is as it was. *)
Theorem validation_without_exits data_loader (a : args) epoch :
  earlyexit_thresholds a = [] ->
  batch_size data_loader <> 0%Z -> print_freq a <> 0%Z ->
  (forall k m, m <> [] -> meter_value k m <> None) ->
  meter_value 1 [] = None ->
  (batches data_loader = [] ->
   Py.outcome (validate data_loader a epoch) = inl ZeroDivisionError) /\
  (batches data_loader <> [] ->
   exists top1 top5,
     meter_value 1 (all_added (batches data_loader)) = Some top1 /\
     meter_value 5 (all_added (batches data_loader)) = Some top5 /\
     Py.outcome (validate data_loader a epoch)
     = inr (top1, top5, meter_mean (all_losses (batches data_loader)), a)).
Proof.
  intros Et Hb Hp Hm H0.
  destruct (LoaderFacts.plain_loop inputs tgt out output model criterion data
              exits size0 sample_losses torch_mean sample_output sample_target
              meter_value meter_mean
              (inject_Z (sampler_len data_loader) / inject_Z (batch_size data_loader))
              epoch (batches data_loader)
              {| objective_loss := []; classerr := []; confusion := [];
                 the_args := a |} Hm Et Hp)
    as (v & Ov & Av & Cv & Lv).
  cbn [the_args classerr objective_loss app] in Av, Cv, Lv.
  assert (O : Py.outcome (validate data_loader a epoch)
              = Py.outcome
                  (Py.bind (Validate.value tgt out meter_value 1 (classerr v))
                     (fun t1 =>
                        Py.bind (Validate.value tgt out meter_value 5 (classerr v))
                          (fun t5 => Py.ret (t1, t5,
                                             meter_mean (objective_loss v), a))))).
  { unfold Validate._validate. rewrite Et.
    rewrite PyFacts.divide_ret by exact Hb. rewrite PyFacts.bind_ret_l.
    rewrite (PyFacts.bind_returned _ _ tt) by reflexivity.
    rewrite (PyFacts.bind_returned _ _ _ Ov). rewrite Av, Et.
    unfold Validate.value.
    destruct (meter_value 1 (classerr v)) as [v1|]; [|reflexivity].
    rewrite PyFacts.bind_ret_l.
    destruct (meter_value 5 (classerr v)) as [v5|]; [|reflexivity].
    rewrite !PyFacts.bind_ret_l.
    rewrite (PyFacts.bind_returned _ _ tt) by reflexivity.
    rewrite (PyFacts.bind_returned _ _ tt) by (now destruct (display_confusion a)).
    reflexivity. }
  rewrite O, Cv, Lv. split; intros Hl.
  - rewrite Hl. unfold Validate.value, ValidateSpec.all_added. cbn [map].
    now rewrite H0.
  - assert (Ne : all_added (batches data_loader) <> [])
      by (unfold ValidateSpec.all_added; now destruct (batches data_loader)).
    unfold Validate.value.
    pose proof (Hm 1%Z _ Ne) as V1. pose proof (Hm 5%Z _ Ne) as V5.
    destruct (meter_value 1 (all_added (batches data_loader))) as [v1|];
      [|congruence].
    destruct (meter_value 5 (all_added (batches data_loader))) as [v5|];
      [|congruence].
    exists v1, v5. repeat split; reflexivity.
Qed.

(** X23: when [_validate] logs its progress.  With a batch size and a print
    frequency that are not 0 and meters that have a value once something was
    added, without early exits or with [args] and minibatches in shape for
    them: [distiller.log_training_progress] is called after the steps s of
    1, ..., number of minibatches with s % print_freq == 0 or
    s == total_samples / batch_size, once for each and in order; so when the
    number of samples is not a multiple of the batch size, only after the
    multiples of print_freq. *)
Theorem progress_logged data_loader (a : args) epoch :
  batch_size data_loader <> 0%Z -> print_freq a <> 0%Z ->
  (forall k m, m <> [] -> meter_value k m <> None) ->
  earlyexit_thresholds a = [] \/
  (num_exits a = (Z.of_nat (length (earlyexit_thresholds a)) + 1)%Z /\
   length (loss_exits a) = Z.to_nat (num_exits a) /\
   forall b, In b (batches data_loader) ->
             shaped (num_exits a) (model (fst b)) (snd b)) ->
  let steps := map (fun i => (i + 1)%Z)
                 (Py.range (Z.of_nat (length (batches data_loader)))) in
  logged_steps (Py.trace (validate data_loader a epoch))
  = filter (due (print_freq a)
              (inject_Z (sampler_len data_loader) / inject_Z (batch_size data_loader)))
      steps /\
  ((sampler_len data_loader mod batch_size data_loader <> 0)%Z ->
   logged_steps (Py.trace (validate data_loader a epoch))
   = filter (fun s => (s mod print_freq a =? 0)%Z) steps).
Proof.
  intros Hb Hp Hm Mode steps.
  assert (L : logged_steps (Py.trace (validate data_loader a epoch))
              = filter (due (print_freq a)
                          (inject_Z (sampler_len data_loader)
                           / inject_Z (batch_size data_loader))) steps).
  { unfold Validate._validate.
    rewrite PyFacts.divide_ret by exact Hb. rewrite PyFacts.bind_ret_l.
    rewrite PyFacts.emit_run. cbn [Py.trace fst].
    rewrite LogFacts.logged_info.
    destruct (earlyexit_thresholds a) as [|t0 tl] eqn:Et.
    - destruct (LoaderFacts.plain_loop_run inputs tgt out output model criterion
                  data exits size0 sample_losses torch_mean sample_output
                  sample_target meter_value meter_mean
                  (inject_Z (sampler_len data_loader)
                   / inject_Z (batch_size data_loader))
                  epoch (batches data_loader)
                  {| objective_loss := []; classerr := []; confusion := [];
                     the_args := a |} Hm Et Hp) as (tr & v & O & Lg & Av).
      rewrite (PyFacts.bind_run _ _ _ _ O). cbn [Py.trace fst the_args] in *.
      rewrite LogFacts.logged_app, Lg, Av, Et.
      match goal with |- (_ ++ ?x)%list = _ => assert (S : x = []) end.
      { repeat first
          [ reflexivity
          | apply LogFacts.silent_value
          | apply LogFacts.silent_bind; [|intros]
          | match goal with
            | |- context [if ?c then _ else _] => destruct c
            end ]. }
      rewrite S. apply app_nil_r.
    - destruct Mode as [Mode|(Hn & Hl & Hs)]; [discriminate|].
      destruct (LoaderFacts.new_exit_meters_facts _ _ a) as (W1 & S1 & C1 & _).
      { now rewrite Et. }
      { exact Hl. }
      pose proof S1 as (N1 & E1 & _ & P1).
      destruct (LoaderFacts.early_loop_run inputs tgt out output model criterion
                  data exits size0 sample_losses torch_mean sample_output
                  sample_target meter_value meter_mean
                  (inject_Z (sampler_len data_loader)
                   / inject_Z (batch_size data_loader))
                  epoch (batches data_loader)
                  {| objective_loss := []; classerr := []; confusion := [];
                     the_args := Validate.new_exit_meters tgt out a |} Hm)
        as (tr & v & O & Lg & Av); cbn [the_args]; try assumption.
      + rewrite E1, Et. discriminate.
      + now rewrite P1.
      + intros b Hx. rewrite N1. now apply Hs.
      + rewrite (PyFacts.bind_run _ _ _ _ O). cbn [Py.trace fst the_args] in *.
        rewrite LogFacts.logged_app, Lg, P1.
        match goal with |- (_ ++ ?x)%list = _ => assert (S : x = []) end.
        { destruct (earlyexit_thresholds (the_args v)).
          - repeat first
              [ reflexivity
              | apply LogFacts.silent_value
              | apply LogFacts.silent_bind; [|intros]
              | match goal with
                | |- context [if ?c then _ else _] => destruct c
                end ].
          - apply LogFacts.silent_bind; [apply LogFacts.silent_stats|].
            intros [[t1 t5] ls].
            apply LogFacts.silent_bind; [apply LogFacts.silent_getitem|].
            reflexivity. }
        rewrite S. apply app_nil_r. }
  split; [exact L|]. intros Hd. rewrite L.
  apply filter_ext. intros s. unfold ValidateSpec.due.
  destruct (Qeq_bool _ _) eqn:Q; [exfalso|apply orb_false_r].
  apply Qeq_bool_iff in Q.
  assert (N : ~ inject_Z (batch_size data_loader) == 0)
    by (unfold Qeq; simpl; lia).
  assert (E : inject_Z (s * batch_size data_loader)
              == inject_Z (sampler_len data_loader)).
  { rewrite inject_Z_mult, Q. field. exact N. }
  unfold Qeq in E. simpl in E. rewrite !Z.mul_1_r in E.
  apply Hd. rewrite <- E. apply Z.mod_mul. exact Hb.
Qed.

End Theorems.

Lemma meter_has_value :
  forall k (m : list (ValidateRuns.out * ValidateRuns.tgt)),
    m <> [] -> ValidateRuns.meter_value k m <> None.
Proof. intros k [|x m] H; [contradiction|discriminate]. Qed.

Lemma batch_shaped :
  ValidateSpec.shaped ValidateRuns.tgt ValidateRuns.out ValidateRuns.output
    ValidateRuns.exits ValidateRuns.size0 ValidateRuns.sample_losses 2
    (fst ValidateRuns.batch) (snd ValidateRuns.batch).
Proof.
  split; [reflexivity|]. intros x [<-|[<-|[]]]; reflexivity.
Qed.

Lemma each_sample_leaves_once_witness :
  exists a',
    Py.outcome (ValidateRuns.earlyexit_validate_loss (fst ValidateRuns.batch)
                  (snd ValidateRuns.batch) ValidateRuns.ready_args) = inr a' /\
    total_taken a' = 3%Z.
Proof.
  destruct (each_sample_leaves_once ValidateRuns.tgt ValidateRuns.out
              ValidateRuns.output ValidateRuns.exits ValidateRuns.size0
              ValidateRuns.sample_losses QTensor.mean ValidateRuns.sample_output
              ValidateRuns.sample_target (fst ValidateRuns.batch)
              (snd ValidateRuns.batch) ValidateRuns.ready_args)
    as (a' & O & _ & T & _).
  - unfold well_formed. simpl. repeat split; lia.
  - exact batch_shaped.
  - exists a'. split; [exact O|]. rewrite T. reflexivity.
Defined.

Lemma stats_need_a_sample_witness :
  exists total_top1 total_top5 losses,
    Py.outcome (ValidateRuns.earlyexit_validate_stats ValidateRuns.counted_args)
    = inr (total_top1, total_top5, losses) /\
    length losses = 2%nat.
Proof.
  refine (proj2 (stats_need_a_sample ValidateRuns.tgt ValidateRuns.out
                   ValidateRuns.meter_value QTensor.mean
                   ValidateRuns.counted_args _ _ _) _).
  - unfold well_formed; simpl; repeat split; lia.
  - repeat constructor; simpl; lia.
  - intros e k He _ _. apply meter_has_value.
    assert (E : e = 0%Z \/ e = 1%Z) by (simpl in He; lia).
    destruct E as [-> | ->]; discriminate.
  - discriminate.
Defined.

Lemma validation_with_exits_witness :
  exists top1 top5 loss a',
    Py.outcome (ValidateRuns._validate (ValidateRuns.data_loader [ValidateRuns.batch])
                  (ValidateRuns.args0 [1 # 2]) 0)
    = inr (top1, top5, loss, a') /\
    total_taken a' = 3%Z.
Proof.
  destruct (proj2 (validation_with_exits ValidateRuns.output ValidateRuns.tgt
                     ValidateRuns.out ValidateRuns.output ValidateRuns.model
                     ValidateRuns.criterion ValidateRuns.data ValidateRuns.exits
                     ValidateRuns.size0 ValidateRuns.sample_losses QTensor.mean
                     ValidateRuns.sample_output ValidateRuns.sample_target
                     ValidateRuns.meter_value QTensor.mean
                     (ValidateRuns.data_loader [ValidateRuns.batch])
                     (ValidateRuns.args0 [1 # 2]) 0
                     ltac:(discriminate) ltac:(reflexivity) ltac:(reflexivity)
                     ltac:(discriminate) ltac:(discriminate)
                     ltac:(intros b [<-|[]]; exact batch_shaped)
                     meter_has_value))
    as (t1 & t5 & l & a' & O & T & _).
  - discriminate.
  - exists t1, t5, l, a'. split; [exact O|]. rewrite T. reflexivity.
Defined.

Lemma validation_without_exits_witness :
  exists top1 top5,
    Py.outcome (ValidateRuns._validate (ValidateRuns.data_loader [ValidateRuns.batch])
                  (ValidateRuns.args0 []) 0)
    = inr (top1, top5, 13 # 12, ValidateRuns.args0 []).
Proof.
  destruct (proj2 (validation_without_exits ValidateRuns.output ValidateRuns.tgt
                     ValidateRuns.out ValidateRuns.output ValidateRuns.model
                     ValidateRuns.criterion ValidateRuns.data ValidateRuns.exits
                     ValidateRuns.size0 ValidateRuns.sample_losses QTensor.mean
                     ValidateRuns.sample_output ValidateRuns.sample_target
                     ValidateRuns.meter_value QTensor.mean
                     (ValidateRuns.data_loader [ValidateRuns.batch])
                     (ValidateRuns.args0 []) 0
                     ltac:(reflexivity) ltac:(discriminate) ltac:(discriminate)
                     meter_has_value ltac:(reflexivity)))
    as (t1 & t5 & _ & _ & O).
  - discriminate.
  - exists t1, t5. exact O.
Defined.

Lemma short_batch_shaped :
  ValidateSpec.shaped ValidateRuns.tgt ValidateRuns.out ValidateRuns.output
    ValidateRuns.exits ValidateRuns.size0 ValidateRuns.sample_losses 2
    (fst ValidateRuns.short_batch) (snd ValidateRuns.short_batch).
Proof.
  split; [reflexivity|]. intros x [<-|[<-|[]]]; reflexivity.
Qed.

Lemma progress_logged_witness :
  logged_steps
    (Py.trace (ValidateRuns._validate
                 (ValidateRuns.data_loader [ValidateRuns.batch; ValidateRuns.short_batch])
                 (ValidateRuns.args0 [1 # 2]) 0))
  = [].
Proof.
  refine (proj2 (progress_logged ValidateRuns.output ValidateRuns.tgt
                   ValidateRuns.out ValidateRuns.output ValidateRuns.model
                   ValidateRuns.criterion ValidateRuns.data ValidateRuns.exits
                   ValidateRuns.size0 ValidateRuns.sample_losses QTensor.mean
                   ValidateRuns.sample_output ValidateRuns.sample_target
                   ValidateRuns.meter_value QTensor.mean
                   (ValidateRuns.data_loader
                      [ValidateRuns.batch; ValidateRuns.short_batch])
                   (ValidateRuns.args0 [1 # 2]) 0 _ _ meter_has_value
                   (or_intror (conj eq_refl (conj eq_refl _)))) _).
  - discriminate.
  - discriminate.
  - intros b Hb. simpl in Hb. destruct Hb as [<-|[<-|[]]].
    + exact batch_shaped.
    + exact short_batch_shaped.
  - discriminate.
Defined.

End EarlyExits.

(* ========================================================================= *)
(** * Training for one epoch *)

Module ExitLossFacts.
Import Training TrainingSpec.

Section Facts.
Variables tgt out output : Type.
Variable exit_criterion : out -> tgt -> Q.
Variable exits : output -> list out.

Local Notation "'args'" := (Validate.args tgt out).
Local Notation "'add_batch'" := (Training.add_batch tgt out output exits).
Local Notation "'exit_loss'" :=
  (Training.exit_loss tgt out output exit_criterion exits).
Local Notation "'earlyexit_loss'" :=
  (Training.earlyexit_loss tgt out output exit_criterion exits).
Local Notation "'weight_of'" := (TrainingSpec.weight_of tgt out).
Local Notation "'exit_loss_of'" :=
  (TrainingSpec.exit_loss_of tgt out output exit_criterion exits).
Local Notation "'batch_added'" := (TrainingSpec.batch_added tgt out output exits).
Local Notation "'exit_lossed'" :=
  (TrainingSpec.exit_lossed tgt out output exit_criterion exits).
Local Notation "'weighted_losses'" :=
  (TrainingSpec.weighted_losses tgt out output exit_criterion exits).
Local Notation "'weights'" := (TrainingSpec.weights tgt out).
Local Notation "'weighted'" := (TrainingSpec.weighted tgt out).
Local Notation "'added'" := (@ValidateSpec.added tgt out).

Lemma add_batch_ret o target (a : args) e :
  length (Validate.exiterrors a) = length (exits o) ->
  (0 <= e < Z.of_nat (length (exits o)))%Z ->
  add_batch o target a e = Py.ret (batch_added o target a e).
Proof.
  intros Hl He.
  destruct (nth_error (exits o) (Z.to_nat e)) as [x|] eqn:Ex;
    [|apply nth_error_None in Ex; lia].
  unfold Training.add_batch, TrainingSpec.batch_added, ValidateSpec.added.
  rewrite Ex.
  rewrite (PyFacts.getitem_nth (Validate.exiterrors a) _ []) by lia.
  rewrite PyFacts.bind_ret_l.
  rewrite (PyFacts.getitem_some _ _ x) by (lia || exact Ex).
  rewrite PyFacts.bind_ret_l.
  rewrite PyFacts.setitem_upd by lia. rewrite PyFacts.bind_ret_l.
  reflexivity.
Qed.

Lemma batch_added_keeps o target (a : args) e :
  (Z.to_nat e < length (Validate.exiterrors a))%nat ->
  Validate.earlyexit_lossweights (batch_added o target a e)
  = Validate.earlyexit_lossweights a /\
  Validate.num_exits (batch_added o target a e) = Validate.num_exits a /\
  length (Validate.exiterrors (batch_added o target a e))
  = length (Validate.exiterrors a).
Proof.
  intros H. unfold TrainingSpec.batch_added. cbn.
  rewrite PyFacts.upd_length by exact H. repeat split.
Qed.

Lemma batch_added_meter o target (a : args) e i :
  (Z.to_nat e < length (Validate.exiterrors a))%nat -> (0 <= e)%Z -> (0 <= i)%Z ->
  added (batch_added o target a e) i
  = (added a i
     ++ if (i =? e)%Z
        then match nth_error (exits o) (Z.to_nat e) with
             | Some x => [(x, target)]
             | None => []
             end
        else [])%list.
Proof.
  intros H He Hi. unfold TrainingSpec.batch_added, ValidateSpec.added. cbn.
  destruct (Z.eqb_spec i e) as [->|Hne].
  - now rewrite PyFacts.nth_upd_same.
  - rewrite PyFacts.nth_upd_other by lia. now rewrite app_nil_r.
Qed.

(** Lines 679-682 for an exit the lists have a place for. *)
Lemma exit_loss_ret o target (st : Q * Q * args) e :
  length (Validate.exiterrors (snd st)) = length (exits o) ->
  (0 <= e < Z.of_nat (length (exits o)))%Z ->
  (Z.to_nat e < length (Validate.earlyexit_lossweights (snd st)))%nat ->
  exit_loss o target st e = Py.ret (exit_lossed o target st e).
Proof.
  destruct st as [[loss sum] a]. cbn [snd]. intros Hl He Hw.
  destruct (nth_error (exits o) (Z.to_nat e)) as [x|] eqn:Ex;
    [|apply nth_error_None in Ex; lia].
  unfold Training.exit_loss, TrainingSpec.exit_lossed, TrainingSpec.weight_of,
    TrainingSpec.exit_loss_of.
  cbn [fst snd]. rewrite Ex.
  rewrite (PyFacts.getitem_nth (Validate.earlyexit_lossweights a) _ 0%Q) by lia.
  rewrite (PyFacts.getitem_some _ _ x) by (lia || exact Ex).
  rewrite (add_batch_ret o target a e Hl He).
  rewrite !PyFacts.bind_ret_l. reflexivity.
Qed.

Lemma exit_lossed_loop o target l :
  forall st : Q * Q * args,
    (forall e, In e l -> (0 <= e)%Z /\
                         (Z.to_nat e < length (Validate.exiterrors (snd st)))%nat) ->
    let st' := fold_left (exit_lossed o target) l st in
    fst (fst st')
    == fst (fst st)
       + ValidateSpec.qsum
           (map (fun e => weight_of (snd st) e * exit_loss_of o target e) l) /\
    snd (fst st')
    == snd (fst st) + ValidateSpec.qsum (map (weight_of (snd st)) l) /\
    snd st' = fold_left (batch_added o target) l (snd st).
Proof.
  induction l as [|e r IH]; intros st Hl; cbn [fold_left map].
  - cbv zeta. unfold ValidateSpec.qsum. simpl. repeat split; ring.
  - destruct (Hl e (or_introl eq_refl)) as [He Hlen].
    destruct (batch_added_keeps o target (snd st) e Hlen) as (Kw & Kn & Kl).
    destruct (IH (exit_lossed o target st e)) as (I1 & I2 & I3).
    { intros x Hx. destruct (Hl x (or_intror Hx)). cbn [snd TrainingSpec.exit_lossed].
      rewrite Kl. tauto. }
    cbv zeta. rewrite I1, I2, I3.
    unfold ValidateSpec.qsum. cbn [fold_right].
    unfold TrainingSpec.exit_lossed at 1 2 3 4. cbn [fst snd].
    unfold TrainingSpec.weight_of. rewrite Kw.
    repeat split; ring.
Qed.

Lemma batch_added_loop o target l :
  forall a : args,
    NoDup l ->
    (forall e, In e l -> (0 <= e)%Z /\
                         (Z.to_nat e < length (Validate.exiterrors a))%nat) ->
    let a' := fold_left (batch_added o target) l a in
    Validate.earlyexit_lossweights a' = Validate.earlyexit_lossweights a /\
    Validate.num_exits a' = Validate.num_exits a /\
    length (Validate.exiterrors a') = length (Validate.exiterrors a) /\
    forall i, (0 <= i)%Z ->
      added a' i
      = (added a i
         ++ if existsb (Z.eqb i) l
            then match nth_error (exits o) (Z.to_nat i) with
                 | Some x => [(x, target)]
                 | None => []
                 end
            else [])%list.
Proof.
  induction l as [|e r IH]; intros a ND Hl; cbn [fold_left].
  - cbv zeta. repeat split. intros i _. simpl. now rewrite app_nil_r.
  - inversion ND as [|? ? Ne ND']; subst.
    destruct (Hl e (or_introl eq_refl)) as [He Hlen].
    destruct (batch_added_keeps o target a e Hlen) as (Kw & Kn & Kl).
    destruct (IH (batch_added o target a e) ND') as (Iw & In' & Il & Im).
    { intros x Hx. destruct (Hl x (or_intror Hx)). rewrite Kl. tauto. }
    cbv zeta. split; [congruence|]. split; [congruence|]. split; [congruence|].
    intros i Hi. rewrite (Im i Hi), (batch_added_meter o target a e i Hlen He Hi).
    cbn [existsb]. destruct (Z.eqb_spec i e) as [->|Hne].
    + assert (X : existsb (Z.eqb e) r = false).
      { apply not_true_is_false. intros X.
        apply existsb_exists in X as (x & Hx & E).
        apply Z.eqb_eq in E. subst x. contradiction. }
      rewrite X. cbn [orb]. now rewrite app_nil_r.
    + cbn [orb]. now rewrite app_nil_r.
Qed.

(** [earlyexit_loss] raises nothing when the lists have their shape. *)
Lemma earlyexit_loss_ret o target (a : args) :
  weighted a -> length (exits o) = Z.to_nat (Validate.num_exits a) ->
  let st := fold_left (exit_lossed o target) (Py.range (Validate.num_exits a - 1))
              (0, 0, a) in
  earlyexit_loss o target a
  = Py.ret ((fst (fst st)
             + (1 - snd (fst st)) * exit_loss_of o target (Validate.num_exits a - 1))%Q,
            batch_added o target (snd st) (Validate.num_exits a - 1)).
Proof.
  intros (Hn & Hw & He) Ho. cbv zeta. unfold Training.earlyexit_loss.
  destruct (PyFacts.for_each_ret (exit_loss o target) (exit_lossed o target)
              (fun st : Q * Q * args =>
                 length (Validate.exiterrors (snd st)) = length (exits o) /\
                 Validate.earlyexit_lossweights (snd st)
                 = Validate.earlyexit_lossweights a /\
                 Validate.num_exits (snd st) = Validate.num_exits a)
              (fun e => (0 <= e < Validate.num_exits a - 1)%Z)
              (Py.range (Validate.num_exits a - 1)))
    with (st := (0%Q, 0%Q, a)) as [-> (Il & _ & In')].
  - intros st e (Il & Iw & In') Hr. split.
    + apply exit_loss_ret; [exact Il|lia|rewrite Iw; lia].
    + destruct (batch_added_keeps o target (snd st) e) as (Kw & Kn & Kl); [lia|].
      unfold TrainingSpec.exit_lossed. cbn [snd].
      split; [congruence|]. split; congruence.
  - intros e. apply PyFacts.range_spec.
  - cbn [snd]. split; [congruence|]. split; reflexivity.
  - rewrite PyFacts.bind_ret_l.
    destruct (fold_left _ _ _) as [[L S] a1]. cbn [fst snd] in *.
    rewrite In'.
    destruct (nth_error (exits o) (Z.to_nat (Validate.num_exits a - 1)))
      as [x|] eqn:Ex; [|apply nth_error_None in Ex; lia].
    rewrite (PyFacts.getitem_some _ _ x) by (lia || exact Ex).
    rewrite PyFacts.bind_ret_l.
    rewrite (add_batch_ret o target a1) by lia.
    rewrite PyFacts.bind_ret_l.
    unfold TrainingSpec.exit_loss_of. now rewrite Ex.
Qed.

Lemma batch_added_only o target l :
  forall a : args,
    fold_left (batch_added o target) l a
    = Validate.set_exiterrors
        (Validate.exiterrors (fold_left (batch_added o target) l a)) a.
Proof.
  induction l as [|e r IH]; intros a; cbn [fold_left].
  - now destruct a.
  - rewrite IH at 1. reflexivity.
Qed.

(** What [earlyexit_loss] returns. *)
Lemma earlyexit_loss_result o target (a : args) :
  weighted a -> length (exits o) = Z.to_nat (Validate.num_exits a) ->
  exists loss a',
    earlyexit_loss o target a = Py.ret (loss, a') /\
    loss == weighted_losses o target a
            + (1 - weights a) * exit_loss_of o target (Validate.num_exits a - 1) /\
    a' = Validate.set_exiterrors (Validate.exiterrors a') a /\
    length (Validate.exiterrors a') = length (Validate.exiterrors a) /\
    forall e x, (0 <= e)%Z -> nth_error (exits o) (Z.to_nat e) = Some x ->
                added a' e = (added a e ++ [(x, target)])%list.
Proof.
  intros W Ho. pose proof W as (Hn & Hw & He).
  pose proof (earlyexit_loss_ret o target a W Ho) as R. cbv zeta in R.
  destruct (exit_lossed_loop o target (Py.range (Validate.num_exits a - 1))
              (0, 0, a)) as (E1 & E2 & E3).
  { intros e Hr. apply PyFacts.range_spec in Hr. cbn [snd]. lia. }
  cbv zeta in E1, E2, E3. cbn [fst snd] in E1, E2, E3.
  destruct (batch_added_loop o target (Py.range (Validate.num_exits a - 1)) a
              (PyFacts.range_nodup _)) as (_ & _ & Kl & Km).
  { intros e Hr. apply PyFacts.range_spec in Hr. lia. }
  cbv zeta in Kl, Km.
  pose proof (batch_added_only o target (Py.range (Validate.num_exits a - 1)) a)
    as Ko.
  rewrite <- E3 in Kl, Km, Ko.
  set (st := fold_left _ _ _) in *.
  eexists _, _. split; [exact R|]. split; [|split; [|split]].
  - rewrite E1, E2. unfold TrainingSpec.weighted_losses, TrainingSpec.weights. ring.
  - unfold TrainingSpec.batch_added.
    set (V := ValidateSpec.upd _ _ _). cbn [Validate.exiterrors Validate.set_exiterrors].
    rewrite Ko. reflexivity.
  - destruct (batch_added_keeps o target (snd st) (Validate.num_exits a - 1))
      as (_ & _ & ->); lia.
  - intros e x He0 Ex.
    assert (Lt : (Z.to_nat e < length (exits o))%nat)
      by (apply nth_error_Some; congruence).
    rewrite (batch_added_meter o target (snd st) (Validate.num_exits a - 1) e)
      by lia.
    rewrite (Km e He0).
    destruct (Z.eqb_spec e (Validate.num_exits a - 1)) as [->|Hne].
    + assert (X : existsb (Z.eqb (Validate.num_exits a - 1))
                    (Py.range (Validate.num_exits a - 1)) = false).
      { apply not_true_is_false. intros X.
        apply existsb_exists in X as (y & Hy & E).
        apply PyFacts.range_spec in Hy. lia. }
      rewrite X, Ex, app_nil_r. reflexivity.
    + assert (X : existsb (Z.eqb e) (Py.range (Validate.num_exits a - 1)) = true).
      { apply existsb_exists. exists e. split; [apply PyFacts.range_spec|]; lia. }
      rewrite X, Ex, app_nil_r. reflexivity.
Qed.

End Facts.

End ExitLossFacts.

(* ------------------------------------------------------------------------- *)
(** ** The loss with early exits *)

Module ExitLoss.
Import Training TrainingSpec.

Section Theorems.
Variables tgt out output : Type.
Variable exit_criterion : out -> tgt -> Q.
Variable exits : output -> list out.

Local Notation "'args'" := (Validate.args tgt out).
Local Notation "'earlyexit_loss'" :=
  (Training.earlyexit_loss tgt out output exit_criterion exits).
Local Notation "'weight_of'" := (TrainingSpec.weight_of tgt out).
Local Notation "'exit_loss_of'" :=
  (TrainingSpec.exit_loss_of tgt out output exit_criterion exits).
Local Notation "'weighted_losses'" :=
  (TrainingSpec.weighted_losses tgt out output exit_criterion exits).
Local Notation "'weights'" := (TrainingSpec.weights tgt out).
Local Notation "'weighted'" := (TrainingSpec.weighted tgt out).
Local Notation "'added'" := (@ValidateSpec.added tgt out).

(** X24: [earlyexit_loss] feeds the meter of every exit.  With a weight for
    each early exit, a meter for each exit and an output for each exit, the
    function raises nothing; the meter of every exit gets the output of that
    exit with the target, once; [args.exiterrors] keeps its length and
    nothing else of [args] changes. *)
Theorem exit_loss_feeds_every_meter o target (a : args) :
  weighted a -> length (exits o) = Z.to_nat (Validate.num_exits a) ->
  exists loss a',
    Py.outcome (earlyexit_loss o target a) = inr (loss, a') /\
    a' = Validate.set_exiterrors (Validate.exiterrors a') a /\
    length (Validate.exiterrors a') = length (Validate.exiterrors a) /\
    forall e x, (0 <= e)%Z -> nth_error (exits o) (Z.to_nat e) = Some x ->
                added a' e = (added a e ++ [(x, target)])%list.
Proof.
  intros W Ho.
  destruct (ExitLossFacts.earlyexit_loss_result _ _ _ exit_criterion exits
              o target a W Ho) as (loss & a' & R & _ & Ka & Kl & Km).
  exists loss, a'. split; [rewrite R; reflexivity|]. split; [exact Ka|].
  split; [exact Kl|exact Km].
Qed.

End Theorems.

Lemma exit_loss_feeds_every_meter_witness :
  exists loss a',
    Py.outcome (Training.earlyexit_loss ValidateRuns.tgt ValidateRuns.out
                  ValidateRuns.output EpochRuns.exit_criterion ValidateRuns.exits
                  (fst ValidateRuns.batch) (snd ValidateRuns.batch)
                  (Validate.set_exiterrors [[]; []] EpochRuns.args1))
    = inr (loss, a') /\
    length (Validate.exiterrors a') = 2%nat.
Proof.
  destruct (exit_loss_feeds_every_meter ValidateRuns.tgt ValidateRuns.out
              ValidateRuns.output EpochRuns.exit_criterion ValidateRuns.exits
              (fst ValidateRuns.batch) (snd ValidateRuns.batch)
              (Validate.set_exiterrors [[]; []] EpochRuns.args1))
    as (loss & a' & O & _ & L & _).
  - repeat split; simpl; lia.
  - reflexivity.
  - exists loss, a'. split; [exact O|exact L].
Defined.

End ExitLoss.

(* ------------------------------------------------------------------------- *)
(** ** One minibatch of training *)

Module TrainFacts.
Import Training TrainingSpec.

Lemma add_loss_ret name x losses m :
  Dict.get name losses = Some m ->
  add_loss name x losses = Py.ret (Dict.set name (m ++ [x])%list losses).
Proof. intros H. unfold add_loss. now rewrite H. Qed.

Lemma key_kept {V} (k k' : string) (v : V) d :
  Dict.get k d <> None -> Dict.get k (Dict.set k' v d) <> None.
Proof.
  intros H. destruct (string_dec k k') as [->|Hne].
  - rewrite DictFacts.get_set_same. discriminate.
  - now rewrite DictFacts.get_set_other.
Qed.

Lemma add_component_ret losses lc :
  exists losses',
    add_component losses lc = Py.ret losses' /\
    forall k, Dict.get k losses <> None -> Dict.get k losses' <> None.
Proof.
  unfold add_component.
  destruct (Dict.mem (fst lc) losses) eqn:Mem.
  - apply DictFacts.mem_get in Mem.
    destruct (Dict.get (fst lc) losses) as [m|] eqn:G; [|contradiction].
    rewrite (add_loss_ret _ _ _ m G). eexists. split; [reflexivity|].
    intros k. apply key_kept.
  - rewrite (add_loss_ret _ _ _ [] (DictFacts.get_set_same _ _ _)).
    eexists. split; [reflexivity|]. intros k Hk. now do 2 apply key_kept.
Qed.

Lemma add_components_ret comps :
  forall losses,
    exists losses',
      Py.for_each add_component comps losses = Py.ret losses' /\
      forall k, Dict.get k losses <> None -> Dict.get k losses' <> None.
Proof.
  induction comps as [|lc r IH]; intros losses; cbn [Py.for_each].
  - exists losses. split; [reflexivity|auto].
  - destruct (add_component_ret losses lc) as (l1 & -> & K1).
    rewrite PyFacts.bind_ret_l.
    destruct (IH l1) as (l2 & -> & K2). exists l2. split; [reflexivity|auto].
Qed.

Lemma keys_after (losses : Dict.dict (list Q)) ov ob k :
  k = OVERALL_LOSS_KEY \/ k = OBJECTIVE_LOSS_KEY ->
  Dict.get k (Dict.set OVERALL_LOSS_KEY ov (Dict.set OBJECTIVE_LOSS_KEY ob losses))
  <> None.
Proof.
  intros [-> | ->].
  - rewrite DictFacts.get_set_same. discriminate.
  - apply key_kept. rewrite DictFacts.get_set_same. discriminate.
Qed.

Lemma new_meters (l : list Z) {A} :
  forall acc : list (list A),
    fold_left (fun (m : list (list A)) (_ : Z) => m ++ [[]])%list l acc
    = (acc ++ repeat [] (length l))%list.
Proof.
  induction l as [|x r IH]; intros acc; cbn [fold_left length repeat].
  - now rewrite app_nil_r.
  - rewrite IH, <- app_assoc. reflexivity.
Qed.

Lemma flat_map_fst {A B C} (f : A -> list C) (l : list (A * B)) :
  flat_map (fun x => f (fst x)) l = flat_map f (map fst l).
Proof. induction l as [|x r IH]; cbn; [reflexivity|now rewrite IH]. Qed.

Lemma enumerate_fst {A} (l : list A) :
  map fst (Py.enumerate l) = Py.range (Z.of_nat (length l)).
Proof.
  unfold Py.enumerate. rewrite PyFacts.range_eq, Nat2Z.id. generalize 0%nat.
  induction l as [|x r IH]; intros s; [reflexivity|].
  cbn [length seq map combine fst]. now rewrite IH.
Qed.

Ltac py_run :=
  repeat first
    [ rewrite PyFacts.bind_ret_l
    | rewrite PyFacts.bind_assoc
    | rewrite PyFacts.emit_run; cbn [Py.trace Py.outcome fst snd] ].

Section Facts.
Variables inputs tgt out output world : Type.
Variable forward : world -> inputs -> output * world.
Variable kd_forward : world -> inputs -> output * world.
Variable criterion : output -> tgt -> Q.
Variable exit_criterion : out -> tgt -> Q.
Variable data : output -> out.
Variable exits : output -> list out.
Variable meter_value : Z -> Validate.meter tgt out -> option Q.
Variable meter_mean : list Q -> Q.
Variable train_mode : world -> world.
Variable on_minibatch_begin : world -> Z -> Z -> Z -> world.
Variable before_backward_pass :
  world -> Z -> Z -> Z -> Q -> (Q * list (string * Q)) * world.
Variable before_parameter_optimization : world -> Z -> Z -> Z -> world.
Variable on_minibatch_end : world -> Z -> Z -> Z -> world.
Variable zero_grad : world -> world.
Variable backward : world -> Q -> world.
Variable optimizer_step : world -> world.
Variable lr : world -> Q.
Variable batch_time_mean : Z -> Q.

Local Notation "'args'" := (Validate.args tgt out).
Local Notation "'training'" := (Training.training tgt out world).
Local Notation "'value'" := (Training.value tgt out meter_value).
Local Notation "'exit_errs'" := (Training.exit_errs tgt out meter_value).
Local Notation "'earlyexit_loss'" :=
  (Training.earlyexit_loss tgt out output exit_criterion exits).
Local Notation "'train_step'" :=
  (Training.train_step inputs tgt out output world forward kd_forward criterion
     exit_criterion data exits meter_value meter_mean on_minibatch_begin
     before_backward_pass before_parameter_optimization on_minibatch_end
     zero_grad backward optimizer_step lr batch_time_mean).
Local Notation "'train'" :=
  (Training.train inputs tgt out output world forward kd_forward criterion
     exit_criterion data exits meter_value meter_mean train_mode
     on_minibatch_begin before_backward_pass before_parameter_optimization
     on_minibatch_end zero_grad backward optimizer_step lr batch_time_mean).
Local Notation "'in_step'" := (TrainingSpec.in_step tgt out world).
Local Notation "'added'" := (@ValidateSpec.added tgt out).

Hypothesis meter_readable : forall k m, m <> [] -> meter_value k m <> None.

Lemma train_value_ret k (m : Validate.meter tgt out) :
  m <> [] -> exists v, value k m = Py.ret v.
Proof.
  intros H. unfold Training.value.
  destruct (meter_value k m) as [v|] eqn:E; [eauto|]. now apply meter_readable in E.
Qed.

(** Lines 481-484 when every exit has a meter that holds something. *)
Lemma exit_errs_ret (a : args) l :
  (forall e, In e l ->
             (0 <= e < Z.of_nat (length (Validate.exiterrors a)))%Z /\
             added a e <> []) ->
  forall errs, exists errs', Py.for_each (exit_errs a) l errs = Py.ret errs'.
Proof.
  intros H. apply (PyFacts.for_each_returns (exit_errs a) (fun e => In e l));
    [|auto].
  intros errs e He. destruct (H e He) as [Hr Hne].
  unfold Training.exit_errs.
  rewrite (PyFacts.getitem_nth (Validate.exiterrors a) _ []) by lia.
  fold (added a e).
  destruct (train_value_ret 1 _ Hne) as (v1 & E1).
  destruct (train_value_ret 5 _ Hne) as (v5 & E5).
  repeat first [ rewrite PyFacts.bind_ret_l | rewrite E1 | rewrite E5 ].
  eexists. reflexivity.
Qed.

(** Lines 419-500 for a minibatch without early exits. *)
Lemma train_plain_step epoch spe cs (a0 : args) n (t : training) i inp target :
  Validate.earlyexit_lossweights a0 = [] ->
  Validate.print_freq a0 <> 0%Z ->
  in_step a0 n t ->
  exists tr t',
    train_step epoch spe cs t (i, (inp, target)) = (tr, inr t') /\
    places tr = step_places cs i /\
    logged_steps tr
    = (if due (Validate.print_freq a0) spe (i + 1) then [(i + 1)%Z] else []) /\
    in_step a0 (S n) t'.
Proof.
  intros Hw Hp (KO & KB & J). rewrite Hw in J. destruct J as (Ha & Hs & Hc).
  unfold Training.train_step, TrainingSpec.due. rewrite Ha, Hw.
  destruct (Dict.get OBJECTIVE_LOSS_KEY (losses t)) as [mb|] eqn:GB; [|contradiction].
  destruct (Dict.get OVERALL_LOSS_KEY (losses t)) as [mo|] eqn:GO; [|contradiction].
  destruct cs.
  all: py_run.
  all: destruct (if Validate.kd_policy a0 then _ else _) as [o w1].
  all: assert (Ne : (classerr t ++ [(data o, target)])%list <> [])
         by (now destruct (classerr t)).
  all: destruct (train_value_ret 1 _ Ne) as (v1 & E1).
  all: destruct (train_value_ret 5 _ Ne) as (v5 & E5).
  all: rewrite E1; py_run; rewrite E5; py_run.
  all: rewrite (add_loss_ret _ _ _ _ GB); py_run.
  all: try (destruct (before_backward_pass w1 epoch i spe (criterion o target))
              as [[ov comps] w2]; cbn [fst snd]).
  all: rewrite (add_loss_ret OVERALL_LOSS_KEY _ _ mo)
         by (rewrite DictFacts.get_set_other; [exact GO|discriminate]).
  all: py_run.
  all: try (match goal with
            | |- context [Py.for_each add_component ?c ?l] =>
                destruct (add_components_ret c l) as (l2 & -> & K2)
            end; py_run).
  all: rewrite PyFacts.modulo_ret by exact Hp; py_run.
  all: rewrite ?Hw.
  all: destruct (_ || _).
  all: repeat first [ rewrite E1 | rewrite E5 | progress py_run ].
  all: cbn [Py.ret Py.trace Py.outcome fst snd].
  all: eexists _, _.
  all: split; [reflexivity|].
  all: split; [reflexivity|].
  all: split; [reflexivity|].
  all: unfold TrainingSpec.in_step; cbn [losses classerr acc_stats the_args].
  all: rewrite Hw, !length_app; cbn [length].
  all: repeat split; try lia.
  all: try (apply K2).
  all: apply keys_after; auto.
Qed.

(** Lines 419-500 for a minibatch with early exits. *)
Lemma train_early_step epoch spe cs (a0 : args) n (t : training) i inp target :
  Validate.earlyexit_lossweights a0 <> [] ->
  Validate.print_freq a0 <> 0%Z ->
  (1 <= Validate.num_exits a0)%Z ->
  (Z.to_nat (Validate.num_exits a0 - 1)
   <= length (Validate.earlyexit_lossweights a0))%nat ->
  (forall w x, length (exits (fst (forward w x))) = Z.to_nat (Validate.num_exits a0) /\
               length (exits (fst (kd_forward w x)))
               = Z.to_nat (Validate.num_exits a0)) ->
  in_step a0 n t ->
  exists tr t',
    train_step epoch spe cs t (i, (inp, target)) = (tr, inr t') /\
    places tr = step_places cs i /\
    logged_steps tr
    = (if due (Validate.print_freq a0) spe (i + 1) then [(i + 1)%Z] else []) /\
    in_step a0 (S n) t'.
Proof.
  intros Hw Hp Hn Hlw Hshape (KO & KB & J).
  destruct (Validate.earlyexit_lossweights a0) as [|w0 ws] eqn:Ew; [contradiction|].
  destruct J as (Ha & Hs & Hl & Hm).
  assert (Fw : Validate.earlyexit_lossweights (the_args t) = w0 :: ws)
    by (rewrite Ha; exact Ew).
  assert (Fn : Validate.num_exits (the_args t) = Validate.num_exits a0)
    by (rewrite Ha; reflexivity).
  assert (Fk : Validate.kd_policy (the_args t) = Validate.kd_policy a0)
    by (rewrite Ha; reflexivity).
  assert (W : TrainingSpec.weighted tgt out (the_args t)).
  { unfold TrainingSpec.weighted. rewrite Fn, Fw, Hl. cbn [length] in *.
    repeat split; lia. }
  unfold Training.train_step, TrainingSpec.due. rewrite Fw, Fk.
  destruct (Dict.get OBJECTIVE_LOSS_KEY (losses t)) as [mb|] eqn:GB; [|contradiction].
  destruct (Dict.get OVERALL_LOSS_KEY (losses t)) as [mo|] eqn:GO; [|contradiction].
  destruct cs.
  all: py_run.
  all: match goal with
       | |- context [if ?k then ?f ?w ?x else ?g ?w ?x] =>
           assert (So : length (exits (fst (if k then f w x else g w x)))
                        = Z.to_nat (Validate.num_exits (the_args t)))
             by (rewrite Fn; destruct k; apply Hshape)
       end.
  all: destruct (if Validate.kd_policy a0 then _ else _) as [o w1].
  all: cbn [fst] in So.
  all: destruct (ExitLossFacts.earlyexit_loss_result _ _ _ exit_criterion exits
                   o target (the_args t) W So)
         as (loss & a' & R & _ & Ea & El & Em).
  all: assert (Ea0 : a' = Validate.set_exiterrors (Validate.exiterrors a') a0)
         by (rewrite Ea, Ha; reflexivity).
  all: assert (Gw : Validate.earlyexit_lossweights a' = w0 :: ws)
         by (rewrite Ea0; exact Ew).
  all: assert (Gn : Validate.num_exits a' = Validate.num_exits a0)
         by (rewrite Ea0; reflexivity).
  all: assert (Gp : Validate.print_freq a' = Validate.print_freq a0)
         by (rewrite Ea0; reflexivity).
  all: assert (Full : forall e, (0 <= e < Validate.num_exits a0)%Z ->
                                length (added a' e) = S n).
  all: try (intros e He;
            destruct (nth_error (exits o) (Z.to_nat e)) as [x|] eqn:Ex;
            [|apply nth_error_None in Ex; lia];
            rewrite (Em e x ltac:(lia) Ex), length_app, (Hm e He);
            cbn [length]; lia).
  all: rewrite R; py_run.
  all: rewrite (add_loss_ret _ _ _ _ GB); py_run.
  all: try (destruct (before_backward_pass w1 epoch i spe loss)
              as [[ov comps] w2]; cbn [fst snd]).
  all: rewrite (add_loss_ret OVERALL_LOSS_KEY _ _ mo)
         by (rewrite DictFacts.get_set_other; [exact GO|discriminate]).
  all: py_run.
  all: try (match goal with
            | |- context [Py.for_each add_component ?c ?l] =>
                destruct (add_components_ret c l) as (l2 & -> & K2)
            end; py_run).
  all: rewrite Gp.
  all: rewrite PyFacts.modulo_ret by exact Hp; py_run.
  all: rewrite ?Gw, ?Gn.
  all: destruct (exit_errs_ret a' (Py.range (Validate.num_exits a0))) with (errs := @nil (string * Q))
         as (errs & Eerrs).
  all: try (intros e He; apply PyFacts.range_spec in He; split;
            [rewrite El, Hl; lia|];
            intros Z0; specialize (Full e He); rewrite Z0 in Full; discriminate).
  all: destruct (_ || _).
  all: repeat first [ rewrite Eerrs | progress py_run ].
  all: cbn [Py.ret Py.trace Py.outcome fst snd].
  all: eexists _, _.
  all: split; [reflexivity|].
  all: split; [reflexivity|].
  all: split; [reflexivity|].
  all: unfold TrainingSpec.in_step; cbn [losses classerr acc_stats the_args].
  all: rewrite Ew.
  all: split; [try (apply K2); apply keys_after; auto|].
  all: split; [try (apply K2); apply keys_after; auto|].
  all: split; [exact Ea0|].
  all: split; [exact Hs|].
  all: split; [rewrite El; exact Hl|exact Full].
Qed.

(** [train]: the loop over the minibatches. *)
Lemma train_run train_loader w epoch cs (a : args) :
  Validate.batch_size train_loader <> 0%Z ->
  Validate.print_freq a <> 0%Z ->
  Validate.earlyexit_lossweights a = [] \/
  ((1 <= Validate.num_exits a)%Z /\
   (Z.to_nat (Validate.num_exits a - 1)
    <= length (Validate.earlyexit_lossweights a))%nat /\
   forall w x,
     length (exits (fst (forward w x))) = Z.to_nat (Validate.num_exits a) /\
     length (exits (fst (kd_forward w x))) = Z.to_nat (Validate.num_exits a)) ->
  let n := length (Validate.batches train_loader) in
  let steps_per_epoch :=
    Qceiling (inject_Z (Validate.sampler_len train_loader)
              / inject_Z (Validate.batch_size train_loader)) in
  exists tr t,
    train train_loader w epoch cs a
    = (InfoEpoch (Validate.sampler_len train_loader)
         (Validate.batch_size train_loader) :: tr,
       inr (acc_stats t, the_world t, the_args t)) /\
    places tr = flat_map (step_places cs) (Py.range (Z.of_nat n)) /\
    logged_steps tr
    = filter (due (Validate.print_freq a) steps_per_epoch)
        (map (fun i => (i + 1)%Z) (Py.range (Z.of_nat n))) /\
    in_step a n t.
Proof.
  intros Hb Hp Hmode n spe. unfold Training.train.
  rewrite PyFacts.divide_ret by exact Hb. py_run. fold spe.
  set (t0 := {| losses := _ |}).
  assert (J0 : in_step a 0 t0).
  { unfold TrainingSpec.in_step, t0; cbn [losses classerr acc_stats the_args].
    split; [discriminate|]. split; [discriminate|].
    destruct (Validate.earlyexit_lossweights a) as [|w0 ws] eqn:Ew.
    - repeat split.
    - destruct Hmode as [Hmode|(Hn & _)]; [discriminate|].
      rewrite new_meters. cbn [app Validate.exiterrors Validate.set_exiterrors].
      split; [reflexivity|]. split; [reflexivity|].
      split.
      + rewrite repeat_length, PyFacts.range_eq, length_map, length_seq.
        reflexivity.
      + intros e He. unfold ValidateSpec.added.
        cbn [Validate.exiterrors Validate.set_exiterrors].
        now rewrite nth_repeat. }
  destruct (PyFacts.for_each_counted (train_step epoch spe cs)
              (fun ev => match place ev with Some p => [p] | None => [] end)
              (fun x => step_places cs (fst x))
              (fun ev => match ev with
                         | LogTrainingProgress _ _ _ s _ _ => [s]
                         | _ => []
                         end)
              (fun x : Z * (inputs * tgt) =>
                 if due (Validate.print_freq a) spe (fst x + 1)
                 then [(fst x + 1)%Z] else [])
              (in_step a) (Py.enumerate (Validate.batches train_loader)))
    with (n := 0%nat) (st := t0) as (tr & t & R & Hpl & Hlg & J).
  - intros k st [i [inp target]] Hk. cbn [fst].
    destruct (Validate.earlyexit_lossweights a) as [|w0 ws] eqn:Ew.
    + exact (train_plain_step epoch spe cs a k st i inp target Ew Hp Hk).
    + destruct Hmode as [Hw|(Hn & Hl & Hs)]; [discriminate|].
      apply train_early_step; try assumption.
      * rewrite Ew. discriminate.
      * rewrite Ew. exact Hl.
  - exact J0.
  - exists tr, t. rewrite (PyFacts.bind_run _ _ _ _ R).
    cbn [Py.ret Py.trace Py.outcome fst snd]. rewrite app_nil_r.
    split; [reflexivity|].
    split; [|split].
    + unfold TrainingSpec.places. rewrite Hpl, flat_map_fst, enumerate_fst.
      reflexivity.
    + unfold TrainingSpec.logged_steps. rewrite Hlg.
      apply LoaderFacts.logged_of_enumerate.
    + replace n with (0 + length (Py.enumerate (Validate.batches train_loader)))%nat;
        [exact J|].
      unfold Py.enumerate. rewrite length_combine, length_map, length_seq.
      unfold n. lia.
Qed.

End Facts.

End TrainFacts.

(* ------------------------------------------------------------------------- *)
(** ** An epoch of training *)

Module TrainEpoch.
Import Training TrainingSpec.

Section Theorems.
Variables inputs tgt out output world : Type.
Variable forward : world -> inputs -> output * world.
Variable kd_forward : world -> inputs -> output * world.
Variable criterion : output -> tgt -> Q.
Variable exit_criterion : out -> tgt -> Q.
Variable data : output -> out.
Variable exits : output -> list out.
Variable meter_value : Z -> Validate.meter tgt out -> option Q.
Variable meter_mean : list Q -> Q.
Variable train_mode : world -> world.
Variable on_minibatch_begin : world -> Z -> Z -> Z -> world.
Variable before_backward_pass :
  world -> Z -> Z -> Z -> Q -> (Q * list (string * Q)) * world.
Variable before_parameter_optimization : world -> Z -> Z -> Z -> world.
Variable on_minibatch_end : world -> Z -> Z -> Z -> world.
Variable zero_grad : world -> world.
Variable backward : world -> Q -> world.
Variable optimizer_step : world -> world.
Variable lr : world -> Q.
Variable batch_time_mean : Z -> Q.

Local Notation "'args'" := (Validate.args tgt out).
Local Notation "'train'" :=
  (Training.train inputs tgt out output world forward kd_forward criterion
     exit_criterion data exits meter_value meter_mean train_mode
     on_minibatch_begin before_backward_pass before_parameter_optimization
     on_minibatch_end zero_grad backward optimizer_step lr batch_time_mean).
Local Notation "'added'" := (@ValidateSpec.added tgt out).

Local Notation "'fit'" :=
  (TrainingSpec.fit inputs tgt out output world exits forward kd_forward).

(** X25: what an epoch of [train] returns.  With a batch size and a print
    frequency that are not 0, meters that have a value once something was
    added, and [args] and the network fit for the mode, [train] raises
    nothing.  Without early exits it leaves [args] as they were and returns
    one pair of accuracies for each minibatch; with early exits it returns
    the empty list, [args.exiterrors] is a new list with a meter for each
    exit, each of which got every minibatch, and nothing else of [args] has
    changed. *)
Theorem train_returns train_loader w epoch cs (a : args) :
  Validate.batch_size train_loader <> 0%Z ->
  Validate.print_freq a <> 0%Z ->
  (forall k m, m <> [] -> meter_value k m <> None) ->
  fit a ->
  let n := length (Validate.batches train_loader) in
  exists stats w' a',
    Py.outcome (train train_loader w epoch cs a) = inr (stats, w', a') /\
    match Validate.earlyexit_lossweights a with
    | [] => a' = a /\ length stats = n
    | _ :: _ =>
        stats = [] /\
        a' = Validate.set_exiterrors (Validate.exiterrors a') a /\
        length (Validate.exiterrors a') = Z.to_nat (Validate.num_exits a) /\
        forall e, (0 <= e < Validate.num_exits a)%Z -> length (added a' e) = n
    end.
Proof.
  intros Hb Hp Hm Hfit n.
  destruct (TrainFacts.train_run inputs tgt out output world forward kd_forward
              criterion exit_criterion data exits meter_value meter_mean
              train_mode on_minibatch_begin before_backward_pass
              before_parameter_optimization on_minibatch_end zero_grad backward
              optimizer_step lr batch_time_mean Hm train_loader w epoch cs a
              Hb Hp Hfit)
    as (tr & t & R & _ & _ & _ & _ & J).
  exists (acc_stats t), (the_world t), (the_args t). rewrite R.
  split; [reflexivity|].
  destruct (Validate.earlyexit_lossweights a) as [|w0 ws].
  - destruct J as (Ha & Hs & _). split; assumption.
  - destruct J as (Ha & Hs & Hl & Hn). repeat split; assumption.
Qed.

(** X26: the order of an epoch of [train].  Under the same conditions, the
    minibatches are done in their order and each does, with a compression
    scheduler: [on_minibatch_begin], the call of the network,
    [before_backward_pass], [zero_grad], [backward],
    [before_parameter_optimization], the step of the optimizer and
    [on_minibatch_end]; without one: the call of the network, [zero_grad],
    [backward] and the step of the optimizer.  The progress is logged after
    the steps s of 1, ..., number of minibatches with s % print_freq == 0 or
    s == ceil(total_samples / batch_size), once for each and in order; so
    after the last minibatch when the loader gives that many. *)
Theorem train_steps_in_order train_loader w epoch cs (a : args) :
  Validate.batch_size train_loader <> 0%Z ->
  Validate.print_freq a <> 0%Z ->
  (forall k m, m <> [] -> meter_value k m <> None) ->
  fit a ->
  let n := Z.of_nat (length (Validate.batches train_loader)) in
  let steps_per_epoch :=
    Qceiling (inject_Z (Validate.sampler_len train_loader)
              / inject_Z (Validate.batch_size train_loader)) in
  let tr := Py.trace (train train_loader w epoch cs a) in
  places tr = flat_map (step_places cs) (Py.range n) /\
  logged_steps tr
  = filter (due (Validate.print_freq a) steps_per_epoch)
      (map (fun i => (i + 1)%Z) (Py.range n)) /\
  ((0 < n)%Z -> n = steps_per_epoch -> In n (logged_steps tr)).
Proof.
  intros Hb Hp Hm Hfit n spe tr.
  destruct (TrainFacts.train_run inputs tgt out output world forward kd_forward
              criterion exit_criterion data exits meter_value meter_mean
              train_mode on_minibatch_begin before_backward_pass
              before_parameter_optimization on_minibatch_end zero_grad backward
              optimizer_step lr batch_time_mean Hm train_loader w epoch cs a
              Hb Hp Hfit)
    as (tr' & t & R & Hpl & Hlg & _).
  fold n spe in Hpl, Hlg.
  assert (Hl : logged_steps tr
               = filter (due (Validate.print_freq a) spe)
                   (map (fun i => (i + 1)%Z) (Py.range n)))
    by (unfold tr; rewrite R; exact Hlg).
  split; [unfold tr; rewrite R; exact Hpl|]. split; [exact Hl|].
  intros Hn He. rewrite Hl. apply filter_In. split.
  - apply in_map_iff. exists (n - 1)%Z. split; [lia|].
    apply PyFacts.range_spec. lia.
  - unfold TrainingSpec.due. rewrite <- He, Z.eqb_refl. apply orb_true_r.
Qed.

End Theorems.

Lemma forward_fits :
  forall (w : EpochRuns.world) (x : EpochRuns.inputs),
    length (ValidateRuns.exits (fst (EpochRuns.forward w x))) = Z.to_nat 2 /\
    length (ValidateRuns.exits (fst (EpochRuns.forward w x))) = Z.to_nat 2.
Proof. intros w x. split; reflexivity. Qed.

Lemma train_returns_witness :
  exists w' a',
    Py.outcome (EpochRuns.train
                  (EpochRuns.train_loader [EpochRuns.batch; EpochRuns.short_batch])
                  0%nat 0 true EpochRuns.args1)
    = inr ([], w', a') /\
    length (ValidateSpec.added a' 1) = 2%nat.
Proof.
  destruct (train_returns EpochRuns.inputs ValidateRuns.tgt ValidateRuns.out
              ValidateRuns.output EpochRuns.world EpochRuns.forward
              EpochRuns.forward ValidateRuns.criterion EpochRuns.exit_criterion
              ValidateRuns.data ValidateRuns.exits ValidateRuns.meter_value
              QTensor.mean EpochRuns.train_mode EpochRuns.on_minibatch
              EpochRuns.before_backward_pass EpochRuns.on_minibatch
              EpochRuns.on_minibatch EpochRuns.zero_grad EpochRuns.backward
              EpochRuns.optimizer_step EpochRuns.lr EpochRuns.batch_time_mean
              (EpochRuns.train_loader [EpochRuns.batch; EpochRuns.short_batch])
              0%nat 0%Z true EpochRuns.args1)
    as (stats & w' & a' & O & S).
  - discriminate.
  - discriminate.
  - exact EarlyExits.meter_has_value.
  - right. split; [simpl; lia|]. split; [simpl; lia|]. exact forward_fits.
  - simpl in S. destruct S as (-> & _ & _ & Hn).
    exists w', a'. split; [exact O|]. apply Hn. lia.
Defined.

Lemma train_steps_in_order_witness :
  places (Py.trace (EpochRuns.train
                      (EpochRuns.train_loader [EpochRuns.batch; EpochRuns.short_batch])
                      0%nat 0 false EpochRuns.args1))
  = [(0%Z, 1%nat); (0%Z, 3%nat); (0%Z, 4%nat); (0%Z, 6%nat);
     (1%Z, 1%nat); (1%Z, 3%nat); (1%Z, 4%nat); (1%Z, 6%nat)] /\
  logged_steps (Py.trace (EpochRuns.train
                            (EpochRuns.train_loader
                               [EpochRuns.batch; EpochRuns.short_batch])
                            0%nat 0 false EpochRuns.args1))
  = [2%Z].
Proof.
  refine (let H := train_steps_in_order EpochRuns.inputs ValidateRuns.tgt
              ValidateRuns.out
              ValidateRuns.output EpochRuns.world EpochRuns.forward
              EpochRuns.forward ValidateRuns.criterion EpochRuns.exit_criterion
              ValidateRuns.data ValidateRuns.exits ValidateRuns.meter_value
              QTensor.mean EpochRuns.train_mode EpochRuns.on_minibatch
              EpochRuns.before_backward_pass EpochRuns.on_minibatch
              EpochRuns.on_minibatch EpochRuns.zero_grad EpochRuns.backward
              EpochRuns.optimizer_step EpochRuns.lr EpochRuns.batch_time_mean
              (EpochRuns.train_loader [EpochRuns.batch; EpochRuns.short_batch])
              0%nat 0%Z false EpochRuns.args1 _ _ EarlyExits.meter_has_value _
          in conj (proj1 H) (proj1 (proj2 H))).
  - discriminate.
  - discriminate.
  - right. split; [simpl; lia|]. split; [simpl; lia|]. exact forward_fits.
Defined.

End TrainEpoch.
